(** * Chip reset flow of the mlx_sx driver (drivers/net/mlx_sx/reset.c)

    A shallow embedding of the reset code.  The C functions become
    functions of a small state-and-fault monad over a [world]: the jiffies
    clock, the two module parameters, the [dev_sw_rst_flow] flag of the
    device's private data and the chronological log of every access the
    driver makes to the kernel or to the device.  What the kernel and the
    device answer is read from a [hardware] oracle, indexed by the position
    of the access in the log, so that one oracle stands for one possible
    behaviour of the outside world and the theorems quantify over all of
    them. *)

From Stdlib Require Import ZArith List Bool Lia FinFun.
Import ListNotations.
Local Open Scope Z_scope.

(** ** Constants of the kernel headers

    reset.c uses them by name.  The headers are Linux's, not the
    repository's; the values are those of include/uapi/asm-generic/errno.h
    and errno-base.h and of include/uapi/linux/pci_regs.h, which follows the
    layout the PCI specification gives the configuration header (vendor id
    at offset 0, command register at offset 4) and the PCI Express
    capability. *)

Definition ENOMEM : Z := 12.
Definition EFAULT : Z := 14.
Definition ENODEV : Z := 19.
Definition ETIME : Z := 62.

Definition PCI_VENDOR_ID : Z := 0x00.
Definition PCI_COMMAND : Z := 0x04.
Definition PCI_CAP_ID_EXP : Z := 0x10.
Definition PCI_EXP_DEVCTL : Z := 8.
Definition PCI_EXP_LNKCTL : Z := 16.
Definition MSEC_PER_SEC : Z := 1000.

(** ** Constants of reset.c *)

Definition SX_SYSTEM_STATUS_REG_OFFSET : Z := 0xA1844.
Definition SX_SYSTEM_STATUS_REG_SIZE : Z := 4.
Definition SX_SYSTEM_STATUS_REG_MASK : Z := 0xFF.
Definition SX_SYSTEM_STATUS_ENABLED : Z := 0x5E.
Definition SX_HCA_HEADERS_SIZE : Z := 256.
Definition SX_RESET_BASE : Z := 0xf0010.
Definition SX_RESET_SIZE : Z := 4.

Definition u16 (x : Z) : Z := x mod 2 ^ 16.
Definition u32 (x : Z) : Z := x mod 2 ^ 32.

(** swab32: the four bytes of a 32-bit word in reverse order. *)
Definition swab32 (x : Z) : Z :=
  Z.lor (Z.lor (Z.shiftl (Z.land x 0xFF) 24) (Z.shiftl (Z.land x 0xFF00) 8))
        (Z.lor (Z.shiftr (Z.land x 0xFF0000) 8) (Z.shiftr (Z.land x 0xFF000000) 24)).

Definition SX_RESET_VALUE : Z := swab32 1.

(** [SX_SYSTEM_STATUS_ENABLED == (val & SX_SYSTEM_STATUS_REG_MASK)]. *)
Definition system_status_enabled (val : Z) : bool :=
  SX_SYSTEM_STATUS_ENABLED =? Z.land val SX_SYSTEM_STATUS_REG_MASK.

(** The PCI device identifiers.  They are the labels of one C [switch], so
    they are pairwise distinct; every other identifier takes the [default]
    arm. *)
Inductive pci_device_id : Type :=
| SWITCHX_PCI_DEV_ID
| SPECTRUM_PCI_DEV_ID
| SPECTRUM2_PCI_DEV_ID
| SPECTRUM3_PCI_DEV_ID
| SPECTRUM4_PCI_DEV_ID
| SWITCH_IB_PCI_DEV_ID
| SWITCH_IB2_PCI_DEV_ID
| QUANTUM_PCI_DEV_ID
| QUANTUM2_PCI_DEV_ID
| QUANTUM3_PCI_DEV_ID
| OTHER_PCI_DEV_ID (id : Z).

Record pci_dev : Type := { device : pci_device_id }.

(** [struct sx_dev]: [pdev] may be a null pointer. *)
Record sx_dev : Type := { pdev : option pci_dev; device_id : Z }.

(** The preprocessor symbols the file is compiled under, and the tick
    rate of the kernel. *)
Record build : Type := {
  HZ : Z;
  BITS_PER_LONG : Z;
  INCREASED_TIMEOUT : bool;
  PD_BU : bool;
  QUANTUM3_BU : bool
}.

(** The kernel's conversions are modelled for the tick rates that divide
    1000 (100, 250, 1000, ...), for which time.h and jiffies.h define them
    by the two expressions below. *)
Definition hz_supported (cfg : build) : bool :=
  (0 <? HZ cfg) && (MSEC_PER_SEC mod HZ cfg =? 0).

(** [MAX_JIFFY_OFFSET], which is [(LONG_MAX >> 1) - 1]. *)
Definition LONG_MAX (cfg : build) : Z := 2 ^ (BITS_PER_LONG cfg - 1) - 1.
Definition MAX_JIFFY_OFFSET (cfg : build) : Z := Z.shiftr (LONG_MAX cfg) 1 - 1.

(** The places at which the driver reads [jiffies]: in
    [__wait_for_system_ready] for [start], for [end], for the time waited
    and in the test of the loop; for [end] and in the test of the loop that
    polls the vendor id; for [end] and in the test of the loop that waits
    for the reset trigger. *)
Inductive clock_read : Type :=
| WAIT_START | WAIT_END | WAIT_WAITED | WAIT_TEST
| VENDOR_END | VENDOR_TEST
| TRIGGER_END | TRIGGER_TEST.

Inductive sx_dev_event : Type :=
| SX_DEV_EVENT_PRE_RESET
| SX_DEV_EVENT_POST_RESET.

(** The fields of [struct ku_access_mrsr_reg] that reset.c fills in; the
    numeric values of the EMAD constants are not part of the repository. *)
Inductive tlv_type : Type := TLV_TYPE_END_E | TLV_TYPE_OPERATION_E.
Inductive tlv_r : Type := TLV_REQUEST | TLV_RESPONSE.
Inductive emad_method : Type := EMAD_METHOD_QUERY | EMAD_METHOD_WRITE.
Inductive emad_class : Type := EMAD_CLASS_RESERVED | EMAD_CLASS_REG_ACCESS.
Inductive register_id_t : Type := MRSR_REG_ID.
Inductive tlv_length : Type := TLV_LEN.
Inductive mrsr_command : Type := SXD_MRSR_CMD_DO_NOTHING | SXD_MRSR_CMD_SW_RESET.

Record operation_tlv : Type := {
  type : tlv_type;
  length : tlv_length;
  dr : Z;
  status : Z;
  register_id : register_id_t;
  r : tlv_r;
  method : emad_method;
  op_class : emad_class;
  tid : Z
}.

Record ku_access_mrsr_reg : Type := {
  dev_id : Z;
  op_tlv : operation_tlv;
  mrsr_reg_command : mrsr_command
}.

(** ** The log *)

Inductive event : Type :=
| EvIoremap (offset size : Z) (ok : bool)
| EvIounmap (offset : Z)
| EvIoread32be (offset val : Z)
| EvWritel (offset val : Z)
| EvMsleep (msecs : Z)
| EvWaitInfo (wait_for_reset start end_ : Z)
| EvAccessRegMRSR (reg_data : ku_access_mrsr_reg) (rc : Z)
| EvPciFindCapability (cap pos : Z)
| EvPciReadConfigDword (offset rc val : Z)
| EvPciReadConfigWord (offset rc val : Z)
| EvPciWriteConfigWord (offset val rc : Z)
| EvPciWriteConfigDword (offset val rc : Z)
| EvKzallocEventData (ok : bool)
| EvKmalloc (size : Z) (ok : bool)
| EvKfree
| EvCmdUsePolling
| EvDispatchEvent (kind : sx_dev_event) (payload : option Z) (rc : Z)
                  (payload_after : option Z).

(** An entry of the log: the access and the value of [dev_sw_rst_flow]
    when it was made. *)
Definition entry : Type := (event * bool)%type.

Record world : Type := {
  jiffies : Z;
  reset_trigger : Z;
  debug_fw_trace_boot_flow : Z;
  dev_sw_rst_flow : bool;
  log : list entry
}.

(** What the outside world answers to the access made at position [n] of
    the log.  [hw_tick n place] is how far the clock has run on, since the
    driver last slept or looked at it, when the driver reads [jiffies] at
    [place] with [n] accesses made. *)
Record hardware : Type := {
  hw_ioremap : nat -> bool;
  hw_ioread32be : nat -> Z;
  hw_sleep_extra : nat -> N;
  hw_tick : nat -> clock_read -> N;
  hw_trigger_write : nat -> option Z;
  hw_access_reg_mrsr : nat -> Z;
  hw_find_capability : nat -> Z;
  hw_read_config_dword : nat -> Z -> Z * Z;
  hw_read_config_word : nat -> Z -> Z * Z;
  hw_write_config_word : nat -> Z -> Z -> Z;
  hw_write_config_dword : nat -> Z -> Z -> Z;
  hw_kmalloc : nat -> bool;
  hw_dispatch_event : nat -> sx_dev_event -> option Z -> Z;
  hw_post_reset_err : nat -> Z -> Z
}.

(** ** The monad *)

Inductive stuck : Type :=
| OutOfFuel
| NullDeref.

Inductive result (A : Type) : Type :=
| Ret (a : A) (w : world)
| Stuck (s : stuck).
Arguments Ret {A} a w.
Arguments Stuck {A} s.

Definition M (A : Type) : Type := world -> result A.

Definition ret {A} (a : A) : M A := fun w => Ret a w.

Definition bind {A B} (m : M A) (k : A -> M B) : M B :=
  fun w => match m w with
           | Ret a w' => k a w'
           | Stuck s => Stuck s
           end.

Definition fault {A} (s : stuck) : M A := fun _ => Stuck s.

Declare Scope reset_scope.
Delimit Scope reset_scope with reset.
Notation "x <- m ;; k" := (bind m (fun x => k))
  (at level 100, m at next level, right associativity) : reset_scope.
Notation "' p <- m ;; k" := (bind m (fun x => let p := x in k))
  (at level 100, p pattern, m at next level, right associativity) : reset_scope.
Notation "m ;; k" := (bind m (fun _ => k))
  (at level 100, right associativity) : reset_scope.
Local Open Scope reset_scope.

Definition set_jiffies (j : Z) (w : world) : world :=
  {| jiffies := j; reset_trigger := reset_trigger w;
     debug_fw_trace_boot_flow := debug_fw_trace_boot_flow w;
     dev_sw_rst_flow := dev_sw_rst_flow w; log := log w |}.

Definition set_reset_trigger (v : Z) (w : world) : world :=
  {| jiffies := jiffies w; reset_trigger := v;
     debug_fw_trace_boot_flow := debug_fw_trace_boot_flow w;
     dev_sw_rst_flow := dev_sw_rst_flow w; log := log w |}.

Definition set_dev_sw_rst_flow (b : bool) (w : world) : world :=
  {| jiffies := jiffies w; reset_trigger := reset_trigger w;
     debug_fw_trace_boot_flow := debug_fw_trace_boot_flow w;
     dev_sw_rst_flow := b; log := log w |}.

Definition set_log (l : list entry) (w : world) : world :=
  {| jiffies := jiffies w; reset_trigger := reset_trigger w;
     debug_fw_trace_boot_flow := debug_fw_trace_boot_flow w;
     dev_sw_rst_flow := dev_sw_rst_flow w; log := l |}.

Definition get {A} (f : world -> A) : M A := fun w => Ret (f w) w.
Definition modify (f : world -> world) : M unit := fun w => Ret tt (f w).

(** The position the next access takes in the log. *)
Definition position : M nat := get (fun w => List.length (log w)).

Definition tag (flow : bool) (e : event) : entry := (e, flow).

(** The world after one more access. *)
Definition logged (e : event) (w : world) : world :=
  set_log (log w ++ [tag (dev_sw_rst_flow w) e]) w.

Definition emit (e : event) : M unit := modify (logged e).

(** Dereferencing a pointer that may be null. *)
Definition deref {A} (p : option A) : M A :=
  match p with
  | Some a => ret a
  | None => fault NullDeref
  end.

Section Driver.

Variable cfg : build.
Variable hw : hardware.

(** ** Kernel services *)

(** [msecs_to_jiffies(m)] for [m] an [unsigned int]: a value that is
    negative as an [int] means no timeout. *)
Definition msecs_to_jiffies (m : Z) : Z :=
  if 2 ^ 31 <=? m then MAX_JIFFY_OFFSET cfg
  else (m + (MSEC_PER_SEC / HZ cfg) - 1) / (MSEC_PER_SEC / HZ cfg).

Definition jiffies_to_msecs (j : Z) : Z :=
  u32 ((MSEC_PER_SEC / HZ cfg) * j).

(** [time_before(a, b)].  The clock is taken not to wrap during a reset. *)
Definition time_before (a b : Z) : bool := a <? b.

(** A read of [jiffies]: the kernel's clock runs on whatever the driver
    does, and the [jiffies] of the world is its value when the driver last
    slept or looked at it. *)
Definition read_jiffies (place : clock_read) : M Z :=
  n <- position ;;
  modify (fun w => set_jiffies (jiffies w + Z.of_N (hw_tick hw n place)) w) ;;
  get jiffies.

(** [msleep(msecs)] returns after at least [msecs] milliseconds, counted
    in whole jiffies; how much later is the scheduler's choice.  The module
    parameter [reset_trigger] is writable through sysfs, which is modelled
    as happening while the driver sleeps. *)
Definition msleep (msecs : Z) : M unit :=
  n <- position ;;
  modify (fun w =>
    set_jiffies (jiffies w + msecs_to_jiffies msecs + Z.of_N (hw_sleep_extra hw n)) w) ;;
  modify (fun w =>
    match hw_trigger_write hw n with
    | Some v => set_reset_trigger v w
    | None => w
    end) ;;
  emit (EvMsleep msecs).

(** [ioremap(pci_resource_start(dev->pdev, 0) + offset, size)]: whether the
    mapping was obtained. *)
Definition ioremap (offset size : Z) : M bool :=
  n <- position ;;
  let ok := hw_ioremap hw n in
  emit (EvIoremap offset size ok) ;;
  ret ok.

Definition iounmap (offset : Z) : M unit := emit (EvIounmap offset).

Definition ioread32be (offset : Z) : M Z :=
  n <- position ;;
  let v := u32 (hw_ioread32be hw n) in
  emit (EvIoread32be offset v) ;;
  ret v.

Definition writel (val offset : Z) : M unit := emit (EvWritel offset val).

Definition sx_ACCESS_REG_MRSR (reg_data : ku_access_mrsr_reg) : M Z :=
  n <- position ;;
  let rc := hw_access_reg_mrsr hw n in
  emit (EvAccessRegMRSR reg_data rc) ;;
  ret rc.

Definition pci_find_capability (cap : Z) : M Z :=
  n <- position ;;
  let pos := hw_find_capability hw n in
  emit (EvPciFindCapability cap pos) ;;
  ret pos.

(** The config-space readers store through their pointer whether or not
    the access succeeds (the error response on a failure). *)
Definition pci_read_config_dword (offset : Z) : M (Z * Z) :=
  n <- position ;;
  let '(rc, v) := hw_read_config_dword hw n offset in
  emit (EvPciReadConfigDword offset rc (u32 v)) ;;
  ret (rc, u32 v).

Definition pci_read_config_word (offset : Z) : M (Z * Z) :=
  n <- position ;;
  let '(rc, v) := hw_read_config_word hw n offset in
  emit (EvPciReadConfigWord offset rc (u16 v)) ;;
  ret (rc, u16 v).

Definition pci_write_config_word (offset val : Z) : M Z :=
  n <- position ;;
  let rc := hw_write_config_word hw n offset val in
  emit (EvPciWriteConfigWord offset val rc) ;;
  ret rc.

Definition pci_write_config_dword (offset val : Z) : M Z :=
  n <- position ;;
  let rc := hw_write_config_dword hw n offset val in
  emit (EvPciWriteConfigDword offset val rc) ;;
  ret rc.

(** [kmalloc] and [kzalloc]: whether the allocation succeeded. *)
Definition kmalloc (size : Z) : M bool :=
  n <- position ;;
  let ok := hw_kmalloc hw n in
  emit (EvKmalloc size ok) ;;
  ret ok.

(** [kzalloc(sizeof(union sx_event_data), GFP_KERNEL)]. *)
Definition kzalloc_event_data : M bool :=
  n <- position ;;
  let ok := hw_kmalloc hw n in
  emit (EvKzallocEventData ok) ;;
  ret ok.

Definition kfree : M unit := emit EvKfree.

Definition sx_cmd_use_polling : M unit := emit EvCmdUsePolling.

(** [sx_core_dispatch_event]: the return code, and the payload as the
    subscribers leave it. *)
Definition sx_core_dispatch_event (kind : sx_dev_event) (data : option Z)
    : M (Z * option Z) :=
  n <- position ;;
  let rc := hw_dispatch_event hw n kind data in
  let data' := option_map (hw_post_reset_err hw n) data in
  emit (EvDispatchEvent kind data rc data') ;;
  ret (rc, data').

(** ** [__wait_for_system_ready] *)

(** The body of the [do ... while (time_before(jiffies, end))] loop.  The
    second component of the answer is what was stored through
    [time_waited_msec], if anything. *)
Fixpoint wait_for_system_ready_loop (fuel : nat) (start end_ : Z)
    (time_waited_msec : bool) : M (Z * option Z) :=
  match fuel with
  | O => fault OutOfFuel
  | S fuel' =>
      val <- ioread32be SX_SYSTEM_STATUS_REG_OFFSET ;;
      if system_status_enabled val then
        if time_waited_msec then
          now <- read_jiffies WAIT_WAITED ;;
          ret (0, Some (jiffies_to_msecs (now - start)))
        else ret (0, None)
      else
        msleep 1 ;;
        now <- read_jiffies WAIT_TEST ;;
        if time_before now end_
        then wait_for_system_ready_loop fuel' start end_ time_waited_msec
        else ret (- ETIME, None)
  end.

(** [time_waited_msec] tells whether the caller passed a non-null pointer. *)
Definition __wait_for_system_ready (dev : sx_dev) (wait_for_reset_msec : Z)
    (time_waited_msec : bool) : M (Z * option Z) :=
  _ <- deref (pdev dev) ;;
  sys_status <- ioremap SX_SYSTEM_STATUS_REG_OFFSET SX_SYSTEM_STATUS_REG_SIZE ;;
  if negb sys_status then ret (- ENOMEM, None)
  else
    start <- read_jiffies WAIT_START ;;
    now <- read_jiffies WAIT_END ;;
    let end_ := now + msecs_to_jiffies wait_for_reset_msec in
    emit (EvWaitInfo wait_for_reset_msec start end_) ;;
    r <- wait_for_system_ready_loop (S (Z.to_nat (end_ - now))) start end_
           time_waited_msec ;;
    iounmap SX_SYSTEM_STATUS_REG_OFFSET ;;
    ret r.

(** ** [__get_chip_reset_duration] *)

Definition SX_SW_RESET_TIMEOUT_MSECS : Z :=
  if INCREASED_TIMEOUT cfg then 25 * 60 * 1000 else 5 * 1000.

Definition chip_reset_duration (d : pci_device_id) : Z :=
  let duration :=
    match d with
    | QUANTUM_PCI_DEV_ID | QUANTUM2_PCI_DEV_ID | QUANTUM3_PCI_DEV_ID =>
        15 * 1000
    | SPECTRUM2_PCI_DEV_ID | SPECTRUM3_PCI_DEV_ID | SPECTRUM4_PCI_DEV_ID =>
        15 * 60 * 1000
    | _ => SX_SW_RESET_TIMEOUT_MSECS
    end in
  if PD_BU cfg && QUANTUM3_BU cfg then 20 * 60 * 1000 else duration.

Definition __get_chip_reset_duration (dev : sx_dev) : M Z :=
  p <- deref (pdev dev) ;;
  ret (chip_reset_duration (device p)).

(** ** [reset_dev_by_mrsr_reg] *)

(** [reg_data] as [reset_dev_by_mrsr_reg] fills it in. *)
Definition sw_reset_reg_data (dev : sx_dev) : ku_access_mrsr_reg :=
  {| dev_id := device_id dev;
     op_tlv := {| type := TLV_TYPE_OPERATION_E; length := TLV_LEN;
                  dr := 0; status := 0; register_id := MRSR_REG_ID;
                  r := TLV_REQUEST; method := EMAD_METHOD_WRITE;
                  op_class := EMAD_CLASS_REG_ACCESS; tid := 0 |};
     mrsr_reg_command := SXD_MRSR_CMD_SW_RESET |}.

Definition reset_dev_by_mrsr_reg (dev : sx_dev) : M Z :=
  err <- sx_ACCESS_REG_MRSR (sw_reset_reg_data dev) ;;
  ret err.

(** ** [sdk_sx_reset] *)

(** The [out:] label of [sdk_sx_reset] and of [legacy_reset]. *)
Definition out_clear_flow (err : Z) : M Z :=
  modify (set_dev_sw_rst_flow false) ;;
  ret err.

Definition sdk_sx_reset (dev : sx_dev) : M Z :=
  wait_for_reset <- __get_chip_reset_duration dev ;;
  '(err, _) <- __wait_for_system_ready dev wait_for_reset true ;;
  if negb (err =? 0) then out_clear_flow err
  else
    modify (set_dev_sw_rst_flow true) ;;
    err <- reset_dev_by_mrsr_reg dev ;;
    if negb (err =? 0) then out_clear_flow err
    else
      '(err, _) <- __wait_for_system_ready dev 0 true ;;
      if negb (err =? - ETIME) then out_clear_flow (- EFAULT)
      else
        '(err, _) <- __wait_for_system_ready dev wait_for_reset true ;;
        out_clear_flow err.

(** ** [__save_headers_data] and [__restore_headers_data] *)

(** [hca_header_p[i] = v] and [hca_header_p[i]] on the 64-word buffer. *)
Fixpoint store (i : nat) (v : Z) (hdr : list Z) : list Z :=
  match hdr, i with
  | [], _ => []
  | _ :: t, O => v :: t
  | h :: t, S i' => h :: store i' v t
  end.

Definition load (hdr : list Z) (i : Z) : Z := nth (Z.to_nat i) hdr 0.

(** The values [i] takes in [for (i = 0; i < n; ++i)]. *)
Definition indices (n : nat) : list Z := map Z.of_nat (seq 0 n).

Fixpoint save_headers_loop (ixs : list Z) (hca_header_p : list Z)
    : M (Z * list Z) :=
  match ixs with
  | [] => ret (0, hca_header_p)
  | i :: ixs' =>
      if (i =? 22) || (i =? 23) then save_headers_loop ixs' hca_header_p
      else
        '(rc, v) <- pci_read_config_dword (i * 4) ;;
        let hca_header_p := store (Z.to_nat i) v hca_header_p in
        if negb (rc =? 0) then ret (- ENODEV, hca_header_p)
        else save_headers_loop ixs' hca_header_p
  end.

Definition __save_headers_data : M (Z * list Z) :=
  let hca_header_p := repeat 0 64 in
  _ <- pci_find_capability PCI_CAP_ID_EXP ;;
  save_headers_loop (indices 64) hca_header_p.

Fixpoint restore_headers_loop (ixs : list Z) (hca_header_p : list Z) : M Z :=
  match ixs with
  | [] => ret 0
  | i :: ixs' =>
      if i * 4 =? PCI_COMMAND then restore_headers_loop ixs' hca_header_p
      else
        rc <- pci_write_config_dword (i * 4) (load hca_header_p i) ;;
        if negb (rc =? 0) then ret (- ENODEV)
        else restore_headers_loop ixs' hca_header_p
  end.

Definition restore_pcie_cap (pcie_cap : Z) (hca_header_p : list Z) : M Z :=
  if negb (pcie_cap =? 0) then
    let devctl := u16 (load hca_header_p (Z.quot (pcie_cap + PCI_EXP_DEVCTL) 4)) in
    rc <- pci_write_config_word (pcie_cap + PCI_EXP_DEVCTL) devctl ;;
    if negb (rc =? 0) then ret (- ENODEV)
    else
      let linkctl := u16 (load hca_header_p (Z.quot (pcie_cap + PCI_EXP_LNKCTL) 4)) in
      rc <- pci_write_config_word (pcie_cap + PCI_EXP_LNKCTL) linkctl ;;
      if negb (rc =? 0) then ret (- ENODEV) else ret 0
  else ret 0.

Definition __restore_headers_data (hca_header_p : list Z) : M Z :=
  pcie_cap <- pci_find_capability PCI_CAP_ID_EXP ;;
  err <- restore_pcie_cap pcie_cap hca_header_p ;;
  if negb (err =? 0) then ret err
  else
    err <- restore_headers_loop (indices 16) hca_header_p ;;
    if negb (err =? 0) then ret err
    else
      rc <- pci_write_config_dword PCI_COMMAND
              (load hca_header_p (Z.quot PCI_COMMAND 4)) ;;
      if negb (rc =? 0) then ret (- ENODEV) else ret 0.

(** ** The legacy reset *)

Definition __do_legacy_reset (dev : sx_dev) : M Z :=
  _ <- deref (pdev dev) ;;
  reset <- ioremap SX_RESET_BASE SX_RESET_SIZE ;;
  if negb reset then ret (- ENOMEM)
  else
    writel SX_RESET_VALUE SX_RESET_BASE ;;
    iounmap SX_RESET_BASE ;;
    msleep (if INCREASED_TIMEOUT cfg then 180000 else 3000) ;;
    ret 0.

Definition SX_RESET_TIMEOUT_JIFFIES : Z := 2 * HZ cfg.
Definition RESET_TRIGGER_TIMEOUT : Z := 10 * HZ cfg.

(** The loop that polls the vendor id, in [legacy_reset_SwitchX] and in
    [sx_reset]; it yields the last value of [vendor]. *)
Fixpoint poll_vendor_loop (fuel : nat) (end_ : Z) : M Z :=
  match fuel with
  | O => fault OutOfFuel
  | S fuel' =>
      '(rc, vendor) <- pci_read_config_word PCI_VENDOR_ID ;;
      if (rc =? 0) && negb (vendor =? 0xffff) then ret vendor
      else
        msleep 1 ;;
        now <- read_jiffies VENDOR_TEST ;;
        if time_before now end_ then poll_vendor_loop fuel' end_
        else ret vendor
  end.

Definition poll_vendor : M Z :=
  now <- read_jiffies VENDOR_END ;;
  let end_ := now + SX_RESET_TIMEOUT_JIFFIES in
  poll_vendor_loop (S (Z.to_nat (end_ - now))) end_.

Definition legacy_reset_SwitchX (dev : sx_dev) : M Z :=
  match pdev dev with
  | None => ret (- ENODEV)
  | Some _ =>
      err <- __do_legacy_reset dev ;;
      if negb (err =? 0) then ret err
      else
        vendor <- poll_vendor ;;
        if vendor =? 0xffff then ret (- ENODEV) else ret 0
  end.

Definition legacy_reset (dev : sx_dev) : M Z :=
  match pdev dev with
  | None => out_clear_flow (- ENODEV)
  | Some _ =>
      wait_for_reset <- __get_chip_reset_duration dev ;;
      let wait_for_reset := u32 (wait_for_reset * 2) in
      '(err, _) <- __wait_for_system_ready dev wait_for_reset true ;;
      if negb (err =? 0) then out_clear_flow err
      else
        modify (set_dev_sw_rst_flow true) ;;
        err <- __do_legacy_reset dev ;;
        if negb (err =? 0) then out_clear_flow err
        else
          '(err, _) <- __wait_for_system_ready dev wait_for_reset true ;;
          out_clear_flow err
  end.

(** ** [perform_dev_sw_reset] *)

Definition perform_dev_sw_reset (dev : sx_dev) : M Z :=
  p <- deref (pdev dev) ;;
  match device p with
  | SWITCHX_PCI_DEV_ID =>
      err <- legacy_reset_SwitchX dev ;;
      ret err
  | SPECTRUM_PCI_DEV_ID | SPECTRUM2_PCI_DEV_ID | SPECTRUM3_PCI_DEV_ID
  | SPECTRUM4_PCI_DEV_ID | SWITCH_IB_PCI_DEV_ID | SWITCH_IB2_PCI_DEV_ID
  | QUANTUM_PCI_DEV_ID | QUANTUM2_PCI_DEV_ID | QUANTUM3_PCI_DEV_ID =>
      err <- sdk_sx_reset dev ;;
      if negb (err =? 0) then
        err <- legacy_reset dev ;;
        ret err
      else ret err
  | OTHER_PCI_DEV_ID _ => ret (- ENODEV)
  end.

(** ** [sx_reset] *)

(** The [while (!reset_trigger && time_before(jiffies, end))] loop. *)
Fixpoint wait_reset_trigger_loop (fuel : nat) (end_ : Z) : M unit :=
  match fuel with
  | O => fault OutOfFuel
  | S fuel' =>
      trigger <- get reset_trigger ;;
      if trigger =? 0 then
        now <- read_jiffies TRIGGER_TEST ;;
        if time_before now end_ then
          msleep 100 ;;
          wait_reset_trigger_loop fuel' end_
        else ret tt
      else ret tt
  end.

(** The block of [sx_reset] that waits for the reset trigger. *)
Definition wait_reset_trigger : M unit :=
  trigger <- get reset_trigger ;;
  if negb (trigger =? 0) then ret tt
  else
    now <- read_jiffies TRIGGER_END ;;
    let end_ := now + RESET_TRIGGER_TIMEOUT in
    wait_reset_trigger_loop (S (Z.to_nat (end_ - now))) end_ ;;
    trigger <- get reset_trigger ;;
    if negb (trigger =? 0) then ret tt
    else modify (set_reset_trigger 1).

Definition is_switchx (d : pci_device_id) : bool :=
  match d with
  | SWITCHX_PCI_DEV_ID => true
  | _ => false
  end.

(** The locals of [sx_reset] that its [out:] label reads. *)
Record sx_reset_locals : Type := {
  l_err : Z;
  l_hca_header : option (list Z);
  l_event_data : bool;
  l_is_pre_reset_event : bool
}.

(** The last block before [out:], restoring the PCI headers of SwitchX. *)
Definition sx_reset_restore (p : pci_dev) (hca_header : option (list Z)) : M Z :=
  if is_switchx (device p) then
    hdr <- deref hca_header ;;
    err <- __restore_headers_data hdr ;;
    ret err
  else ret 0.

(** [if (perform_chip_reset) ... else ...] and what follows, up to [out:];
    the answer is [err] and [is_pre_reset_event]. *)
Definition sx_reset_phase (dev : sx_dev) (p : pci_dev) (perform_chip_reset : Z)
    (hca_header : option (list Z)) : M (Z * bool) :=
  if negb (perform_chip_reset =? 0) then
    '(err, _) <- sx_core_dispatch_event SX_DEV_EVENT_PRE_RESET None ;;
    if negb (err =? 0) then ret (err, true)
    else
      err <- perform_dev_sw_reset dev ;;
      if negb (err =? 0) then ret (err, true)
      else
        vendor <- poll_vendor ;;
        if vendor =? 0xffff then ret (- ENODEV, true)
        else
          err <- sx_reset_restore p hca_header ;;
          ret (err, true)
  else
    debug <- get debug_fw_trace_boot_flow ;;
    if debug =? 0 then
      '(err, _) <- __wait_for_system_ready dev 0 false ;;
      if negb (err =? 0) then ret (- ENODEV, false)
      else
        err <- sx_reset_restore p hca_header ;;
        ret (err, false)
    else
      err <- sx_reset_restore p hca_header ;;
      ret (err, false).

(** [sx_reset] from the trigger wait on, once the buffers are there. *)
Definition sx_reset_armed (dev : sx_dev) (p : pci_dev) (perform_chip_reset : Z)
    (hca_header : option (list Z)) : M sx_reset_locals :=
  sx_cmd_use_polling ;;
  wait_reset_trigger ;;
  '(err, is_pre_reset_event) <- sx_reset_phase dev p perform_chip_reset hca_header ;;
  ret {| l_err := err; l_hca_header := hca_header; l_event_data := true;
         l_is_pre_reset_event := is_pre_reset_event |}.

(** The beginning of [sx_reset], down to [sx_cmd_use_polling]: either the
    locals with which it jumps to [out:], or the device and the buffer with
    which it goes on. *)
Definition sx_reset_prepare (dev : option sx_dev)
    : M (sx_reset_locals + sx_dev * pci_dev * option (list Z)) :=
  match dev with
  | None => ret (inl {| l_err := - ENODEV; l_hca_header := None;
                        l_event_data := false; l_is_pre_reset_event := false |})
  | Some d =>
      match pdev d with
      | None => ret (inl {| l_err := - ENODEV; l_hca_header := None;
                            l_event_data := false; l_is_pre_reset_event := false |})
      | Some p =>
          event_data <- kzalloc_event_data ;;
          if negb event_data then
            ret (inl {| l_err := - ENOMEM; l_hca_header := None;
                        l_event_data := false; l_is_pre_reset_event := false |})
          else if is_switchx (device p) then
            hca_header <- kmalloc SX_HCA_HEADERS_SIZE ;;
            if negb hca_header then
              ret (inl {| l_err := - ENOMEM; l_hca_header := None;
                          l_event_data := true; l_is_pre_reset_event := false |})
            else
              '(err, hdr) <- __save_headers_data ;;
              if negb (err =? 0) then
                ret (inl {| l_err := err; l_hca_header := Some hdr;
                            l_event_data := true; l_is_pre_reset_event := false |})
              else ret (inr (d, p, Some hdr))
          else ret (inr (d, p, None))
      end
  end.

(** [sx_reset] down to its [out:] label. *)
Definition sx_reset_body (dev : option sx_dev) (perform_chip_reset : Z)
    : M sx_reset_locals :=
  prepared <- sx_reset_prepare dev ;;
  match prepared with
  | inl l => ret l
  | inr (d, p, hca_header) => sx_reset_armed d p perform_chip_reset hca_header
  end.

(** The [out:] label of [sx_reset]. *)
Definition sx_reset_out (l : sx_reset_locals) : M Z :=
  match l_hca_header l with
  | Some _ => kfree
  | None => ret tt
  end ;;
  if l_event_data l then
    err <- (if l_is_pre_reset_event l then
              '(_, post_reset_err) <-
                 sx_core_dispatch_event SX_DEV_EVENT_POST_RESET (Some (l_err l)) ;;
              ret (match post_reset_err with
                   | Some e => e
                   | None => l_err l
                   end)
            else ret (l_err l)) ;;
    kfree ;;
    ret err
  else ret (l_err l).

Definition sx_reset (dev : option sx_dev) (perform_chip_reset : Z) : M Z :=
  l <- sx_reset_body dev perform_chip_reset ;;
  sx_reset_out l.

End Driver.

(** ** Runs on concrete worlds *)

Definition production : build :=
  {| HZ := 1000; BITS_PER_LONG := 64; INCREASED_TIMEOUT := false;
     PD_BU := false; QUANTUM3_BU := false |}.

(** A device that maps, allocates and answers every access with success,
    has no PCI Express capability, reads [status] in its status register
    and [vendor] as its vendor id, and whose subscribers leave the payload
    alone. *)
Definition steady (status vendor : Z) : hardware :=
  {| hw_ioremap := fun _ => true;
     hw_ioread32be := fun _ => status;
     hw_sleep_extra := fun _ => 0%N;
     hw_tick := fun _ _ => 0%N;
     hw_trigger_write := fun _ => None;
     hw_access_reg_mrsr := fun _ => 0;
     hw_find_capability := fun _ => 0;
     hw_read_config_dword := fun _ off => (0, off);
     hw_read_config_word := fun _ _ => (0, vendor);
     hw_write_config_word := fun _ _ _ => 0;
     hw_write_config_dword := fun _ _ _ => 0;
     hw_kmalloc := fun _ => true;
     hw_dispatch_event := fun _ _ _ => 0;
     hw_post_reset_err := fun _ e => e |}.

Definition boot : world :=
  {| jiffies := 0; reset_trigger := 1; debug_fw_trace_boot_flow := 0;
     dev_sw_rst_flow := false; log := [] |}.

Definition the_dev (d : pci_device_id) : sx_dev :=
  {| pdev := Some {| device := d |}; device_id := 1 |}.

(** What a run appended to the log, and its answer. *)
Definition events_of {A} (r : result A) : list event :=
  match r with
  | Ret _ w => map fst (log w)
  | Stuck _ => []
  end.

Definition answer_of {A} (r : result A) : option A :=
  match r with
  | Ret a _ => Some a
  | Stuck _ => None
  end.

(** ** Vocabulary of the statements *)

(** [steps w w' evs]: from [w] to [w'] the driver made the accesses [evs],
    in that order, without touching [dev_sw_rst_flow]. *)
Definition steps (w w' : world) (evs : list event) : Prop :=
  log w' = log w ++ map (tag (dev_sw_rst_flow w)) evs /\
  dev_sw_rst_flow w' = dev_sw_rst_flow w /\
  debug_fw_trace_boot_flow w' = debug_fw_trace_boot_flow w /\
  jiffies w <= jiffies w'.

(** The accesses of one poll of the status register: reads that do not show
    the enabled value are each followed by [msleep(1)]; the poll ends with a
    read that shows it ([true]) or after such a sleep ([false]). *)
Inductive polled : list event -> bool -> Prop :=
| polled_ready val :
    system_status_enabled val = true ->
    polled [EvIoread32be SX_SYSTEM_STATUS_REG_OFFSET val] true
| polled_timeout val :
    system_status_enabled val = false ->
    polled [EvIoread32be SX_SYSTEM_STATUS_REG_OFFSET val; EvMsleep 1] false
| polled_again val evs ready :
    system_status_enabled val = false ->
    polled evs ready ->
    polled (EvIoread32be SX_SYSTEM_STATUS_REG_OFFSET val :: EvMsleep 1 :: evs) ready.

Definition is_sleep (e : event) : bool :=
  match e with EvMsleep _ => true | _ => false end.

(** The accesses that make the chip reset: the MRSR register write and the
    write to the legacy reset register. *)
Definition is_trigger (e : event) : bool :=
  match e with
  | EvAccessRegMRSR _ _ | EvWritel _ _ => true
  | _ => false
  end.

Definition is_mrsr (e : event) : bool :=
  match e with EvAccessRegMRSR _ _ => true | _ => false end.

(** The accesses of the loop that polls the vendor id. *)
Definition is_vendor_poll (e : event) : bool :=
  match e with
  | EvPciReadConfigWord _ _ _ | EvMsleep _ => true
  | _ => false
  end.

Definition no_trigger (evs : list event) : bool :=
  forallb (fun e => negb (is_trigger e)) evs.

(** The sleep of [__do_legacy_reset] after the write. *)
Definition legacy_reset_grace (cfg : build) : Z :=
  if INCREASED_TIMEOUT cfg then 180000 else 3000.

(** The budgets of the polls of the status register, as [printk]ed. *)
Fixpoint wait_budgets (evs : list event) : list Z :=
  match evs with
  | [] => []
  | EvWaitInfo wait_for_reset _ _ :: evs' => wait_for_reset :: wait_budgets evs'
  | _ :: evs' => wait_budgets evs'
  end.

Definition is_modern (d : pci_device_id) : bool :=
  match d with
  | SPECTRUM_PCI_DEV_ID | SPECTRUM2_PCI_DEV_ID | SPECTRUM3_PCI_DEV_ID
  | SPECTRUM4_PCI_DEV_ID | SWITCH_IB_PCI_DEV_ID | SWITCH_IB2_PCI_DEV_ID
  | QUANTUM_PCI_DEV_ID | QUANTUM2_PCI_DEV_ID | QUANTUM3_PCI_DEV_ID => true
  | _ => false
  end.

(** The world after [msleep(msecs)]. *)
Definition slept (cfg : build) (hw : hardware) (msecs : Z) (w : world) : world :=
  let n := List.length (log w) in
  let w1 := set_jiffies (jiffies w + msecs_to_jiffies cfg msecs
                         + Z.of_N (hw_sleep_extra hw n)) w in
  logged (EvMsleep msecs)
    match hw_trigger_write hw n with
    | Some v => set_reset_trigger v w1
    | None => w1
    end.

(** The world after a read of [jiffies] at [place]. *)
Definition ticked (hw : hardware) (place : clock_read) (w : world) : world :=
  set_jiffies (jiffies w + Z.of_N (hw_tick hw (List.length (log w)) place)) w.

(** How many times the driver slept, counted over its accesses. *)
Fixpoint sleeps (evs : list event) : nat :=
  match evs with
  | [] => 0
  | EvMsleep _ :: evs' => S (sleeps evs')
  | _ :: evs' => sleeps evs'
  end.

(** The world after [n] rounds of the loop that waits for the reset
    trigger, each of them a look at the clock and a sleep of 100 ms. *)
Fixpoint trigger_rounds (cfg : build) (hw : hardware) (n : nat) (w : world) : world :=
  match n with
  | O => w
  | S n' => trigger_rounds cfg hw n' (slept cfg hw 100 (ticked hw TRIGGER_TEST w))
  end.

(** What one call of [__wait_for_system_ready] with the budget
    [wait_for_reset_msec] answers and does, from [w] to [w']: [mapped] is
    whether the status register could be mapped; [start] and [now] are the
    two values of the clock the call reads before it polls. *)
Definition wait_outcome (cfg : build) (wait_for_reset_msec : Z) (tw : bool)
    (w w' : world) (mapped : bool) (r : Z * option Z) (evs : list event) : Prop :=
  if mapped then
    exists start now body ready,
      evs = EvIoremap SX_SYSTEM_STATUS_REG_OFFSET SX_SYSTEM_STATUS_REG_SIZE true
            :: EvWaitInfo wait_for_reset_msec start
                 (now + msecs_to_jiffies cfg wait_for_reset_msec)
            :: body ++ [EvIounmap SX_SYSTEM_STATUS_REG_OFFSET] /\
      jiffies w <= start <= now /\
      polled body ready /\
      Z.of_nat (sleeps body) <= Z.max 1 (msecs_to_jiffies cfg wait_for_reset_msec) /\
      (ready = true ->
       exists t, r = (0, if tw then Some t else None) /\ 0 <= t < 2 ^ 32) /\
      (ready = false ->
       r = (- ETIME, None) /\
       now + msecs_to_jiffies cfg wait_for_reset_msec <= jiffies w')
  else
    r = (- ENOMEM, None) /\
    evs = [EvIoremap SX_SYSTEM_STATUS_REG_OFFSET SX_SYSTEM_STATUS_REG_SIZE false].

(** [flow_window w w' pre win]: from [w] to [w'] the driver first made the
    accesses [pre], none of which resets the chip, with [dev_sw_rst_flow] as
    it found it, then the accesses [win] with [dev_sw_rst_flow] set, and it
    left [dev_sw_rst_flow] clear. *)
Definition flow_window (w w' : world) (pre win : list event) : Prop :=
  log w' = log w ++ map (tag (dev_sw_rst_flow w)) pre ++ map (tag true) win /\
  no_trigger pre = true /\
  dev_sw_rst_flow w' = false.

(** ** The configuration snapshot, as the specification words it

    The save reads, in order, the words of the configuration window other
    than 22 and 23; the restore writes the two control words of the PCI
    Express capability if there is one, then the first sixteen words other
    than the command word, then the command word.  Either stops at the
    first access that fails. *)

Definition saved_indices : list Z :=
  filter (fun i => negb ((i =? 22) || (i =? 23))) (indices 64).

Definition restored_indices : list Z :=
  filter (fun i => negb (i =? 1)) (indices 16).

(** The accesses of reading the words at [offsets], the first of them made
    at position [n] of the log, and whether all of them succeeded. *)
Fixpoint read_plan (hw : hardware) (n : nat) (offsets : list Z) : list event * bool :=
  match offsets with
  | [] => ([], true)
  | offset :: rest =>
      let rc := fst (hw_read_config_dword hw n offset) in
      let val := u32 (snd (hw_read_config_dword hw n offset)) in
      if rc =? 0 then
        (EvPciReadConfigDword offset rc val :: fst (read_plan hw (S n) rest),
         snd (read_plan hw (S n) rest))
      else ([EvPciReadConfigDword offset rc val], false)
  end.

Inductive config_write : Type :=
| WriteWord (offset val : Z)
| WriteDword (offset val : Z).

Definition write_event (hw : hardware) (n : nat) (cw : config_write) : event * Z :=
  match cw with
  | WriteWord offset val =>
      (EvPciWriteConfigWord offset val (hw_write_config_word hw n offset val),
       hw_write_config_word hw n offset val)
  | WriteDword offset val =>
      (EvPciWriteConfigDword offset val (hw_write_config_dword hw n offset val),
       hw_write_config_dword hw n offset val)
  end.

(** The accesses of making the writes [plan], the first of them at position
    [n] of the log, and whether all of them succeeded. *)
Fixpoint write_plan (hw : hardware) (n : nat) (plan : list config_write)
    : list event * bool :=
  match plan with
  | [] => ([], true)
  | cw :: rest =>
      if snd (write_event hw n cw) =? 0 then
        (fst (write_event hw n cw) :: fst (write_plan hw (S n) rest),
         snd (write_plan hw (S n) rest))
      else ([fst (write_event hw n cw)], false)
  end.

Definition restore_capability_plan (pcie_cap : Z) (hca_header_p : list Z)
    : list config_write :=
  if pcie_cap =? 0 then []
  else [WriteWord (pcie_cap + PCI_EXP_DEVCTL)
          (u16 (load hca_header_p (Z.quot (pcie_cap + PCI_EXP_DEVCTL) 4)));
        WriteWord (pcie_cap + PCI_EXP_LNKCTL)
          (u16 (load hca_header_p (Z.quot (pcie_cap + PCI_EXP_LNKCTL) 4)))].

Definition restore_words_plan (hca_header_p : list Z) : list config_write :=
  map (fun i => WriteDword (i * 4) (load hca_header_p i)) restored_indices.

Definition restore_plan (pcie_cap : Z) (hca_header_p : list Z) : list config_write :=
  restore_capability_plan pcie_cap hca_header_p
  ++ restore_words_plan hca_header_p
  ++ [WriteDword PCI_COMMAND (load hca_header_p 1)].

(** The access a planned write makes, with its return code. *)
Definition write_done (cw : config_write) (rc : Z) : event :=
  match cw with
  | WriteWord offset val => EvPciWriteConfigWord offset val rc
  | WriteDword offset val => EvPciWriteConfigDword offset val rc
  end.

(** The offsets of the configuration dwords read, in order. *)
Fixpoint read_offsets (evs : list event) : list Z :=
  match evs with
  | [] => []
  | EvPciReadConfigDword offset _ _ :: evs' => offset :: read_offsets evs'
  | _ :: evs' => read_offsets evs'
  end.

Definition is_post_reset_event (e : event) : bool :=
  match e with
  | EvDispatchEvent SX_DEV_EVENT_POST_RESET _ _ _ => true
  | _ => false
  end.

(** What [sx_reset] frees first at its [out:] label. *)
Definition freed_header (l : sx_reset_locals) : list event :=
  match l_hca_header l with
  | Some _ => [EvKfree]
  | None => []
  end.

(** More concrete worlds, devices and builds. *)

Definition world_of {A} (r : result A) : world :=
  match r with
  | Ret _ w => w
  | Stuck _ => boot
  end.

(** A device whose status register always shows the enabled value, and one
    whose status register never does. *)
Definition ready_hw : hardware := steady 0x5E 0x15b3.
Definition idle_hw : hardware := steady 0 0x15b3.

(** [hw], except that the mapping asked for at position [k] fails. *)
Definition unmapped_at (k : nat) (hw : hardware) : hardware :=
  {| hw_ioremap := fun n => negb (Nat.eqb n k);
     hw_ioread32be := hw_ioread32be hw;
     hw_sleep_extra := hw_sleep_extra hw;
     hw_tick := hw_tick hw;
     hw_trigger_write := hw_trigger_write hw;
     hw_access_reg_mrsr := hw_access_reg_mrsr hw;
     hw_find_capability := hw_find_capability hw;
     hw_read_config_dword := hw_read_config_dword hw;
     hw_read_config_word := hw_read_config_word hw;
     hw_write_config_word := hw_write_config_word hw;
     hw_write_config_dword := hw_write_config_dword hw;
     hw_kmalloc := hw_kmalloc hw;
     hw_dispatch_event := hw_dispatch_event hw;
     hw_post_reset_err := hw_post_reset_err hw |}.

Definition spectrum : sx_dev := the_dev SPECTRUM_PCI_DEV_ID.
Definition spectrum_pdev : pci_dev := {| device := SPECTRUM_PCI_DEV_ID |}.
Definition switchx : sx_dev := the_dev SWITCHX_PCI_DEV_ID.
Definition quantum : sx_dev := the_dev QUANTUM_PCI_DEV_ID.
Definition quantum_pdev : pci_dev := {| device := QUANTUM_PCI_DEV_ID |}.

(** A build with PD_BU and QUANTUM3_BU defined. *)
Definition palladium : build :=
  {| HZ := 1000; BITS_PER_LONG := 64; INCREASED_TIMEOUT := false;
     PD_BU := true; QUANTUM3_BU := true |}.

(** The world at boot with the reset trigger not set. *)
Definition unarmed : world := set_reset_trigger 0 boot.


(** The same on a device whose status register cannot be mapped for the
    check made with no budget (the access at position 5). *)
Definition unmapped_hw : hardware := unmapped_at 5 ready_hw.
Definition unmapped_w1 : world :=
  world_of (__wait_for_system_ready production unmapped_hw spectrum 5000 true boot).
Definition unmapped_w2 : world :=
  world_of (reset_dev_by_mrsr_reg unmapped_hw spectrum (set_dev_sw_rst_flow true unmapped_w1)).

(** A saved header whose word at index [i] is [i]. *)
Definition numbered_header : list Z := indices 64.

(** The world in which [sx_reset] on [spectrum] starts to wait for the
    trigger when it is called in [unarmed]. *)
Definition prepared_w0 : world :=
  world_of (sx_reset_prepare ready_hw (Some spectrum) unarmed).

(** ** [get_system_status] *)

Definition EINVAL : Z := 22.

(** [dev] and [system_status] may be null pointers; the second component of
    the answer is what was stored through [system_status], if anything. *)
Definition get_system_status (hw : hardware) (dev : option sx_dev)
    (system_status : bool) : M (Z * option Z) :=
  match dev with
  | None => ret (- EINVAL, None)
  | Some d =>
      if negb system_status then ret (- EINVAL, None)
      else
        _ <- deref (pdev d) ;;
        sys_status_addr <-
          ioremap hw SX_SYSTEM_STATUS_REG_OFFSET SX_SYSTEM_STATUS_REG_SIZE ;;
        if negb sys_status_addr then ret (- ENOMEM, None)
        else
          val <- ioread32be hw SX_SYSTEM_STATUS_REG_OFFSET ;;
          let system_status := u16 (Z.land val SX_SYSTEM_STATUS_REG_MASK) in
          iounmap SX_SYSTEM_STATUS_REG_OFFSET ;;
          ret (0, Some system_status)
  end.

(** ** More vocabulary *)

(** The accesses of one call of [__wait_for_system_ready] with the budget
    [m] on a status register that maps, and whether it saw the enabled
    value. *)
Definition poll_events (m : Z) (ready : bool) (evs : list event) : Prop :=
  exists start end_ body,
    evs = EvIoremap SX_SYSTEM_STATUS_REG_OFFSET SX_SYSTEM_STATUS_REG_SIZE true
          :: EvWaitInfo m start end_
          :: body ++ [EvIounmap SX_SYSTEM_STATUS_REG_OFFSET] /\
    polled body ready.

(** The answer and the accesses of one call of [__wait_for_system_ready]. *)
Definition waited (m : Z) (err : Z) (evs : list event) : Prop :=
  (err = 0 /\ poll_events m true evs) \/
  (err = - ETIME /\ poll_events m false evs) \/
  (err = - ENOMEM /\
   evs = [EvIoremap SX_SYSTEM_STATUS_REG_OFFSET SX_SYSTEM_STATUS_REG_SIZE false]).

(** The paths through [sdk_sx_reset]: its answer, the accesses [pre] it
    makes before it sets [dev_sw_rst_flow] and the accesses [win] it makes
    after. *)
Definition sdk_sx_reset_path (d : Z) (dev : sx_dev) (err : Z)
    (pre win : list event) : Prop :=
  exists err1,
    waited d err1 pre /\
    ((err1 <> 0 /\ win = [] /\ err = err1) \/
     (err1 = 0 /\
      exists rc,
        (rc <> 0 /\ win = [EvAccessRegMRSR (sw_reset_reg_data dev) rc] /\ err = rc) \/
        (rc = 0 /\
         exists err2 evs2,
           waited 0 err2 evs2 /\
           ((err2 <> - ETIME /\
             win = EvAccessRegMRSR (sw_reset_reg_data dev) 0 :: evs2 /\
             err = - EFAULT) \/
            (err2 = - ETIME /\
             exists evs3,
               waited d err evs3 /\
               win = EvAccessRegMRSR (sw_reset_reg_data dev) 0 :: evs2 ++ evs3))))).

(** The accesses of [__do_legacy_reset] when the reset register maps. *)
Definition legacy_trigger_events (cfg : build) : list event :=
  [EvIoremap SX_RESET_BASE SX_RESET_SIZE true;
   EvWritel SX_RESET_BASE SX_RESET_VALUE;
   EvIounmap SX_RESET_BASE;
   EvMsleep (legacy_reset_grace cfg)].

(** The paths through [legacy_reset] on a device that is present. *)
Definition legacy_reset_path (cfg : build) (d : Z) (err : Z)
    (pre win : list event) : Prop :=
  exists err1,
    waited d err1 pre /\
    ((err1 <> 0 /\ win = [] /\ err = err1) \/
     (err1 = 0 /\
      ((win = [EvIoremap SX_RESET_BASE SX_RESET_SIZE false] /\ err = - ENOMEM) \/
       (exists evs3,
          waited d err evs3 /\ win = legacy_trigger_events cfg ++ evs3)))).

(** The accesses only [sx_reset] itself makes: allocations, releases,
    notifications and the switch of the command interface to polling. *)
Definition is_bookkeeping (e : event) : bool :=
  match e with
  | EvKzallocEventData _ | EvKmalloc _ _ | EvKfree
  | EvDispatchEvent _ _ _ _ | EvCmdUsePolling => true
  | _ => false
  end.

Definition no_bookkeeping (evs : list event) : bool :=
  forallb (fun e => negb (is_bookkeeping e)) evs.

Definition is_dispatch (e : event) : bool :=
  match e with EvDispatchEvent _ _ _ _ => true | _ => false end.

(** The buffers obtained and the buffers released, counted over a log. *)
Fixpoint allocated (evs : list event) : nat :=
  match evs with
  | [] => 0
  | EvKzallocEventData true :: evs' | EvKmalloc _ true :: evs' => S (allocated evs')
  | _ :: evs' => allocated evs'
  end.

Fixpoint released (evs : list event) : nat :=
  match evs with
  | [] => 0
  | EvKfree :: evs' => S (released evs')
  | _ :: evs' => released evs'
  end.

(** [grows w w' evs]: from [w] to [w'] the driver made the accesses [evs],
    in that order. *)
Definition grows (w w' : world) (evs : list event) : Prop :=
  exists new, log w' = log w ++ new /\ map fst new = evs.

(** How many buffers the beginning of [sx_reset] holds when it is done. *)
Definition buffers_held (prepared : sx_reset_locals + sx_dev * pci_dev * option (list Z))
    : nat :=
  match prepared with
  | inl l =>
      ((if l_event_data l then 1 else 0)
       + match l_hca_header l with Some _ => 1 | None => 0 end)%nat
  | inr (_, _, hca_header) =>
      (1 + match hca_header with Some _ => 1 | None => 0 end)%nat
  end.

(** [hw], except that the read of the status register at position [k]
    gives [val]. *)
Definition reads_at (k : nat) (val : Z) (hw : hardware) : hardware :=
  {| hw_ioremap := hw_ioremap hw;
     hw_ioread32be := fun n => if Nat.eqb n k then val else hw_ioread32be hw n;
     hw_sleep_extra := hw_sleep_extra hw;
     hw_tick := hw_tick hw;
     hw_trigger_write := hw_trigger_write hw;
     hw_access_reg_mrsr := hw_access_reg_mrsr hw;
     hw_find_capability := hw_find_capability hw;
     hw_read_config_dword := hw_read_config_dword hw;
     hw_read_config_word := hw_read_config_word hw;
     hw_write_config_word := hw_write_config_word hw;
     hw_write_config_dword := hw_write_config_dword hw;
     hw_kmalloc := hw_kmalloc hw;
     hw_dispatch_event := hw_dispatch_event hw;
     hw_post_reset_err := hw_post_reset_err hw |}.

(** [hw], except that the subscribers of the event dispatched at position
    [k] answer [rc]. *)
Definition rejects_at (k : nat) (rc : Z) (hw : hardware) : hardware :=
  {| hw_ioremap := hw_ioremap hw;
     hw_ioread32be := hw_ioread32be hw;
     hw_sleep_extra := hw_sleep_extra hw;
     hw_tick := hw_tick hw;
     hw_trigger_write := hw_trigger_write hw;
     hw_access_reg_mrsr := hw_access_reg_mrsr hw;
     hw_find_capability := hw_find_capability hw;
     hw_read_config_dword := hw_read_config_dword hw;
     hw_read_config_word := hw_read_config_word hw;
     hw_write_config_word := hw_write_config_word hw;
     hw_write_config_dword := hw_write_config_dword hw;
     hw_kmalloc := hw_kmalloc hw;
     hw_dispatch_event :=
       fun n kind data => if Nat.eqb n k then rc else hw_dispatch_event hw n kind data;
     hw_post_reset_err := hw_post_reset_err hw |}.

(** [hw], except that the clock has run on [d] jiffies each time the driver
    reads it after it has seen the status register enabled, as when the
    driver is descheduled between the two reads. *)
Definition descheduled (d : N) (hw : hardware) : hardware :=
  {| hw_ioremap := hw_ioremap hw;
     hw_ioread32be := hw_ioread32be hw;
     hw_sleep_extra := hw_sleep_extra hw;
     hw_tick :=
       fun n place => match place with WAIT_WAITED => d | _ => hw_tick hw n place end;
     hw_trigger_write := hw_trigger_write hw;
     hw_access_reg_mrsr := hw_access_reg_mrsr hw;
     hw_find_capability := hw_find_capability hw;
     hw_read_config_dword := hw_read_config_dword hw;
     hw_read_config_word := hw_read_config_word hw;
     hw_write_config_word := hw_write_config_word hw;
     hw_write_config_dword := hw_write_config_dword hw;
     hw_kmalloc := hw_kmalloc hw;
     hw_dispatch_event := hw_dispatch_event hw;
     hw_post_reset_err := hw_post_reset_err hw |}.

(** [hw], except that the module parameter [reset_trigger] is written
    with [v] during the sleep made at position [k]. *)
Definition arms_at (k : nat) (v : Z) (hw : hardware) : hardware :=
  {| hw_ioremap := hw_ioremap hw;
     hw_ioread32be := hw_ioread32be hw;
     hw_sleep_extra := hw_sleep_extra hw;
     hw_tick := hw_tick hw;
     hw_trigger_write :=
       fun n => if Nat.eqb n k then Some v else hw_trigger_write hw n;
     hw_access_reg_mrsr := hw_access_reg_mrsr hw;
     hw_find_capability := hw_find_capability hw;
     hw_read_config_dword := hw_read_config_dword hw;
     hw_read_config_word := hw_read_config_word hw;
     hw_write_config_word := hw_write_config_word hw;
     hw_write_config_dword := hw_write_config_dword hw;
     hw_kmalloc := hw_kmalloc hw;
     hw_dispatch_event := hw_dispatch_event hw;
     hw_post_reset_err := hw_post_reset_err hw |}.

(** A device that is ready, and a reset trigger that is written with 1
    during the third sleep of the wait of [sx_reset] called on a Spectrum
    device with the trigger clear (the sleep at position 4). *)
Definition triggered_hw : hardware := arms_at 4 1 ready_hw.

(** A device that is ready, and a driver that loses 5 jiffies there. *)
Definition preempted_hw : hardware := descheduled 5 ready_hw.

(** A device that goes down after the MRSR write of [sdk_sx_reset] called
    at boot (the read at position 7 is the one of the check made with no
    budget) and is back at the next read. *)
Definition rebooting_hw : hardware := reads_at 7 0 ready_hw.

(** The same device when [sx_reset] is called at boot: the check made with
    no budget reads at position 10. *)
Definition rebooting_hw' : hardware := reads_at 10 0 ready_hw.

(** A device whose subscribers reject the pre-reset event of [sx_reset]
    called at boot (position 2) with -EBUSY. *)
Definition busy_hw : hardware := rejects_at 2 (-16) ready_hw.

Definition switchx_pdev : pci_dev := {| device := SWITCHX_PCI_DEV_ID |}.

(** The world [sdk_sx_reset] leaves on [rebooting_hw], and the worlds
    [sx_reset] leaves on [rebooting_hw'] and on [busy_hw], called at boot
    on [spectrum]. *)
Definition rebooted : world :=
  world_of (sdk_sx_reset production rebooting_hw spectrum boot).
Definition reset_done : world :=
  world_of (sx_reset production rebooting_hw' (Some spectrum) 1 boot).
Definition rejected : world :=
  world_of (sx_reset production busy_hw (Some spectrum) 1 boot).

(** * [mlxsw_item.h]: the accessors of the items of a register *)

(** An item is a bit field of a big-endian word of 8, 16, 32 or 64 bits, a
    run of bytes, or an array of small elements packed into bytes.  The
    buffer is a list of bytes, each a number below 256.  The C types are
    those of Linux: [unsigned char] has 8 bits, [unsigned short] 16, [int]
    and [unsigned int] 32, [unsigned long long] 64, and [unsigned long] and
    [size_t] have [BITS_PER_LONG] bits. *)

Module Item.

(** What a call does: it returns, it stops in [BUG()], or it does what the C
    language leaves undefined or to the representation: a shift by a count
    that is negative or not less than the width of the promoted operand, a
    left shift of an [int] whose result an [int] cannot hold, a division by
    zero, an access outside the buffer, a read of the member of the union
    [size] that was not the one initialised. *)
Inductive outcome (A : Type) : Type :=
| Done (a : A)
| Bug
| Undefined.

Arguments Done {A} a.
Arguments Bug {A}.
Arguments Undefined {A}.

Definition bind {A B} (m : outcome A) (k : A -> outcome B) : outcome B :=
  match m with
  | Done a => k a
  | Bug => Bug
  | Undefined => Undefined
  end.

Declare Scope item_scope.
Delimit Scope item_scope with item.
Notation "x <- m ;; k" := (bind m (fun x => k))
  (at level 100, m at next level, right associativity) : item_scope.
Notation "' p <- m ;; k" := (bind m (fun x => let p := x in k))
  (at level 100, p pattern, m at next level, right associativity) : item_scope.
Local Open Scope item_scope.

(** ** Integers *)

(** Conversion to an unsigned type of [width] bits. *)
Definition wrap (width x : Z) : Z := x mod 2 ^ width.

(** [~0] at an unsigned type of [width] bits. *)
Definition all_ones (width : Z) : Z := 2 ^ width - 1.

(** [x << n] and [x >> n] at an unsigned type of [width] bits. *)
Definition shl (width x n : Z) : outcome Z :=
  if (0 <=? n) && (n <? width) then Done (wrap width (Z.shiftl x n)) else Undefined.

Definition shr (width x n : Z) : outcome Z :=
  if (0 <=? n) && (n <? width) then Done (Z.shiftr x n) else Undefined.

(** [x << n] at [int], for [x] that is not negative. *)
Definition shl_int (x n : Z) : outcome Z :=
  if (0 <=? n) && (n <? 32) && (Z.shiftl x n <? 2 ^ 31)
  then Done (Z.shiftl x n) else Undefined.

(** The macros [GEN_MASK] and [GEN_MASK_ULL] at a type of [width] bits:
    [((~0) - (1 << l) + 1) & (~0 >> (width - 1 - h))]. *)
Definition gen_mask (width h l : Z) : outcome Z :=
  low <- shl width 1 l ;;
  high <- shr width (all_ones width) (width - 1 - h) ;;
  Done (Z.land (wrap width (wrap width (all_ones width - low) + 1)) high).

Definition BITS_PER_LONG_LONG : Z := 64.
Definition BITS_PER_BYTE : Z := 8.

Definition GEN_MASK_ULL (h l : Z) : outcome Z := gen_mask BITS_PER_LONG_LONG h l.

(** The types of the accessors. *)
Inductive utype : Type := U8 | U16 | U32 | U64.

Definition sizeof (t : utype) : Z :=
  match t with U8 => 1 | U16 => 2 | U32 => 4 | U64 => 8 end.

Definition width (t : utype) : Z := BITS_PER_BYTE * sizeof t.

(** Conversion to [t]. *)
Definition cast (t : utype) (x : Z) : Z := wrap (width t) x.

(** ** Buffers *)

(** The value of bytes read as one big-endian number, and the [n] bytes of
    a number in big-endian order. *)
Definition be_value (bytes : list Z) : Z :=
  fold_left (fun acc b => acc * 256 + b) bytes 0.

Fixpoint be_bytes (n : nat) (v : Z) : list Z :=
  match n with
  | O => []
  | S n' => (v / 256 ^ Z.of_nat n') mod 256 :: be_bytes n' v
  end.

(** [count] bytes from the byte at [pos] on, and the buffer with them
    replaced. *)
Definition bytes_at (buf : list Z) (pos count : Z) : outcome (list Z) :=
  if (0 <=? pos) && (0 <=? count) && (pos + count <=? Z.of_nat (List.length buf))
  then Done (firstn (Z.to_nat count) (skipn (Z.to_nat pos) buf))
  else Undefined.

Definition bytes_put (buf : list Z) (pos : Z) (new : list Z) : outcome (list Z) :=
  if (0 <=? pos) && (pos + Z.of_nat (List.length new) <=? Z.of_nat (List.length buf))
  then Done (firstn (Z.to_nat pos) buf ++ new
             ++ skipn (Z.to_nat pos + List.length new) buf)
  else Undefined.

(** [beN_to_cpu(b[offset])] and [b[offset] = cpu_to_beN(v)] for [b] the
    buffer as an array of [t]; for [U8], [b[offset]] and [b[offset] = v]. *)
Definition load (t : utype) (buf : list Z) (offset : Z) : outcome Z :=
  bytes <- bytes_at buf (sizeof t * offset) (sizeof t) ;;
  Done (be_value bytes).

Definition store (t : utype) (buf : list Z) (offset v : Z) : outcome (list Z) :=
  bytes_put buf (sizeof t * offset) (be_bytes (Z.to_nat (sizeof t)) v).

(** ** Items *)

(** The union [size]. *)
Inductive item_size : Type :=
| in_bits (bits : Z)
| in_bytes (bytes : Z).

Record mlxsw_item : Type := {
  offset : Z;          (* unsigned short: bytes in container *)
  step : Z;            (* unsigned short: step in bytes for indexed items *)
  in_step_offset : Z;  (* unsigned short: offset within one step *)
  shift : Z;           (* unsigned char: shift in bits *)
  element_size : Z;    (* unsigned char: size of element in bit array *)
  size : item_size
}.

Definition size_bits (item : mlxsw_item) : outcome Z :=
  match size item with
  | in_bits bits => Done bits
  | in_bytes _ => Undefined
  end.

Definition size_bytes (item : mlxsw_item) : outcome Z :=
  match size item with
  | in_bytes bytes => Done bytes
  | in_bits _ => Undefined
  end.

(** The fields hold values of their C types. *)
Definition in_range (item : mlxsw_item) : Prop :=
  0 <= offset item < 2 ^ 16 /\ 0 <= step item < 2 ^ 16 /\
  0 <= in_step_offset item < 2 ^ 16 /\
  0 <= shift item < 2 ^ 8 /\ 0 <= element_size item < 2 ^ 8 /\
  match size item with
  | in_bits bits => 0 <= bits < 2 ^ 8
  | in_bytes bytes => 0 <= bytes < 2 ^ 16
  end.

(** The items the macros define: [MLXSW_ITEM8] to [MLXSW_ITEM64], their
    [_INDEXED] variants, [MLXSW_ITEM_BUF], [MLXSW_ITEM_BUF_INDEXED] and
    [MLXSW_ITEM_BIT_ARRAY].  A field the initialiser does not name is 0. *)
Definition MLXSW_ITEM (_offset _shift _sizebits : Z) : mlxsw_item :=
  {| offset := _offset; step := 0; in_step_offset := 0; shift := _shift;
     element_size := 0; size := in_bits _sizebits |}.

Definition MLXSW_ITEM_INDEXED (_offset _shift _sizebits _step _instepoffset : Z)
    : mlxsw_item :=
  {| offset := _offset; step := _step; in_step_offset := _instepoffset;
     shift := _shift; element_size := 0; size := in_bits _sizebits |}.

Definition MLXSW_ITEM_BUF (_offset _sizebytes : Z) : mlxsw_item :=
  {| offset := _offset; step := 0; in_step_offset := 0; shift := 0;
     element_size := 0; size := in_bytes _sizebytes |}.

Definition MLXSW_ITEM_BUF_INDEXED (_offset _sizebytes _step _instepoffset : Z)
    : mlxsw_item :=
  {| offset := _offset; step := _step; in_step_offset := _instepoffset;
     shift := 0; element_size := 0; size := in_bytes _sizebytes |}.

Definition MLXSW_ITEM_BIT_ARRAY (_offset _sizebytes _element_size : Z) : mlxsw_item :=
  {| offset := _offset; step := 0; in_step_offset := 0; shift := 0;
     element_size := _element_size; size := in_bytes _sizebytes |}.

Section Accessors.

(** 32 or 64, by the architecture. *)
Variable BITS_PER_LONG : Z.

Definition GEN_MASK (h l : Z) : outcome Z := gen_mask BITS_PER_LONG h l.

(** [GEN_MASK(h, l)] in the accessors of [u8], [u16] and [u32], and
    [GEN_MASK_ULL(h, l)] in those of [u64], with the width of its type. *)
Definition mask_width (t : utype) : Z :=
  match t with U64 => BITS_PER_LONG_LONG | _ => BITS_PER_LONG end.

Definition mask_of (t : utype) (h l : Z) : outcome Z := gen_mask (mask_width t) h l.

(** The width of [t] after the integer promotions. *)
Definition promoted (t : utype) : Z :=
  match t with U64 => 64 | _ => 32 end.

(** [val <<= n] for [val] of type [t]: [u8] and [u16] are promoted to
    [int]. *)
Definition shl_assign (t : utype) (val n : Z) : outcome Z :=
  match t with
  | U8 | U16 => v <- shl_int val n ;; Done (cast t v)
  | U32 | U64 => v <- shl (promoted t) val n ;; Done (cast t v)
  end.

(** [tmp >>= n] for [tmp] of type [t]. *)
Definition shr_assign (t : utype) (tmp n : Z) : outcome Z :=
  v <- shr (promoted t) tmp n ;; Done (cast t v).

Definition __mlxsw_item_offset (item : mlxsw_item) (outer_index index typesize : Z)
    : outcome Z :=
  if negb (index =? 0) && (step item =? 0) then Bug
  else if negb (offset item mod typesize =? 0)
          || negb (step item mod typesize =? 0)
          || negb (in_step_offset item mod typesize =? 0)
  then Bug
  else
    Done (wrap 32
            (wrap BITS_PER_LONG
               (offset item + outer_index * typesize
                + wrap 32 (step item * index) + in_step_offset item)
             / typesize)).

(** [__mlxsw_item_get8], [__mlxsw_item_get16], [__mlxsw_item_get32] and
    [__mlxsw_item_get64] are one text at four types. *)
Definition __mlxsw_item_get (t : utype) (buf : list Z) (item : mlxsw_item)
    (outer_index index : Z) : outcome Z :=
  offset <- __mlxsw_item_offset item outer_index index (sizeof t) ;;
  tmp <- load t buf offset ;;
  tmp <- shr_assign t tmp (shift item) ;;
  bits <- size_bits item ;;
  mask <- mask_of t (bits - 1) 0 ;;
  Done (cast t (Z.land tmp mask)).

(** [__mlxsw_item_set8], [__mlxsw_item_set16], [__mlxsw_item_set32] and
    [__mlxsw_item_set64]; the answer is the buffer as the call leaves it. *)
Definition __mlxsw_item_set (t : utype) (buf : list Z) (item : mlxsw_item)
    (outer_index index val : Z) : outcome (list Z) :=
  offset <- __mlxsw_item_offset item outer_index index (sizeof t) ;;
  bits <- size_bits item ;;
  mask <- mask_of t (bits - 1) 0 ;;
  mask <- shl (mask_width t) mask (shift item) ;;
  let mask := cast t mask in
  val <- shl_assign t val (shift item) ;;
  let val := cast t (Z.land val mask) in
  tmp <- load t buf offset ;;
  let tmp := cast t (Z.land tmp (Z.lnot mask)) in
  let tmp := cast t (Z.lor tmp val) in
  store t buf offset tmp.

Definition __mlxsw_item_get8 := __mlxsw_item_get U8.
Definition __mlxsw_item_set8 := __mlxsw_item_set U8.
Definition __mlxsw_item_get16 := __mlxsw_item_get U16.
Definition __mlxsw_item_set16 := __mlxsw_item_set U16.
Definition __mlxsw_item_get32 := __mlxsw_item_get U32.
Definition __mlxsw_item_set32 := __mlxsw_item_set U32.
Definition __mlxsw_item_get64 := __mlxsw_item_get U64.
Definition __mlxsw_item_set64 := __mlxsw_item_set U64.

(** The answer of [__mlxsw_item_memcpy_from] is what it copies to [dst]. *)
Definition __mlxsw_item_memcpy_from (buf : list Z) (item : mlxsw_item) (index : Z)
    : outcome (list Z) :=
  offset <- __mlxsw_item_offset item 0 index 1 ;;
  bytes <- size_bytes item ;;
  bytes_at buf offset bytes.

(** [src] is the memory from the pointer [src] on; the answer is the
    buffer as the call leaves it. *)
Definition __mlxsw_item_memcpy_to (buf src : list Z) (item : mlxsw_item) (index : Z)
    : outcome (list Z) :=
  offset <- __mlxsw_item_offset item 0 index 1 ;;
  bytes <- size_bytes item ;;
  copied <- bytes_at src 0 bytes ;;
  bytes_put buf offset copied.

(** The answer of [__mlxsw_item_data] is the position in the buffer its
    pointer points to. *)
Definition __mlxsw_item_data (item : mlxsw_item) (index : Z) : outcome Z :=
  __mlxsw_item_offset item 0 index 1.

(** The answer is the byte offset the function returns and what it stores
    through [shift]. *)
Definition __mlxsw_item_bit_array_offset (item : mlxsw_item) (index : Z)
    : outcome (Z * Z) :=
  if negb (index =? 0) && (element_size item =? 0) then Bug
  else if negb (offset item mod 4 =? 0) then Bug
  else if element_size item =? 0 then Undefined
  else if negb (BITS_PER_BYTE mod element_size item =? 0) then Bug
  else
    bytes <- size_bytes item ;;
    let max_index := wrap 16 (Z.shiftl bytes 3 / element_size item - 1) in
    let be_index := wrap 16 (max_index - index) in
    let offset' := wrap 16 (Z.shiftr (be_index * element_size item) 3) in
    let in_byte_index := wrap 8 (index mod (BITS_PER_BYTE / element_size item)) in
    let shift' := wrap 8 (in_byte_index * element_size item) in
    Done (wrap 16 (offset item + offset'), shift').

Definition __mlxsw_item_bit_array_get (buf : list Z) (item : mlxsw_item) (index : Z)
    : outcome Z :=
  '(offset, shift) <- __mlxsw_item_bit_array_offset item index ;;
  tmp <- load U8 buf offset ;;
  tmp <- shr_assign U8 tmp shift ;;
  mask <- GEN_MASK (element_size item - 1) 0 ;;
  Done (cast U8 (Z.land tmp mask)).

Definition __mlxsw_item_bit_array_set (buf : list Z) (item : mlxsw_item)
    (index val : Z) : outcome (list Z) :=
  '(offset, shift) <- __mlxsw_item_bit_array_offset item index ;;
  mask <- GEN_MASK (element_size item - 1) 0 ;;
  mask <- shl BITS_PER_LONG mask shift ;;
  let mask := cast U8 mask in
  val <- shl_assign U8 val shift ;;
  let val := cast U8 (Z.land val mask) in
  tmp <- load U8 buf offset ;;
  let tmp := cast U8 (Z.land tmp (Z.lnot mask)) in
  let tmp := cast U8 (Z.lor tmp val) in
  store U8 buf offset tmp.

(** The functions [mlxsw_<type>_<cname>_<iname>_get] and [..._set] that
    [MLXSW_ITEM8], [MLXSW_ITEM16], [MLXSW_ITEM32] and [MLXSW_ITEM64] define
    beside the item. *)
Definition mlxsw_item_get (t : utype) (_offset _shift _sizebits : Z) (buf : list Z)
    : outcome Z :=
  __mlxsw_item_get t buf (MLXSW_ITEM _offset _shift _sizebits) 0 0.

Definition mlxsw_item_set (t : utype) (_offset _shift _sizebits : Z) (buf : list Z)
    (val : Z) : outcome (list Z) :=
  __mlxsw_item_set t buf (MLXSW_ITEM _offset _shift _sizebits) 0 0 val.

End Accessors.

(** ** Vocabulary of the statements *)

(** A buffer of bytes. *)
Definition is_bytes (buf : list Z) : Prop := Forall (fun b => 0 <= b < 256) buf.

(** A bit field that fits the word of [t]. *)
Definition fits (t : utype) (item : mlxsw_item) (bits : Z) : Prop :=
  size item = in_bits bits /\ 0 < bits /\ 0 <= shift item /\
  shift item + bits <= width t.

(** The bits [s] to [s + b - 1] of [word], as a number. *)
Definition field (s b word : Z) : Z := Z.shiftr word s mod 2 ^ b.

(** The bits of two fields of a word do not meet. *)
Definition apart (s b s' b' : Z) : Prop := s + b <= s' \/ s' + b' <= s.

(** The byte at position [i], 0 outside the buffer. *)
Definition byte_at (buf : list Z) (i : Z) : Z := nth (Z.to_nat i) buf 0.

(** ** Concrete items and buffers *)

(** A buffer of eight bytes; a field of twelve bits in its second 32-bit
    word and the field above it in the same word; an indexed item of
    eight bits in 16-bit elements; a run of three bytes; an array of
    sixteen elements of two bits in the second 32-bit word. *)
Definition sample_buf : list Z := [0x12; 0x34; 0x56; 0x78; 0x9a; 0xbc; 0xde; 0xf0].
Definition sample_item : mlxsw_item := MLXSW_ITEM 4 8 12.
Definition sample_neighbour : mlxsw_item := MLXSW_ITEM 4 20 12.
Definition sample_indexed : mlxsw_item := MLXSW_ITEM_INDEXED 0 4 8 2 0.
Definition sample_run : mlxsw_item := MLXSW_ITEM_BUF 2 3.
Definition sample_array : mlxsw_item := MLXSW_ITEM_BIT_ARRAY 4 4 2.

(** A field of three bits in the second byte, a field of sixty bits in
    the 64-bit word, and indexed runs of two bytes, one byte into steps of
    four. *)
Definition sample_narrow : mlxsw_item := MLXSW_ITEM 1 2 3.
Definition sample_wide : mlxsw_item := MLXSW_ITEM 0 4 60.
Definition sample_runs : mlxsw_item := MLXSW_ITEM_BUF_INDEXED 0 2 4 1.

(** [sample_buf] after 0xfff was written to [sample_item], after 0xff was
    written to the element 1 of [sample_indexed], and after the bytes 1, 2
    and 3 were copied to [sample_run]. *)
Definition sample_written : list Z := [0x12; 0x34; 0x56; 0x78; 0x9a; 0xbf; 0xff; 0xf0].
Definition sample_written16 : list Z := [0x12; 0x34; 0x5f; 0xf8; 0x9a; 0xbc; 0xde; 0xf0].
Definition sample_copied : list Z := [0x12; 0x34; 1; 2; 3; 0xbc; 0xde; 0xf0].

(** [sample_buf] after 2 was written to [sample_narrow]. *)
Definition sample_written8 : list Z := [0x12; 0x28; 0x56; 0x78; 0x9a; 0xbc; 0xde; 0xf0].

End Item.

(** ** Time *)

Section Jiffies.

Variable cfg : build.
Hypothesis hz : hz_supported cfg = true.

Lemma msec_per_jiffy_pos : 1 <= MSEC_PER_SEC / HZ cfg.
Proof.
  unfold hz_supported in hz. apply andb_prop in hz as [Hpos Hdiv].
  apply Z.ltb_lt in Hpos. apply Z.eqb_eq in Hdiv. unfold MSEC_PER_SEC in *.
  assert (HZ cfg <= 1000).
  { destruct (Z_le_gt_dec (HZ cfg) 1000) as [|Hgt]; [assumption|].
    rewrite Z.mod_small in Hdiv by lia. discriminate. }
  apply Z.div_le_lower_bound; lia.
Qed.

Lemma msec_per_jiffy_exact : MSEC_PER_SEC / HZ cfg * HZ cfg = MSEC_PER_SEC.
Proof.
  unfold hz_supported in hz. apply andb_prop in hz as [Hpos Hdiv].
  apply Z.ltb_lt in Hpos. apply Z.eqb_eq in Hdiv.
  rewrite Z.mul_comm. symmetry. apply Z.div_exact; [lia | assumption].
Qed.

Lemma HZ_pos : 0 < HZ cfg.
Proof.
  unfold hz_supported in hz. apply andb_prop in hz as [Hpos _].
  now apply Z.ltb_lt in Hpos.
Qed.

Lemma msecs_to_jiffies_small m :
  m < 2 ^ 31 ->
  msecs_to_jiffies cfg m
  = (m + (MSEC_PER_SEC / HZ cfg) - 1) / (MSEC_PER_SEC / HZ cfg).
Proof.
  intros Hm. unfold msecs_to_jiffies.
  destruct (Z.leb_spec (2 ^ 31) m); [lia | reflexivity].
Qed.


(** Below 2^31 milliseconds [msecs_to_jiffies] rounds up: the jiffies cover
    the milliseconds, and one jiffy less would not. *)
Lemma msecs_to_jiffies_covers m :
  m < 2 ^ 31 ->
  m <= MSEC_PER_SEC / HZ cfg * msecs_to_jiffies cfg m /\
  MSEC_PER_SEC / HZ cfg * msecs_to_jiffies cfg m < m + MSEC_PER_SEC / HZ cfg.
Proof.
  intros Hm. rewrite (msecs_to_jiffies_small m Hm).
  pose proof msec_per_jiffy_pos as Hk.
  set (k := MSEC_PER_SEC / HZ cfg) in *.
  pose proof (Z.mul_div_le (m + k - 1) k ltac:(lia)).
  pose proof (Z.mul_succ_div_gt (m + k - 1) k ltac:(lia)).
  lia.
Qed.

Lemma msecs_to_jiffies_nonneg m : 0 <= m < 2 ^ 31 -> 0 <= msecs_to_jiffies cfg m.
Proof.
  intros Hm. pose proof msec_per_jiffy_pos.
  pose proof (msecs_to_jiffies_covers m ltac:(lia)).
  nia.
Qed.

Lemma msecs_to_jiffies_pos m : 1 <= m < 2 ^ 31 -> 1 <= msecs_to_jiffies cfg m.
Proof.
  intros Hm. pose proof msec_per_jiffy_pos.
  pose proof (msecs_to_jiffies_covers m ltac:(lia)).
  nia.
Qed.

(** [jiffies_to_msecs] answers an [unsigned int]. *)
Lemma jiffies_to_msecs_range j : 0 <= jiffies_to_msecs cfg j < 2 ^ 32.
Proof. unfold jiffies_to_msecs, u32. apply Z.mod_pos_bound. lia. Qed.

End Jiffies.

(** ** The monad and the kernel services, as equations *)

Lemma bind_eq {A B} (m : M A) (k : A -> M B) w :
  bind m k w = match m w with
               | Ret a w' => k a w'
               | Stuck s => Stuck s
               end.
Proof. reflexivity. Qed.

Lemma bind_ret {A B} (m : M A) (k : A -> M B) w a w' :
  m w = Ret a w' -> bind m k w = k a w'.
Proof. intros H. unfold bind. rewrite H. reflexivity. Qed.

Lemma log_logged e w : log (logged e w) = log w ++ [tag (dev_sw_rst_flow w) e].
Proof. reflexivity. Qed.

Lemma steps_refl w : steps w w [].
Proof.
  unfold steps. cbn [map]. rewrite app_nil_r. repeat split; lia.
Qed.

Lemma steps_trans w w1 w2 evs1 evs2 :
  steps w w1 evs1 -> steps w1 w2 evs2 -> steps w w2 (evs1 ++ evs2).
Proof.
  intros (Hl1 & Hf1 & Hd1 & Hj1) (Hl2 & Hf2 & Hd2 & Hj2).
  unfold steps. rewrite Hl2, Hl1, Hf1, map_app, app_assoc.
  repeat split; try congruence; lia.
Qed.

Lemma steps_logged e w : steps w (logged e w) [e].
Proof. unfold steps. cbn. repeat split; lia. Qed.

Lemma steps_cons e w w' evs :
  steps (logged e w) w' evs -> steps w w' (e :: evs).
Proof. intros H. exact (steps_trans _ _ _ [e] evs (steps_logged e w) H). Qed.

Section Services.

Variable cfg : build.
Variable hw : hardware.

Lemma emit_eq e w : emit e w = Ret tt (logged e w).
Proof. reflexivity. Qed.

Lemma ret_eq {A} (a : A) w : ret a w = Ret a w.
Proof. reflexivity. Qed.

Lemma get_eq {A} (f : world -> A) w : get f w = Ret (f w) w.
Proof. reflexivity. Qed.

Lemma modify_eq f w : modify f w = Ret tt (f w).
Proof. reflexivity. Qed.

Lemma iounmap_eq offset w : iounmap offset w = Ret tt (logged (EvIounmap offset) w).
Proof. reflexivity. Qed.

Lemma writel_eq val offset w : writel val offset w = Ret tt (logged (EvWritel offset val) w).
Proof. reflexivity. Qed.

Lemma msleep_eq msecs w : msleep cfg hw msecs w = Ret tt (slept cfg hw msecs w).
Proof. reflexivity. Qed.

Lemma ioremap_eq offset size w :
  ioremap hw offset size w =
  Ret (hw_ioremap hw (List.length (log w)))
      (logged (EvIoremap offset size (hw_ioremap hw (List.length (log w)))) w).
Proof. reflexivity. Qed.

Lemma ioread32be_eq offset w :
  ioread32be hw offset w =
  Ret (u32 (hw_ioread32be hw (List.length (log w))))
      (logged (EvIoread32be offset (u32 (hw_ioread32be hw (List.length (log w))))) w).
Proof. reflexivity. Qed.

Lemma read_jiffies_eq place w :
  read_jiffies hw place w = Ret (jiffies (ticked hw place w)) (ticked hw place w).
Proof. reflexivity. Qed.

Lemma jiffies_ticked place w : jiffies w <= jiffies (ticked hw place w).
Proof. unfold ticked. cbn. lia. Qed.

Lemma log_ticked place w : log (ticked hw place w) = log w.
Proof. reflexivity. Qed.

Lemma steps_ticked place w : steps w (ticked hw place w) [].
Proof.
  unfold steps. cbn [map]. rewrite app_nil_r.
  pose proof (jiffies_ticked place w). repeat split. assumption.
Qed.

Lemma jiffies_slept msecs w :
  jiffies (slept cfg hw msecs w) =
  jiffies w + msecs_to_jiffies cfg msecs
  + Z.of_N (hw_sleep_extra hw (List.length (log w))).
Proof. unfold slept. cbv zeta. destruct (hw_trigger_write hw _); reflexivity. Qed.

Lemma log_slept msecs w :
  log (slept cfg hw msecs w) = log w ++ [tag (dev_sw_rst_flow w) (EvMsleep msecs)].
Proof. unfold slept. cbv zeta. destruct (hw_trigger_write hw _); reflexivity. Qed.

Lemma flow_slept msecs w :
  dev_sw_rst_flow (slept cfg hw msecs w) = dev_sw_rst_flow w.
Proof. unfold slept. cbv zeta. destruct (hw_trigger_write hw _); reflexivity. Qed.

Lemma debug_slept msecs w :
  debug_fw_trace_boot_flow (slept cfg hw msecs w) = debug_fw_trace_boot_flow w.
Proof. unfold slept. cbv zeta. destruct (hw_trigger_write hw _); reflexivity. Qed.

Hypothesis hz : hz_supported cfg = true.

Lemma steps_slept msecs w :
  0 <= msecs < 2 ^ 31 -> steps w (slept cfg hw msecs w) [EvMsleep msecs].
Proof.
  intros Hm. unfold steps.
  rewrite log_slept, flow_slept, debug_slept, jiffies_slept.
  pose proof (msecs_to_jiffies_nonneg cfg hz msecs Hm).
  repeat split; lia.
Qed.

(** ** The poll of the status register *)

(** The loop of [__wait_for_system_ready], from any point at which it is
    entered. *)
Lemma wait_for_system_ready_loop_spec fuel start end_ tw :
  forall w,
    (Z.to_nat (end_ - jiffies w) < fuel)%nat ->
    start <= jiffies w ->
    exists r w' evs ready,
      wait_for_system_ready_loop cfg hw fuel start end_ tw w = Ret r w' /\
      steps w w' evs /\ polled evs ready /\
      Z.of_nat (sleeps evs) <= Z.max 1 (end_ - jiffies w) /\
      (ready = true ->
       r = (0, if tw then Some (jiffies_to_msecs cfg (jiffies w' - start)) else None)) /\
      (ready = false -> r = (- ETIME, None) /\ end_ <= jiffies w').
Proof.
  induction fuel as [|fuel IH]; intros w Hfuel Hstart; [lia|].
  cbn [wait_for_system_ready_loop].
  rewrite bind_eq, ioread32be_eq.
  set (val := u32 (hw_ioread32be hw (List.length (log w)))).
  set (w1 := logged (EvIoread32be SX_SYSTEM_STATUS_REG_OFFSET val) w).
  destruct (system_status_enabled val) eqn:Hval.
  - destruct tw.
    + rewrite bind_eq, read_jiffies_eq. cbv beta iota. rewrite ret_eq.
      exists (0, Some (jiffies_to_msecs cfg (jiffies (ticked hw WAIT_WAITED w1) - start))),
        (ticked hw WAIT_WAITED w1), [EvIoread32be SX_SYSTEM_STATUS_REG_OFFSET val], true.
      split; [reflexivity|]. split.
      { exact (steps_trans _ _ _ [_] [] (steps_logged _ w) (steps_ticked _ w1)). }
      split; [now constructor|]. split; [cbn [sleeps]; lia|].
      split; [reflexivity | discriminate].
    + rewrite ret_eq.
      exists (0, None), w1, [EvIoread32be SX_SYSTEM_STATUS_REG_OFFSET val], true.
      split; [reflexivity|]. split; [apply steps_logged|].
      split; [now constructor|]. split; [cbn [sleeps]; lia|].
      split; [reflexivity | discriminate].
  - rewrite bind_eq, msleep_eq. cbv beta iota.
    set (w2 := slept cfg hw 1 w1).
    assert (Hj2 : jiffies w + 1 <= jiffies w2).
    { unfold w2. rewrite jiffies_slept.
      pose proof (msecs_to_jiffies_pos cfg hz 1 ltac:(lia)).
      change (jiffies w1) with (jiffies w). lia. }
    assert (Hs2 : steps w w2 [EvIoread32be SX_SYSTEM_STATUS_REG_OFFSET val; EvMsleep 1]).
    { apply steps_cons. apply steps_slept. lia. }
    rewrite bind_eq, read_jiffies_eq. cbv beta iota.
    set (w3 := ticked hw WAIT_TEST w2).
    pose proof (jiffies_ticked WAIT_TEST w2) as Hj3. fold w3 in Hj3.
    assert (Hs3 : steps w w3 [EvIoread32be SX_SYSTEM_STATUS_REG_OFFSET val; EvMsleep 1]).
    { exact (steps_trans _ _ _ [_; _] [] Hs2 (steps_ticked _ w2)). }
    unfold time_before. destruct (jiffies w3 <? end_) eqn:Hbefore.
    + apply Z.ltb_lt in Hbefore.
      destruct (IH w3) as (r & w' & evs & ready & Hrun & Hsteps & Hpoll & Hn & Hready & Htimeout);
        [lia | lia |].
      exists r, w', (EvIoread32be SX_SYSTEM_STATUS_REG_OFFSET val :: EvMsleep 1 :: evs), ready.
      split; [exact Hrun|].
      split; [exact (steps_trans _ _ _ [_; _] evs Hs3 Hsteps)|].
      split; [now constructor|].
      split; [cbn [sleeps]; lia|]. split; assumption.
    + apply Z.ltb_ge in Hbefore.
      exists (- ETIME, None), w3, [EvIoread32be SX_SYSTEM_STATUS_REG_OFFSET val; EvMsleep 1], false.
      split; [reflexivity|]. split; [exact Hs3|].
      split; [now constructor|]. split; [cbn [sleeps]; lia|]. split; [discriminate|].
      intros _. split; [reflexivity | assumption].
Qed.

Lemma msecs_to_jiffies_0 : msecs_to_jiffies cfg 0 = 0.
Proof.
  pose proof (msec_per_jiffy_pos cfg hz).
  rewrite (msecs_to_jiffies_small cfg 0 ltac:(lia)).
  apply Z.div_small. lia.
Qed.

(** [__wait_for_system_ready] from its two reads of the clock on: [w1] is
    the world after the status register was mapped. *)
Lemma wait_for_system_ready_run wait_for_reset_msec tw w1 :
  let w2 := ticked hw WAIT_START w1 in
  let w3 := ticked hw WAIT_END w2 in
  let start := jiffies w2 in
  let end_ := jiffies w3 + msecs_to_jiffies cfg wait_for_reset_msec in
  exists r w' body ready,
    (start <- read_jiffies hw WAIT_START ;;
     now <- read_jiffies hw WAIT_END ;;
     let end_ := now + msecs_to_jiffies cfg wait_for_reset_msec in
     emit (EvWaitInfo wait_for_reset_msec start end_) ;;
     r <- wait_for_system_ready_loop cfg hw (S (Z.to_nat (end_ - now))) start end_ tw ;;
     iounmap SX_SYSTEM_STATUS_REG_OFFSET ;;
     ret r) w1 = Ret r w' /\
    steps w1 w'
      (EvWaitInfo wait_for_reset_msec start end_
       :: body ++ [EvIounmap SX_SYSTEM_STATUS_REG_OFFSET]) /\
    polled body ready /\
    Z.of_nat (sleeps body) <= Z.max 1 (msecs_to_jiffies cfg wait_for_reset_msec) /\
    (ready = true ->
     r = (0, if tw then Some (jiffies_to_msecs cfg (jiffies w' - start)) else None)) /\
    (ready = false -> r = (- ETIME, None) /\ end_ <= jiffies w') /\
    jiffies w3 <= jiffies w'.
Proof.
  intros w2 w3 start end_.
  rewrite bind_eq, read_jiffies_eq. cbv beta iota.
  rewrite bind_eq, read_jiffies_eq. cbv beta iota zeta.
  rewrite bind_eq, emit_eq. cbv beta iota.
  fold w2. fold w3. fold start. fold end_.
  set (w4 := logged (EvWaitInfo wait_for_reset_msec start end_) w3).
  pose proof (jiffies_ticked WAIT_END w2) as Hj3. fold w3 in Hj3. fold start in Hj3.
  destruct (wait_for_system_ready_loop_spec (S (Z.to_nat (end_ - jiffies w3))) start end_ tw w4)
    as (r & w5 & body & ready & Hrun & Hsteps & Hpoll & Hn & Hready & Htimeout).
  { change (jiffies w4) with (jiffies w3). lia. }
  { change (jiffies w4) with (jiffies w3). lia. }
  rewrite (bind_ret _ _ _ _ _ Hrun).
  rewrite bind_eq, iounmap_eq. cbv beta iota. rewrite ret_eq.
  exists r, (logged (EvIounmap SX_SYSTEM_STATUS_REG_OFFSET) w5), body, ready.
  split; [reflexivity|]. split.
  { refine (steps_trans _ _ _ [] _ (steps_ticked WAIT_START w1) _). fold w2.
    refine (steps_trans _ _ _ [] _ (steps_ticked WAIT_END w2) _). fold w3.
    apply steps_cons. fold w4.
    exact (steps_trans _ _ _ _ _ Hsteps (steps_logged _ w5)). }
  split; [exact Hpoll|]. split.
  { change (jiffies w4) with (jiffies w3) in Hn. unfold end_ in Hn. lia. }
  split; [exact Hready|]. split; [exact Htimeout|].
  destruct Hsteps as (_ & _ & _ & Hle). exact Hle.
Qed.

Lemma wait_for_system_ready_spec dev p wait_for_reset_msec tw w :
  pdev dev = Some p -> 0 <= wait_for_reset_msec ->
  exists r w' evs,
    __wait_for_system_ready cfg hw dev wait_for_reset_msec tw w = Ret r w' /\
    steps w w' evs /\
    wait_outcome cfg wait_for_reset_msec tw w w'
      (hw_ioremap hw (List.length (log w))) r evs.
Proof.
  intros Hp Hm. unfold __wait_for_system_ready, wait_outcome. rewrite Hp. cbn [deref].
  rewrite bind_eq, ret_eq. cbv beta iota.
  rewrite bind_eq, ioremap_eq. cbv beta iota.
  destruct (hw_ioremap hw (List.length (log w))) eqn:Hmap; cbn [negb].
  - set (w1 := logged (EvIoremap SX_SYSTEM_STATUS_REG_OFFSET SX_SYSTEM_STATUS_REG_SIZE true) w).
    pose proof (wait_for_system_ready_run wait_for_reset_msec tw w1) as Hrun.
    cbv zeta in Hrun.
    destruct Hrun
      as (r & w' & body & ready & Hrun & Hsteps & Hpoll & Hn & Hready & Htimeout & _).
    rewrite Hrun.
    set (w2 := ticked hw WAIT_START w1) in *.
    set (w3 := ticked hw WAIT_END w2) in *.
    exists r, w', (EvIoremap SX_SYSTEM_STATUS_REG_OFFSET SX_SYSTEM_STATUS_REG_SIZE true
                   :: EvWaitInfo wait_for_reset_msec (jiffies w2)
                        (jiffies w3 + msecs_to_jiffies cfg wait_for_reset_msec)
                   :: body ++ [EvIounmap SX_SYSTEM_STATUS_REG_OFFSET]).
    split; [reflexivity|]. split; [apply steps_cons; exact Hsteps|].
    exists (jiffies w2), (jiffies w3), body, ready.
    split; [reflexivity|]. split.
    { pose proof (jiffies_ticked WAIT_START w1). pose proof (jiffies_ticked WAIT_END w2).
      fold w2 in H. fold w3 in H0. change (jiffies w1) with (jiffies w) in H. lia. }
    split; [exact Hpoll|]. split; [exact Hn|]. split.
    + intros Hr. rewrite (Hready Hr).
      exists (jiffies_to_msecs cfg (jiffies w' - jiffies w2)).
      split; [reflexivity | apply jiffies_to_msecs_range].
    + exact Htimeout.
  - rewrite ret_eq.
    exists (- ENOMEM, None),
      (logged (EvIoremap SX_SYSTEM_STATUS_REG_OFFSET SX_SYSTEM_STATUS_REG_SIZE false) w),
      [EvIoremap SX_SYSTEM_STATUS_REG_OFFSET SX_SYSTEM_STATUS_REG_SIZE false].
    split; [reflexivity|]. split; [apply steps_logged|]. split; reflexivity.
Qed.

End Services.

(** ** Shape of a poll *)



Lemma polled_no_trigger evs ready : polled evs ready -> no_trigger evs = true.
Proof. induction 1; cbn; auto. Qed.

Lemma polled_wait_budgets evs ready : polled evs ready -> wait_budgets evs = [].
Proof. induction 1; cbn; auto. Qed.

Lemma wait_budgets_app evs1 evs2 :
  wait_budgets (evs1 ++ evs2) = wait_budgets evs1 ++ wait_budgets evs2.
Proof.
  induction evs1 as [|e evs1 IH]; [reflexivity|].
  destruct e; cbn; rewrite ?IH; reflexivity.
Qed.

(** ** The claims on the status poller *)

Section Poller.

Variable cfg : build.
Variable hw : hardware.
Hypothesis hz : hz_supported cfg = true.

(** C4 (as amended).  Called with a budget of zero on a status register
    that maps, [__wait_for_system_ready] reads the status word exactly once;
    it answers 0 without sleeping if the low byte of that word is 0x5E, and
    otherwise sleeps once, for one millisecond, before it answers -ETIME.
    The clock runs on meanwhile: [start] and [end_] are the two values the
    call reads and logs before it polls, and the time waited it reports is
    the time from [start] to [now], the value it reads after the read of
    the status word. *)
Theorem wait_for_system_ready_zero_budget dev p tw w :
  pdev dev = Some p ->
  hw_ioremap hw (List.length (log w)) = true ->
  let val := u32 (hw_ioread32be hw (S (S (List.length (log w))))) in
  exists start end_ now w',
    __wait_for_system_ready cfg hw dev 0 tw w =
      Ret (if system_status_enabled val
           then (0, if tw then Some (jiffies_to_msecs cfg (now - start)) else None)
           else (- ETIME, None)) w' /\
    steps w w'
      ([EvIoremap SX_SYSTEM_STATUS_REG_OFFSET SX_SYSTEM_STATUS_REG_SIZE true;
        EvWaitInfo 0 start end_;
        EvIoread32be SX_SYSTEM_STATUS_REG_OFFSET val]
       ++ (if system_status_enabled val then [] else [EvMsleep 1])
       ++ [EvIounmap SX_SYSTEM_STATUS_REG_OFFSET]) /\
    jiffies w <= start <= end_ /\ end_ <= now <= jiffies w'.
Proof.
  intros Hp Hmap val.
  unfold __wait_for_system_ready. rewrite Hp. cbn [deref].
  rewrite bind_eq, ret_eq. cbv beta iota.
  rewrite bind_eq, ioremap_eq, Hmap. cbv beta iota. cbn [negb].
  set (w1 := logged (EvIoremap SX_SYSTEM_STATUS_REG_OFFSET SX_SYSTEM_STATUS_REG_SIZE true) w).
  rewrite bind_eq, read_jiffies_eq. cbv beta iota.
  set (w2 := ticked hw WAIT_START w1).
  rewrite bind_eq, read_jiffies_eq. cbv beta iota.
  set (w3 := ticked hw WAIT_END w2).
  rewrite (msecs_to_jiffies_0 cfg hz), Z.add_0_r, Z.sub_diag.
  change (Z.to_nat 0) with 0%nat.
  rewrite bind_eq, emit_eq. cbv beta iota.
  set (w4 := logged (EvWaitInfo 0 (jiffies w2) (jiffies w3)) w3).
  pose proof (jiffies_ticked hw WAIT_START w1) as Hj2. fold w2 in Hj2.
  change (jiffies w1) with (jiffies w) in Hj2.
  pose proof (jiffies_ticked hw WAIT_END w2) as Hj3. fold w3 in Hj3.
  cbn [wait_for_system_ready_loop].
  rewrite bind_eq. rewrite (bind_eq (ioread32be hw _)), (ioread32be_eq hw).
  assert (Hpos : List.length (log w4) = S (S (List.length (log w)))).
  { unfold w4, w3, w2, w1. rewrite !log_logged, !log_ticked, !log_logged, !length_app.
    cbn [List.length]. lia. }
  rewrite Hpos. fold val. cbv beta iota.
  set (w5 := logged (EvIoread32be SX_SYSTEM_STATUS_REG_OFFSET val) w4).
  assert (Hs5 : steps w w5
            [EvIoremap SX_SYSTEM_STATUS_REG_OFFSET SX_SYSTEM_STATUS_REG_SIZE true;
             EvWaitInfo 0 (jiffies w2) (jiffies w3);
             EvIoread32be SX_SYSTEM_STATUS_REG_OFFSET val]).
  { apply steps_cons. fold w1.
    refine (steps_trans _ _ _ [] _ (steps_ticked hw WAIT_START w1) _). fold w2.
    refine (steps_trans _ _ _ [] _ (steps_ticked hw WAIT_END w2) _). fold w3.
    do 2 apply steps_cons. apply steps_refl. }
  exists (jiffies w2), (jiffies w3).
  destruct (system_status_enabled val) eqn:Hval.
  - destruct tw.
    + rewrite bind_eq, read_jiffies_eq. cbv beta iota. rewrite ret_eq.
      set (w6 := ticked hw WAIT_WAITED w5).
      rewrite bind_eq, iounmap_eq. cbv beta iota. rewrite ret_eq.
      exists (jiffies w6), (logged (EvIounmap SX_SYSTEM_STATUS_REG_OFFSET) w6).
      split; [reflexivity|]. split.
      { refine (steps_trans _ _ _ _ [_] Hs5 _).
        exact (steps_trans _ _ _ [] [_] (steps_ticked hw WAIT_WAITED w5) (steps_logged _ w6)). }
      pose proof (jiffies_ticked hw WAIT_WAITED w5) as Hj6. fold w6 in Hj6.
      change (jiffies w5) with (jiffies w3) in Hj6.
      change (jiffies (logged (EvIounmap SX_SYSTEM_STATUS_REG_OFFSET) w6)) with (jiffies w6).
      lia.
    + rewrite ret_eq.
      rewrite bind_eq, iounmap_eq. cbv beta iota. rewrite ret_eq.
      exists (jiffies w3), (logged (EvIounmap SX_SYSTEM_STATUS_REG_OFFSET) w5).
      split; [reflexivity|]. split.
      { exact (steps_trans _ _ _ _ [_] Hs5 (steps_logged _ w5)). }
      change (jiffies (logged (EvIounmap SX_SYSTEM_STATUS_REG_OFFSET) w5)) with (jiffies w3).
      lia.
  - rewrite bind_eq, msleep_eq. cbv beta iota.
    set (w6 := slept cfg hw 1 w5).
    rewrite bind_eq, read_jiffies_eq. cbv beta iota.
    set (w7 := ticked hw WAIT_TEST w6).
    assert (Hj6 : jiffies w3 + 1 <= jiffies w6).
    { unfold w6. rewrite jiffies_slept.
      pose proof (msecs_to_jiffies_pos cfg hz 1 ltac:(lia)).
      change (jiffies w5) with (jiffies w3). lia. }
    pose proof (jiffies_ticked hw WAIT_TEST w6) as Hj7. fold w7 in Hj7.
    assert (Hlate : time_before (jiffies w7) (jiffies w3) = false).
    { unfold time_before. apply Z.ltb_ge. lia. }
    rewrite Hlate, ret_eq.
    rewrite bind_eq, iounmap_eq. cbv beta iota. rewrite ret_eq.
    exists (jiffies w7), (logged (EvIounmap SX_SYSTEM_STATUS_REG_OFFSET) w7).
    split; [reflexivity|]. split.
    { refine (steps_trans _ _ _ _ [_; _] Hs5 _).
      apply (steps_trans _ _ _ [_] [_] (steps_slept cfg hw hz 1 w5 ltac:(lia))).
      fold w6.
      exact (steps_trans _ _ _ [] [_] (steps_ticked hw WAIT_TEST w6) (steps_logged _ w7)). }
    change (jiffies (logged (EvIounmap SX_SYSTEM_STATUS_REG_OFFSET) w7)) with (jiffies w7).
    lia.
Qed.


End Poller.

(** ** The register-protocol reset *)

Section RegisterReset.

Variable cfg : build.
Variable hw : hardware.

Lemma chip_reset_duration_range d :
  5000 <= chip_reset_duration cfg d <= 1500000.
Proof.
  unfold chip_reset_duration, SX_SW_RESET_TIMEOUT_MSECS.
  destruct (PD_BU cfg && QUANTUM3_BU cfg), (INCREASED_TIMEOUT cfg), d; lia.
Qed.

Lemma get_chip_reset_duration_eq dev p w :
  pdev dev = Some p ->
  __get_chip_reset_duration cfg dev w = Ret (chip_reset_duration cfg (device p)) w.
Proof. intros Hp. unfold __get_chip_reset_duration. rewrite Hp. reflexivity. Qed.

Lemma out_clear_flow_eq err w :
  out_clear_flow err w = Ret err (set_dev_sw_rst_flow false w).
Proof. reflexivity. Qed.

(** [sdk_sx_reset] once the device was found ready and the MRSR write went
    through: the answer of the check with no budget decides. *)
Lemma sdk_sx_reset_after_check dev p w tw1 w1 w2 err tw3 w3 :
  pdev dev = Some p ->
  __wait_for_system_ready cfg hw dev (chip_reset_duration cfg (device p)) true w
    = Ret (0, tw1) w1 ->
  reset_dev_by_mrsr_reg hw dev (set_dev_sw_rst_flow true w1) = Ret 0 w2 ->
  __wait_for_system_ready cfg hw dev 0 true w2 = Ret (err, tw3) w3 ->
  sdk_sx_reset cfg hw dev w =
    if negb (err =? - ETIME) then Ret (- EFAULT) (set_dev_sw_rst_flow false w3)
    else
      match __wait_for_system_ready cfg hw dev (chip_reset_duration cfg (device p)) true w3 with
      | Ret (err', _) w4 => Ret err' (set_dev_sw_rst_flow false w4)
      | Stuck s => Stuck s
      end.
Proof.
  intros Hp Hwait1 Hmrsr Hwait0. unfold sdk_sx_reset.
  rewrite (bind_ret _ _ _ _ _ (get_chip_reset_duration_eq dev p w Hp)).
  rewrite (bind_ret _ _ _ _ _ Hwait1). cbv beta iota zeta. cbn [Z.eqb negb].
  rewrite bind_eq, modify_eq. cbv beta iota.
  rewrite (bind_ret _ _ _ _ _ Hmrsr). cbn [Z.eqb negb].
  rewrite (bind_ret _ _ _ _ _ Hwait0). cbv beta iota zeta.
  destruct (negb (err =? - ETIME)); [reflexivity|].
  rewrite bind_eq.
  destruct (__wait_for_system_ready cfg hw dev _ true w3) as [[err' tw4] w4|s];
    reflexivity.
Qed.

Hypothesis hz : hz_supported cfg = true.

(** C10.  The check made with no budget answers 0, -ENOMEM (exactly when
    the status register cannot be mapped) or -ETIME, and [sdk_sx_reset]
    answers -EFAULT for the first two alike: the -ENOMEM of the poller does
    not reach the caller. *)
Theorem sdk_sx_reset_masks_poller_error dev p w tw1 w1 w2 :
  pdev dev = Some p ->
  __wait_for_system_ready cfg hw dev (chip_reset_duration cfg (device p)) true w
    = Ret (0, tw1) w1 ->
  reset_dev_by_mrsr_reg hw dev (set_dev_sw_rst_flow true w1) = Ret 0 w2 ->
  exists err tw3 w3,
    __wait_for_system_ready cfg hw dev 0 true w2 = Ret (err, tw3) w3 /\
    (err = 0 \/ err = - ENOMEM \/ err = - ETIME) /\
    (err = - ENOMEM <-> hw_ioremap hw (List.length (log w2)) = false) /\
    (err <> - ETIME ->
     sdk_sx_reset cfg hw dev w = Ret (- EFAULT) (set_dev_sw_rst_flow false w3)).
Proof.
  intros Hp Hwait1 Hmrsr.
  destruct (wait_for_system_ready_spec cfg hw hz dev p 0 true w2 Hp ltac:(lia))
    as ([err tw3] & w3 & evs & Hwait0 & _ & Hout).
  exists err, tw3, w3. split; [exact Hwait0|].
  assert (Hcases : (err = 0 \/ err = - ENOMEM \/ err = - ETIME) /\
                   (err = - ENOMEM <-> hw_ioremap hw (List.length (log w2)) = false)).
  { unfold wait_outcome in Hout.
    destruct (hw_ioremap hw (List.length (log w2))).
    - destruct Hout as (start & now & body & [|] & _ & _ & _ & _ & Hready & Htimeout).
      + destruct (Hready eq_refl) as (t & Heq & _). injection Heq as -> _.
        split; [now left|]. split; discriminate.
      + destruct (Htimeout eq_refl) as (Heq & _). injection Heq as -> _.
        split; [now right; right|]. split; discriminate.
    - destruct Hout as (Heq & _). injection Heq as -> _.
      split; [now right; left|]. split; reflexivity. }
  split; [exact (proj1 Hcases)|]. split; [exact (proj2 Hcases)|].
  intros Herr.
  rewrite (sdk_sx_reset_after_check dev p w tw1 w1 w2 err tw3 w3 Hp Hwait1 Hmrsr Hwait0).
  apply Z.eqb_neq in Herr. rewrite Herr. reflexivity.
Qed.

End RegisterReset.

(** ** The executors *)

Lemma no_trigger_app evs1 evs2 :
  no_trigger (evs1 ++ evs2) = no_trigger evs1 && no_trigger evs2.
Proof. apply forallb_app. Qed.

Lemma wait_outcome_no_trigger cfg m tw w w' mapped r evs :
  wait_outcome cfg m tw w w' mapped r evs -> no_trigger evs = true.
Proof.
  unfold wait_outcome. destruct mapped.
  - intros (start & now & body & ready & -> & _ & Hpoll & _).
    change (no_trigger (body ++ [EvIounmap SX_SYSTEM_STATUS_REG_OFFSET]) = true).
    rewrite no_trigger_app, (polled_no_trigger _ _ Hpoll). reflexivity.
  - intros (_ & ->). reflexivity.
Qed.

Lemma wait_outcome_budgets cfg m tw w w' mapped r evs :
  wait_outcome cfg m tw w w' mapped r evs -> Forall (eq m) (wait_budgets evs).
Proof.
  unfold wait_outcome. destruct mapped.
  - intros (start & now & body & ready & -> & _ & Hpoll & _). cbn [wait_budgets].
    rewrite wait_budgets_app, (polled_wait_budgets _ _ Hpoll). cbn.
    constructor; [reflexivity | constructor].
  - intros (_ & ->). constructor.
Qed.

Lemma wait_outcome_no_mrsr cfg m tw w w' mapped r evs :
  wait_outcome cfg m tw w w' mapped r evs -> existsb is_mrsr evs = false.
Proof.
  intros H. apply wait_outcome_no_trigger in H.
  unfold no_trigger in H. rewrite forallb_forall in H.
  destruct (existsb is_mrsr evs) eqn:Hex; [|reflexivity].
  apply existsb_exists in Hex as (e & Hin & He). specialize (H e Hin).
  destruct e; discriminate.
Qed.

Section Executors.

Variable cfg : build.
Variable hw : hardware.
Hypothesis hz : hz_supported cfg = true.

Lemma reset_dev_by_mrsr_reg_eq dev w :
  reset_dev_by_mrsr_reg hw dev w =
  Ret (hw_access_reg_mrsr hw (List.length (log w)))
      (logged (EvAccessRegMRSR (sw_reset_reg_data dev)
                 (hw_access_reg_mrsr hw (List.length (log w)))) w).
Proof. reflexivity. Qed.

Lemma pci_read_config_word_eq offset w :
  pci_read_config_word hw offset w =
  Ret (fst (hw_read_config_word hw (List.length (log w)) offset),
       u16 (snd (hw_read_config_word hw (List.length (log w)) offset)))
      (logged (EvPciReadConfigWord offset
                 (fst (hw_read_config_word hw (List.length (log w)) offset))
                 (u16 (snd (hw_read_config_word hw (List.length (log w)) offset)))) w).
Proof.
  unfold pci_read_config_word. rewrite bind_eq. unfold position. rewrite get_eq.
  cbv beta iota. destruct (hw_read_config_word hw (List.length (log w)) offset).
  reflexivity.
Qed.

Lemma do_legacy_reset_spec dev p w :
  pdev dev = Some p ->
  exists err w' evs,
    __do_legacy_reset cfg hw dev w = Ret err w' /\ steps w w' evs /\
    if hw_ioremap hw (List.length (log w))
    then err = 0 /\
         evs = [EvIoremap SX_RESET_BASE SX_RESET_SIZE true;
                EvWritel SX_RESET_BASE SX_RESET_VALUE;
                EvIounmap SX_RESET_BASE;
                EvMsleep (legacy_reset_grace cfg)]
    else err = - ENOMEM /\ evs = [EvIoremap SX_RESET_BASE SX_RESET_SIZE false].
Proof.
  intros Hp. unfold __do_legacy_reset. rewrite Hp. cbn [deref].
  rewrite bind_eq, ret_eq. cbv beta iota.
  rewrite bind_eq, ioremap_eq. cbv beta iota.
  destruct (hw_ioremap hw (List.length (log w))); cbn [negb].
  - rewrite bind_eq, writel_eq. cbv beta iota.
    rewrite bind_eq, iounmap_eq. cbv beta iota.
    rewrite bind_eq, msleep_eq. cbv beta iota. rewrite ret_eq.
    eexists _, _, _. split; [reflexivity|]. split; [|split; reflexivity].
    do 3 apply steps_cons. apply steps_slept; [exact hz|].
    unfold legacy_reset_grace. destruct (INCREASED_TIMEOUT cfg); lia.
  - rewrite ret_eq. eexists _, _, _. split; [reflexivity|].
    split; [apply steps_logged | split; reflexivity].
Qed.

Lemma poll_vendor_loop_spec fuel end_ :
  forall w,
    (Z.to_nat (end_ - jiffies w) < fuel)%nat ->
    exists vendor w' evs,
      poll_vendor_loop cfg hw fuel end_ w = Ret vendor w' /\
      steps w w' evs /\ forallb is_vendor_poll evs = true.
Proof.
  induction fuel as [|fuel IH]; intros w Hfuel; [lia|].
  cbn [poll_vendor_loop].
  rewrite bind_eq, pci_read_config_word_eq. cbv beta iota zeta.
  set (rc := fst (hw_read_config_word hw (List.length (log w)) PCI_VENDOR_ID)).
  set (vendor := u16 (snd (hw_read_config_word hw (List.length (log w)) PCI_VENDOR_ID))).
  set (w1 := logged (EvPciReadConfigWord PCI_VENDOR_ID rc vendor) w).
  destruct ((rc =? 0) && negb (vendor =? 0xffff)).
  - rewrite ret_eq. exists vendor, w1, [EvPciReadConfigWord PCI_VENDOR_ID rc vendor].
    split; [reflexivity|]. split; [apply steps_logged | reflexivity].
  - rewrite bind_eq, msleep_eq. cbv beta iota.
    rewrite bind_eq, read_jiffies_eq. cbv beta iota.
    set (w0 := slept cfg hw 1 w1).
    set (w2 := ticked hw VENDOR_TEST w0).
    assert (Hs2 : steps w w2 [EvPciReadConfigWord PCI_VENDOR_ID rc vendor; EvMsleep 1]).
    { apply steps_cons.
      refine (steps_trans _ _ _ [_] [] _ (steps_ticked hw VENDOR_TEST w0)).
      apply steps_slept; [exact hz | lia]. }
    assert (Hj2 : jiffies w + 1 <= jiffies w2).
    { pose proof (jiffies_ticked hw VENDOR_TEST w0) as Hj. fold w2 in Hj.
      unfold w0 in Hj. rewrite jiffies_slept in Hj.
      pose proof (msecs_to_jiffies_pos cfg hz 1 ltac:(lia)).
      change (jiffies w1) with (jiffies w) in Hj. lia. }
    unfold time_before. destruct (jiffies w2 <? end_) eqn:Hbefore.
    + apply Z.ltb_lt in Hbefore.
      destruct (IH w2) as (v & w' & evs & Hrun & Hsteps & Hcls); [lia|].
      exists v, w', ([EvPciReadConfigWord PCI_VENDOR_ID rc vendor; EvMsleep 1] ++ evs).
      split; [exact Hrun|]. split; [exact (steps_trans _ _ _ _ _ Hs2 Hsteps)|].
      exact Hcls.
    + rewrite ret_eq. exists vendor, w2, [EvPciReadConfigWord PCI_VENDOR_ID rc vendor; EvMsleep 1].
      split; [reflexivity|]. split; [exact Hs2 | reflexivity].
Qed.

Lemma poll_vendor_spec w :
  exists vendor w' evs,
    poll_vendor cfg hw w = Ret vendor w' /\
    steps w w' evs /\ forallb is_vendor_poll evs = true.
Proof.
  unfold poll_vendor. rewrite bind_eq, read_jiffies_eq. cbv beta iota zeta.
  destruct (poll_vendor_loop_spec
              (S (Z.to_nat (jiffies (ticked hw VENDOR_END w) + SX_RESET_TIMEOUT_JIFFIES cfg
                            - jiffies (ticked hw VENDOR_END w))))
              (jiffies (ticked hw VENDOR_END w) + SX_RESET_TIMEOUT_JIFFIES cfg)
              (ticked hw VENDOR_END w))
    as (vendor & w' & evs & Hrun & Hsteps & Hcls); [lia|].
  exists vendor, w', evs. split; [exact Hrun|]. split; [|exact Hcls].
  exact (steps_trans _ _ _ [] _ (steps_ticked hw VENDOR_END w) Hsteps).
Qed.

Lemma legacy_reset_SwitchX_spec dev p w :
  pdev dev = Some p ->
  exists err w' evs,
    legacy_reset_SwitchX cfg hw dev w = Ret err w' /\ steps w w' evs /\
    existsb is_mrsr evs = false /\ wait_budgets evs = [] /\
    (hw_ioremap hw (List.length (log w)) = true ->
     exists rest, evs = EvIoremap SX_RESET_BASE SX_RESET_SIZE true
                        :: EvWritel SX_RESET_BASE SX_RESET_VALUE :: rest).
Proof.
  intros Hp. unfold legacy_reset_SwitchX. rewrite Hp.
  destruct (do_legacy_reset_spec dev p w Hp) as (err & w1 & evs1 & Hrun & Hs1 & Hout).
  rewrite (bind_ret _ _ _ _ _ Hrun).
  destruct (hw_ioremap hw (List.length (log w))).
  - destruct Hout as (-> & ->). cbn [Z.eqb negb].
    destruct (poll_vendor_spec w1) as (vendor & w2 & evs2 & Hpoll & Hs2 & Hcls).
    rewrite (bind_ret _ _ _ _ _ Hpoll).
    assert (Hnone : existsb is_mrsr evs2 = false /\ wait_budgets evs2 = []).
    { clear - Hcls. induction evs2 as [|e evs2 IH]; [now split|].
      cbn [forallb] in Hcls. apply andb_prop in Hcls as [He Hcls].
      destruct (IH Hcls) as [IH1 IH2]. destruct e; try discriminate; cbn; auto. }
    destruct Hnone as [Hm Hb].
    exists (if vendor =? 0xffff then - ENODEV else 0), w2,
      ([EvIoremap SX_RESET_BASE SX_RESET_SIZE true;
        EvWritel SX_RESET_BASE SX_RESET_VALUE; EvIounmap SX_RESET_BASE;
        EvMsleep (legacy_reset_grace cfg)] ++ evs2).
    split; [destruct (vendor =? 0xffff); reflexivity|].
    split; [exact (steps_trans _ _ _ _ _ Hs1 Hs2)|].
    split; [cbn; exact Hm|]. split; [cbn; exact Hb|].
    intros _. eexists. reflexivity.
  - destruct Hout as (-> & ->). cbn [Z.eqb negb ENOMEM Z.opp]. rewrite ret_eq.
    eexists _, _, _. split; [reflexivity|]. split; [exact Hs1|].
    repeat split. discriminate.
Qed.

Lemma steps_log w w' evs :
  steps w w' evs -> log w' = log w ++ map (tag (dev_sw_rst_flow w)) evs.
Proof. intros H. exact (proj1 H). Qed.

Lemma steps_flow w w' evs : steps w w' evs -> dev_sw_rst_flow w' = dev_sw_rst_flow w.
Proof. intros H. exact (proj1 (proj2 H)). Qed.

(** After [pre] with the flag as found and the flag set, further steps
    extend the window. *)
Lemma flow_window_extend w w1 w2 w' pre win evs :
  steps w w1 pre -> no_trigger pre = true ->
  log w2 = log w1 ++ map (tag true) win -> dev_sw_rst_flow w2 = true ->
  steps w2 w' evs ->
  flow_window w (set_dev_sw_rst_flow false w') pre (win ++ evs).
Proof.
  intros Hs1 Hpre Hl2 Hf2 Hs. unfold flow_window.
  split; [|split; [exact Hpre | reflexivity]].
  change (log (set_dev_sw_rst_flow false w')) with (log w').
  rewrite (steps_log _ _ _ Hs), Hf2, Hl2, (steps_log _ _ _ Hs1), map_app.
  rewrite <- !app_assoc. reflexivity.
Qed.

Lemma flow_window_closed w w1 pre :
  steps w w1 pre -> no_trigger pre = true ->
  flow_window w (set_dev_sw_rst_flow false w1) pre [].
Proof.
  intros Hs1 Hpre. unfold flow_window.
  split; [|split; [exact Hpre | reflexivity]].
  change (log (set_dev_sw_rst_flow false w1)) with (log w1).
  rewrite (steps_log _ _ _ Hs1). cbn [map]. rewrite app_nil_r. reflexivity.
Qed.

Lemma sdk_sx_reset_window dev p w :
  pdev dev = Some p ->
  exists err w' pre win,
    sdk_sx_reset cfg hw dev w = Ret err w' /\
    flow_window w w' pre win /\
    (win = [] \/
     exists rc rest, win = EvAccessRegMRSR (sw_reset_reg_data dev) rc :: rest /\
                     no_trigger rest = true).
Proof.
  intros Hp. unfold sdk_sx_reset.
  rewrite (bind_ret _ _ _ _ _ (get_chip_reset_duration_eq cfg dev p w Hp)).
  pose proof (chip_reset_duration_range cfg (device p)) as Hd.
  set (d := chip_reset_duration cfg (device p)) in *.
  destruct (wait_for_system_ready_spec cfg hw hz dev p d true w Hp ltac:(lia))
    as ([err1 tw1] & w1 & evs1 & Hw1 & Hs1 & Ho1).
  rewrite (bind_ret _ _ _ _ _ Hw1). cbv beta iota zeta.
  pose proof (wait_outcome_no_trigger _ _ _ _ _ _ _ _ Ho1) as Hpre.
  destruct (err1 =? 0); cbn [negb].
  2: { rewrite out_clear_flow_eq. exists err1, (set_dev_sw_rst_flow false w1), evs1, [].
       split; [reflexivity|]. split; [now apply flow_window_closed | now left]. }
  rewrite bind_eq, modify_eq. cbv beta iota.
  rewrite bind_eq, reset_dev_by_mrsr_reg_eq. cbv beta iota.
  set (w1' := set_dev_sw_rst_flow true w1).
  set (rc := hw_access_reg_mrsr hw (List.length (log w1'))).
  set (w2 := logged (EvAccessRegMRSR (sw_reset_reg_data dev) rc) w1').
  assert (Hl2 : log w2 = log w1 ++ map (tag true) [EvAccessRegMRSR (sw_reset_reg_data dev) rc])
    by reflexivity.
  assert (Hf2 : dev_sw_rst_flow w2 = true) by reflexivity.
  destruct (rc =? 0); cbn [negb].
  2: { rewrite out_clear_flow_eq.
       eexists rc, _, evs1, ([EvAccessRegMRSR (sw_reset_reg_data dev) rc] ++ []).
       split; [reflexivity|]. split.
       - exact (flow_window_extend _ _ _ _ _ _ _ Hs1 Hpre Hl2 Hf2 (steps_refl w2)).
       - right. eexists _, _. split; reflexivity. }
  destruct (wait_for_system_ready_spec cfg hw hz dev p 0 true w2 Hp ltac:(lia))
    as ([err3 tw3] & w3 & evs3 & Hw3 & Hs3 & Ho3).
  rewrite (bind_ret _ _ _ _ _ Hw3). cbv beta iota zeta.
  pose proof (wait_outcome_no_trigger _ _ _ _ _ _ _ _ Ho3) as Hn3.
  destruct (err3 =? - ETIME); cbn [negb].
  2: { rewrite out_clear_flow_eq. eexists _, _, evs1, _.
       split; [reflexivity|]. split.
       - exact (flow_window_extend _ _ _ _ _ _ _ Hs1 Hpre Hl2 Hf2 Hs3).
       - right. eexists _, _. split; [reflexivity | exact Hn3]. }
  destruct (wait_for_system_ready_spec cfg hw hz dev p d true w3 Hp ltac:(lia))
    as ([err4 tw4] & w4 & evs4 & Hw4 & Hs4 & Ho4).
  rewrite (bind_ret _ _ _ _ _ Hw4). cbv beta iota zeta.
  pose proof (wait_outcome_no_trigger _ _ _ _ _ _ _ _ Ho4) as Hn4.
  rewrite out_clear_flow_eq. eexists _, _, evs1, _.
  split; [reflexivity|]. split.
  - exact (flow_window_extend _ _ _ _ _ _ _ Hs1 Hpre Hl2 Hf2 (steps_trans _ _ _ _ _ Hs3 Hs4)).
  - right. eexists _, _. split; [reflexivity|].
    rewrite no_trigger_app, Hn3, Hn4. reflexivity.
Qed.

Lemma legacy_reset_window dev p w :
  pdev dev = Some p ->
  exists err w' pre win,
    legacy_reset cfg hw dev w = Ret err w' /\
    flow_window w w' pre win /\
    (win = [] \/
     win = [EvIoremap SX_RESET_BASE SX_RESET_SIZE false] \/
     exists rest, win = EvIoremap SX_RESET_BASE SX_RESET_SIZE true
                        :: EvWritel SX_RESET_BASE SX_RESET_VALUE :: rest /\
                  no_trigger rest = true) /\
    Forall (eq (2 * chip_reset_duration cfg (device p))) (wait_budgets (pre ++ win)).
Proof.
  intros Hp. unfold legacy_reset. rewrite Hp.
  rewrite (bind_ret _ _ _ _ _ (get_chip_reset_duration_eq cfg dev p w Hp)).
  pose proof (chip_reset_duration_range cfg (device p)) as Hd.
  assert (Hu : u32 (chip_reset_duration cfg (device p) * 2)
               = 2 * chip_reset_duration cfg (device p)).
  { unfold u32. rewrite Z.mod_small; lia. }
  cbv zeta. rewrite Hu.
  set (d := 2 * chip_reset_duration cfg (device p)) in *.
  destruct (wait_for_system_ready_spec cfg hw hz dev p d true w Hp ltac:(lia))
    as ([err1 tw1] & w1 & evs1 & Hw1 & Hs1 & Ho1).
  rewrite (bind_ret _ _ _ _ _ Hw1). cbv beta iota zeta.
  pose proof (wait_outcome_no_trigger _ _ _ _ _ _ _ _ Ho1) as Hpre.
  pose proof (wait_outcome_budgets _ _ _ _ _ _ _ _ Ho1) as Hb1.
  destruct (err1 =? 0); cbn [negb].
  2: { rewrite out_clear_flow_eq. exists err1, (set_dev_sw_rst_flow false w1), evs1, [].
       split; [reflexivity|]. split; [now apply flow_window_closed|].
       split; [now left|]. rewrite app_nil_r. exact Hb1. }
  rewrite bind_eq, modify_eq. cbv beta iota.
  set (w1' := set_dev_sw_rst_flow true w1).
  assert (Hl1 : log w1' = log w1 ++ map (tag true) []).
  { cbn [map]. rewrite app_nil_r. reflexivity. }
  assert (Hf1 : dev_sw_rst_flow w1' = true) by reflexivity.
  destruct (do_legacy_reset_spec dev p w1' Hp) as (err2 & w2 & evs2 & Hrun & Hs2 & Ho2).
  rewrite (bind_ret _ _ _ _ _ Hrun).
  destruct (hw_ioremap hw (List.length (log w1'))); destruct Ho2 as (-> & ->).
  2: { cbn [Z.eqb negb ENOMEM Z.opp]. rewrite out_clear_flow_eq.
       eexists _, _, evs1, _. split; [reflexivity|]. split.
       - exact (flow_window_extend _ _ _ _ _ _ _ Hs1 Hpre Hl1 Hf1 Hs2).
       - split; [right; left; reflexivity|].
         rewrite wait_budgets_app. cbn. rewrite app_nil_r. exact Hb1. }
  cbn [Z.eqb negb].
  destruct (wait_for_system_ready_spec cfg hw hz dev p d true w2 Hp ltac:(lia))
    as ([err3 tw3] & w3 & evs3 & Hw3 & Hs3 & Ho3).
  rewrite (bind_ret _ _ _ _ _ Hw3). cbv beta iota zeta.
  pose proof (wait_outcome_no_trigger _ _ _ _ _ _ _ _ Ho3) as Hn3.
  pose proof (wait_outcome_budgets _ _ _ _ _ _ _ _ Ho3) as Hb3.
  rewrite out_clear_flow_eq. eexists _, _, evs1, _.
  split; [reflexivity|]. split.
  - exact (flow_window_extend _ _ _ _ _ _ _ Hs1 Hpre Hl1 Hf1 (steps_trans _ _ _ _ _ Hs2 Hs3)).
  - split.
    + right; right. eexists. split; [reflexivity|]. cbn. exact Hn3.
    + rewrite !wait_budgets_app. cbn. apply Forall_app. split; assumption.
Qed.

End Executors.

(** ** The claims on the executors *)

Section ExecutorClaims.

Variable cfg : build.
Variable hw : hardware.
Hypothesis hz : hz_supported cfg = true.

(** C3 (as amended).  Entered with [dev_sw_rst_flow] clear, [sdk_sx_reset]
    and [legacy_reset] make every access that precedes the reset of the chip
    with the flag clear, every access from the reset of the chip (the MRSR
    write, the mapping of the legacy reset register and the write to it) to
    their return with the flag set, and return with the flag clear, on every
    path.  [legacy_reset_SwitchX] does not touch the flag: it is clear at
    every access and on return. *)
Theorem dev_sw_rst_flow_window dev p w :
  pdev dev = Some p ->
  dev_sw_rst_flow w = false ->
  (exists err w' pre win,
     sdk_sx_reset cfg hw dev w = Ret err w' /\
     log w' = log w ++ map (tag false) pre ++ map (tag true) win /\
     no_trigger pre = true /\
     (win = [] \/
      exists rc rest, win = EvAccessRegMRSR (sw_reset_reg_data dev) rc :: rest /\
                      no_trigger rest = true) /\
     dev_sw_rst_flow w' = false) /\
  (exists err w' pre win,
     legacy_reset cfg hw dev w = Ret err w' /\
     log w' = log w ++ map (tag false) pre ++ map (tag true) win /\
     no_trigger pre = true /\
     (win = [] \/
      win = [EvIoremap SX_RESET_BASE SX_RESET_SIZE false] \/
      exists rest, win = EvIoremap SX_RESET_BASE SX_RESET_SIZE true
                         :: EvWritel SX_RESET_BASE SX_RESET_VALUE :: rest /\
                   no_trigger rest = true) /\
     dev_sw_rst_flow w' = false) /\
  (exists err w' evs,
     legacy_reset_SwitchX cfg hw dev w = Ret err w' /\
     log w' = log w ++ map (tag false) evs /\
     dev_sw_rst_flow w' = false).
Proof.
  intros Hp Hflow. split; [|split].
  - destruct (sdk_sx_reset_window cfg hw hz dev p w Hp)
      as (err & w' & pre & win & Hrun & (Hlog & Hpre & Hclear) & Hwin).
    rewrite Hflow in Hlog. exists err, w', pre, win. now repeat split.
  - destruct (legacy_reset_window cfg hw hz dev p w Hp)
      as (err & w' & pre & win & Hrun & (Hlog & Hpre & Hclear) & Hwin & _).
    rewrite Hflow in Hlog. exists err, w', pre, win. now repeat split.
  - destruct (legacy_reset_SwitchX_spec cfg hw hz dev p w Hp)
      as (err & w' & evs & Hrun & Hsteps & _).
    exists err, w', evs. split; [exact Hrun|].
    rewrite (steps_log _ _ _ Hsteps), (steps_flow _ _ _ Hsteps), Hflow. now split.
Qed.

(** C6 (as amended).  [__get_chip_reset_duration] answers without failing
    and leaves the world as it is.  In a build with both PD_BU and
    QUANTUM3_BU defined the answer is 1 200 000 ms for every device; in the
    other builds it is 15 000 ms for the Quantum devices, 900 000 ms for
    Spectrum-2, -3 and -4, and for every other device 5 000 ms, or
    1 500 000 ms when INCREASED_TIMEOUT is defined. *)
Theorem get_chip_reset_duration_table dev p w :
  pdev dev = Some p ->
  exists duration,
    __get_chip_reset_duration cfg dev w = Ret duration w /\
    duration =
      if PD_BU cfg && QUANTUM3_BU cfg then 1200000
      else match device p with
           | QUANTUM_PCI_DEV_ID | QUANTUM2_PCI_DEV_ID | QUANTUM3_PCI_DEV_ID => 15000
           | SPECTRUM2_PCI_DEV_ID | SPECTRUM3_PCI_DEV_ID | SPECTRUM4_PCI_DEV_ID => 900000
           | SWITCHX_PCI_DEV_ID | SPECTRUM_PCI_DEV_ID | SWITCH_IB_PCI_DEV_ID
           | SWITCH_IB2_PCI_DEV_ID | OTHER_PCI_DEV_ID _ =>
               if INCREASED_TIMEOUT cfg then 1500000 else 5000
           end.
Proof.
  intros Hp. exists (chip_reset_duration cfg (device p)).
  split; [exact (get_chip_reset_duration_eq cfg dev p w Hp)|].
  unfold chip_reset_duration, SX_SW_RESET_TIMEOUT_MSECS.
  destruct (PD_BU cfg && QUANTUM3_BU cfg), (device p); reflexivity.
Qed.

End ExecutorClaims.

(** ** The configuration snapshot *)

Lemma steps_length w w' evs :
  steps w w' evs -> List.length (log w') = (List.length (log w) + List.length evs)%nat.
Proof.
  intros H. rewrite (proj1 H), length_app, length_map. reflexivity.
Qed.

Lemma length_logged e w : List.length (log (logged e w)) = S (List.length (log w)).
Proof. rewrite log_logged, length_app. cbn [List.length]. lia. Qed.

Lemma length_store i v hdr : List.length (store i v hdr) = List.length hdr.
Proof.
  revert i. induction hdr as [|h t IH]; intros [|i]; cbn; auto.
Qed.

Lemma nth_store_same i v hdr :
  (i < List.length hdr)%nat -> nth i (store i v hdr) 0 = v.
Proof.
  revert i. induction hdr as [|h t IH]; intros [|i] Hi; cbn in *; try lia; auto.
  apply IH. lia.
Qed.

Lemma nth_store_other i j v hdr :
  i <> j -> nth j (store i v hdr) 0 = nth j hdr 0.
Proof.
  revert i j. induction hdr as [|h t IH]; intros [|i] [|j] Hij; cbn; auto; try lia.
Qed.

Section Snapshot.

Variable hw : hardware.

Lemma pci_find_capability_eq cap w :
  pci_find_capability hw cap w =
  Ret (hw_find_capability hw (List.length (log w)))
      (logged (EvPciFindCapability cap (hw_find_capability hw (List.length (log w)))) w).
Proof. reflexivity. Qed.

Lemma pci_read_config_dword_eq offset w :
  pci_read_config_dword hw offset w =
  Ret (fst (hw_read_config_dword hw (List.length (log w)) offset),
       u32 (snd (hw_read_config_dword hw (List.length (log w)) offset)))
      (logged (EvPciReadConfigDword offset
                 (fst (hw_read_config_dword hw (List.length (log w)) offset))
                 (u32 (snd (hw_read_config_dword hw (List.length (log w)) offset)))) w).
Proof.
  unfold pci_read_config_dword. rewrite bind_eq. unfold position. rewrite get_eq.
  cbv beta iota. destruct (hw_read_config_dword hw (List.length (log w)) offset).
  reflexivity.
Qed.

Lemma pci_write_config_word_eq offset val w :
  pci_write_config_word hw offset val w =
  Ret (snd (write_event hw (List.length (log w)) (WriteWord offset val)))
      (logged (fst (write_event hw (List.length (log w)) (WriteWord offset val))) w).
Proof. reflexivity. Qed.

Lemma pci_write_config_dword_eq offset val w :
  pci_write_config_dword hw offset val w =
  Ret (snd (write_event hw (List.length (log w)) (WriteDword offset val)))
      (logged (fst (write_event hw (List.length (log w)) (WriteDword offset val))) w).
Proof. reflexivity. Qed.

(** The loop of [__save_headers_data] over the indices [ixs] that remain. *)
Lemma save_headers_loop_spec ixs :
  forall hdr w,
    List.length hdr = 64%nat ->
    NoDup ixs -> (forall i, In i ixs -> 0 <= i < 64) ->
    exists err hdr' w',
      save_headers_loop hw ixs hdr w = Ret (err, hdr') w' /\
      let plan := read_plan hw (List.length (log w))
                    (map (fun i => i * 4)
                       (filter (fun i => negb ((i =? 22) || (i =? 23))) ixs)) in
      steps w w' (fst plan) /\
      err = (if snd plan then 0 else - ENODEV) /\
      List.length hdr' = 64%nat /\
      (forall j, 0 <= j -> ~ In j ixs -> load hdr' j = load hdr j) /\
      (forall i rc val, In (EvPciReadConfigDword (i * 4) rc val) (fst plan) ->
                        load hdr' i = val).
Proof.
  induction ixs as [|i ixs IH]; intros hdr w Hlen Hnodup Hrange.
  - cbn. exists 0, hdr, w. split; [reflexivity|]. split; [apply steps_refl|].
    repeat split; auto. intros i rc val [].
  - cbn [save_headers_loop filter].
    inversion Hnodup as [|? ? Hnotin Hnodup']; subst.
    assert (Hrange' : forall j, In j ixs -> 0 <= j < 64) by (intros; apply Hrange; now right).
    destruct ((i =? 22) || (i =? 23)) eqn:Hskip; cbn [negb].
    + destruct (IH hdr w Hlen Hnodup' Hrange')
        as (err & hdr' & w' & Hrun & Hsteps & Herr & Hlen' & Hkeep & Hval).
      exists err, hdr', w'. split; [exact Hrun|]. split; [exact Hsteps|].
      repeat split; auto. intros j Hnn Hj. apply Hkeep; [exact Hnn|].
      intros Hin. apply Hj. now right.
    + cbn [map read_plan].
      rewrite bind_eq, pci_read_config_dword_eq. cbv beta iota zeta.
      set (rc := fst (hw_read_config_dword hw (List.length (log w)) (i * 4))).
      set (val := u32 (snd (hw_read_config_dword hw (List.length (log w)) (i * 4)))).
      set (w1 := logged (EvPciReadConfigDword (i * 4) rc val) w).
      set (hdr1 := store (Z.to_nat i) val hdr).
      assert (Hi : 0 <= i < 64) by (apply Hrange; now left).
      assert (Hlen1 : List.length hdr1 = 64%nat) by (unfold hdr1; now rewrite length_store).
      assert (Hload1 : load hdr1 i = val).
      { unfold load, hdr1. apply nth_store_same. lia. }
      destruct (rc =? 0) eqn:Hrc; cbn [negb fst snd].
      * destruct (IH hdr1 w1 Hlen1 Hnodup' Hrange')
          as (err & hdr' & w' & Hrun & Hsteps & Herr & Hlen' & Hkeep & Hval).
        unfold w1 in Hsteps, Herr, Hval. rewrite length_logged in Hsteps, Herr, Hval.
        exists err, hdr', w'. split; [exact Hrun|].
        split; [apply steps_cons; exact Hsteps|]. split; [exact Herr|].
        split; [exact Hlen'|]. split.
        { intros j Hnn Hj.
          rewrite Hkeep; [|exact Hnn|intros Hin; apply Hj; now right].
          unfold load, hdr1. apply nth_store_other.
          intros Heq. apply Hj. left. lia. }
        intros k rc' val' [Hhead | Hin].
        { injection Hhead as Hk _ Hv. assert (k = i) by lia. subst k.
          rewrite Hkeep; [|lia|exact Hnotin]. rewrite Hload1. exact Hv. }
        exact (Hval k rc' val' Hin).
      * rewrite ret_eq. exists (- ENODEV), hdr1, w1.
        split; [reflexivity|]. split; [apply steps_logged|].
        split; [reflexivity|]. split; [exact Hlen1|]. split.
        { intros j Hnn Hj. unfold load, hdr1. apply nth_store_other.
          intros Heq. apply Hj. left. lia. }
        intros k rc' val' [Hhead | []].
        injection Hhead as Hk _ Hv. assert (k = i) by lia. subst k.
        rewrite Hload1. exact Hv.
Qed.

Lemma save_headers_data_spec w :
  let n := List.length (log w) in
  let plan := read_plan hw (S n) (map (fun i => i * 4) saved_indices) in
  exists err hdr w',
    __save_headers_data hw w = Ret (err, hdr) w' /\
    steps w w' (EvPciFindCapability PCI_CAP_ID_EXP (hw_find_capability hw n) :: fst plan) /\
    err = (if snd plan then 0 else - ENODEV) /\
    List.length hdr = 64%nat /\
    load hdr 22 = 0 /\ load hdr 23 = 0 /\
    (forall i rc val, In (EvPciReadConfigDword (i * 4) rc val) (fst plan) ->
                      load hdr i = val).
Proof.
  intros n plan. unfold __save_headers_data.
  rewrite bind_eq, pci_find_capability_eq. cbv beta iota zeta.
  set (w1 := logged (EvPciFindCapability PCI_CAP_ID_EXP (hw_find_capability hw (List.length (log w)))) w).
  destruct (save_headers_loop_spec (indices 64) (repeat 0 64) w1)
    as (err & hdr & w' & Hrun & Hsteps & Herr & Hlen & Hkeep & Hval).
  - reflexivity.
  - unfold indices. apply Injective_map_NoDup; [|apply seq_NoDup].
    intros a b. apply Nat2Z.inj.
  - intros i Hin. unfold indices in Hin. apply in_map_iff in Hin as (k & <- & Hk).
    apply in_seq in Hk. lia.
  - unfold w1 in Hsteps, Herr, Hval. rewrite length_logged in Hsteps, Herr, Hval.
    exists err, hdr, w'. split; [exact Hrun|].
    split; [apply steps_cons; exact Hsteps|]. split; [exact Herr|].
    split; [exact Hlen|].
    assert (Hskipped : forall j, j = 22 \/ j = 23 -> load hdr j = 0).
    { intros j Hj.
      destruct (save_headers_loop_spec
                  (filter (fun i => negb ((i =? 22) || (i =? 23))) (indices 64))
                  (repeat 0 64) w1)
        as (err2 & hdr2 & w2 & Hrun2 & _ & _ & _ & Hkeep2 & _).
      - reflexivity.
      - apply NoDup_filter. unfold indices.
        apply Injective_map_NoDup; [|apply seq_NoDup].
        intros a b. apply Nat2Z.inj.
      - intros i Hin. apply filter_In in Hin as [Hin _].
        unfold indices in Hin. apply in_map_iff in Hin as (k & <- & Hk).
        apply in_seq in Hk. lia.
      - assert (Hsame : save_headers_loop hw
                          (filter (fun i => negb ((i =? 22) || (i =? 23))) (indices 64))
                          (repeat 0 64) w1
                        = save_headers_loop hw (indices 64) (repeat 0 64) w1).
        { generalize (repeat 0 64) w1. generalize (indices 64).
          induction l as [|i l IHl]; intros hdr0 w0; [reflexivity|].
          cbn [filter save_headers_loop].
          destruct ((i =? 22) || (i =? 23)) eqn:Hskip; cbn [negb]; [apply IHl|].
          cbn [save_headers_loop]. rewrite Hskip.
          rewrite !bind_eq. destruct (pci_read_config_dword hw (i * 4) w0) as [[rc v] w0'|];
            [|reflexivity].
          cbv beta iota zeta. destruct (negb (rc =? 0)); [reflexivity|]. apply IHl. }
        rewrite Hsame, Hrun in Hrun2. injection Hrun2 as _ <- _.
        rewrite Hkeep2.
        + destruct Hj as [-> | ->]; reflexivity.
        + destruct Hj as [-> | ->]; lia.
        + intros Hin. apply filter_In in Hin as [_ Hkeepj].
          destruct Hj as [-> | ->]; discriminate. }
    split; [apply Hskipped; now left|]. split; [apply Hskipped; now right|].
    exact Hval.
Qed.

Lemma write_plan_app n plan1 plan2 :
  write_plan hw n (plan1 ++ plan2) =
  if snd (write_plan hw n plan1)
  then (fst (write_plan hw n plan1)
          ++ fst (write_plan hw (n + List.length plan1) plan2),
        snd (write_plan hw (n + List.length plan1) plan2))
  else (fst (write_plan hw n plan1), false).
Proof.
  revert n. induction plan1 as [|cw plan1 IH]; intros n.
  - cbn. rewrite Nat.add_0_r. now destruct (write_plan hw n plan2).
  - cbn [app write_plan List.length].
    destruct (snd (write_event hw n cw) =? 0); [|reflexivity].
    cbn [fst snd]. rewrite IH, Nat.add_succ_r.
    destruct (snd (write_plan hw (S n) plan1)); reflexivity.
Qed.

Lemma write_plan_length n plan :
  snd (write_plan hw n plan) = true ->
  List.length (fst (write_plan hw n plan)) = List.length plan.
Proof.
  revert n. induction plan as [|cw plan IH]; intros n; [reflexivity|].
  cbn [write_plan]. destruct (snd (write_event hw n cw) =? 0); [|discriminate].
  cbn [fst snd List.length]. intros H. now rewrite IH.
Qed.

(** A plan of writes is carried out in order and stops at the first write
    that fails; the writes that precede it are not undone. *)
Lemma write_plan_stops n plan :
  (snd (write_plan hw n plan) = true /\
   fst (write_plan hw n plan) = map (fun cw => write_done cw 0) plan) \/
  (snd (write_plan hw n plan) = false /\
   exists done cw rc rest,
     plan = done ++ cw :: rest /\ rc <> 0 /\
     fst (write_plan hw n plan) = map (fun cw => write_done cw 0) done ++ [write_done cw rc]).
Proof.
  revert n. induction plan as [|cw plan IH]; intros n; [now left|].
  cbn [write_plan]. destruct (snd (write_event hw n cw) =? 0) eqn:Hrc.
  - apply Z.eqb_eq in Hrc. cbn [fst snd].
    assert (Hev : fst (write_event hw n cw) = write_done cw 0).
    { destruct cw; cbn in *; now rewrite Hrc. }
    destruct (IH (S n)) as [[Hok Hevs] | [Hko (done & cw' & rc & rest & Hplan & Hne & Hevs)]].
    + left. split; [exact Hok|]. cbn [map]. now rewrite Hev, Hevs.
    + right. split; [exact Hko|]. exists (cw :: done), cw', rc, rest.
      split; [now rewrite Hplan|]. split; [exact Hne|]. cbn [map app].
      now rewrite Hev, Hevs.
  - apply Z.eqb_neq in Hrc. right. split; [reflexivity|].
    exists [], cw, (snd (write_event hw n cw)), plan.
    split; [reflexivity|]. split; [exact Hrc|]. destruct cw; reflexivity.
Qed.

(** The same for a plan of reads. *)
Lemma read_plan_stops n offsets :
  (snd (read_plan hw n offsets) = true /\
   read_offsets (fst (read_plan hw n offsets)) = offsets /\
   List.length (fst (read_plan hw n offsets)) = List.length offsets) \/
  (snd (read_plan hw n offsets) = false /\
   exists done offset rc val rest,
     offsets = done ++ offset :: rest /\ rc <> 0 /\
     read_offsets (fst (read_plan hw n offsets)) = done ++ [offset] /\
     last (fst (read_plan hw n offsets)) EvKfree = EvPciReadConfigDword offset rc val).
Proof.
  revert n. induction offsets as [|offset offsets IH]; intros n; [now left|].
  cbn [read_plan]. cbv zeta.
  destruct (fst (hw_read_config_dword hw n offset) =? 0) eqn:Hrc.
  - cbn [fst snd read_offsets List.length].
    destruct (IH (S n)) as [(Hok & Hoffs & Hlen)
                           | (Hko & done & off' & rc & val & rest & Hplan & Hne & Hoffs & Hlast)].
    + left. split; [exact Hok|]. now rewrite Hoffs, Hlen.
    + right. split; [exact Hko|]. exists (offset :: done), off', rc, val, rest.
      split; [now rewrite Hplan|]. split; [exact Hne|]. split; [now rewrite Hoffs|].
      destruct (fst (read_plan hw (S n) offsets)) as [|e evs] eqn:Hevs; [discriminate Hlast|].
      exact Hlast.
  - apply Z.eqb_neq in Hrc. right. split; [reflexivity|].
    exists [], offset, (fst (hw_read_config_dword hw n offset)),
      (u32 (snd (hw_read_config_dword hw n offset))), offsets.
    repeat split. exact Hrc.
Qed.

Lemma restore_headers_loop_spec hdr ixs :
  forall w,
    let plan := write_plan hw (List.length (log w))
                  (map (fun i => WriteDword (i * 4) (load hdr i))
                     (filter (fun i => negb (i * 4 =? PCI_COMMAND)) ixs)) in
    exists w',
      restore_headers_loop hw ixs hdr w = Ret (if snd plan then 0 else - ENODEV) w' /\
      steps w w' (fst plan).
Proof.
  induction ixs as [|i ixs IH]; intros w; cbv zeta.
  - cbn. exists w. split; [reflexivity | apply steps_refl].
  - cbn [restore_headers_loop filter].
    destruct (i * 4 =? PCI_COMMAND); cbn [negb]; [apply IH|].
    cbn [map write_plan].
    rewrite bind_eq, pci_write_config_dword_eq. cbv beta iota.
    set (cw := WriteDword (i * 4) (load hdr i)).
    destruct (snd (write_event hw (List.length (log w)) cw) =? 0); cbn [negb fst snd].
    + destruct (IH (logged (fst (write_event hw (List.length (log w)) cw)) w))
        as (w' & Hrun & Hsteps).
      rewrite length_logged in Hrun, Hsteps.
      exists w'. split; [exact Hrun|]. apply steps_cons. exact Hsteps.
    + rewrite ret_eq. eexists. split; [reflexivity | apply steps_logged].
Qed.

Lemma restore_pcie_cap_spec pcie_cap hdr w :
  let plan := write_plan hw (List.length (log w)) (restore_capability_plan pcie_cap hdr) in
  exists w',
    restore_pcie_cap hw pcie_cap hdr w = Ret (if snd plan then 0 else - ENODEV) w' /\
    steps w w' (fst plan).
Proof.
  cbv zeta. unfold restore_pcie_cap, restore_capability_plan.
  destruct (pcie_cap =? 0); cbn [negb].
  - exists w. split; [reflexivity | apply steps_refl].
  - cbn [write_plan].
    rewrite bind_eq, pci_write_config_word_eq. cbv beta iota.
    set (cw1 := WriteWord (pcie_cap + PCI_EXP_DEVCTL) _).
    set (cw2 := WriteWord (pcie_cap + PCI_EXP_LNKCTL) _).
    destruct (snd (write_event hw (List.length (log w)) cw1) =? 0); cbn [negb fst snd].
    + rewrite bind_eq. unfold cw2 at 1. rewrite pci_write_config_word_eq. fold cw2.
      cbv beta iota. rewrite length_logged.
      destruct (snd (write_event hw (S (List.length (log w))) cw2) =? 0);
        cbn [negb fst snd]; rewrite ret_eq;
        (eexists; split; [reflexivity|]); do 2 apply steps_cons; apply steps_refl.
    + rewrite ret_eq. eexists. split; [reflexivity | apply steps_logged].
Qed.

Lemma restored_indices_eq :
  filter (fun i => negb (i * 4 =? PCI_COMMAND)) (indices 16) = restored_indices.
Proof. reflexivity. Qed.

Lemma restore_headers_data_spec hdr w :
  let n := List.length (log w) in
  let pcie_cap := hw_find_capability hw n in
  let plan := write_plan hw (S n) (restore_plan pcie_cap hdr) in
  exists w',
    __restore_headers_data hw hdr w = Ret (if snd plan then 0 else - ENODEV) w' /\
    steps w w' (EvPciFindCapability PCI_CAP_ID_EXP pcie_cap :: fst plan).
Proof.
  cbv zeta. unfold __restore_headers_data, restore_plan.
  rewrite bind_eq, pci_find_capability_eq. cbv beta iota.
  set (pcie_cap := hw_find_capability hw (List.length (log w))).
  set (w0 := logged (EvPciFindCapability PCI_CAP_ID_EXP pcie_cap) w).
  destruct (restore_pcie_cap_spec pcie_cap hdr w0) as (w1 & Hcap & Hs1).
  unfold w0 in Hcap, Hs1 at 2. rewrite length_logged in Hcap, Hs1. fold w0 in Hcap.
  rewrite (bind_ret _ _ _ _ _ Hcap).
  rewrite write_plan_app.
  set (p1 := write_plan hw (S (List.length (log w))) (restore_capability_plan pcie_cap hdr)) in *.
  destruct (snd p1) eqn:Hok1; cbn [Z.eqb negb fst snd].
  2: { change (negb (- ENODEV =? 0)) with true. cbv iota. rewrite ret_eq.
       exists w1. split; [reflexivity|]. apply steps_cons. exact Hs1. }
  assert (Hlen1 : List.length (log w1)
                  = (S (List.length (log w)) + List.length (restore_capability_plan pcie_cap hdr))%nat).
  { rewrite (steps_length _ _ _ Hs1). unfold w0. rewrite length_logged.
    unfold p1. rewrite write_plan_length by exact Hok1. reflexivity. }
  destruct (restore_headers_loop_spec hdr (indices 16) w1) as (w2 & Hloop & Hs2).
  rewrite restored_indices_eq, Hlen1 in Hloop, Hs2.
  rewrite (bind_ret _ _ _ _ _ Hloop).
  rewrite write_plan_app. fold (restore_words_plan hdr) in *.
  set (n2 := (S (List.length (log w)) + List.length (restore_capability_plan pcie_cap hdr))%nat) in *.
  set (p2 := write_plan hw n2 (restore_words_plan hdr)) in *.
  destruct (snd p2) eqn:Hok2; cbn [Z.eqb negb fst snd].
  2: { change (negb (- ENODEV =? 0)) with true. cbv iota. rewrite ret_eq.
       exists w2. split; [reflexivity|]. apply steps_cons.
       exact (steps_trans _ _ _ _ _ Hs1 Hs2). }
  assert (Hlen2 : List.length (log w2) = (n2 + List.length (restore_words_plan hdr))%nat).
  { rewrite (steps_length _ _ _ Hs2), Hlen1. unfold p2.
    rewrite write_plan_length by exact Hok2. reflexivity. }
  rewrite bind_eq, pci_write_config_dword_eq.
  cbv beta iota. rewrite Hlen2.
  change (Z.quot PCI_COMMAND 4) with 1. cbn [write_plan].
  set (cw := WriteDword PCI_COMMAND (load hdr 1)).
  destruct (snd (write_event hw (n2 + List.length (restore_words_plan hdr)) cw) =? 0);
    cbn [negb fst snd]; rewrite ret_eq;
    (eexists; split; [reflexivity|]); apply steps_cons;
    refine (steps_trans _ _ _ _ _ Hs1 _);
    exact (steps_trans _ _ _ _ [_] Hs2 (steps_logged _ w2)).
Qed.

(** In the plan of the restore, the write of the command word is the last
    one, and no other write of the plan is a dword write at its offset. *)
Lemma restore_plan_command_last pcie_cap hdr :
  exists others,
    restore_plan pcie_cap hdr = others ++ [WriteDword PCI_COMMAND (load hdr 1)] /\
    others = restore_capability_plan pcie_cap hdr ++ restore_words_plan hdr /\
    forall offset val, In (WriteDword offset val) others -> offset <> PCI_COMMAND.
Proof.
  exists (restore_capability_plan pcie_cap hdr ++ restore_words_plan hdr).
  split; [unfold restore_plan; now rewrite app_assoc|]. split; [reflexivity|].
  intros offset val Hin. apply in_app_or in Hin as [Hin | Hin].
  - unfold restore_capability_plan in Hin.
    destruct (pcie_cap =? 0); [destruct Hin|].
    destruct Hin as [H | [H | []]]; discriminate.
  - unfold restore_words_plan in Hin. apply in_map_iff in Hin as (i & Heq & Hi).
    injection Heq as <- _. unfold restored_indices in Hi.
    apply filter_In in Hi as [_ Hne]. apply negb_true_iff, Z.eqb_neq in Hne.
    unfold PCI_COMMAND. lia.
Qed.

End Snapshot.

Lemma in_indices n i : In i (indices n) <-> 0 <= i < Z.of_nat n.
Proof.
  unfold indices. rewrite in_map_iff. split.
  - intros (k & <- & Hk). apply in_seq in Hk. lia.
  - intros Hi. exists (Z.to_nat i). split; [lia|]. apply in_seq. lia.
Qed.

(** C7 (as amended).  [__save_headers_data] reads, in order, the dwords of
    the configuration window at the indices 0 to 63 other than 22 and 23,
    stops with -ENODEV at the first read that fails, and leaves each word
    read at its index of the buffer and zero at the indices 22 and 23.
    [__restore_headers_data] writes the device-control and link-control
    words of the PCI Express capability if there is one, then the dwords 0
    and 2 to 15 of the buffer at their offsets, then the command word, which
    is the dword of index 1 at offset 4 (PCI_COMMAND): no other dword write
    goes to that offset, and it is the last write.  The restore stops with
    -ENODEV at the first write that fails, and undoes nothing. *)
Theorem config_snapshot_save_restore hw hca_header_p w :
  let n := List.length (log w) in
  let pcie_cap := hw_find_capability hw n in
  let reads := read_plan hw (S n) (map (fun i => i * 4) saved_indices) in
  let others := restore_capability_plan pcie_cap hca_header_p
                ++ restore_words_plan hca_header_p in
  let command := WriteDword PCI_COMMAND (load hca_header_p 1) in
  let writes := write_plan hw (S n) (others ++ [command]) in
  (forall i, In i saved_indices <-> 0 <= i < 64 /\ i <> 22 /\ i <> 23) /\
  (exists err hdr w',
     __save_headers_data hw w = Ret (err, hdr) w' /\
     steps w w' (EvPciFindCapability PCI_CAP_ID_EXP pcie_cap :: fst reads) /\
     err = (if snd reads then 0 else - ENODEV) /\
     (snd reads = true ->
      read_offsets (fst reads) = map (fun i => i * 4) saved_indices) /\
     (snd reads = false ->
      exists done offset rc val rest,
        map (fun i => i * 4) saved_indices = done ++ offset :: rest /\ rc <> 0 /\
        read_offsets (fst reads) = done ++ [offset] /\
        last (fst reads) EvKfree = EvPciReadConfigDword offset rc val) /\
     List.length hdr = 64%nat /\ load hdr 22 = 0 /\ load hdr 23 = 0 /\
     (forall i rc val, In (EvPciReadConfigDword (i * 4) rc val) (fst reads) ->
                       load hdr i = val)) /\
  restored_indices = [0; 2; 3; 4; 5; 6; 7; 8; 9; 10; 11; 12; 13; 14; 15] /\
  PCI_COMMAND = 4 /\
  (forall offset val, In (WriteDword offset val) others -> offset <> PCI_COMMAND) /\
  (exists w',
     __restore_headers_data hw hca_header_p w
       = Ret (if snd writes then 0 else - ENODEV) w' /\
     steps w w' (EvPciFindCapability PCI_CAP_ID_EXP pcie_cap :: fst writes) /\
     (snd writes = true ->
      fst writes = map (fun cw => write_done cw 0) others ++ [write_done command 0]) /\
     (snd writes = false ->
      exists done cw rc rest,
        others ++ [command] = done ++ cw :: rest /\ rc <> 0 /\
        fst writes = map (fun cw => write_done cw 0) done ++ [write_done cw rc])).
Proof.
  intros n pcie_cap reads others command writes.
  split.
  { intros i. unfold saved_indices. rewrite filter_In, in_indices.
    rewrite negb_true_iff, orb_false_iff, !Z.eqb_neq. change (Z.of_nat 64) with 64.
    tauto. }
  split.
  { destruct (save_headers_data_spec hw w)
      as (err & hdr & w' & Hrun & Hsteps & Herr & Hlen & H22 & H23 & Hval).
    exists err, hdr, w'. split; [exact Hrun|]. split; [exact Hsteps|].
    split; [exact Herr|].
    destruct (read_plan_stops hw (S n) (map (fun i => i * 4) saved_indices))
      as [(Hok & Hoffs & _) | (Hko & Hstop)].
    - split; [intros _; exact Hoffs|].
      split; [intros Hko; unfold reads in Hko; congruence|].
      now repeat split.
    - split; [intros Hok; unfold reads in Hok; congruence|].
      split; [intros _; exact Hstop|].
      now repeat split. }
  split; [reflexivity|]. split; [reflexivity|].
  destruct (restore_plan_command_last pcie_cap hca_header_p)
    as (others' & Hplan & -> & Hothers).
  fold others in Hplan, Hothers. fold command in Hplan.
  split; [exact Hothers|].
  destruct (restore_headers_data_spec hw hca_header_p w) as (w' & Hrun & Hsteps).
  fold n pcie_cap in Hrun, Hsteps. rewrite Hplan in Hrun, Hsteps. fold writes in Hrun, Hsteps.
  exists w'. split; [exact Hrun|]. split; [exact Hsteps|].
  destruct (write_plan_stops hw (S n) (others ++ [command]))
    as [(Hok & Hevs) | (Hko & Hstop)].
  - split; [|intros Hko; unfold writes in Hko; congruence].
    intros _. unfold writes. rewrite Hevs, map_app. reflexivity.
  - split; [intros Hok; unfold writes in Hok; congruence|]. intros _. exact Hstop.
Qed.

(** ** The wait for the reset trigger *)

Section Trigger.

Variable cfg : build.
Variable hw : hardware.
Hypothesis hz : hz_supported cfg = true.

Lemma trigger_rounds_S n w :
  trigger_rounds cfg hw (S n) w
  = trigger_rounds cfg hw n (slept cfg hw 100 (ticked hw TRIGGER_TEST w)).
Proof. reflexivity. Qed.

(** The loop that waits for the reset trigger makes the least number of
    rounds after which the trigger is set or the deadline has passed. *)
Lemma wait_reset_trigger_loop_spec fuel end_ :
  forall w,
    (Z.to_nat (end_ - jiffies w) < fuel)%nat ->
    exists n,
      (forall k, (k < n)%nat ->
         reset_trigger (trigger_rounds cfg hw k w) = 0 /\
         jiffies (ticked hw TRIGGER_TEST (trigger_rounds cfg hw k w)) < end_) /\
      (reset_trigger (trigger_rounds cfg hw n w) <> 0 /\
       wait_reset_trigger_loop cfg hw fuel end_ w
         = Ret tt (trigger_rounds cfg hw n w) \/
       reset_trigger (trigger_rounds cfg hw n w) = 0 /\
       end_ <= jiffies (ticked hw TRIGGER_TEST (trigger_rounds cfg hw n w)) /\
       wait_reset_trigger_loop cfg hw fuel end_ w
         = Ret tt (ticked hw TRIGGER_TEST (trigger_rounds cfg hw n w))) /\
      steps w (trigger_rounds cfg hw n w) (repeat (EvMsleep 100) n) /\
      (n = 0%nat \/ jiffies w + (Z.of_nat n - 1) * msecs_to_jiffies cfg 100 < end_).
Proof.
  induction fuel as [|fuel IH]; intros w Hfuel; [lia|].
  cbn [wait_reset_trigger_loop].
  rewrite bind_eq, get_eq. cbv beta iota.
  destruct (reset_trigger w =? 0) eqn:Htrig.
  2: { apply Z.eqb_neq in Htrig. rewrite ret_eq. exists 0%nat.
       split; [intros k Hk; lia|]. split; [left; now split|].
       split; [apply steps_refl | now left]. }
  apply Z.eqb_eq in Htrig.
  rewrite bind_eq, read_jiffies_eq. cbv beta iota.
  set (wt := ticked hw TRIGGER_TEST w).
  pose proof (jiffies_ticked hw TRIGGER_TEST w) as Hjt. fold wt in Hjt.
  unfold time_before.
  destruct (jiffies wt <? end_) eqn:Hbefore.
  2: { apply Z.ltb_ge in Hbefore. rewrite ret_eq. exists 0%nat.
       split; [intros k Hk; lia|]. split; [right; now repeat split|].
       split; [apply steps_refl | now left]. }
  apply Z.ltb_lt in Hbefore.
  rewrite bind_eq, msleep_eq. cbv beta iota.
  set (w1 := slept cfg hw 100 wt).
  pose proof (msecs_to_jiffies_pos cfg hz 100 ltac:(lia)) as Hpos.
  assert (Hj1 : jiffies w + msecs_to_jiffies cfg 100 <= jiffies w1).
  { unfold w1. rewrite jiffies_slept. lia. }
  destruct (IH w1) as (n & Hbelow & Hend & Hsteps & Hcount); [lia|].
  exists (S n). rewrite trigger_rounds_S. fold wt. fold w1.
  split.
  { intros [|k] Hk.
    - split; [exact Htrig | exact Hbefore].
    - rewrite trigger_rounds_S. fold wt. fold w1. apply Hbelow. lia. }
  split; [exact Hend|].
  split.
  { refine (steps_trans _ _ _ [] _ (steps_ticked hw TRIGGER_TEST w) _). fold wt.
    exact (steps_trans _ _ _ [_] _ (steps_slept cfg hw hz 100 wt ltac:(lia)) Hsteps). }
  right. destruct Hcount as [-> | Hcount]; [cbn; lia|]. nia.
Qed.

(** The rounds of the wait are at most a hundred. *)
Lemma trigger_rounds_bound now n :
  (n = 0%nat \/ now + (Z.of_nat n - 1) * msecs_to_jiffies cfg 100 < now + 10 * HZ cfg) ->
  (n <= 100)%nat.
Proof.
  intros [-> | Hcount]; [lia|].
  pose proof (msecs_to_jiffies_covers cfg hz 100 ltac:(lia)) as [Hcov _].
  pose proof (msec_per_jiffy_exact cfg hz) as Hex.
  pose proof (msec_per_jiffy_pos cfg hz) as Hk.
  pose proof (HZ_pos cfg hz) as Hhz.
  unfold MSEC_PER_SEC in *.
  set (k := 1000 / HZ cfg) in *. set (mj := msecs_to_jiffies cfg 100) in *.
  assert (Hlt : (Z.of_nat n - 1) * mj < 10 * HZ cfg) by lia.
  destruct (Z_le_gt_dec (Z.of_nat n) 100) as [|Hbig]; [lia|].
  assert (100 * mj <= (Z.of_nat n - 1) * mj) by nia.
  assert (k * (100 * mj) < k * (10 * HZ cfg)) by nia.
  nia.
Qed.

(** The block of [sx_reset] that waits for the reset trigger, when the
    trigger is not set: [wt] is the world at the read of the clock that
    sets the deadline. *)
Lemma wait_reset_trigger_rounds w :
  reset_trigger w = 0 ->
  let wt := ticked hw TRIGGER_END w in
  let end_ := jiffies wt + 10 * HZ cfg in
  exists n,
    (n <= 100)%nat /\
    (forall k, (k < n)%nat ->
       reset_trigger (trigger_rounds cfg hw k wt) = 0 /\
       jiffies (ticked hw TRIGGER_TEST (trigger_rounds cfg hw k wt)) < end_) /\
    (reset_trigger (trigger_rounds cfg hw n wt) <> 0 /\
     wait_reset_trigger cfg hw w = Ret tt (trigger_rounds cfg hw n wt) \/
     reset_trigger (trigger_rounds cfg hw n wt) = 0 /\
     end_ <= jiffies (ticked hw TRIGGER_TEST (trigger_rounds cfg hw n wt)) /\
     wait_reset_trigger cfg hw w
       = Ret tt (set_reset_trigger 1
                   (ticked hw TRIGGER_TEST (trigger_rounds cfg hw n wt)))) /\
    steps w (trigger_rounds cfg hw n wt) (repeat (EvMsleep 100) n).
Proof.
  intros Htrig wt end_.
  unfold wait_reset_trigger. rewrite bind_eq, get_eq. cbv beta iota.
  rewrite Htrig. cbn [Z.eqb negb].
  rewrite bind_eq, read_jiffies_eq. cbv beta iota zeta.
  unfold RESET_TRIGGER_TIMEOUT. fold wt. fold end_.
  destruct (wait_reset_trigger_loop_spec (S (Z.to_nat (end_ - jiffies wt))) end_ wt)
    as (n & Hbelow & Hend & Hsteps & Hcount); [lia|].
  exists n. split; [exact (trigger_rounds_bound (jiffies wt) n Hcount)|].
  split; [exact Hbelow|]. split.
  - destruct Hend as [(Hset & Hrun) | (Hclear & Hlate & Hrun)].
    + left. split; [exact Hset|].
      rewrite (bind_ret _ _ _ _ _ Hrun).
      rewrite bind_eq, get_eq. cbv beta iota.
      apply Z.eqb_neq in Hset. rewrite Hset. reflexivity.
    + right. split; [exact Hclear|]. split; [exact Hlate|].
      rewrite (bind_ret _ _ _ _ _ Hrun).
      rewrite bind_eq, get_eq. cbv beta iota.
      change (reset_trigger (ticked hw TRIGGER_TEST (trigger_rounds cfg hw n wt)))
        with (reset_trigger (trigger_rounds cfg hw n wt)).
      rewrite Hclear. reflexivity.
  - exact (steps_trans _ _ _ [] _ (steps_ticked hw TRIGGER_END w) Hsteps).
Qed.

(** The block of [sx_reset] that waits for the reset trigger: what it does
    from [w] to [w'] in [n] sleeps. *)
Lemma wait_reset_trigger_spec w :
  exists w' n,
    wait_reset_trigger cfg hw w = Ret tt w' /\
    steps w w' (repeat (EvMsleep 100) n) /\
    (n <= 100)%nat /\
    reset_trigger w' <> 0 /\
    (reset_trigger w <> 0 -> w' = w) /\
    (reset_trigger w = 0 ->
     exists w1,
       steps w w1 (repeat (EvMsleep 100) n) /\
       (reset_trigger w1 <> 0 /\ w' = w1 \/
        reset_trigger w1 = 0 /\ jiffies w + 10 * HZ cfg <= jiffies w1 /\
        w' = set_reset_trigger 1 w1)).
Proof.
  destruct (Z.eq_dec (reset_trigger w) 0) as [Htrig | Htrig].
  - destruct (wait_reset_trigger_rounds w Htrig) as (n & Hn & _ & Hend & Hsteps).
    set (wt := ticked hw TRIGGER_END w) in *.
    set (wn := trigger_rounds cfg hw n wt) in *.
    pose proof (jiffies_ticked hw TRIGGER_END w) as Hjt. fold wt in Hjt.
    destruct Hend as [(Hset & Hrun) | (Hclear & Hlate & Hrun)].
    + exists wn, n. split; [exact Hrun|]. split; [exact Hsteps|].
      split; [exact Hn|]. split; [exact Hset|].
      split; [intros Hne; contradiction|]. intros _. exists wn.
      split; [exact Hsteps|]. left. now split.
    + assert (Hs : steps w (ticked hw TRIGGER_TEST wn) (repeat (EvMsleep 100) n)).
      { rewrite <- (app_nil_r (repeat _ n)).
        exact (steps_trans _ _ _ _ [] Hsteps (steps_ticked hw TRIGGER_TEST wn)). }
      exists (set_reset_trigger 1 (ticked hw TRIGGER_TEST wn)), n.
      split; [exact Hrun|].
      split.
      { destruct Hs as (Hl & Hf & Hd & Hj). repeat split; assumption. }
      split; [exact Hn|]. split; [cbn; lia|].
      split; [intros Hne; contradiction|]. intros _.
      exists (ticked hw TRIGGER_TEST wn).
      split; [exact Hs|]. right. split; [exact Hclear|].
      split; [lia | reflexivity].
  - unfold wait_reset_trigger. rewrite bind_eq, get_eq. cbv beta iota.
    apply Z.eqb_neq in Htrig as Htrig'. rewrite Htrig'. cbn [negb]. rewrite ret_eq.
    exists w, 0%nat.
    split; [reflexivity|]. split; [apply steps_refl|].
    split; [lia|]. split; [exact Htrig|]. split; [reflexivity|].
    intros Hz. contradiction.
Qed.

End Trigger.

(** ** [sx_reset] *)

Section Orchestrator.

Variable cfg : build.
Variable hw : hardware.
Hypothesis hz : hz_supported cfg = true.

Lemma sx_core_dispatch_event_eq kind data w :
  sx_core_dispatch_event hw kind data w =
  Ret (hw_dispatch_event hw (List.length (log w)) kind data,
       option_map (hw_post_reset_err hw (List.length (log w))) data)
      (logged (EvDispatchEvent kind data
                 (hw_dispatch_event hw (List.length (log w)) kind data)
                 (option_map (hw_post_reset_err hw (List.length (log w))) data)) w).
Proof. reflexivity. Qed.

Lemma kzalloc_event_data_eq w :
  kzalloc_event_data hw w =
  Ret (hw_kmalloc hw (List.length (log w)))
      (logged (EvKzallocEventData (hw_kmalloc hw (List.length (log w)))) w).
Proof. reflexivity. Qed.

Lemma kmalloc_eq size w :
  kmalloc hw size w =
  Ret (hw_kmalloc hw (List.length (log w)))
      (logged (EvKmalloc size (hw_kmalloc hw (List.length (log w)))) w).
Proof. reflexivity. Qed.

Lemma kfree_eq w : kfree w = Ret tt (logged EvKfree w).
Proof. reflexivity. Qed.

Lemma sx_cmd_use_polling_eq w : sx_cmd_use_polling w = Ret tt (logged EvCmdUsePolling w).
Proof. reflexivity. Qed.

Lemma perform_dev_sw_reset_total dev p w :
  pdev dev = Some p ->
  exists err w', perform_dev_sw_reset cfg hw dev w = Ret err w'.
Proof.
  intros Hp. unfold perform_dev_sw_reset. rewrite Hp. cbn [deref].
  rewrite bind_eq, ret_eq. cbv beta iota.
  assert (Hmodern : exists err w',
             (err <- sdk_sx_reset cfg hw dev ;;
              if negb (err =? 0)
              then (err <- legacy_reset cfg hw dev ;; ret err)
              else ret err) w = Ret err w').
  { destruct (sdk_sx_reset_window cfg hw hz dev p w Hp) as (err1 & w1 & _ & _ & Hsdk & _).
    rewrite (bind_ret _ _ _ _ _ Hsdk).
    destruct (negb (err1 =? 0)); [|now exists err1, w1].
    destruct (legacy_reset_window cfg hw hz dev p w1 Hp) as (err2 & w2 & _ & _ & Hleg & _).
    rewrite (bind_ret _ _ _ _ _ Hleg). now exists err2, w2. }
  destruct (device p); try exact Hmodern.
  - destruct (legacy_reset_SwitchX_spec cfg hw hz dev p w Hp) as (err & w' & _ & Hrun & _).
    rewrite (bind_ret _ _ _ _ _ Hrun). now exists err, w'.
  - now eexists _, _.
Qed.

Lemma sx_reset_restore_total p hca_header w :
  (is_switchx (device p) = true -> hca_header <> None) ->
  exists err w', sx_reset_restore hw p hca_header w = Ret err w'.
Proof.
  intros Hhdr. unfold sx_reset_restore.
  destruct (is_switchx (device p)); [|now eexists _, _].
  destruct hca_header as [hdr|]; [|now destruct Hhdr]. cbn [deref].
  rewrite bind_eq, ret_eq. cbv beta iota.
  destruct (restore_headers_data_spec hw hdr w) as (w' & Hrun & _).
  rewrite (bind_ret _ _ _ _ _ Hrun). now eexists _, _.
Qed.

(** The phase of [sx_reset] that follows the wait for the trigger returns,
    with [is_pre_reset_event] set exactly when the chip reset was asked
    for. *)
Lemma sx_reset_phase_total dev p perform_chip_reset hca_header w :
  pdev dev = Some p ->
  (is_switchx (device p) = true -> hca_header <> None) ->
  exists err w',
    sx_reset_phase cfg hw dev p perform_chip_reset hca_header w
      = Ret (err, negb (perform_chip_reset =? 0)) w'.
Proof.
  intros Hp Hhdr. unfold sx_reset_phase.
  destruct (perform_chip_reset =? 0); cbn [negb].
  - rewrite bind_eq, get_eq. cbv beta iota.
    destruct (debug_fw_trace_boot_flow w =? 0).
    + destruct (wait_for_system_ready_spec cfg hw hz dev p 0 false w Hp ltac:(lia))
        as ([err tw] & w1 & _ & Hwait & _).
      rewrite (bind_ret _ _ _ _ _ Hwait). cbv beta iota zeta.
      destruct (negb (err =? 0)); [now eexists _, _|].
      destruct (sx_reset_restore_total p hca_header w1 Hhdr) as (err' & w' & Hrun).
      rewrite (bind_ret _ _ _ _ _ Hrun). now eexists _, _.
    + destruct (sx_reset_restore_total p hca_header w Hhdr) as (err' & w' & Hrun).
      rewrite (bind_ret _ _ _ _ _ Hrun). now eexists _, _.
  - rewrite bind_eq, sx_core_dispatch_event_eq. cbv beta iota zeta.
    set (w0 := logged _ w).
    destruct (negb (_ =? 0)); [now eexists _, _|].
    destruct (perform_dev_sw_reset_total dev p w0 Hp) as (err & w1 & Hrun).
    rewrite (bind_ret _ _ _ _ _ Hrun).
    destruct (negb (err =? 0)); [now eexists _, _|].
    destruct (poll_vendor_spec cfg hw hz w1) as (vendor & w2 & _ & Hpoll & _).
    rewrite (bind_ret _ _ _ _ _ Hpoll).
    destruct (vendor =? 0xffff); [now eexists _, _|].
    destruct (sx_reset_restore_total p hca_header w2 Hhdr) as (err' & w' & Hres).
    rewrite (bind_ret _ _ _ _ _ Hres). now eexists _, _.
Qed.

(** The beginning of [sx_reset] returns; it goes on only for a device that
    is present and with the buffers it needs. *)
Lemma sx_reset_prepare_spec dev w :
  exists prepared w0,
    sx_reset_prepare hw dev w = Ret prepared w0 /\
    match prepared with
    | inl l => l_is_pre_reset_event l = false
    | inr (d, p, hca_header) =>
        dev = Some d /\ pdev d = Some p /\
        (is_switchx (device p) = true -> hca_header <> None)
    end.
Proof.
  unfold sx_reset_prepare.
  destruct dev as [d|]; [|now eexists _, _].
  destruct (pdev d) as [p|] eqn:Hp; [|now eexists _, _].
  rewrite bind_eq, kzalloc_event_data_eq. cbv beta iota.
  destruct (hw_kmalloc hw (List.length (log w))); cbn [negb]; [|now eexists _, _].
  destruct (is_switchx (device p)) eqn:Hsx.
  - rewrite bind_eq, kmalloc_eq. cbv beta iota.
    destruct (hw_kmalloc hw _); cbn [negb]; [|now eexists _, _].
    destruct (save_headers_data_spec hw
                (logged (EvKmalloc SX_HCA_HEADERS_SIZE true)
                   (logged (EvKzallocEventData true) w)))
      as (err & hdr & w' & Hrun & _).
    rewrite (bind_ret _ _ _ _ _ Hrun). cbv beta iota zeta.
    destruct (negb (err =? 0)); [now eexists _, _|].
    eexists _, _. split; [reflexivity|]. repeat split; auto. discriminate.
  - eexists _, _. split; [reflexivity|]. repeat split; auto.
    rewrite Hsx. discriminate.
Qed.

(** C8 (as amended).  Every call of [sx_reset] that gets past its
    preparations waits for the reset trigger, whether or not it was asked to
    reset the chip.  If the trigger is set already the wait does nothing.
    Otherwise it reads the clock for its deadline, ten seconds on, and then
    makes rounds of a look at the trigger and at the clock and a sleep of
    100 ms: it makes [n] of them, at most 100, where [n] is the first
    number of rounds after which it sees the trigger set or the deadline
    passed; in the latter case it sets the trigger itself.  In every case
    [sx_reset] then goes on with the phase it was asked for, which
    returns. *)
Theorem sx_reset_trigger_gate dev perform_chip_reset d p hca_header w w0 :
  sx_reset_prepare hw dev w = Ret (inr (d, p, hca_header)) w0 ->
  let w1 := logged EvCmdUsePolling w0 in
  exists wg n,
    wait_reset_trigger cfg hw w1 = Ret tt wg /\
    steps w1 wg (repeat (EvMsleep 100) n) /\
    (n <= 100)%nat /\
    reset_trigger wg <> 0 /\
    (reset_trigger w0 <> 0 -> wg = w1) /\
    (reset_trigger w0 = 0 ->
     let wt := ticked hw TRIGGER_END w1 in
     let end_ := jiffies wt + 10 * HZ cfg in
     (forall k, (k < n)%nat ->
        reset_trigger (trigger_rounds cfg hw k wt) = 0 /\
        jiffies (ticked hw TRIGGER_TEST (trigger_rounds cfg hw k wt)) < end_) /\
     (reset_trigger (trigger_rounds cfg hw n wt) <> 0 /\
      wg = trigger_rounds cfg hw n wt \/
      reset_trigger (trigger_rounds cfg hw n wt) = 0 /\
      end_ <= jiffies (ticked hw TRIGGER_TEST (trigger_rounds cfg hw n wt)) /\
      wg = set_reset_trigger 1
             (ticked hw TRIGGER_TEST (trigger_rounds cfg hw n wt)))) /\
    sx_reset_body cfg hw dev perform_chip_reset w =
      ('(err, is_pre_reset_event) <-
         sx_reset_phase cfg hw d p perform_chip_reset hca_header ;;
       ret {| l_err := err; l_hca_header := hca_header; l_event_data := true;
              l_is_pre_reset_event := is_pre_reset_event |}) wg /\
    exists err w',
      sx_reset_phase cfg hw d p perform_chip_reset hca_header wg
        = Ret (err, negb (perform_chip_reset =? 0)) w'.
Proof.
  intros Hprep w1.
  destruct (sx_reset_prepare_spec dev w) as (prepared & w0' & Hprep' & Hshape).
  rewrite Hprep in Hprep'. injection Hprep' as <- <-.
  destruct Hshape as (_ & Hp & Hhdr).
  assert (Hgate : exists wg n,
             wait_reset_trigger cfg hw w1 = Ret tt wg /\
             steps w1 wg (repeat (EvMsleep 100) n) /\
             (n <= 100)%nat /\
             reset_trigger wg <> 0 /\
             (reset_trigger w0 <> 0 -> wg = w1) /\
             (reset_trigger w0 = 0 ->
              let wt := ticked hw TRIGGER_END w1 in
              let end_ := jiffies wt + 10 * HZ cfg in
              (forall k, (k < n)%nat ->
                 reset_trigger (trigger_rounds cfg hw k wt) = 0 /\
                 jiffies (ticked hw TRIGGER_TEST (trigger_rounds cfg hw k wt)) < end_) /\
              (reset_trigger (trigger_rounds cfg hw n wt) <> 0 /\
               wg = trigger_rounds cfg hw n wt \/
               reset_trigger (trigger_rounds cfg hw n wt) = 0 /\
               end_ <= jiffies (ticked hw TRIGGER_TEST (trigger_rounds cfg hw n wt)) /\
               wg = set_reset_trigger 1
                      (ticked hw TRIGGER_TEST (trigger_rounds cfg hw n wt))))).
  { destruct (Z.eq_dec (reset_trigger w0) 0) as [Htrig | Htrig].
    - destruct (wait_reset_trigger_rounds cfg hw hz w1 Htrig)
        as (n & Hn & Hbelow & Hend & Hsteps).
      destruct Hend as [(Hset & Hrun) | (Hclear & Hlate & Hrun)].
      + exists (trigger_rounds cfg hw n (ticked hw TRIGGER_END w1)), n.
        split; [exact Hrun|]. split; [exact Hsteps|]. split; [exact Hn|].
        split; [exact Hset|]. split; [intros Hne; contradiction|].
        intros _. split; [exact Hbelow|]. left. now split.
      + exists (set_reset_trigger 1
                  (ticked hw TRIGGER_TEST
                     (trigger_rounds cfg hw n (ticked hw TRIGGER_END w1)))), n.
        split; [exact Hrun|]. split.
        { pose proof (steps_trans _ _ _ _ [] Hsteps (steps_ticked hw TRIGGER_TEST _))
            as (Hl & Hf & Hd & Hj).
          rewrite app_nil_r in Hl. repeat split; assumption. }
        split; [exact Hn|]. split; [cbn; lia|].
        split; [intros Hne; contradiction|].
        intros _. split; [exact Hbelow|]. right. now repeat split.
    - destruct (wait_reset_trigger_spec cfg hw hz w1)
        as (wg & n & Hrun & Hsteps & Hn & Hset & Hquick & _).
      exists wg, n. split; [exact Hrun|]. split; [exact Hsteps|].
      split; [exact Hn|]. split; [exact Hset|]. split; [exact Hquick|].
      intros Hz. contradiction. }
  destruct Hgate as (wg & n & Hgate & Hrest).
  exists wg, n. split; [exact Hgate|].
  destruct Hrest as (Hsteps & Hn & Hset & Hquick & Hslow).
  split; [exact Hsteps|].
  split; [exact Hn|]. split; [exact Hset|]. split; [exact Hquick|].
  split; [exact Hslow|]. split.
  - unfold sx_reset_body. rewrite (bind_ret _ _ _ _ _ Hprep). cbv beta iota.
    unfold sx_reset_armed.
    rewrite bind_eq, sx_cmd_use_polling_eq. cbv beta iota. fold w1.
    rewrite (bind_ret _ _ _ _ _ Hgate). reflexivity.
  - exact (sx_reset_phase_total d p perform_chip_reset hca_header wg Hp Hhdr).
Qed.

Lemma sx_reset_body_spec dev perform_chip_reset w :
  exists l w1,
    sx_reset_body cfg hw dev perform_chip_reset w = Ret l w1 /\
    (l_is_pre_reset_event l = true <->
     perform_chip_reset <> 0 /\
     exists x w0, sx_reset_prepare hw dev w = Ret (inr x) w0) /\
    (l_is_pre_reset_event l = true -> l_event_data l = true).
Proof.
  destruct (sx_reset_prepare_spec dev w) as (prepared & w0 & Hprep & Hshape).
  unfold sx_reset_body. rewrite (bind_ret _ _ _ _ _ Hprep).
  destruct prepared as [l | [[d p] hca_header]].
  - rewrite ret_eq. exists l, w0. split; [reflexivity|]. rewrite Hshape. split.
    + split; [discriminate|]. intros (_ & x & w0' & Hx). congruence.
    + discriminate.
  - destruct Hshape as (_ & Hp & Hhdr). unfold sx_reset_armed.
    rewrite bind_eq, sx_cmd_use_polling_eq. cbv beta iota.
    destruct (wait_reset_trigger_spec cfg hw hz (logged EvCmdUsePolling w0))
      as (wg & n & Hgate & _).
    rewrite (bind_ret _ _ _ _ _ Hgate).
    destruct (sx_reset_phase_total d p perform_chip_reset hca_header wg Hp Hhdr)
      as (err & w1 & Hphase).
    rewrite (bind_ret _ _ _ _ _ Hphase). cbv beta iota zeta. rewrite ret_eq.
    eexists _, w1. split; [reflexivity|]. cbn [l_is_pre_reset_event l_event_data].
    split; [|reflexivity]. rewrite negb_true_iff, Z.eqb_neq. split.
    + intros Hne. split; [exact Hne|]. now exists (d, p, hca_header), w0.
    + intros (Hne & _). exact Hne.
Qed.

(** C9 (as amended).  [sx_reset] dispatches the post-reset event exactly in
    the calls in which it dispatched the pre-reset event: those that were
    asked to reset the chip and got past the preparations.  In these calls
    the event carries the error code with which the call reached [out:],
    and the answer of [sx_reset] is the error code the subscribers leave in
    the payload, whatever the dispatch itself returns.  In every other call
    no event is dispatched at [out:] and the answer is the error code the
    call reached [out:] with. *)
Theorem sx_reset_post_reset_event dev perform_chip_reset w :
  exists l w1,
    sx_reset_body cfg hw dev perform_chip_reset w = Ret l w1 /\
    (l_is_pre_reset_event l = true <->
     perform_chip_reset <> 0 /\
     exists x w0, sx_reset_prepare hw dev w = Ret (inr x) w0) /\
    let n := (List.length (log w1) + List.length (freed_header l))%nat in
    (l_is_pre_reset_event l = true ->
     exists w2,
       sx_reset cfg hw dev perform_chip_reset w
         = Ret (hw_post_reset_err hw n (l_err l)) w2 /\
       steps w1 w2
         (freed_header l
          ++ [EvDispatchEvent SX_DEV_EVENT_POST_RESET (Some (l_err l))
                (hw_dispatch_event hw n SX_DEV_EVENT_POST_RESET (Some (l_err l)))
                (Some (hw_post_reset_err hw n (l_err l)));
              EvKfree])) /\
    (l_is_pre_reset_event l = false ->
     exists w2,
       sx_reset cfg hw dev perform_chip_reset w = Ret (l_err l) w2 /\
       steps w1 w2 (freed_header l ++ if l_event_data l then [EvKfree] else [])).
Proof.
  destruct (sx_reset_body_spec dev perform_chip_reset w)
    as (l & w1 & Hbody & Hiff & Hdata).
  exists l, w1. split; [exact Hbody|]. split; [exact Hiff|].
  cbv zeta. unfold sx_reset. rewrite (bind_ret _ _ _ _ _ Hbody).
  unfold sx_reset_out, freed_header.
  assert (Hfree : exists w1',
             match l_hca_header l with Some _ => kfree | None => ret tt end w1
               = Ret tt w1' /\
             steps w1 w1' match l_hca_header l with Some _ => [EvKfree] | None => [] end /\
             List.length (log w1') =
               (List.length (log w1)
                + List.length match l_hca_header l with Some _ => [EvKfree] | None => [] end)%nat).
  { destruct (l_hca_header l).
    - exists (logged EvKfree w1). split; [reflexivity|]. split; [apply steps_logged|].
      rewrite length_logged. cbn. lia.
    - exists w1. split; [reflexivity|]. split; [apply steps_refl|]. cbn. lia. }
  destruct Hfree as (w1' & Hfree & Hs1 & Hlen).
  rewrite (bind_ret _ _ _ _ _ Hfree). split.
  - intros Hpre. rewrite (Hdata Hpre), Hpre.
    rewrite bind_eq, bind_eq, sx_core_dispatch_event_eq. cbv beta iota zeta.
    cbn [option_map]. rewrite ret_eq.
    rewrite bind_eq, kfree_eq. cbv beta iota. rewrite ret_eq, Hlen.
    eexists. split; [reflexivity|].
    refine (steps_trans _ _ _ _ [_; _] Hs1 _). do 2 apply steps_cons. apply steps_refl.
  - intros Hpre. rewrite Hpre. destruct (l_event_data l).
    + rewrite bind_eq, ret_eq. cbv beta iota.
      rewrite bind_eq, kfree_eq. cbv beta iota. rewrite ret_eq.
      eexists. split; [reflexivity|].
      exact (steps_trans _ _ _ _ [_] Hs1 (steps_logged _ w1')).
    + rewrite ret_eq. exists w1'. split; [reflexivity|]. rewrite app_nil_r. exact Hs1.
Qed.

End Orchestrator.

(** ** The theorems at concrete worlds *)

(** C3 (as amended) on a Spectrum device at boot. *)
Lemma dev_sw_rst_flow_window_witness :
  hz_supported production = true /\
  pdev spectrum = Some spectrum_pdev /\
  dev_sw_rst_flow boot = false /\
  (exists err w' pre win,
     sdk_sx_reset production ready_hw spectrum boot = Ret err w' /\
     log w' = log boot ++ map (tag false) pre ++ map (tag true) win /\
     no_trigger pre = true /\
     (win = [] \/
      exists rc rest, win = EvAccessRegMRSR (sw_reset_reg_data spectrum) rc :: rest /\
                      no_trigger rest = true) /\
     dev_sw_rst_flow w' = false) /\
  (exists err w' pre win,
     legacy_reset production ready_hw spectrum boot = Ret err w' /\
     log w' = log boot ++ map (tag false) pre ++ map (tag true) win /\
     no_trigger pre = true /\
     (win = [] \/
      win = [EvIoremap SX_RESET_BASE SX_RESET_SIZE false] \/
      exists rest, win = EvIoremap SX_RESET_BASE SX_RESET_SIZE true
                         :: EvWritel SX_RESET_BASE SX_RESET_VALUE :: rest /\
                   no_trigger rest = true) /\
     dev_sw_rst_flow w' = false) /\
  (exists err w' evs,
     legacy_reset_SwitchX production ready_hw spectrum boot = Ret err w' /\
     log w' = log boot ++ map (tag false) evs /\
     dev_sw_rst_flow w' = false).
Proof.
  split; [reflexivity|]. split; [reflexivity|]. split; [reflexivity|].
  exact (dev_sw_rst_flow_window production ready_hw eq_refl
           spectrum spectrum_pdev boot eq_refl eq_refl).
Defined.

(** C3 as it is stated fails on SwitchX: [legacy_reset_SwitchX] writes the
    reset register and polls the vendor id with [dev_sw_rst_flow] clear. *)
Lemma legacy_reset_SwitchX_flow_stays_clear :
  answer_of (legacy_reset_SwitchX production ready_hw switchx boot) = Some 0 /\
  log (world_of (legacy_reset_SwitchX production ready_hw switchx boot)) =
    [(EvIoremap SX_RESET_BASE SX_RESET_SIZE true, false);
     (EvWritel SX_RESET_BASE SX_RESET_VALUE, false);
     (EvIounmap SX_RESET_BASE, false);
     (EvMsleep 3000, false);
     (EvPciReadConfigWord PCI_VENDOR_ID 0 0x15b3, false)] /\
  is_trigger (EvWritel SX_RESET_BASE SX_RESET_VALUE) = true.
Proof. vm_compute. repeat split. Qed.

(** C4 (as amended) on a device whose status register does not show the
    enabled value. *)
Lemma wait_for_system_ready_zero_budget_witness :
  hz_supported production = true /\
  pdev spectrum = Some spectrum_pdev /\
  hw_ioremap idle_hw (List.length (log boot)) = true /\
  let val := u32 (hw_ioread32be idle_hw (S (S (List.length (log boot))))) in
  exists start end_ now w',
    __wait_for_system_ready production idle_hw spectrum 0 true boot =
      Ret (if system_status_enabled val
           then (0, if true then Some (jiffies_to_msecs production (now - start))
                    else None)
           else (- ETIME, None)) w' /\
    steps boot w'
      ([EvIoremap SX_SYSTEM_STATUS_REG_OFFSET SX_SYSTEM_STATUS_REG_SIZE true;
        EvWaitInfo 0 start end_;
        EvIoread32be SX_SYSTEM_STATUS_REG_OFFSET val]
       ++ (if system_status_enabled val then [] else [EvMsleep 1])
       ++ [EvIounmap SX_SYSTEM_STATUS_REG_OFFSET]) /\
    jiffies boot <= start <= end_ /\ end_ <= now <= jiffies w'.
Proof.
  split; [reflexivity|]. split; [reflexivity|]. split; [reflexivity|].
  exact (wait_for_system_ready_zero_budget production idle_hw eq_refl
           spectrum spectrum_pdev true boot eq_refl eq_refl).
Defined.

(** C4 as it is stated fails: with a budget of zero and a status register
    that does not show the enabled value, [__wait_for_system_ready] sleeps
    one millisecond before it answers -ETIME. *)
Lemma zero_budget_wait_sleeps :
  answer_of (__wait_for_system_ready production idle_hw spectrum 0 true boot)
    = Some (- ETIME, None) /\
  events_of (__wait_for_system_ready production idle_hw spectrum 0 true boot) =
    [EvIoremap SX_SYSTEM_STATUS_REG_OFFSET SX_SYSTEM_STATUS_REG_SIZE true;
     EvWaitInfo 0 0 0;
     EvIoread32be SX_SYSTEM_STATUS_REG_OFFSET 0;
     EvMsleep 1;
     EvIounmap SX_SYSTEM_STATUS_REG_OFFSET] /\
  filter is_sleep
    (events_of (__wait_for_system_ready production idle_hw spectrum 0 true boot))
    <> [].
Proof. vm_compute. repeat split. discriminate. Qed.

(** With a budget of zero on a device that is ready, the time reported is
    what the clock ran on between the two reads the driver makes of it. *)
Example zero_budget_wait_reports_time :
  answer_of (__wait_for_system_ready production preempted_hw spectrum 0 true boot)
  = Some (0, Some 5).
Proof. vm_compute. reflexivity. Qed.

(** The offset that stands for no timeout, where [long] has 64 bits. *)
Example MAX_JIFFY_OFFSET_production :
  MAX_JIFFY_OFFSET production = 2 ^ 62 - 2 /\
  msecs_to_jiffies production (2 ^ 31) = 2 ^ 62 - 2 /\
  msecs_to_jiffies production (2 ^ 31 - 1) = 2 ^ 31 - 1.
Proof. vm_compute. repeat split. Qed.



(** C6 (as amended) on a Quantum device in a production build. *)
Lemma get_chip_reset_duration_table_witness :
  pdev quantum = Some quantum_pdev /\
  exists duration,
    __get_chip_reset_duration production quantum boot = Ret duration boot /\
    duration =
      if PD_BU production && QUANTUM3_BU production then 1200000
      else match device quantum_pdev with
           | QUANTUM_PCI_DEV_ID | QUANTUM2_PCI_DEV_ID | QUANTUM3_PCI_DEV_ID => 15000
           | SPECTRUM2_PCI_DEV_ID | SPECTRUM3_PCI_DEV_ID | SPECTRUM4_PCI_DEV_ID => 900000
           | SWITCHX_PCI_DEV_ID | SPECTRUM_PCI_DEV_ID | SWITCH_IB_PCI_DEV_ID
           | SWITCH_IB2_PCI_DEV_ID | OTHER_PCI_DEV_ID _ =>
               if INCREASED_TIMEOUT production then 1500000 else 5000
           end.
Proof.
  split; [reflexivity|].
  exact (get_chip_reset_duration_table production quantum quantum_pdev boot eq_refl).
Defined.

(** C6 as it is stated fails in a build with PD_BU and QUANTUM3_BU defined:
    the duration of a Quantum device is then 1 200 000 ms, not 15 000 ms. *)
Lemma get_chip_reset_duration_palladium :
  answer_of (__get_chip_reset_duration palladium quantum boot) = Some 1200000 /\
  answer_of (__get_chip_reset_duration palladium quantum boot) <> Some 15000.
Proof. vm_compute. split; [reflexivity | discriminate]. Qed.

(** C7 as it is stated fails: the restore writes the dword of index 4 at
    offset 16 in the middle of the others, and the write it makes last is
    the one of the dword of index 1 at offset 4. *)
Lemma restore_headers_data_command_word :
  answer_of (__restore_headers_data ready_hw numbered_header boot) = Some 0 /\
  events_of (__restore_headers_data ready_hw numbered_header boot) =
    [EvPciFindCapability PCI_CAP_ID_EXP 0;
     EvPciWriteConfigDword 0 0 0;
     EvPciWriteConfigDword 8 2 0; EvPciWriteConfigDword 12 3 0;
     EvPciWriteConfigDword 16 4 0; EvPciWriteConfigDword 20 5 0;
     EvPciWriteConfigDword 24 6 0; EvPciWriteConfigDword 28 7 0;
     EvPciWriteConfigDword 32 8 0; EvPciWriteConfigDword 36 9 0;
     EvPciWriteConfigDword 40 10 0; EvPciWriteConfigDword 44 11 0;
     EvPciWriteConfigDword 48 12 0; EvPciWriteConfigDword 52 13 0;
     EvPciWriteConfigDword 56 14 0; EvPciWriteConfigDword 60 15 0;
     EvPciWriteConfigDword 4 1 0] /\
  last (events_of (__restore_headers_data ready_hw numbered_header boot)) EvKfree
    <> EvPciWriteConfigDword 16 4 0.
Proof. vm_compute. repeat split. discriminate. Qed.

(** C8 (as amended) on a call that resets the chip, with the trigger not
    set when the call is made and written during the third sleep of the
    wait. *)
Lemma sx_reset_trigger_gate_witness :
  hz_supported production = true /\
  sx_reset_prepare triggered_hw (Some spectrum) unarmed
    = Ret (inr (spectrum, spectrum_pdev, None)) prepared_w0 /\
  let w1 := logged EvCmdUsePolling prepared_w0 in
  exists wg n,
    wait_reset_trigger production triggered_hw w1 = Ret tt wg /\
    steps w1 wg (repeat (EvMsleep 100) n) /\
    (n <= 100)%nat /\
    reset_trigger wg <> 0 /\
    (reset_trigger prepared_w0 <> 0 -> wg = w1) /\
    (reset_trigger prepared_w0 = 0 ->
     let wt := ticked triggered_hw TRIGGER_END w1 in
     let end_ := jiffies wt + 10 * HZ production in
     (forall k, (k < n)%nat ->
        reset_trigger (trigger_rounds production triggered_hw k wt) = 0 /\
        jiffies (ticked triggered_hw TRIGGER_TEST
                   (trigger_rounds production triggered_hw k wt)) < end_) /\
     (reset_trigger (trigger_rounds production triggered_hw n wt) <> 0 /\
      wg = trigger_rounds production triggered_hw n wt \/
      reset_trigger (trigger_rounds production triggered_hw n wt) = 0 /\
      end_ <= jiffies (ticked triggered_hw TRIGGER_TEST
                         (trigger_rounds production triggered_hw n wt)) /\
      wg = set_reset_trigger 1
             (ticked triggered_hw TRIGGER_TEST
                (trigger_rounds production triggered_hw n wt)))) /\
    sx_reset_body production triggered_hw (Some spectrum) 1 unarmed =
      ('(err, is_pre_reset_event) <-
         sx_reset_phase production triggered_hw spectrum spectrum_pdev 1 None ;;
       ret {| l_err := err; l_hca_header := None; l_event_data := true;
              l_is_pre_reset_event := is_pre_reset_event |})%reset wg /\
    exists err w',
      sx_reset_phase production triggered_hw spectrum spectrum_pdev 1 None wg
        = Ret (err, negb (1 =? 0)) w'.
Proof.
  assert (Hprep : sx_reset_prepare triggered_hw (Some spectrum) unarmed
                  = Ret (inr (spectrum, spectrum_pdev, None)) prepared_w0)
    by (vm_compute; reflexivity).
  split; [reflexivity|]. split; [exact Hprep|].
  exact (sx_reset_trigger_gate production triggered_hw eq_refl (Some spectrum) 1
           spectrum spectrum_pdev None unarmed prepared_w0 Hprep).
Defined.

(** There the wait ends with the third sleep, during which the trigger was
    written, and does not set the trigger itself. *)
Example sx_reset_wait_ends_when_triggered :
  wait_reset_trigger production triggered_hw (logged EvCmdUsePolling prepared_w0)
  = Ret tt (trigger_rounds production triggered_hw 3
              (ticked triggered_hw TRIGGER_END (logged EvCmdUsePolling prepared_w0))) /\
  map (fun k => reset_trigger
                  (trigger_rounds production triggered_hw k
                     (ticked triggered_hw TRIGGER_END (logged EvCmdUsePolling prepared_w0))))
      [0; 1; 2; 3]%nat
  = [0; 0; 0; 1].
Proof. vm_compute. split; reflexivity. Qed.

(** C8 as it is stated fails: a call that is not asked to reset the chip
    waits for the trigger all the same, here a hundred sleeps of 100 ms,
    and sets the trigger itself at the end. *)
Lemma sx_reset_waits_for_trigger_without_reset :
  reset_trigger unarmed = 0 /\
  answer_of (sx_reset production ready_hw (Some spectrum) 0 unarmed) = Some 0 /\
  filter is_sleep (events_of (sx_reset production ready_hw (Some spectrum) 0 unarmed))
    = repeat (EvMsleep 100) 100 /\
  reset_trigger (world_of (sx_reset production ready_hw (Some spectrum) 0 unarmed)) = 1.
Proof. vm_compute. repeat split. Qed.

(** C9 (as amended) on a call that resets the chip. *)
Lemma sx_reset_post_reset_event_witness :
  hz_supported production = true /\
  exists l w1,
    sx_reset_body production ready_hw (Some spectrum) 1 boot = Ret l w1 /\
    (l_is_pre_reset_event l = true <->
     1 <> 0 /\
     exists x w0, sx_reset_prepare ready_hw (Some spectrum) boot = Ret (inr x) w0) /\
    let n := (List.length (log w1) + List.length (freed_header l))%nat in
    (l_is_pre_reset_event l = true ->
     exists w2,
       sx_reset production ready_hw (Some spectrum) 1 boot
         = Ret (hw_post_reset_err ready_hw n (l_err l)) w2 /\
       steps w1 w2
         (freed_header l
          ++ [EvDispatchEvent SX_DEV_EVENT_POST_RESET (Some (l_err l))
                (hw_dispatch_event ready_hw n SX_DEV_EVENT_POST_RESET (Some (l_err l)))
                (Some (hw_post_reset_err ready_hw n (l_err l)));
              EvKfree])) /\
    (l_is_pre_reset_event l = false ->
     exists w2,
       sx_reset production ready_hw (Some spectrum) 1 boot = Ret (l_err l) w2 /\
       steps w1 w2 (freed_header l ++ if l_event_data l then [EvKfree] else [])).
Proof.
  split; [reflexivity|].
  exact (sx_reset_post_reset_event production ready_hw eq_refl (Some spectrum) 1 boot).
Defined.

(** C9 as it is stated fails: a call that is not asked to reset the chip
    dispatches no post-reset event, and neither does a call without a
    device. *)
Lemma sx_reset_without_post_reset_event :
  answer_of (sx_reset production ready_hw (Some spectrum) 0 boot) = Some 0 /\
  existsb is_post_reset_event
    (events_of (sx_reset production ready_hw (Some spectrum) 0 boot)) = false /\
  answer_of (sx_reset production ready_hw None 1 boot) = Some (- ENODEV) /\
  events_of (sx_reset production ready_hw None 1 boot) = [].
Proof. vm_compute. repeat split. Qed.

(** C10 on a device whose status register cannot be mapped for the check
    that follows the MRSR write. *)
Lemma sdk_sx_reset_masks_poller_error_witness :
  hz_supported production = true /\
  pdev spectrum = Some spectrum_pdev /\
  __wait_for_system_ready production unmapped_hw spectrum
    (chip_reset_duration production (device spectrum_pdev)) true boot
    = Ret (0, Some 0) unmapped_w1 /\
  reset_dev_by_mrsr_reg unmapped_hw spectrum (set_dev_sw_rst_flow true unmapped_w1)
    = Ret 0 unmapped_w2 /\
  exists err tw3 w3,
    __wait_for_system_ready production unmapped_hw spectrum 0 true unmapped_w2
      = Ret (err, tw3) w3 /\
    (err = 0 \/ err = - ENOMEM \/ err = - ETIME) /\
    (err = - ENOMEM <-> hw_ioremap unmapped_hw (List.length (log unmapped_w2)) = false) /\
    (err <> - ETIME ->
     sdk_sx_reset production unmapped_hw spectrum boot
       = Ret (- EFAULT) (set_dev_sw_rst_flow false w3)).
Proof.
  assert (H1 : __wait_for_system_ready production unmapped_hw spectrum
                 (chip_reset_duration production (device spectrum_pdev)) true boot
               = Ret (0, Some 0) unmapped_w1) by (vm_compute; reflexivity).
  assert (H2 : reset_dev_by_mrsr_reg unmapped_hw spectrum
                 (set_dev_sw_rst_flow true unmapped_w1)
               = Ret 0 unmapped_w2) by (vm_compute; reflexivity).
  split; [reflexivity|]. split; [reflexivity|]. split; [exact H1|]. split; [exact H2|].
  exact (sdk_sx_reset_masks_poller_error production unmapped_hw eq_refl
           spectrum spectrum_pdev boot (Some 0) unmapped_w1 unmapped_w2 eq_refl H1 H2).
Defined.

(** ** Further properties of the reset flow *)

Section Paths.

Variable cfg : build.
Variable hw : hardware.
Hypothesis hz : hz_supported cfg = true.

Lemma wait_for_system_ready_waited dev p m tw w :
  pdev dev = Some p -> 0 <= m ->
  exists err time_waited w' evs,
    __wait_for_system_ready cfg hw dev m tw w = Ret (err, time_waited) w' /\
    steps w w' evs /\ waited m err evs.
Proof.
  intros Hp Hm.
  destruct (wait_for_system_ready_spec cfg hw hz dev p m tw w Hp Hm)
    as ([err time_waited] & w' & evs & Hrun & Hsteps & Hout).
  exists err, time_waited, w', evs. split; [exact Hrun|]. split; [exact Hsteps|].
  unfold wait_outcome in Hout. unfold waited, poll_events.
  destruct (hw_ioremap hw (List.length (log w))).
  - destruct Hout as (start & now & body & [|] & Hevs & _ & Hpoll & _ & Hready & Htimeout).
    + destruct (Hready eq_refl) as (t & Heq & _). injection Heq as -> _.
      left. split; [reflexivity|]. eexists _, _, body. split; [exact Hevs | exact Hpoll].
    + destruct (Htimeout eq_refl) as (Heq & _). injection Heq as -> _.
      right; left. split; [reflexivity|]. eexists _, _, body.
      split; [exact Hevs | exact Hpoll].
  - destruct Hout as (Heq & Hevs). injection Heq as -> _.
    right; right. now split.
Qed.

Lemma waited_no_trigger m err evs : waited m err evs -> no_trigger evs = true.
Proof.
  intros [(_ & Hp) | [(_ & Hp) | (_ & ->)]]; [| |reflexivity];
    destruct Hp as (start & end_ & body & -> & Hpoll);
    change (no_trigger (body ++ [EvIounmap SX_SYSTEM_STATUS_REG_OFFSET]) = true);
    rewrite no_trigger_app, (polled_no_trigger _ _ Hpoll); reflexivity.
Qed.

Lemma polled_no_bookkeeping evs ready : polled evs ready -> no_bookkeeping evs = true.
Proof. induction 1; cbn; auto. Qed.

Lemma no_bookkeeping_app evs1 evs2 :
  no_bookkeeping (evs1 ++ evs2) = no_bookkeeping evs1 && no_bookkeeping evs2.
Proof. apply forallb_app. Qed.

Lemma waited_no_bookkeeping m err evs : waited m err evs -> no_bookkeeping evs = true.
Proof.
  intros [(_ & Hp) | [(_ & Hp) | (_ & ->)]]; [| |reflexivity];
    destruct Hp as (start & end_ & body & -> & Hpoll);
    change (no_bookkeeping (body ++ [EvIounmap SX_SYSTEM_STATUS_REG_OFFSET]) = true);
    rewrite no_bookkeeping_app, (polled_no_bookkeeping _ _ Hpoll); reflexivity.
Qed.

(** Every run of [sdk_sx_reset] follows one of its paths. *)
Lemma sdk_sx_reset_paths dev p w :
  pdev dev = Some p ->
  exists err w' pre win,
    sdk_sx_reset cfg hw dev w = Ret err w' /\
    log w' = log w ++ map (tag (dev_sw_rst_flow w)) pre ++ map (tag true) win /\
    dev_sw_rst_flow w' = false /\
    sdk_sx_reset_path (chip_reset_duration cfg (device p)) dev err pre win.
Proof.
  intros Hp. unfold sdk_sx_reset, sdk_sx_reset_path.
  rewrite (bind_ret _ _ _ _ _ (get_chip_reset_duration_eq cfg dev p w Hp)).
  pose proof (chip_reset_duration_range cfg (device p)) as Hd.
  set (d := chip_reset_duration cfg (device p)) in *.
  destruct (wait_for_system_ready_waited dev p d true w Hp ltac:(lia))
    as (err1 & tw1 & w1 & evs1 & Hw1 & Hs1 & Hwaited1).
  rewrite (bind_ret _ _ _ _ _ Hw1). cbv beta iota zeta.
  pose proof (waited_no_trigger _ _ _ Hwaited1) as Hpre.
  destruct (err1 =? 0) eqn:E1; cbn [negb].
  { apply Z.eqb_eq in E1. subst err1.
    rewrite bind_eq, modify_eq. cbv beta iota.
    rewrite bind_eq, reset_dev_by_mrsr_reg_eq. cbv beta iota.
    set (w1' := set_dev_sw_rst_flow true w1).
    set (rc := hw_access_reg_mrsr hw (List.length (log w1'))).
    set (w2 := logged (EvAccessRegMRSR (sw_reset_reg_data dev) rc) w1').
    assert (Hl2 : log w2 = log w1 ++ map (tag true) [EvAccessRegMRSR (sw_reset_reg_data dev) rc])
      by reflexivity.
    assert (Hf2 : dev_sw_rst_flow w2 = true) by reflexivity.
    destruct (rc =? 0) eqn:E2; cbn [negb].
    { apply Z.eqb_eq in E2.
      destruct (wait_for_system_ready_waited dev p 0 true w2 Hp ltac:(lia))
        as (err2 & tw2 & w3 & evs2 & Hw3 & Hs3 & Hwaited2).
      rewrite (bind_ret _ _ _ _ _ Hw3). cbv beta iota zeta.
      destruct (err2 =? - ETIME) eqn:E3; cbn [negb].
      { apply Z.eqb_eq in E3.
        destruct (wait_for_system_ready_waited dev p d true w3 Hp ltac:(lia))
          as (err3 & tw3 & w4 & evs3 & Hw4 & Hs4 & Hwaited3).
        rewrite (bind_ret _ _ _ _ _ Hw4). cbv beta iota zeta.
        rewrite out_clear_flow_eq.
        exists err3, (set_dev_sw_rst_flow false w4), evs1,
          ([EvAccessRegMRSR (sw_reset_reg_data dev) rc] ++ evs2 ++ evs3).
        split; [reflexivity|].
        destruct (flow_window_extend _ _ _ _ _ _ _ Hs1 Hpre Hl2 Hf2
                    (steps_trans _ _ _ _ _ Hs3 Hs4)) as (Hlog & _ & Hclear).
        split; [exact Hlog|]. split; [exact Hclear|].
        exists 0. split; [exact Hwaited1|]. right. split; [reflexivity|].
        exists rc. right. split; [exact E2|]. exists err2, evs2.
        split; [exact Hwaited2|]. right. split; [exact E3|].
        exists evs3. split; [exact Hwaited3|]. rewrite E2. reflexivity. }
      apply Z.eqb_neq in E3. rewrite out_clear_flow_eq.
      exists (- EFAULT), (set_dev_sw_rst_flow false w3), evs1,
        ([EvAccessRegMRSR (sw_reset_reg_data dev) rc] ++ evs2).
      split; [reflexivity|].
      destruct (flow_window_extend _ _ _ _ _ _ _ Hs1 Hpre Hl2 Hf2 Hs3)
        as (Hlog & _ & Hclear).
      split; [exact Hlog|]. split; [exact Hclear|].
      exists 0. split; [exact Hwaited1|]. right. split; [reflexivity|].
      exists rc. right. split; [exact E2|]. exists err2, evs2.
      split; [exact Hwaited2|]. left. split; [exact E3|].
      rewrite E2. split; reflexivity. }
    apply Z.eqb_neq in E2. rewrite out_clear_flow_eq.
    exists rc, (set_dev_sw_rst_flow false w2), evs1,
      ([EvAccessRegMRSR (sw_reset_reg_data dev) rc] ++ []).
    split; [reflexivity|].
    destruct (flow_window_extend _ _ _ _ _ _ _ Hs1 Hpre Hl2 Hf2 (steps_refl w2))
      as (Hlog & _ & Hclear).
    split; [exact Hlog|]. split; [exact Hclear|].
    exists 0. split; [exact Hwaited1|]. right. split; [reflexivity|].
    exists rc. left. split; [exact E2|]. split; reflexivity. }
  apply Z.eqb_neq in E1. rewrite out_clear_flow_eq.
  exists err1, (set_dev_sw_rst_flow false w1), evs1, [].
  split; [reflexivity|].
  destruct (flow_window_closed _ _ _ Hs1 Hpre) as (Hlog & _ & Hclear).
  split; [exact Hlog|]. split; [exact Hclear|].
  exists err1. split; [exact Hwaited1|]. left. now repeat split.
Qed.

(** Every run of [legacy_reset] on a device that is present follows one of
    its paths, with twice the duration of the device as the budget. *)
Lemma legacy_reset_paths dev p w :
  pdev dev = Some p ->
  exists err w' pre win,
    legacy_reset cfg hw dev w = Ret err w' /\
    log w' = log w ++ map (tag (dev_sw_rst_flow w)) pre ++ map (tag true) win /\
    dev_sw_rst_flow w' = false /\
    legacy_reset_path cfg (2 * chip_reset_duration cfg (device p)) err pre win.
Proof.
  intros Hp. unfold legacy_reset, legacy_reset_path. rewrite Hp.
  rewrite (bind_ret _ _ _ _ _ (get_chip_reset_duration_eq cfg dev p w Hp)).
  pose proof (chip_reset_duration_range cfg (device p)) as Hd.
  assert (Hu : u32 (chip_reset_duration cfg (device p) * 2)
               = 2 * chip_reset_duration cfg (device p)).
  { unfold u32. rewrite Z.mod_small; lia. }
  cbv zeta. rewrite Hu.
  set (d := 2 * chip_reset_duration cfg (device p)) in *.
  destruct (wait_for_system_ready_waited dev p d true w Hp ltac:(lia))
    as (err1 & tw1 & w1 & evs1 & Hw1 & Hs1 & Hwaited1).
  rewrite (bind_ret _ _ _ _ _ Hw1). cbv beta iota zeta.
  pose proof (waited_no_trigger _ _ _ Hwaited1) as Hpre.
  destruct (err1 =? 0) eqn:E1; cbn [negb].
  { apply Z.eqb_eq in E1. subst err1.
    rewrite bind_eq, modify_eq. cbv beta iota.
    set (w1' := set_dev_sw_rst_flow true w1).
    assert (Hl1 : log w1' = log w1 ++ map (tag true) []).
    { cbn [map]. rewrite app_nil_r. reflexivity. }
    assert (Hf1 : dev_sw_rst_flow w1' = true) by reflexivity.
    destruct (do_legacy_reset_spec cfg hw hz dev p w1' Hp)
      as (err2 & w2 & evs2 & Hrun & Hs2 & Ho2).
    rewrite (bind_ret _ _ _ _ _ Hrun).
    destruct (hw_ioremap hw (List.length (log w1'))); destruct Ho2 as (-> & ->).
    { cbn [Z.eqb negb].
      destruct (wait_for_system_ready_waited dev p d true w2 Hp ltac:(lia))
        as (err3 & tw3 & w3 & evs3 & Hw3 & Hs3 & Hwaited3).
      rewrite (bind_ret _ _ _ _ _ Hw3). cbv beta iota zeta.
      rewrite out_clear_flow_eq.
      exists err3, (set_dev_sw_rst_flow false w3), evs1, (legacy_trigger_events cfg ++ evs3).
      split; [reflexivity|].
      destruct (flow_window_extend _ _ _ _ _ _ _ Hs1 Hpre Hl1 Hf1
                  (steps_trans _ _ _ _ _ Hs2 Hs3)) as (Hlog & _ & Hclear).
      split; [exact Hlog|]. split; [exact Hclear|].
      exists 0. split; [exact Hwaited1|]. right. split; [reflexivity|].
      right. exists evs3. now split. }
    cbn [Z.eqb negb ENOMEM Z.opp]. rewrite out_clear_flow_eq.
    exists (- ENOMEM), (set_dev_sw_rst_flow false w2), evs1,
      [EvIoremap SX_RESET_BASE SX_RESET_SIZE false].
    split; [reflexivity|].
    destruct (flow_window_extend _ _ _ _ _ _ _ Hs1 Hpre Hl1 Hf1 Hs2)
      as (Hlog & _ & Hclear).
    split; [exact Hlog|]. split; [exact Hclear|].
    exists 0. split; [exact Hwaited1|]. right. split; [reflexivity|].
    left. now split. }
  apply Z.eqb_neq in E1. rewrite out_clear_flow_eq.
  exists err1, (set_dev_sw_rst_flow false w1), evs1, [].
  split; [reflexivity|].
  destruct (flow_window_closed _ _ _ Hs1 Hpre) as (Hlog & _ & Hclear).
  split; [exact Hlog|]. split; [exact Hclear|].
  exists err1. split; [exact Hwaited1|]. left. now repeat split.
Qed.

End Paths.

Lemma existsb_is_mrsr_app evs1 evs2 :
  existsb is_mrsr (evs1 ++ evs2) = existsb is_mrsr evs1 || existsb is_mrsr evs2.
Proof. apply existsb_app. Qed.

Lemma no_trigger_no_mrsr evs : no_trigger evs = true -> existsb is_mrsr evs = false.
Proof.
  induction evs as [|e evs IH]; [reflexivity|]. cbn.
  intros H. apply andb_prop in H as [He Hevs]. rewrite (IH Hevs).
  destruct e; try reflexivity; discriminate.
Qed.

Lemma waited_answers m err evs :
  waited m err evs -> err = 0 \/ err = - ETIME \/ err = - ENOMEM.
Proof. intros [(-> & _) | [(-> & _) | (-> & _)]]; auto. Qed.

Lemma waited_ready m evs : waited m 0 evs -> poll_events m true evs.
Proof. intros [(_ & H) | [(H & _) | (H & _)]]; [exact H | discriminate | discriminate]. Qed.

Lemma waited_timeout m evs : waited m (- ETIME) evs -> poll_events m false evs.
Proof. intros [(H & _) | [(_ & H) | (H & _)]]; [discriminate | exact H | discriminate]. Qed.

Section PathClaims.

Variable cfg : build.
Variable hw : hardware.
Hypothesis hz : hz_supported cfg = true.

(** X1.  [sdk_sx_reset] answers 0 only along one path: the status register
    showed the enabled value within the budget, the MRSR write returned 0,
    the check made with no budget then did not show the enabled value, and
    the status register showed it again within the budget. *)
Theorem sdk_sx_reset_success dev p w w' :
  pdev dev = Some p ->
  sdk_sx_reset cfg hw dev w = Ret 0 w' ->
  exists evs1 evs2 evs3,
    log w' = log w ++ map (tag (dev_sw_rst_flow w)) evs1
             ++ map (tag true)
                  (EvAccessRegMRSR (sw_reset_reg_data dev) 0 :: evs2 ++ evs3) /\
    poll_events (chip_reset_duration cfg (device p)) true evs1 /\
    poll_events 0 false evs2 /\
    poll_events (chip_reset_duration cfg (device p)) true evs3.
Proof.
  intros Hp Hrun.
  destruct (sdk_sx_reset_paths cfg hw hz dev p w Hp)
    as (err & w1 & pre & win & Hrun' & Hlog & _ & Hpath).
  rewrite Hrun in Hrun'. injection Hrun' as <- <-.
  destruct Hpath as (err1 & Hw1 & [(Hne & _ & Heq) | (-> & rc & Hrc)]).
  { congruence. }
  destruct Hrc as [(Hne & _ & Heq) | (-> & err2 & evs2 & Hw2 & Hcheck)].
  { congruence. }
  destruct Hcheck as [(_ & _ & Heq) | (-> & evs3 & Hw3 & ->)].
  { discriminate. }
  exists pre, evs2, evs3. split; [exact Hlog|].
  split; [exact (waited_ready _ _ Hw1)|].
  split; [exact (waited_timeout _ _ Hw2) | exact (waited_ready _ _ Hw3)].
Qed.

(** X2.  [sdk_sx_reset] writes MRSR at most once, and only after it has
    seen the status register show the enabled value: either its log has no
    MRSR access and it answers an error, or the accesses before the one
    MRSR access are those of a poll that saw the enabled value and no
    access after it resets the chip. *)
Theorem sdk_sx_reset_resets_once dev p w :
  pdev dev = Some p ->
  exists err w' new,
    sdk_sx_reset cfg hw dev w = Ret err w' /\
    log w' = log w ++ new /\
    ((existsb is_mrsr (map fst new) = false /\ err <> 0) \/
     (exists evs1 rc rest,
        map fst new = evs1 ++ EvAccessRegMRSR (sw_reset_reg_data dev) rc :: rest /\
        poll_events (chip_reset_duration cfg (device p)) true evs1 /\
        no_trigger evs1 = true /\ no_trigger rest = true)).
Proof.
  intros Hp.
  destruct (sdk_sx_reset_paths cfg hw hz dev p w Hp)
    as (err & w' & pre & win & Hrun & Hlog & _ & Hpath).
  exists err, w', (map (tag (dev_sw_rst_flow w)) pre ++ map (tag true) win).
  split; [exact Hrun|]. split; [exact Hlog|].
  assert (Hfst : map fst (map (tag (dev_sw_rst_flow w)) pre ++ map (tag true) win)
                 = pre ++ win).
  { rewrite map_app, !map_map. cbn [tag fst]. now rewrite !map_id. }
  rewrite Hfst.
  destruct Hpath as (err1 & Hw1 & [(Hne & -> & ->) | (-> & rc & Hrc)]).
  { left. rewrite app_nil_r. split; [|exact Hne].
    apply no_trigger_no_mrsr. exact (waited_no_trigger _ _ _ Hw1). }
  right. pose proof (waited_ready _ _ Hw1) as Hready.
  pose proof (waited_no_trigger _ _ _ Hw1) as Hpre.
  destruct Hrc as [(Hne & -> & ->) | (-> & err2 & evs2 & Hw2 & Hcheck)].
  { exists pre, rc, []. now repeat split. }
  pose proof (waited_no_trigger _ _ _ Hw2) as Hn2.
  destruct Hcheck as [(_ & -> & _) | (-> & evs3 & Hw3 & ->)].
  { exists pre, 0, evs2. now repeat split. }
  exists pre, 0, (evs2 ++ evs3). split; [reflexivity|]. split; [exact Hready|].
  split; [exact Hpre|].
  rewrite no_trigger_app, Hn2, (waited_no_trigger _ _ _ Hw3). reflexivity.
Qed.

(** X3.  [legacy_reset] on a device that is present answers 0, -ETIME or
    -ENOMEM.  It writes the reset register only after a poll with twice the
    budget of the device saw the status register show the enabled value,
    and it answers 0 only if it then wrote the reset register, slept the
    grace period and saw the enabled value again within twice the budget. *)
Theorem legacy_reset_answers dev p w :
  pdev dev = Some p ->
  let d := 2 * chip_reset_duration cfg (device p) in
  exists err w' new,
    legacy_reset cfg hw dev w = Ret err w' /\
    log w' = log w ++ new /\
    (err = 0 \/ err = - ETIME \/ err = - ENOMEM) /\
    (no_trigger (map fst new) = false ->
     exists evs1 evs3,
       map fst new = evs1 ++ legacy_trigger_events cfg ++ evs3 /\
       poll_events d true evs1 /\ waited d err evs3) /\
    (err = 0 -> no_trigger (map fst new) = false).
Proof.
  intros Hp d.
  destruct (legacy_reset_paths cfg hw hz dev p w Hp)
    as (err & w' & pre & win & Hrun & Hlog & _ & Hpath).
  exists err, w', (map (tag (dev_sw_rst_flow w)) pre ++ map (tag true) win).
  split; [exact Hrun|]. split; [exact Hlog|].
  assert (Hfst : map fst (map (tag (dev_sw_rst_flow w)) pre ++ map (tag true) win)
                 = pre ++ win).
  { rewrite map_app, !map_map. cbn [tag fst]. now rewrite !map_id. }
  rewrite Hfst. fold d in Hpath.
  destruct Hpath as (err1 & Hw1 & [(Hne & -> & ->) | (-> & Hrest)]).
  { pose proof (waited_answers _ _ _ Hw1) as Hans.
    pose proof (waited_no_trigger _ _ _ Hw1) as Hpre.
    rewrite app_nil_r, Hpre.
    split; [destruct Hans as [? | [? | ?]]; auto; contradiction|].
    split; [discriminate|]. intros; contradiction. }
  pose proof (waited_no_trigger _ _ _ Hw1) as Hpre.
  destruct Hrest as [(-> & ->) | (evs3 & Hw3 & ->)].
  { rewrite no_trigger_app, Hpre. cbn.
    split; [auto|]. split; discriminate. }
  split; [exact (waited_answers _ _ _ Hw3)|]. split.
  - intros _. exists pre, evs3. split; [reflexivity|].
    split; [exact (waited_ready _ _ Hw1) | exact Hw3].
  - intros _. rewrite !no_trigger_app, Hpre. reflexivity.
Qed.

(** X4.  The answer of [perform_dev_sw_reset] on a Spectrum, Switch-IB or
    Quantum device is 0, -ETIME or -ENOMEM: neither the -EFAULT of
    [sdk_sx_reset] nor a return code of the MRSR access reaches the
    caller, because every failure of [sdk_sx_reset] is replaced by the
    answer of [legacy_reset]. *)
Theorem perform_dev_sw_reset_answers dev p w :
  pdev dev = Some p ->
  is_modern (device p) = true ->
  exists err w',
    perform_dev_sw_reset cfg hw dev w = Ret err w' /\
    (err = 0 \/ err = - ETIME \/ err = - ENOMEM) /\
    dev_sw_rst_flow w' = false.
Proof.
  intros Hp Hmodern.
  assert (Hperform : perform_dev_sw_reset cfg hw dev w =
                     (err <- sdk_sx_reset cfg hw dev ;;
                      if negb (err =? 0)
                      then (err <- legacy_reset cfg hw dev ;; ret err)
                      else ret err) w).
  { unfold perform_dev_sw_reset. rewrite Hp. cbn [deref].
    rewrite bind_eq, ret_eq. cbv beta iota.
    destruct (device p); try discriminate Hmodern; reflexivity. }
  rewrite Hperform.
  destruct (sdk_sx_reset_paths cfg hw hz dev p w Hp)
    as (err1 & w1 & pre & win & Hsdk & _ & Hclear1 & _).
  rewrite (bind_ret _ _ _ _ _ Hsdk).
  destruct (err1 =? 0) eqn:E1; cbn [negb].
  - apply Z.eqb_eq in E1. subst err1. rewrite ret_eq. exists 0, w1.
    split; [reflexivity|]. split; [now left | exact Hclear1].
  - destruct (legacy_reset_paths cfg hw hz dev p w1 Hp)
      as (err2 & w2 & pre2 & win2 & Hleg & _ & Hclear2 & Hpath).
    rewrite (bind_ret _ _ _ _ _ Hleg). rewrite ret_eq. exists err2, w2.
    split; [reflexivity|]. split; [|exact Hclear2].
    destruct Hpath as (err' & Hw1 & [(Hne & _ & ->) | (-> & Hrest)]).
    + exact (waited_answers _ _ _ Hw1).
    + destruct Hrest as [(_ & ->) | (evs3 & Hw3 & _)]; [auto|].
      exact (waited_answers _ _ _ Hw3).
Qed.

End PathClaims.

(** ** The poll of the vendor id *)

Section VendorPoll.

Variable cfg : build.
Variable hw : hardware.
Hypothesis hz : hz_supported cfg = true.

(** The loop ends with the read that gave [vendor]: either that read
    succeeded with a value other than 0xffff, or it is followed by one last
    sleep that reached the deadline. *)
Lemma poll_vendor_loop_verdict fuel end_ :
  forall w,
    (Z.to_nat (end_ - jiffies w) < fuel)%nat ->
    exists vendor w' evs rc before,
      poll_vendor_loop cfg hw fuel end_ w = Ret vendor w' /\
      steps w w' evs /\ forallb is_vendor_poll evs = true /\
      ((rc = 0 /\ vendor <> 0xffff /\
        evs = before ++ [EvPciReadConfigWord PCI_VENDOR_ID rc vendor]) \/
       ((rc <> 0 \/ vendor = 0xffff) /\ end_ <= jiffies w' /\
        evs = before ++ [EvPciReadConfigWord PCI_VENDOR_ID rc vendor; EvMsleep 1])).
Proof.
  induction fuel as [|fuel IH]; intros w Hfuel; [lia|].
  cbn [poll_vendor_loop].
  rewrite bind_eq, pci_read_config_word_eq. cbv beta iota zeta.
  set (rc := fst (hw_read_config_word hw (List.length (log w)) PCI_VENDOR_ID)).
  set (vendor := u16 (snd (hw_read_config_word hw (List.length (log w)) PCI_VENDOR_ID))).
  set (w1 := logged (EvPciReadConfigWord PCI_VENDOR_ID rc vendor) w).
  destruct ((rc =? 0) && negb (vendor =? 0xffff)) eqn:Hok.
  - apply andb_prop in Hok as [Hrc Hv].
    apply Z.eqb_eq in Hrc. apply negb_true_iff, Z.eqb_neq in Hv.
    rewrite ret_eq. exists vendor, w1, [EvPciReadConfigWord PCI_VENDOR_ID rc vendor], rc, [].
    split; [reflexivity|]. split; [apply steps_logged|]. split; [reflexivity|].
    left. now repeat split.
  - rewrite bind_eq, msleep_eq. cbv beta iota.
    rewrite bind_eq, read_jiffies_eq. cbv beta iota.
    set (w0 := slept cfg hw 1 w1).
    set (w2 := ticked hw VENDOR_TEST w0).
    assert (Hs2 : steps w w2 [EvPciReadConfigWord PCI_VENDOR_ID rc vendor; EvMsleep 1]).
    { apply steps_cons.
      refine (steps_trans _ _ _ [_] [] _ (steps_ticked hw VENDOR_TEST w0)).
      apply steps_slept; [exact hz | lia]. }
    assert (Hj2 : jiffies w + 1 <= jiffies w2).
    { pose proof (jiffies_ticked hw VENDOR_TEST w0) as Hj. fold w2 in Hj.
      unfold w0 in Hj. rewrite jiffies_slept in Hj.
      pose proof (msecs_to_jiffies_pos cfg hz 1 ltac:(lia)).
      change (jiffies w1) with (jiffies w) in Hj. lia. }
    unfold time_before. destruct (jiffies w2 <? end_) eqn:Hbefore.
    + apply Z.ltb_lt in Hbefore.
      destruct (IH w2) as (v & w' & evs & rc' & before & Hrun & Hsteps & Hcls & Hend); [lia|].
      exists v, w', ([EvPciReadConfigWord PCI_VENDOR_ID rc vendor; EvMsleep 1] ++ evs), rc',
        ([EvPciReadConfigWord PCI_VENDOR_ID rc vendor; EvMsleep 1] ++ before).
      split; [exact Hrun|]. split; [exact (steps_trans _ _ _ _ _ Hs2 Hsteps)|].
      split; [exact Hcls|].
      destruct Hend as [(H1 & H2 & ->) | (H1 & H2 & ->)]; [left | right];
        rewrite <- app_assoc; now repeat split.
    + apply Z.ltb_ge in Hbefore. rewrite ret_eq.
      exists vendor, w2, [EvPciReadConfigWord PCI_VENDOR_ID rc vendor; EvMsleep 1], rc, [].
      split; [reflexivity|]. split; [exact Hs2|]. split; [reflexivity|].
      right. split; [|now split].
      apply andb_false_iff in Hok as [Hrc | Hv].
      * left. now apply Z.eqb_neq.
      * right. now apply negb_false_iff, Z.eqb_eq in Hv.
Qed.

Lemma poll_vendor_verdict w :
  exists vendor w' evs rc before,
    poll_vendor cfg hw w = Ret vendor w' /\
    steps w w' evs /\ forallb is_vendor_poll evs = true /\
    ((rc = 0 /\ vendor <> 0xffff /\
      evs = before ++ [EvPciReadConfigWord PCI_VENDOR_ID rc vendor]) \/
     ((rc <> 0 \/ vendor = 0xffff) /\ jiffies w + 2 * HZ cfg <= jiffies w' /\
      evs = before ++ [EvPciReadConfigWord PCI_VENDOR_ID rc vendor; EvMsleep 1])).
Proof.
  unfold poll_vendor. rewrite bind_eq, read_jiffies_eq. cbv beta iota zeta.
  unfold SX_RESET_TIMEOUT_JIFFIES.
  set (wt := ticked hw VENDOR_END w).
  pose proof (jiffies_ticked hw VENDOR_END w) as Hjt. fold wt in Hjt.
  destruct (poll_vendor_loop_verdict
              (S (Z.to_nat (jiffies wt + 2 * HZ cfg - jiffies wt))) (jiffies wt + 2 * HZ cfg) wt)
    as (vendor & w' & evs & rc & before & Hrun & Hsteps & Hcls & Hend); [lia|].
  exists vendor, w', evs, rc, before. split; [exact Hrun|].
  split; [exact (steps_trans _ _ _ [] _ (steps_ticked hw VENDOR_END w) Hsteps)|].
  split; [exact Hcls|].
  destruct Hend as [Hok | (Hbad & Hlate & Hevs)]; [now left|].
  right. split; [exact Hbad|]. split; [lia | exact Hevs].
Qed.

Lemma vendor_poll_no_bookkeeping evs :
  forallb is_vendor_poll evs = true -> no_bookkeeping evs = true.
Proof.
  unfold no_bookkeeping. induction evs as [|e evs IH]; [reflexivity|]. cbn [forallb].
  intros H. apply andb_prop in H as [He Hevs]. rewrite (IH Hevs), andb_true_r.
  destruct e; try reflexivity; discriminate.
Qed.

Lemma vendor_poll_no_trigger evs :
  forallb is_vendor_poll evs = true -> no_trigger evs = true.
Proof.
  unfold no_trigger. induction evs as [|e evs IH]; [reflexivity|]. cbn [forallb].
  intros H. apply andb_prop in H as [He Hevs]. rewrite (IH Hevs), andb_true_r.
  destruct e; try reflexivity; discriminate.
Qed.

(** [__do_legacy_reset] with the time it takes. *)
Lemma do_legacy_reset_time dev p w :
  pdev dev = Some p ->
  hw_ioremap hw (List.length (log w)) = true ->
  exists w',
    __do_legacy_reset cfg hw dev w = Ret 0 w' /\
    steps w w' (legacy_trigger_events cfg) /\
    jiffies w + msecs_to_jiffies cfg (legacy_reset_grace cfg) <= jiffies w'.
Proof.
  intros Hp Hmap. unfold __do_legacy_reset. rewrite Hp. cbn [deref].
  rewrite bind_eq, ret_eq. cbv beta iota.
  rewrite bind_eq, ioremap_eq, Hmap. cbv beta iota. cbn [negb].
  rewrite bind_eq, writel_eq. cbv beta iota.
  rewrite bind_eq, iounmap_eq. cbv beta iota.
  rewrite bind_eq, msleep_eq. cbv beta iota. rewrite ret_eq.
  eexists. split; [reflexivity|].
  assert (Hgrace : 0 <= legacy_reset_grace cfg < 2 ^ 31).
  { unfold legacy_reset_grace. destruct (INCREASED_TIMEOUT cfg); lia. }
  split.
  - do 3 apply steps_cons. apply steps_slept; [exact hz | exact Hgrace].
  - fold (legacy_reset_grace cfg). rewrite jiffies_slept.
    cbn [jiffies logged set_log]. lia.
Qed.

(** X5.  [legacy_reset_SwitchX] on a device that is present: if the reset
    register cannot be mapped it answers -ENOMEM and does nothing else.
    Otherwise it writes the reset value once, unmaps, sleeps the grace
    period and polls the vendor id; it answers 0 exactly when the last
    value read for the vendor id is not 0xffff, and it answers -ENODEV only
    once the grace period and two more seconds have passed. *)
Theorem legacy_reset_SwitchX_verdict dev p w :
  pdev dev = Some p ->
  exists err w' evs,
    legacy_reset_SwitchX cfg hw dev w = Ret err w' /\
    steps w w' evs /\
    ((hw_ioremap hw (List.length (log w)) = false /\ err = - ENOMEM /\
      evs = [EvIoremap SX_RESET_BASE SX_RESET_SIZE false]) \/
     (hw_ioremap hw (List.length (log w)) = true /\
      exists polls rc vendor before,
        evs = legacy_trigger_events cfg ++ polls /\
        forallb is_vendor_poll polls = true /\
        (polls = before ++ [EvPciReadConfigWord PCI_VENDOR_ID rc vendor] \/
         polls = before ++ [EvPciReadConfigWord PCI_VENDOR_ID rc vendor; EvMsleep 1]) /\
        err = (if vendor =? 0xffff then - ENODEV else 0) /\
        (err = - ENODEV ->
         jiffies w + msecs_to_jiffies cfg (legacy_reset_grace cfg) + 2 * HZ cfg
         <= jiffies w'))).
Proof.
  intros Hp. unfold legacy_reset_SwitchX. rewrite Hp.
  destruct (hw_ioremap hw (List.length (log w))) eqn:Hmap.
  - destruct (do_legacy_reset_time dev p w Hp Hmap) as (w1 & Hrun & Hs1 & Hj1).
    rewrite (bind_ret _ _ _ _ _ Hrun). cbn [Z.eqb negb].
    destruct (poll_vendor_verdict w1)
      as (vendor & w2 & polls & rc & before & Hpoll & Hs2 & Hcls & Hend).
    rewrite (bind_ret _ _ _ _ _ Hpoll).
    exists (if vendor =? 0xffff then - ENODEV else 0), w2, (legacy_trigger_events cfg ++ polls).
    split; [destruct (vendor =? 0xffff); reflexivity|].
    split; [exact (steps_trans _ _ _ _ _ Hs1 Hs2)|].
    right. split; [reflexivity|]. exists polls, rc, vendor, before.
    split; [reflexivity|]. split; [exact Hcls|].
    destruct Hend as [(Hrc & Hv & ->) | (Hbad & Hlate & ->)].
    + split; [now left|]. split; [reflexivity|].
      apply Z.eqb_neq in Hv. rewrite Hv. discriminate.
    + split; [now right|]. split; [reflexivity|]. intros _. lia.
  - destruct (do_legacy_reset_spec cfg hw hz dev p w Hp) as (err & w1 & evs1 & Hrun & Hs1 & Hout).
    rewrite Hmap in Hout. destruct Hout as (-> & ->).
    rewrite (bind_ret _ _ _ _ _ Hrun). cbn [Z.eqb negb ENOMEM Z.opp]. rewrite ret_eq.
    exists (- ENOMEM), w1, [EvIoremap SX_RESET_BASE SX_RESET_SIZE false].
    split; [reflexivity|]. split; [exact Hs1|]. left. now repeat split.
Qed.

End VendorPoll.

(** ** [get_system_status] *)

(** X6.  [get_system_status] answers -EINVAL, without any access, when
    either pointer is null.  On a device that is present it maps the status
    register, reads it once, stores the low byte of the word read, unmaps
    and answers 0, never sleeping; the byte stored is 0x5E exactly when the
    poller would take the word for ready.  When the mapping fails it
    answers -ENOMEM and stores nothing. *)
Theorem get_system_status_outcomes hw d p system_status w :
  pdev d = Some p ->
  get_system_status hw None system_status w = Ret (- EINVAL, None) w /\
  get_system_status hw (Some d) false w = Ret (- EINVAL, None) w /\
  let n := List.length (log w) in
  let val := u32 (hw_ioread32be hw (S n)) in
  exists w',
    (if hw_ioremap hw n
     then
       get_system_status hw (Some d) true w = Ret (0, Some (Z.land val 0xFF)) w' /\
       steps w w'
         [EvIoremap SX_SYSTEM_STATUS_REG_OFFSET SX_SYSTEM_STATUS_REG_SIZE true;
          EvIoread32be SX_SYSTEM_STATUS_REG_OFFSET val;
          EvIounmap SX_SYSTEM_STATUS_REG_OFFSET]
     else
       get_system_status hw (Some d) true w = Ret (- ENOMEM, None) w' /\
       steps w w'
         [EvIoremap SX_SYSTEM_STATUS_REG_OFFSET SX_SYSTEM_STATUS_REG_SIZE false]) /\
    jiffies w' = jiffies w /\
    0 <= Z.land val 0xFF <= 255 /\
    (Z.land val 0xFF = 0x5E <-> system_status_enabled val = true).
Proof.
  intros Hp. split; [reflexivity|]. split; [reflexivity|]. cbv zeta.
  set (val := u32 (hw_ioread32be hw (S (List.length (log w))))).
  assert (Hbyte : 0 <= Z.land val 0xFF <= 255).
  { pose proof (Z.land_ones val 8 ltac:(lia)) as Hl.
    change (Z.ones 8) with 255 in Hl. change (2 ^ 8) with 256 in Hl. rewrite Hl.
    pose proof (Z.mod_pos_bound val 256 ltac:(lia)). lia. }
  assert (Hen : Z.land val 0xFF = 0x5E <-> system_status_enabled val = true).
  { unfold system_status_enabled, SX_SYSTEM_STATUS_ENABLED, SX_SYSTEM_STATUS_REG_MASK.
    rewrite Z.eqb_eq. split; intros H; symmetry; exact H. }
  unfold get_system_status. rewrite Hp. cbn [negb deref].
  rewrite bind_eq, ret_eq. cbv beta iota.
  rewrite bind_eq, ioremap_eq. cbv beta iota.
  destruct (hw_ioremap hw (List.length (log w))); cbn [negb].
  - rewrite bind_eq, ioread32be_eq, length_logged. cbv beta iota zeta. fold val.
    rewrite bind_eq, iounmap_eq. cbv beta iota. rewrite ret_eq.
    assert (Hu : u16 (Z.land val SX_SYSTEM_STATUS_REG_MASK) = Z.land val 0xFF).
    { unfold u16, SX_SYSTEM_STATUS_REG_MASK. apply Z.mod_small. lia. }
    rewrite Hu. eexists. split; [split; [reflexivity|]|].
    + do 3 apply steps_cons. apply steps_refl.
    + split; [reflexivity|]. now split.
  - rewrite ret_eq. eexists. split; [split; [reflexivity|]|].
    + apply steps_logged.
    + split; [reflexivity|]. now split.
Qed.

(** ** The log of [sx_reset] *)

Lemma grows_refl w : grows w w [].
Proof. exists []. now rewrite app_nil_r. Qed.

Lemma grows_trans w w1 w2 evs1 evs2 :
  grows w w1 evs1 -> grows w1 w2 evs2 -> grows w w2 (evs1 ++ evs2).
Proof.
  intros (n1 & Hl1 & <-) (n2 & Hl2 & <-). exists (n1 ++ n2).
  split; [now rewrite Hl2, Hl1, app_assoc | apply map_app].
Qed.

Lemma steps_grows w w' evs : steps w w' evs -> grows w w' evs.
Proof.
  intros (Hl & _). exists (map (tag (dev_sw_rst_flow w)) evs).
  split; [exact Hl|]. rewrite map_map. cbn [tag fst]. apply map_id.
Qed.

Lemma window_grows w w' pre win :
  log w' = log w ++ map (tag (dev_sw_rst_flow w)) pre ++ map (tag true) win ->
  grows w w' (pre ++ win).
Proof.
  intros Hl. eexists. split; [exact Hl|].
  rewrite map_app, !map_map. cbn [tag fst]. now rewrite !map_id.
Qed.

Lemma allocated_app evs1 evs2 :
  allocated (evs1 ++ evs2) = (allocated evs1 + allocated evs2)%nat.
Proof.
  induction evs1 as [|e evs1 IH]; [reflexivity|].
  destruct e as [| | | | | | | | | | | |[|]|? [|]| | |]; cbn; rewrite ?IH; reflexivity.
Qed.

Lemma released_app evs1 evs2 :
  released (evs1 ++ evs2) = (released evs1 + released evs2)%nat.
Proof.
  induction evs1 as [|e evs1 IH]; [reflexivity|].
  destruct e; cbn; rewrite ?IH; reflexivity.
Qed.

Lemma no_bookkeeping_balanced evs :
  no_bookkeeping evs = true ->
  allocated evs = 0%nat /\ released evs = 0%nat /\ existsb is_dispatch evs = false.
Proof.
  unfold no_bookkeeping. induction evs as [|e evs IH]; [now repeat split|].
  cbn [forallb]. intros H. apply andb_prop in H as [He Hevs].
  destruct (IH Hevs) as (Ha & Hr & Hd).
  destruct e; try discriminate; cbn; auto.
Qed.

Lemma existsb_is_dispatch_app evs1 evs2 :
  existsb is_dispatch (evs1 ++ evs2)
  = existsb is_dispatch evs1 || existsb is_dispatch evs2.
Proof. apply existsb_app. Qed.

Lemma read_plan_quiet hw n offsets :
  no_bookkeeping (fst (read_plan hw n offsets)) = true /\
  no_trigger (fst (read_plan hw n offsets)) = true.
Proof.
  revert n. induction offsets as [|offset offsets IH]; intros n; [now split|].
  cbn [read_plan]. cbv zeta.
  destruct (fst (hw_read_config_dword hw n offset) =? 0); [|now split].
  cbn [fst]. destruct (IH (S n)) as [Hb Ht]. split; cbn; assumption.
Qed.

Lemma write_plan_quiet hw n plan :
  no_bookkeeping (fst (write_plan hw n plan)) = true /\
  no_trigger (fst (write_plan hw n plan)) = true.
Proof.
  revert n. induction plan as [|cw plan IH]; intros n; [now split|].
  cbn [write_plan].
  destruct (snd (write_event hw n cw) =? 0); cbn [fst].
  - destruct (IH (S n)) as [Hb Ht]. destruct cw; split; cbn; assumption.
  - destruct cw; now split.
Qed.

Lemma repeat_msleep_quiet msecs n :
  no_bookkeeping (repeat (EvMsleep msecs) n) = true /\
  no_trigger (repeat (EvMsleep msecs) n) = true.
Proof. induction n as [|n [IH1 IH2]]; [now split|]. split; cbn; assumption. Qed.

Lemma sdk_sx_reset_path_quiet d dev err pre win :
  sdk_sx_reset_path d dev err pre win -> no_bookkeeping (pre ++ win) = true.
Proof.
  intros (err1 & Hw1 & Hrest).
  rewrite no_bookkeeping_app, (waited_no_bookkeeping _ _ _ Hw1). cbn [andb].
  destruct Hrest as [(_ & -> & _) | (_ & rc & Hrc)]; [reflexivity|].
  destruct Hrc as [(_ & -> & _) | (_ & err2 & evs2 & Hw2 & Hcheck)]; [reflexivity|].
  destruct Hcheck as [(_ & -> & _) | (_ & evs3 & Hw3 & ->)].
  - cbn. exact (waited_no_bookkeeping _ _ _ Hw2).
  - cbn. rewrite no_bookkeeping_app, (waited_no_bookkeeping _ _ _ Hw2).
    exact (waited_no_bookkeeping _ _ _ Hw3).
Qed.

Lemma legacy_reset_path_quiet cfg d err pre win :
  legacy_reset_path cfg d err pre win -> no_bookkeeping (pre ++ win) = true.
Proof.
  intros (err1 & Hw1 & Hrest).
  rewrite no_bookkeeping_app, (waited_no_bookkeeping _ _ _ Hw1). cbn [andb].
  destruct Hrest as [(_ & -> & _) | (_ & [(-> & _) | (evs3 & Hw3 & ->)])];
    [reflexivity | reflexivity|].
  cbn. exact (waited_no_bookkeeping _ _ _ Hw3).
Qed.

Section Log.

Variable cfg : build.
Variable hw : hardware.
Hypothesis hz : hz_supported cfg = true.

Lemma legacy_reset_SwitchX_quiet dev p w :
  pdev dev = Some p ->
  exists err w' evs,
    legacy_reset_SwitchX cfg hw dev w = Ret err w' /\
    grows w w' evs /\ no_bookkeeping evs = true.
Proof.
  intros Hp. unfold legacy_reset_SwitchX. rewrite Hp.
  destruct (do_legacy_reset_spec cfg hw hz dev p w Hp) as (err & w1 & evs1 & Hrun & Hs1 & Hout).
  rewrite (bind_ret _ _ _ _ _ Hrun).
  assert (Hq1 : no_bookkeeping evs1 = true).
  { destruct (hw_ioremap hw (List.length (log w))); destruct Hout as (_ & ->); reflexivity. }
  destruct (negb (err =? 0)).
  - rewrite ret_eq. exists err, w1, evs1. split; [reflexivity|].
    split; [exact (steps_grows _ _ _ Hs1) | exact Hq1].
  - destruct (poll_vendor_spec cfg hw hz w1) as (vendor & w2 & evs2 & Hpoll & Hs2 & Hcls).
    rewrite (bind_ret _ _ _ _ _ Hpoll).
    exists (if vendor =? 0xffff then - ENODEV else 0), w2, (evs1 ++ evs2).
    split; [destruct (vendor =? 0xffff); reflexivity|].
    split; [exact (steps_grows _ _ _ (steps_trans _ _ _ _ _ Hs1 Hs2))|].
    rewrite no_bookkeeping_app, Hq1. exact (vendor_poll_no_bookkeeping _ Hcls).
Qed.

Lemma perform_dev_sw_reset_quiet dev p w :
  pdev dev = Some p ->
  exists err w' evs,
    perform_dev_sw_reset cfg hw dev w = Ret err w' /\
    grows w w' evs /\ no_bookkeeping evs = true.
Proof.
  intros Hp. unfold perform_dev_sw_reset. rewrite Hp. cbn [deref].
  rewrite bind_eq, ret_eq. cbv beta iota.
  assert (Hmodern : exists err w' evs,
             (err <- sdk_sx_reset cfg hw dev ;;
              if negb (err =? 0)
              then (err <- legacy_reset cfg hw dev ;; ret err)
              else ret err) w = Ret err w' /\
             grows w w' evs /\ no_bookkeeping evs = true).
  { destruct (sdk_sx_reset_paths cfg hw hz dev p w Hp)
      as (err1 & w1 & pre & win & Hsdk & Hlog & _ & Hpath).
    rewrite (bind_ret _ _ _ _ _ Hsdk).
    pose proof (window_grows _ _ _ _ Hlog) as Hg1.
    pose proof (sdk_sx_reset_path_quiet _ _ _ _ _ Hpath) as Hq1.
    destruct (negb (err1 =? 0)); [|now exists err1, w1, (pre ++ win)].
    destruct (legacy_reset_paths cfg hw hz dev p w1 Hp)
      as (err2 & w2 & pre2 & win2 & Hleg & Hlog2 & _ & Hpath2).
    rewrite (bind_ret _ _ _ _ _ Hleg).
    exists err2, w2, ((pre ++ win) ++ (pre2 ++ win2)). split; [reflexivity|].
    split; [exact (grows_trans _ _ _ _ _ Hg1 (window_grows _ _ _ _ Hlog2))|].
    rewrite no_bookkeeping_app, Hq1. exact (legacy_reset_path_quiet _ _ _ _ _ Hpath2). }
  destruct (device p); try exact Hmodern.
  - destruct (legacy_reset_SwitchX_quiet dev p w Hp) as (err & w' & evs & Hrun & Hg & Hq).
    rewrite (bind_ret _ _ _ _ _ Hrun). now exists err, w', evs.
  - exists (- ENODEV), w, []. split; [reflexivity|]. split; [apply grows_refl | reflexivity].
Qed.

Lemma sx_reset_restore_quiet p hca_header w :
  (is_switchx (device p) = true -> hca_header <> None) ->
  exists err w' evs,
    sx_reset_restore hw p hca_header w = Ret err w' /\
    steps w w' evs /\ no_bookkeeping evs = true /\ no_trigger evs = true.
Proof.
  intros Hhdr. unfold sx_reset_restore.
  destruct (is_switchx (device p)).
  - destruct hca_header as [hdr|]; [|now destruct Hhdr]. cbn [deref].
    rewrite bind_eq, ret_eq. cbv beta iota.
    destruct (restore_headers_data_spec hw hdr w) as (w' & Hrun & Hs).
    rewrite (bind_ret _ _ _ _ _ Hrun). eexists _, w', _.
    split; [reflexivity|]. split; [exact Hs|].
    destruct (write_plan_quiet hw (S (List.length (log w)))
                (restore_plan (hw_find_capability hw (List.length (log w))) hdr)) as [Hb Ht].
    split; cbn; assumption.
  - exists 0, w, []. split; [reflexivity|]. split; [apply steps_refl | now split].
Qed.

(** The phase of [sx_reset] that follows the wait for the trigger, with
    its accesses. *)
Lemma sx_reset_phase_log dev p perform_chip_reset hca_header w :
  pdev dev = Some p ->
  (is_switchx (device p) = true -> hca_header <> None) ->
  exists err w' evs,
    sx_reset_phase cfg hw dev p perform_chip_reset hca_header w
      = Ret (err, negb (perform_chip_reset =? 0)) w' /\
    grows w w' evs /\
    (perform_chip_reset = 0 ->
     no_bookkeeping evs = true /\ no_trigger evs = true /\
     dev_sw_rst_flow w' = dev_sw_rst_flow w) /\
    (perform_chip_reset <> 0 ->
     exists rc rest,
       evs = EvDispatchEvent SX_DEV_EVENT_PRE_RESET None rc None :: rest /\
       no_bookkeeping rest = true /\
       (rc <> 0 -> rest = [] /\ err = rc)).
Proof.
  intros Hp Hhdr. unfold sx_reset_phase.
  destruct (perform_chip_reset =? 0) eqn:Hperform; cbn [negb].
  - apply Z.eqb_eq in Hperform.
    rewrite bind_eq, get_eq. cbv beta iota.
    destruct (debug_fw_trace_boot_flow w =? 0).
    + destruct (wait_for_system_ready_waited cfg hw hz dev p 0 false w Hp ltac:(lia))
        as (err & tw & w1 & evs1 & Hwait & Hs1 & Hwaited).
      rewrite (bind_ret _ _ _ _ _ Hwait). cbv beta iota zeta.
      pose proof (waited_no_bookkeeping _ _ _ Hwaited) as Hq1.
      pose proof (waited_no_trigger _ _ _ Hwaited) as Ht1.
      destruct (negb (err =? 0)).
      * rewrite ret_eq. exists (- ENODEV), w1, evs1. split; [reflexivity|].
        split; [exact (steps_grows _ _ _ Hs1)|].
        split; [|intros Hne; contradiction].
        intros _. split; [exact Hq1|]. split; [exact Ht1 | exact (steps_flow _ _ _ Hs1)].
      * destruct (sx_reset_restore_quiet p hca_header w1 Hhdr)
          as (err' & w' & evs2 & Hrun & Hs2 & Hq2 & Ht2).
        rewrite (bind_ret _ _ _ _ _ Hrun). rewrite ret_eq.
        exists err', w', (evs1 ++ evs2). split; [reflexivity|].
        pose proof (steps_trans _ _ _ _ _ Hs1 Hs2) as Hs.
        split; [exact (steps_grows _ _ _ Hs)|].
        split; [|intros Hne; contradiction].
        intros _. rewrite no_bookkeeping_app, no_trigger_app, Hq1, Hq2, Ht1, Ht2.
        split; [reflexivity|]. split; [reflexivity | exact (steps_flow _ _ _ Hs)].
    + destruct (sx_reset_restore_quiet p hca_header w Hhdr)
        as (err' & w' & evs2 & Hrun & Hs2 & Hq2 & Ht2).
      rewrite (bind_ret _ _ _ _ _ Hrun). rewrite ret_eq.
      exists err', w', evs2. split; [reflexivity|].
      split; [exact (steps_grows _ _ _ Hs2)|].
      split; [|intros Hne; contradiction].
      intros _. split; [exact Hq2|]. split; [exact Ht2 | exact (steps_flow _ _ _ Hs2)].
  - apply Z.eqb_neq in Hperform.
    rewrite bind_eq, sx_core_dispatch_event_eq. cbv beta iota zeta. cbn [option_map].
    set (rc := hw_dispatch_event hw (List.length (log w)) SX_DEV_EVENT_PRE_RESET None).
    set (w0 := logged (EvDispatchEvent SX_DEV_EVENT_PRE_RESET None rc None) w).
    set (pre_reset := EvDispatchEvent SX_DEV_EVENT_PRE_RESET None rc None) in *.
    assert (Hs0 : steps w w0 [pre_reset]) by apply steps_logged.
    destruct (rc =? 0) eqn:Hrc; cbn [negb].
    2: { apply Z.eqb_neq in Hrc. rewrite ret_eq. exists rc, w0, [pre_reset].
         split; [reflexivity|]. split; [exact (steps_grows _ _ _ Hs0)|].
         split; [intros Hz; contradiction|]. intros _. exists rc, [].
         now repeat split. }
    apply Z.eqb_eq in Hrc.
    destruct (perform_dev_sw_reset_quiet dev p w0 Hp) as (err & w1 & evs1 & Hrun & Hg1 & Hq1).
    rewrite (bind_ret _ _ _ _ _ Hrun).
    pose proof (grows_trans _ _ _ _ _ (steps_grows _ _ _ Hs0) Hg1) as Hg01.
    destruct (negb (err =? 0)).
    { rewrite ret_eq. exists err, w1, ([pre_reset] ++ evs1). split; [reflexivity|].
      split; [exact Hg01|]. split; [intros Hz; contradiction|]. intros _.
      exists rc, evs1. split; [reflexivity|]. split; [exact Hq1|].
      intros Hne; contradiction. }
    destruct (poll_vendor_spec cfg hw hz w1) as (vendor & w2 & evs2 & Hpoll & Hs2 & Hcls).
    rewrite (bind_ret _ _ _ _ _ Hpoll).
    pose proof (vendor_poll_no_bookkeeping _ Hcls) as Hq2.
    pose proof (grows_trans _ _ _ _ _ Hg01 (steps_grows _ _ _ Hs2)) as Hg02.
    destruct (vendor =? 0xffff).
    { rewrite ret_eq. exists (- ENODEV), w2, (([pre_reset] ++ evs1) ++ evs2). split; [reflexivity|].
      split; [exact Hg02|]. split; [intros Hz; contradiction|]. intros _.
      exists rc, (evs1 ++ evs2). split; [reflexivity|].
      split; [now rewrite no_bookkeeping_app, Hq1, Hq2|].
      intros Hne; contradiction. }
    destruct (sx_reset_restore_quiet p hca_header w2 Hhdr)
      as (err' & w' & evs3 & Hres & Hs3 & Hq3 & _).
    rewrite (bind_ret _ _ _ _ _ Hres). rewrite ret_eq.
    exists err', w', ((([pre_reset] ++ evs1) ++ evs2) ++ evs3). split; [reflexivity|].
    split; [exact (grows_trans _ _ _ _ _ Hg02 (steps_grows _ _ _ Hs3))|].
    split; [intros Hz; contradiction|]. intros _.
    exists rc, ((evs1 ++ evs2) ++ evs3). split; [now rewrite <- !app_assoc|].
    split; [now rewrite !no_bookkeeping_app, Hq1, Hq2, Hq3|].
    intros Hne; contradiction.
Qed.

(** The beginning of [sx_reset], with its accesses: it resets nothing,
    notifies nobody, releases nothing, and holds the buffers it obtained. *)
Lemma sx_reset_prepare_log dev w :
  exists prepared w0 evs,
    sx_reset_prepare hw dev w = Ret prepared w0 /\
    steps w w0 evs /\
    no_trigger evs = true /\ existsb is_dispatch evs = false /\
    released evs = 0%nat /\ allocated evs = buffers_held prepared /\
    (dev = None -> evs = []) /\
    match prepared with
    | inl l => l_is_pre_reset_event l = false
    | inr (d, p, hca_header) =>
        dev = Some d /\ pdev d = Some p /\
        (is_switchx (device p) = true -> hca_header <> None)
    end.
Proof.
  unfold sx_reset_prepare.
  destruct dev as [d|].
  2: { eexists _, w, []. split; [reflexivity|]. split; [apply steps_refl|].
       now repeat split. }
  destruct (pdev d) as [p|] eqn:Hp.
  2: { eexists _, w, []. split; [reflexivity|]. split; [apply steps_refl|].
       repeat split; auto; discriminate. }
  rewrite bind_eq, kzalloc_event_data_eq. cbv beta iota.
  destruct (hw_kmalloc hw (List.length (log w))); cbn [negb].
  2: { eexists _, _, [_]. split; [reflexivity|]. split; [apply steps_logged|].
       repeat split; auto; discriminate. }
  set (w1 := logged (EvKzallocEventData true) w).
  destruct (is_switchx (device p)) eqn:Hsx.
  2: { eexists _, w1, [_]. split; [reflexivity|]. split; [apply steps_logged|].
       repeat split; auto; try discriminate. rewrite Hsx. discriminate. }
  rewrite bind_eq, kmalloc_eq. cbv beta iota.
  destruct (hw_kmalloc hw (List.length (log w1))); cbn [negb].
  2: { eexists _, _, [_; _]. split; [reflexivity|].
       split; [do 2 apply steps_cons; apply steps_refl|].
       repeat split; auto; discriminate. }
  set (w2 := logged (EvKmalloc SX_HCA_HEADERS_SIZE true) w1).
  pose proof (save_headers_data_spec hw w2) as Hspec. cbv zeta in Hspec.
  pose proof (read_plan_quiet hw (S (List.length (log w2)))
                (map (fun i => i * 4) saved_indices)) as Hquiet.
  revert Hspec Hquiet.
  generalize (read_plan hw (S (List.length (log w2))) (map (fun i => i * 4) saved_indices)).
  intros plan (err & hdr & w' & Hrun & Hs & _) [Hb Ht].
  rewrite (bind_ret _ _ _ _ _ Hrun). cbv beta iota zeta.
  destruct (no_bookkeeping_balanced _ Hb) as (Ha & Hr & Hd).
  set (find := EvPciFindCapability PCI_CAP_ID_EXP
                 (hw_find_capability hw (List.length (log w2)))) in *.
  assert (Hs' : steps w w'
            ([EvKzallocEventData true; EvKmalloc SX_HCA_HEADERS_SIZE true]
             ++ find :: fst plan)).
  { refine (steps_trans _ _ _ [EvKzallocEventData true; EvKmalloc SX_HCA_HEADERS_SIZE true]
              _ _ Hs).
    do 2 apply steps_cons. apply steps_refl. }
  assert (Hfacts :
            no_trigger ([EvKzallocEventData true; EvKmalloc SX_HCA_HEADERS_SIZE true]
                        ++ find :: fst plan) = true /\
            existsb is_dispatch ([EvKzallocEventData true; EvKmalloc SX_HCA_HEADERS_SIZE true]
                                 ++ find :: fst plan) = false /\
            released ([EvKzallocEventData true; EvKmalloc SX_HCA_HEADERS_SIZE true]
                      ++ find :: fst plan) = 0%nat /\
            allocated ([EvKzallocEventData true; EvKmalloc SX_HCA_HEADERS_SIZE true]
                       ++ find :: fst plan) = 2%nat).
  { rewrite no_trigger_app, existsb_is_dispatch_app, released_app, allocated_app.
    unfold find. cbn [no_trigger forallb existsb is_dispatch released allocated
                        is_trigger negb andb orb Nat.add].
    unfold no_trigger in Ht. rewrite Ht, Hd, Hr, Ha. now repeat split. }
  destruct Hfacts as (F1 & F2 & F3 & F4).
  destruct (negb (err =? 0)); rewrite ret_eq;
    (eexists _, w', _; split; [reflexivity|]; split; [exact Hs'|]);
    (split; [exact F1|]); (split; [exact F2|]);
    (split; [exact F3|]); (split; [exact F4|]);
    (split; [discriminate|]).
  - reflexivity.
  - split; [reflexivity|]. split; [exact Hp|]. discriminate.
Qed.

(** The [out:] label of [sx_reset], with its accesses: it releases the
    buffers the locals hold and no others. *)
Lemma sx_reset_out_log l w :
  (l_is_pre_reset_event l = true -> l_event_data l = true) ->
  exists err w' fin,
    sx_reset_out hw l w = Ret err w' /\
    steps w w' fin /\
    no_trigger fin = true /\ allocated fin = 0%nat /\
    released fin = buffers_held (inl l) /\
    (l_is_pre_reset_event l = false ->
     existsb is_dispatch fin = false /\ err = l_err l) /\
    (l_is_pre_reset_event l = true ->
     exists rc,
       fin = freed_header l
             ++ [EvDispatchEvent SX_DEV_EVENT_POST_RESET (Some (l_err l)) rc (Some err);
                 EvKfree]).
Proof.
  intros Hdata. unfold sx_reset_out, freed_header, buffers_held.
  assert (Hfree : exists w1,
             match l_hca_header l with Some _ => kfree | None => ret tt end w
               = Ret tt w1 /\
             steps w w1 match l_hca_header l with Some _ => [EvKfree] | None => [] end).
  { destruct (l_hca_header l).
    - exists (logged EvKfree w). split; [reflexivity | apply steps_logged].
    - exists w. split; [reflexivity | apply steps_refl]. }
  destruct Hfree as (w1 & Hfree & Hs1).
  rewrite (bind_ret _ _ _ _ _ Hfree).
  destruct (l_is_pre_reset_event l) eqn:Hpre.
  - rewrite (Hdata eq_refl).
    rewrite bind_eq, bind_eq, sx_core_dispatch_event_eq. cbv beta iota zeta.
    cbn [option_map]. rewrite ret_eq.
    rewrite bind_eq, kfree_eq. cbv beta iota. rewrite ret_eq.
    set (rc := hw_dispatch_event hw (List.length (log w1)) SX_DEV_EVENT_POST_RESET
                 (Some (l_err l))).
    set (err := hw_post_reset_err hw (List.length (log w1)) (l_err l)).
    set (post := EvDispatchEvent SX_DEV_EVENT_POST_RESET (Some (l_err l)) rc (Some err)).
    eexists err, _, (_ ++ [post; EvKfree]). split; [reflexivity|].
    split; [refine (steps_trans _ _ _ _ [post; EvKfree] Hs1 _);
            do 2 apply steps_cons; apply steps_refl|].
    rewrite no_trigger_app, allocated_app, released_app.
    split; [now destruct (l_hca_header l)|].
    split; [now destruct (l_hca_header l)|].
    split; [destruct (l_hca_header l); reflexivity|].
    split; [discriminate|]. intros _. now exists rc.
  - destruct (l_event_data l).
    + rewrite bind_eq, ret_eq. cbv beta iota.
      rewrite bind_eq, kfree_eq. cbv beta iota. rewrite ret_eq.
      eexists (l_err l), _, (_ ++ [EvKfree]). split; [reflexivity|].
      split; [exact (steps_trans _ _ _ _ [EvKfree] Hs1 (steps_logged _ w1))|].
      rewrite no_trigger_app, allocated_app, released_app, existsb_is_dispatch_app.
      split; [now destruct (l_hca_header l)|].
      split; [now destruct (l_hca_header l)|].
      split; [destruct (l_hca_header l); reflexivity|].
      split; [|discriminate]. intros _. now destruct (l_hca_header l).
    + rewrite ret_eq. eexists (l_err l), w1, _. split; [reflexivity|].
      split; [exact Hs1|].
      split; [now destruct (l_hca_header l)|].
      split; [now destruct (l_hca_header l)|].
      split; [destruct (l_hca_header l); reflexivity|].
      split; [|discriminate]. intros _. now destruct (l_hca_header l).
Qed.

(** The accesses of a call of [sx_reset], in three parts: the
    preparations, the work between [sx_cmd_use_polling] and [out:], and the
    [out:] label. *)
Lemma sx_reset_log dev perform_chip_reset w :
  exists err w' prep mid fin,
    sx_reset cfg hw dev perform_chip_reset w = Ret err w' /\
    grows w w' (prep ++ mid ++ fin) /\
    (no_trigger prep = true /\ existsb is_dispatch prep = false /\
     released prep = 0%nat /\ (allocated prep <= 2)%nat) /\
    (allocated mid = 0%nat /\ released mid = 0%nat) /\
    (no_trigger fin = true /\ allocated fin = 0%nat /\
     released fin = allocated prep) /\
    (perform_chip_reset = 0 ->
     no_trigger mid = true /\ existsb is_dispatch mid = false /\
     existsb is_dispatch fin = false /\
     dev_sw_rst_flow w' = dev_sw_rst_flow w) /\
    (perform_chip_reset <> 0 ->
     mid = [] /\ existsb is_dispatch fin = false \/
     exists n rc rest e rc' freed,
       mid = EvCmdUsePolling
             :: repeat (EvMsleep 100) n
             ++ EvDispatchEvent SX_DEV_EVENT_PRE_RESET None rc None :: rest /\
       no_bookkeeping rest = true /\
       fin = freed
             ++ [EvDispatchEvent SX_DEV_EVENT_POST_RESET (Some e) rc' (Some err);
                 EvKfree] /\
       (freed = [] \/ freed = [EvKfree]) /\
       (rc <> 0 -> rest = [] /\ e = rc)).
Proof.
  destruct (sx_reset_prepare_log dev w)
    as (prepared & w0 & prep & Hprep & Hs0 & Ht0 & Hd0 & Hr0 & Ha0 & _ & Hshape).
  assert (Hle : (allocated prep <= 2)%nat).
  { rewrite Ha0. destruct prepared as [l | [[d p] hca_header]]; unfold buffers_held.
    - destruct (l_event_data l), (l_hca_header l); lia.
    - destruct hca_header; lia. }
  unfold sx_reset, sx_reset_body. rewrite bind_eq, (bind_ret _ _ _ _ _ Hprep).
  destruct prepared as [l | [[d p] hca_header]].
  - rewrite ret_eq. cbv beta iota.
    destruct (sx_reset_out_log l w0 ltac:(rewrite Hshape; discriminate))
      as (err & w' & fin & Hout & Hs1 & Ht1 & Ha1 & Hr1 & Hplain & _).
    destruct (Hplain Hshape) as (Hd1 & _).
    exists err, w', prep, [], fin. split; [exact Hout|].
    split; [exact (steps_grows _ _ _ (steps_trans _ _ _ _ _ Hs0 Hs1))|].
    split; [now repeat split|]. split; [now split|].
    split; [repeat split; congruence|].
    split; [intros _; repeat split; auto;
            rewrite (steps_flow _ _ _ Hs1); exact (steps_flow _ _ _ Hs0)|].
    intros _. left. now split.
  - destruct Hshape as (_ & Hp & Hhdr). unfold sx_reset_armed.
    rewrite bind_eq, sx_cmd_use_polling_eq. cbv beta iota.
    set (w1 := logged EvCmdUsePolling w0).
    destruct (wait_reset_trigger_spec cfg hw hz w1) as (wg & n & Hgate & Hsg & _).
    rewrite (bind_ret _ _ _ _ _ Hgate).
    destruct (sx_reset_phase_log d p perform_chip_reset hca_header wg Hp Hhdr)
      as (e & w2 & evs & Hphase & Hg2 & Hnone & Hsome).
    rewrite (bind_ret _ _ _ _ _ Hphase). cbv beta iota zeta. rewrite ret_eq.
    cbv beta iota.
    set (l := {| l_err := e; l_hca_header := hca_header; l_event_data := true;
                 l_is_pre_reset_event := negb (perform_chip_reset =? 0) |}).
    destruct (sx_reset_out_log l w2 ltac:(reflexivity))
      as (err & w' & fin & Hout & Hs3 & Ht3 & Ha3 & Hr3 & Hplain & Hpost).
    assert (Hs01 : steps w0 wg (EvCmdUsePolling :: repeat (EvMsleep 100) n))
      by (apply steps_cons; exact Hsg).
    destruct (repeat_msleep_quiet 100 n) as [Hqs Hts].
    destruct (no_bookkeeping_balanced _ Hqs) as (Has & Hrs & Hds).
    exists err, w', prep, ((EvCmdUsePolling :: repeat (EvMsleep 100) n) ++ evs), fin.
    split; [exact Hout|].
    split.
    { replace (prep ++ ((EvCmdUsePolling :: repeat (EvMsleep 100) n) ++ evs) ++ fin)
        with (((prep ++ EvCmdUsePolling :: repeat (EvMsleep 100) n) ++ evs) ++ fin)
        by (now rewrite <- !app_assoc).
      refine (grows_trans _ _ _ _ _ _ (steps_grows _ _ _ Hs3)).
      exact (grows_trans _ _ _ _ _
               (steps_grows _ _ _ (steps_trans _ _ _ _ _ Hs0 Hs01)) Hg2). }
    split; [now repeat split|].
    assert (Hbal : allocated evs = 0%nat /\ released evs = 0%nat).
    { destruct (Z.eq_dec perform_chip_reset 0) as [Hz|Hnz].
      - destruct (Hnone Hz) as (Hq & _). now destruct (no_bookkeeping_balanced _ Hq).
      - destruct (Hsome Hnz) as (rc & rest & -> & Hq & _).
        destruct (no_bookkeeping_balanced _ Hq) as (? & ? & _). now split. }
    split.
    { rewrite allocated_app, released_app. cbn [allocated released].
      rewrite Has, Hrs. exact Hbal. }
    split.
    { split; [exact Ht3|]. split; [exact Ha3|]. rewrite Hr3, Ha0.
      unfold buffers_held, l. cbn [l_event_data l_hca_header]. reflexivity. }
    split.
    + intros Hz. destruct (Hnone Hz) as (Hq & Ht & Hflow).
      destruct (no_bookkeeping_balanced _ Hq) as (_ & _ & Hd).
      assert (Hpre : l_is_pre_reset_event l = false)
        by (unfold l; cbn [l_is_pre_reset_event]; now rewrite Hz).
      destruct (Hplain Hpre) as (Hdf & _).
      rewrite no_trigger_app, existsb_is_dispatch_app, Ht, Hd.
      change (no_trigger (EvCmdUsePolling :: repeat (EvMsleep 100) n))
        with (no_trigger (repeat (EvMsleep 100) n)).
      change (existsb is_dispatch (EvCmdUsePolling :: repeat (EvMsleep 100) n))
        with (existsb is_dispatch (repeat (EvMsleep 100) n)).
      rewrite Hts, Hds.
      repeat split; auto.
      rewrite (steps_flow _ _ _ Hs3), Hflow, (steps_flow _ _ _ Hs01).
      exact (steps_flow _ _ _ Hs0).
    + intros Hnz. right. destruct (Hsome Hnz) as (rc & rest & -> & Hq & Hrej).
      assert (Hpre : l_is_pre_reset_event l = true).
      { unfold l. cbn [l_is_pre_reset_event]. apply negb_true_iff.
        now apply Z.eqb_neq. }
      destruct (Hpost Hpre) as (rc' & ->).
      exists n, rc, rest, e, rc', (freed_header l).
      split; [reflexivity|]. split; [exact Hq|]. split; [reflexivity|].
      split; [|exact Hrej].
      unfold freed_header. destruct (l_hca_header l); [now right | now left].
Qed.

(** The answers of the parts of [sx_reset] when no chip reset is asked
    for. *)
Lemma sx_reset_restore_err p hca_header w err w' :
  sx_reset_restore hw p hca_header w = Ret err w' -> err = 0 \/ err = - ENODEV.
Proof.
  unfold sx_reset_restore. destruct (is_switchx (device p)).
  - destruct hca_header as [hdr|]; [|discriminate]. cbn [deref].
    rewrite bind_eq, ret_eq. cbv beta iota.
    destruct (restore_headers_data_spec hw hdr w) as (w1 & Hrun & _).
    rewrite (bind_ret _ _ _ _ _ Hrun), ret_eq. intros [= <- _].
    destruct (snd _); [now left | now right].
  - rewrite ret_eq. intros [= <- _]. now left.
Qed.

Lemma sx_reset_phase_err dev p hca_header w err is_pre_reset_event w' :
  pdev dev = Some p ->
  sx_reset_phase cfg hw dev p 0 hca_header w = Ret (err, is_pre_reset_event) w' ->
  err = 0 \/ err = - ENODEV.
Proof.
  intros Hp. unfold sx_reset_phase. cbn [Z.eqb negb].
  rewrite bind_eq, get_eq. cbv beta iota.
  assert (Hrestore : forall w1,
             (err <- sx_reset_restore hw p hca_header ;; ret (err, false)) w1
             = Ret (err, is_pre_reset_event) w' ->
             err = 0 \/ err = - ENODEV).
  { intros w1. rewrite bind_eq.
    destruct (sx_reset_restore hw p hca_header w1) as [e w2|] eqn:Hres; [|discriminate].
    rewrite ret_eq. intros [= <- _ _]. exact (sx_reset_restore_err _ _ _ _ _ Hres). }
  destruct (debug_fw_trace_boot_flow w =? 0); [|apply Hrestore].
  destruct (wait_for_system_ready_spec cfg hw hz dev p 0 false w Hp ltac:(lia))
    as ([e tw] & w1 & _ & Hwait & _).
  rewrite (bind_ret _ _ _ _ _ Hwait). cbv beta iota zeta.
  destruct (negb (e =? 0)); [|apply Hrestore].
  rewrite ret_eq. intros [= <- _ _]. now right.
Qed.

Lemma sx_reset_prepare_err dev w l w0 :
  sx_reset_prepare hw dev w = Ret (inl l) w0 ->
  l_err l = - ENODEV \/ l_err l = - ENOMEM.
Proof.
  unfold sx_reset_prepare.
  destruct dev as [d|]; [|rewrite ret_eq; intros [= <- _]; now left].
  destruct (pdev d) as [p|]; [|rewrite ret_eq; intros [= <- _]; now left].
  rewrite bind_eq, kzalloc_event_data_eq. cbv beta iota.
  destruct (hw_kmalloc hw (List.length (log w))); cbn [negb];
    [|rewrite ret_eq; intros [= <- _]; now right].
  destruct (is_switchx (device p)); [|rewrite ret_eq; discriminate].
  rewrite bind_eq, kmalloc_eq. cbv beta iota.
  destruct (hw_kmalloc hw _); cbn [negb];
    [|rewrite ret_eq; intros [= <- _]; now right].
  destruct (save_headers_data_spec hw
              (logged (EvKmalloc SX_HCA_HEADERS_SIZE true)
                 (logged (EvKzallocEventData true) w)))
    as (err & hdr & w' & Hrun & _ & Herr & _).
  rewrite (bind_ret _ _ _ _ _ Hrun). cbv beta iota zeta.
  destruct (negb (err =? 0)) eqn:Hne; rewrite ret_eq; [|discriminate].
  intros [= <- _]. cbn [l_err]. left. rewrite Herr in *.
  destruct (snd _); [discriminate Hne | reflexivity].
Qed.

Lemma sx_reset_prepare_nomem dev w l w0 :
  sx_reset_prepare hw dev w = Ret (inl l) w0 ->
  l_err l = - ENOMEM ->
  exists n, hw_kmalloc hw n = false /\
            (List.length (log w) <= n < List.length (log w0))%nat.
Proof.
  unfold sx_reset_prepare.
  destruct dev as [d|]; [|rewrite ret_eq; intros [= <- _]; discriminate].
  destruct (pdev d) as [p|]; [|rewrite ret_eq; intros [= <- _]; discriminate].
  rewrite bind_eq, kzalloc_event_data_eq. cbv beta iota.
  destruct (hw_kmalloc hw (List.length (log w))) eqn:Hfirst; cbn [negb].
  2: { rewrite ret_eq. intros [= <- <-] _. exists (List.length (log w)).
       split; [exact Hfirst|]. rewrite length_logged. lia. }
  destruct (is_switchx (device p)); [|rewrite ret_eq; discriminate].
  rewrite bind_eq, kmalloc_eq. cbv beta iota.
  destruct (hw_kmalloc hw (List.length (log (logged (EvKzallocEventData true) w))))
    eqn:Hsecond; cbn [negb].
  2: { rewrite ret_eq. intros [= <- <-] _.
       exists (List.length (log (logged (EvKzallocEventData true) w))).
       split; [exact Hsecond|]. rewrite !length_logged. lia. }
  destruct (save_headers_data_spec hw
              (logged (EvKmalloc SX_HCA_HEADERS_SIZE true)
                 (logged (EvKzallocEventData true) w)))
    as (err & hdr & w' & Hrun & _ & Herr & _).
  rewrite (bind_ret _ _ _ _ _ Hrun). cbv beta iota zeta.
  destruct (negb (err =? 0)) eqn:Hne; rewrite ret_eq; [|discriminate].
  intros [= <- _]. cbn [l_err]. rewrite Herr.
  destruct (snd _); discriminate.
Qed.

End Log.

Lemma grows_inj w w' evs evs' : grows w w' evs -> grows w w' evs' -> evs = evs'.
Proof.
  intros (new & Hl & <-) (new' & Hl' & <-). rewrite Hl in Hl'.
  now rewrite (app_inv_head _ _ _ Hl').
Qed.

Lemma not_dispatched evs kind data rc data' :
  existsb is_dispatch evs = false -> ~ In (EvDispatchEvent kind data rc data') evs.
Proof.
  intros Hnone Hin.
  assert (Hsome : existsb is_dispatch evs = true)
    by (apply existsb_exists; now exists (EvDispatchEvent kind data rc data')).
  congruence.
Qed.

Ltac reassociate :=
  repeat (progress (cbn [app]; rewrite <- ?app_assoc)); reflexivity.

Section LogClaims.

Variable cfg : build.
Variable hw : hardware.
Hypothesis hz : hz_supported cfg = true.

(** X7.  [sx_reset] returns on every input, and it leaks no buffer: its
    accesses are those of a first part that releases nothing, the work
    down to the [out:] label, and of a second part that obtains nothing
    and releases as many buffers as allocations succeeded in the first, at
    most two, whichever way the call got to [out:]. *)
Theorem sx_reset_releases_its_buffers dev perform_chip_reset w :
  exists err w' work fin,
    sx_reset cfg hw dev perform_chip_reset w = Ret err w' /\
    grows w w' (work ++ fin) /\
    released work = 0%nat /\ allocated fin = 0%nat /\
    released fin = allocated work /\
    (allocated work <= 2)%nat.
Proof.
  destruct (sx_reset_log cfg hw hz dev perform_chip_reset w)
    as (err & w' & prep & mid & fin & Hrun & Hg & (_ & _ & Hr0 & Hle) & (Ha1 & Hr1)
        & (_ & Ha2 & Hr2) & _).
  exists err, w', (prep ++ mid), fin. split; [exact Hrun|].
  split; [now rewrite <- app_assoc|].
  rewrite released_app, allocated_app, Hr0, Hr1, Ha1, !Nat.add_0_r.
  split; [reflexivity|]. split; [exact Ha2|]. split; [exact Hr2 | exact Hle].
Qed.

(** X8.  Called with [perform_chip_reset] zero, [sx_reset] resets nothing
    and notifies nobody: its log has neither an MRSR access nor a write of
    the reset register nor a dispatched event, and [dev_sw_rst_flow] is
    left as it was. *)
Theorem sx_reset_without_chip_reset dev w :
  exists err w' evs,
    sx_reset cfg hw dev 0 w = Ret err w' /\
    grows w w' evs /\
    no_trigger evs = true /\
    existsb is_dispatch evs = false /\
    dev_sw_rst_flow w' = dev_sw_rst_flow w.
Proof.
  destruct (sx_reset_log cfg hw hz dev 0 w)
    as (err & w' & prep & mid & fin & Hrun & Hg & (Ht0 & Hd0 & _) & _
        & (Ht2 & _) & Hnone & _).
  destruct (Hnone eq_refl) as (Ht1 & Hd1 & Hd2 & Hflow).
  exists err, w', (prep ++ mid ++ fin). split; [exact Hrun|]. split; [exact Hg|].
  rewrite !no_trigger_app, !existsb_is_dispatch_app, Ht0, Ht1, Ht2, Hd0, Hd1, Hd2.
  now repeat split.
Qed.

(** X9.  [sx_reset] resets the chip only after the subscribers accepted
    the pre-reset event: a log with an MRSR access or a write of the reset
    register comes from a call with [perform_chip_reset] non-zero, and
    before the first such access it has the pre-reset event, dispatched
    with the answer 0. *)
Theorem sx_reset_trigger_needs_pre_reset dev perform_chip_reset err w w' evs :
  sx_reset cfg hw dev perform_chip_reset w = Ret err w' ->
  grows w w' evs ->
  no_trigger evs = false ->
  perform_chip_reset <> 0 /\
  exists before after,
    evs = before ++ EvDispatchEvent SX_DEV_EVENT_PRE_RESET None 0 None :: after /\
    no_trigger before = true /\
    existsb is_dispatch before = false.
Proof.
  intros Hrun Hg Htrig.
  destruct (sx_reset_log cfg hw hz dev perform_chip_reset w)
    as (err0 & w0 & prep & mid & fin & Hrun0 & Hg0 & (Ht0 & Hd0 & _) & _
        & (Ht2 & _) & Hnone & Hsome).
  rewrite Hrun in Hrun0. injection Hrun0 as <- <-.
  rewrite (grows_inj _ _ _ _ Hg Hg0) in Htrig |- *. clear Hg.
  rewrite !no_trigger_app, Ht0, Ht2, andb_true_r in Htrig. cbn [andb] in Htrig.
  destruct (Z.eq_dec perform_chip_reset 0) as [Hz|Hnz].
  { destruct (Hnone Hz) as (Ht1 & _). congruence. }
  split; [exact Hnz|].
  destruct (Hsome Hnz) as [(-> & _) | (n & rc & rest & e & rc' & freed & -> & _ & _ & _ & Hrej)];
    [discriminate|].
  destruct (repeat_msleep_quiet 100 n) as [Hqs Hts].
  destruct (no_bookkeeping_balanced _ Hqs) as (_ & _ & Hds).
  destruct (Z.eq_dec rc 0) as [->|Hrc].
  - exists (prep ++ EvCmdUsePolling :: repeat (EvMsleep 100) n), (rest ++ fin).
    split; [reassociate|].
    rewrite no_trigger_app, existsb_is_dispatch_app, Ht0, Hd0.
    change (no_trigger (EvCmdUsePolling :: repeat (EvMsleep 100) n))
      with (no_trigger (repeat (EvMsleep 100) n)).
    change (existsb is_dispatch (EvCmdUsePolling :: repeat (EvMsleep 100) n))
      with (existsb is_dispatch (repeat (EvMsleep 100) n)).
    now rewrite Hts, Hds.
  - destruct (Hrej Hrc) as (-> & _). exfalso.
    change (EvCmdUsePolling :: repeat (EvMsleep 100) n
            ++ [EvDispatchEvent SX_DEV_EVENT_PRE_RESET None rc None])
      with ((EvCmdUsePolling :: repeat (EvMsleep 100) n)
            ++ [EvDispatchEvent SX_DEV_EVENT_PRE_RESET None rc None]) in Htrig.
    rewrite no_trigger_app in Htrig.
    change (no_trigger (EvCmdUsePolling :: repeat (EvMsleep 100) n))
      with (no_trigger (repeat (EvMsleep 100) n)) in Htrig.
    rewrite Hts in Htrig. discriminate.
Qed.

(** X10.  When a subscriber rejects the pre-reset event, [sx_reset] stops
    there: nothing resets the chip, and after the pre-reset event the call
    only releases the saved header, if it has one, dispatches the
    post-reset event with the code of the rejection and releases the
    payload.  Its answer is the code the subscribers of the post-reset
    event leave in the payload. *)
Theorem sx_reset_pre_reset_rejected dev perform_chip_reset err w w' evs rc :
  sx_reset cfg hw dev perform_chip_reset w = Ret err w' ->
  grows w w' evs ->
  In (EvDispatchEvent SX_DEV_EVENT_PRE_RESET None rc None) evs ->
  rc <> 0 ->
  no_trigger evs = true /\
  exists before freed rc',
    evs = before
          ++ EvDispatchEvent SX_DEV_EVENT_PRE_RESET None rc None
          :: freed
          ++ [EvDispatchEvent SX_DEV_EVENT_POST_RESET (Some rc) rc' (Some err);
              EvKfree] /\
    (freed = [] \/ freed = [EvKfree]) /\
    existsb is_dispatch before = false.
Proof.
  intros Hrun Hg Hin Hrc.
  destruct (sx_reset_log cfg hw hz dev perform_chip_reset w)
    as (err0 & w0 & prep & mid & fin & Hrun0 & Hg0 & (Ht0 & Hd0 & _) & _
        & (Ht2 & _) & Hnone & Hsome).
  rewrite Hrun in Hrun0. injection Hrun0 as <- <-.
  rewrite (grows_inj _ _ _ _ Hg Hg0) in Hin |- *. clear Hg.
  destruct (Z.eq_dec perform_chip_reset 0) as [Hz|Hnz].
  { destruct (Hnone Hz) as (_ & Hd1 & Hd2 & _). exfalso.
    refine (not_dispatched (prep ++ mid ++ fin) _ _ _ _ _ Hin).
    now rewrite !existsb_is_dispatch_app, Hd0, Hd1, Hd2. }
  destruct (Hsome Hnz)
    as [(-> & Hd2) | (n & rc0 & rest & e & rc' & freed & -> & Hq & -> & Hfreed & Hrej)].
  { exfalso. refine (not_dispatched (prep ++ [] ++ fin) _ _ _ _ _ Hin).
    now rewrite !existsb_is_dispatch_app, Hd0, Hd2. }
  destruct (repeat_msleep_quiet 100 n) as [Hqs Hts].
  destruct (no_bookkeeping_balanced _ Hqs) as (_ & _ & Hds).
  destruct (no_bookkeeping_balanced _ Hq) as (_ & _ & Hdr).
  assert (Hdf : existsb is_dispatch freed = false)
    by (destruct Hfreed as [-> | ->]; reflexivity).
  assert (Heq : rc0 = rc).
  { apply in_app_or in Hin as [Hin | Hin];
      [now apply not_dispatched in Hin|].
    apply in_app_or in Hin as [Hin | Hin].
    - destruct Hin as [Hin | Hin]; [discriminate|].
      apply in_app_or in Hin as [Hin | [Hin | Hin]].
      + now apply not_dispatched in Hin.
      + congruence.
      + now apply not_dispatched in Hin.
    - apply in_app_or in Hin as [Hin | [Hin | [Hin | []]]].
      + now apply not_dispatched in Hin.
      + discriminate.
      + discriminate. }
  subst rc0. destruct (Hrej Hrc) as (-> & ->).
  assert (Hquiet : no_trigger (prep ++ EvCmdUsePolling :: repeat (EvMsleep 100) n) = true
                   /\ existsb is_dispatch
                        (prep ++ EvCmdUsePolling :: repeat (EvMsleep 100) n) = false).
  { rewrite no_trigger_app, existsb_is_dispatch_app, Ht0, Hd0.
    change (no_trigger (EvCmdUsePolling :: repeat (EvMsleep 100) n))
      with (no_trigger (repeat (EvMsleep 100) n)).
    change (existsb is_dispatch (EvCmdUsePolling :: repeat (EvMsleep 100) n))
      with (existsb is_dispatch (repeat (EvMsleep 100) n)).
    now rewrite Hts, Hds. }
  destruct Hquiet as [Htb Hdb].
  assert (Hshape :
            prep ++ (EvCmdUsePolling :: repeat (EvMsleep 100) n
                     ++ [EvDispatchEvent SX_DEV_EVENT_PRE_RESET None rc None])
            ++ freed ++ [EvDispatchEvent SX_DEV_EVENT_POST_RESET (Some rc) rc' (Some err);
                         EvKfree]
            = (prep ++ EvCmdUsePolling :: repeat (EvMsleep 100) n)
              ++ EvDispatchEvent SX_DEV_EVENT_PRE_RESET None rc None
              :: freed ++ [EvDispatchEvent SX_DEV_EVENT_POST_RESET (Some rc) rc' (Some err);
                           EvKfree]).
  { reassociate. }
  rewrite Hshape. split.
  - rewrite no_trigger_app, Htb. cbn [andb].
    destruct Hfreed as [-> | ->]; reflexivity.
  - exists (prep ++ EvCmdUsePolling :: repeat (EvMsleep 100) n), freed, rc'.
    split; [reflexivity|]. split; [exact Hfreed | exact Hdb].
Qed.

(** X23.  Called with [perform_chip_reset] zero, [sx_reset] answers 0,
    -ENODEV or -ENOMEM: whatever the wait for the status register or the
    restoring of the headers answers when it fails, the caller sees
    -ENODEV, and -ENOMEM only comes from a failed allocation. *)
Theorem sx_reset_answers_without_chip_reset dev w :
  exists err w',
    sx_reset cfg hw dev 0 w = Ret err w' /\
    (err = 0 \/ err = - ENODEV \/ err = - ENOMEM) /\
    (err = - ENOMEM ->
     exists n, hw_kmalloc hw n = false /\
               (List.length (log w) <= n < List.length (log w'))%nat).
Proof.
  destruct (sx_reset_prepare_log hw dev w)
    as (prepared & w0 & prep & Hprep & Hs0 & _ & _ & _ & _ & _ & Hshape).
  unfold sx_reset, sx_reset_body. rewrite bind_eq, (bind_ret _ _ _ _ _ Hprep).
  destruct prepared as [l | [[d p] hca_header]].
  - rewrite ret_eq. cbv beta iota.
    destruct (sx_reset_out_log hw l w0 ltac:(rewrite Hshape; discriminate))
      as (err & w' & fin & Hout & Hs1 & _ & _ & _ & Hplain & _).
    destruct (Hplain Hshape) as (_ & ->).
    exists (l_err l), w'. split; [exact Hout|].
    pose proof (sx_reset_prepare_err hw dev w l w0 Hprep) as Herr.
    split; [tauto|]. intros Hnomem.
    destruct (sx_reset_prepare_nomem hw dev w l w0 Hprep Hnomem) as (n & Hn & Hin).
    exists n. split; [exact Hn|]. rewrite (steps_length _ _ _ Hs1). lia.
  - destruct Hshape as (_ & Hp & Hhdr). unfold sx_reset_armed.
    rewrite bind_eq, sx_cmd_use_polling_eq. cbv beta iota.
    destruct (wait_reset_trigger_spec cfg hw hz (logged EvCmdUsePolling w0))
      as (wg & n & Hgate & _).
    rewrite (bind_ret _ _ _ _ _ Hgate).
    destruct (sx_reset_phase_log cfg hw hz d p 0 hca_header wg Hp Hhdr)
      as (e & w2 & evs & Hphase & _).
    rewrite (bind_ret _ _ _ _ _ Hphase). cbv beta iota zeta. rewrite ret_eq.
    cbv beta iota.
    set (l := {| l_err := e; l_hca_header := hca_header; l_event_data := true;
                 l_is_pre_reset_event := negb (0 =? 0) |}).
    destruct (sx_reset_out_log hw l w2 ltac:(reflexivity))
      as (err & w' & fin & Hout & _ & _ & _ & _ & Hplain & _).
    destruct (Hplain eq_refl) as (_ & ->).
    exists e, w'. split; [exact Hout|].
    destruct (sx_reset_phase_err cfg hw hz d p hca_header wg e _ w2 Hp Hphase)
      as [-> | ->].
    + split; [now left | discriminate].
    + split; [right; now left | discriminate].
Qed.

End LogClaims.

(** ** The theorems on the paths and on the log at concrete worlds *)

(** X1 on a Spectrum device that goes down after the MRSR write and comes
    back. *)
Lemma sdk_sx_reset_success_witness :
  hz_supported production = true /\
  pdev spectrum = Some spectrum_pdev /\
  sdk_sx_reset production rebooting_hw spectrum boot = Ret 0 rebooted /\
  exists evs1 evs2 evs3,
    log rebooted = log boot ++ map (tag (dev_sw_rst_flow boot)) evs1
                   ++ map (tag true)
                        (EvAccessRegMRSR (sw_reset_reg_data spectrum) 0 :: evs2 ++ evs3) /\
    poll_events (chip_reset_duration production (device spectrum_pdev)) true evs1 /\
    poll_events 0 false evs2 /\
    poll_events (chip_reset_duration production (device spectrum_pdev)) true evs3.
Proof.
  assert (Hrun : sdk_sx_reset production rebooting_hw spectrum boot = Ret 0 rebooted)
    by (vm_compute; reflexivity).
  split; [reflexivity|]. split; [reflexivity|]. split; [exact Hrun|].
  exact (sdk_sx_reset_success production rebooting_hw eq_refl
           spectrum spectrum_pdev boot rebooted eq_refl Hrun).
Defined.

(** X2 on a Spectrum device at boot. *)
Lemma sdk_sx_reset_resets_once_witness :
  hz_supported production = true /\
  pdev spectrum = Some spectrum_pdev /\
  exists err w' new,
    sdk_sx_reset production ready_hw spectrum boot = Ret err w' /\
    log w' = log boot ++ new /\
    ((existsb is_mrsr (map fst new) = false /\ err <> 0) \/
     (exists evs1 rc rest,
        map fst new = evs1 ++ EvAccessRegMRSR (sw_reset_reg_data spectrum) rc :: rest /\
        poll_events (chip_reset_duration production (device spectrum_pdev)) true evs1 /\
        no_trigger evs1 = true /\ no_trigger rest = true)).
Proof.
  split; [reflexivity|]. split; [reflexivity|].
  exact (sdk_sx_reset_resets_once production ready_hw eq_refl
           spectrum spectrum_pdev boot eq_refl).
Defined.

(** X3 on a Spectrum device at boot. *)
Lemma legacy_reset_answers_witness :
  hz_supported production = true /\
  pdev spectrum = Some spectrum_pdev /\
  exists err w' new,
    legacy_reset production ready_hw spectrum boot = Ret err w' /\
    log w' = log boot ++ new /\
    (err = 0 \/ err = - ETIME \/ err = - ENOMEM) /\
    (no_trigger (map fst new) = false ->
     exists evs1 evs3,
       map fst new = evs1 ++ legacy_trigger_events production ++ evs3 /\
       poll_events (2 * chip_reset_duration production (device spectrum_pdev)) true evs1 /\
       waited (2 * chip_reset_duration production (device spectrum_pdev)) err evs3) /\
    (err = 0 -> no_trigger (map fst new) = false).
Proof.
  split; [reflexivity|]. split; [reflexivity|].
  exact (legacy_reset_answers production ready_hw eq_refl
           spectrum spectrum_pdev boot eq_refl).
Defined.

(** X4 on a Spectrum device at boot. *)
Lemma perform_dev_sw_reset_answers_witness :
  hz_supported production = true /\
  pdev spectrum = Some spectrum_pdev /\
  is_modern (device spectrum_pdev) = true /\
  exists err w',
    perform_dev_sw_reset production ready_hw spectrum boot = Ret err w' /\
    (err = 0 \/ err = - ETIME \/ err = - ENOMEM) /\
    dev_sw_rst_flow w' = false.
Proof.
  split; [reflexivity|]. split; [reflexivity|]. split; [reflexivity|].
  exact (perform_dev_sw_reset_answers production ready_hw eq_refl
           spectrum spectrum_pdev boot eq_refl eq_refl).
Defined.

(** X5 on a SwitchX device at boot. *)
Lemma legacy_reset_SwitchX_verdict_witness :
  hz_supported production = true /\
  pdev switchx = Some switchx_pdev /\
  exists err w' evs,
    legacy_reset_SwitchX production ready_hw switchx boot = Ret err w' /\
    steps boot w' evs /\
    ((hw_ioremap ready_hw (List.length (log boot)) = false /\ err = - ENOMEM /\
      evs = [EvIoremap SX_RESET_BASE SX_RESET_SIZE false]) \/
     (hw_ioremap ready_hw (List.length (log boot)) = true /\
      exists polls rc vendor before,
        evs = legacy_trigger_events production ++ polls /\
        forallb is_vendor_poll polls = true /\
        (polls = before ++ [EvPciReadConfigWord PCI_VENDOR_ID rc vendor] \/
         polls = before ++ [EvPciReadConfigWord PCI_VENDOR_ID rc vendor; EvMsleep 1]) /\
        err = (if vendor =? 0xffff then - ENODEV else 0) /\
        (err = - ENODEV ->
         jiffies boot + msecs_to_jiffies production (legacy_reset_grace production)
         + 2 * HZ production <= jiffies w'))).
Proof.
  split; [reflexivity|]. split; [reflexivity|].
  exact (legacy_reset_SwitchX_verdict production ready_hw eq_refl
           switchx switchx_pdev boot eq_refl).
Defined.

(** X6 on a Spectrum device whose status register shows the enabled
    value. *)
Lemma get_system_status_outcomes_witness :
  pdev spectrum = Some spectrum_pdev /\
  get_system_status ready_hw None true boot = Ret (- EINVAL, None) boot /\
  get_system_status ready_hw (Some spectrum) false boot = Ret (- EINVAL, None) boot /\
  let n := List.length (log boot) in
  let val := u32 (hw_ioread32be ready_hw (S n)) in
  exists w',
    (if hw_ioremap ready_hw n
     then
       get_system_status ready_hw (Some spectrum) true boot
         = Ret (0, Some (Z.land val 0xFF)) w' /\
       steps boot w'
         [EvIoremap SX_SYSTEM_STATUS_REG_OFFSET SX_SYSTEM_STATUS_REG_SIZE true;
          EvIoread32be SX_SYSTEM_STATUS_REG_OFFSET val;
          EvIounmap SX_SYSTEM_STATUS_REG_OFFSET]
     else
       get_system_status ready_hw (Some spectrum) true boot = Ret (- ENOMEM, None) w' /\
       steps boot w'
         [EvIoremap SX_SYSTEM_STATUS_REG_OFFSET SX_SYSTEM_STATUS_REG_SIZE false]) /\
    jiffies w' = jiffies boot /\
    0 <= Z.land val 0xFF <= 255 /\
    (Z.land val 0xFF = 0x5E <-> system_status_enabled val = true).
Proof.
  split; [reflexivity|].
  exact (get_system_status_outcomes ready_hw spectrum spectrum_pdev true boot eq_refl).
Defined.

(** X7 on a SwitchX device at boot, asked to reset the chip. *)
Lemma sx_reset_releases_its_buffers_witness :
  hz_supported production = true /\
  exists err w' work fin,
    sx_reset production ready_hw (Some switchx) 1 boot = Ret err w' /\
    grows boot w' (work ++ fin) /\
    released work = 0%nat /\ allocated fin = 0%nat /\
    released fin = allocated work /\
    (allocated work <= 2)%nat.
Proof.
  split; [reflexivity|].
  exact (sx_reset_releases_its_buffers production ready_hw eq_refl (Some switchx) 1 boot).
Defined.

(** X8 on a SwitchX device at boot. *)
Lemma sx_reset_without_chip_reset_witness :
  hz_supported production = true /\
  exists err w' evs,
    sx_reset production ready_hw (Some switchx) 0 boot = Ret err w' /\
    grows boot w' evs /\
    no_trigger evs = true /\
    existsb is_dispatch evs = false /\
    dev_sw_rst_flow w' = dev_sw_rst_flow boot.
Proof.
  split; [reflexivity|].
  exact (sx_reset_without_chip_reset production ready_hw eq_refl (Some switchx) boot).
Defined.

(** X9 on a Spectrum device that goes down after the MRSR write and comes
    back. *)
Lemma sx_reset_trigger_needs_pre_reset_witness :
  hz_supported production = true /\
  sx_reset production rebooting_hw' (Some spectrum) 1 boot = Ret 0 reset_done /\
  grows boot reset_done (map fst (log reset_done)) /\
  no_trigger (map fst (log reset_done)) = false /\
  1 <> 0 /\
  exists before after,
    map fst (log reset_done)
    = before ++ EvDispatchEvent SX_DEV_EVENT_PRE_RESET None 0 None :: after /\
    no_trigger before = true /\
    existsb is_dispatch before = false.
Proof.
  assert (Hrun : sx_reset production rebooting_hw' (Some spectrum) 1 boot
                 = Ret 0 reset_done) by (vm_compute; reflexivity).
  assert (Hg : grows boot reset_done (map fst (log reset_done)))
    by (exists (log reset_done); split; [vm_compute; reflexivity | reflexivity]).
  assert (Htrig : no_trigger (map fst (log reset_done)) = false)
    by (vm_compute; reflexivity).
  split; [reflexivity|]. split; [exact Hrun|]. split; [exact Hg|].
  split; [exact Htrig|].
  exact (sx_reset_trigger_needs_pre_reset production rebooting_hw' eq_refl
           (Some spectrum) 1 0 boot reset_done _ Hrun Hg Htrig).
Defined.

(** X10 on a Spectrum device whose subscribers answer the pre-reset event
    with -EBUSY. *)
Lemma sx_reset_pre_reset_rejected_witness :
  hz_supported production = true /\
  sx_reset production busy_hw (Some spectrum) 1 boot = Ret (-16) rejected /\
  grows boot rejected (map fst (log rejected)) /\
  In (EvDispatchEvent SX_DEV_EVENT_PRE_RESET None (-16) None) (map fst (log rejected)) /\
  -16 <> 0 /\
  no_trigger (map fst (log rejected)) = true /\
  exists before freed rc',
    map fst (log rejected)
    = before
      ++ EvDispatchEvent SX_DEV_EVENT_PRE_RESET None (-16) None
      :: freed
      ++ [EvDispatchEvent SX_DEV_EVENT_POST_RESET (Some (-16)) rc' (Some (-16));
          EvKfree] /\
    (freed = [] \/ freed = [EvKfree]) /\
    existsb is_dispatch before = false.
Proof.
  assert (Hrun : sx_reset production busy_hw (Some spectrum) 1 boot = Ret (-16) rejected)
    by (vm_compute; reflexivity).
  assert (Hg : grows boot rejected (map fst (log rejected)))
    by (exists (log rejected); split; [vm_compute; reflexivity | reflexivity]).
  assert (Hin : In (EvDispatchEvent SX_DEV_EVENT_PRE_RESET None (-16) None)
                   (map fst (log rejected)))
    by (vm_compute; auto).
  assert (Hrc : -16 <> 0) by discriminate.
  split; [reflexivity|]. split; [exact Hrun|]. split; [exact Hg|].
  split; [exact Hin|]. split; [exact Hrc|].
  exact (sx_reset_pre_reset_rejected production busy_hw eq_refl
           (Some spectrum) 1 (-16) boot rejected _ (-16) Hrun Hg Hin Hrc).
Defined.

(** X23 on a Spectrum device whose status register never shows the
    enabled value. *)
Lemma sx_reset_answers_without_chip_reset_witness :
  hz_supported production = true /\
  exists err w',
    sx_reset production idle_hw (Some spectrum) 0 boot = Ret err w' /\
    (err = 0 \/ err = - ENODEV \/ err = - ENOMEM) /\
    (err = - ENOMEM ->
     exists n, hw_kmalloc idle_hw n = false /\
               (List.length (log boot) <= n < List.length (log w'))%nat).
Proof.
  split; [reflexivity|].
  exact (sx_reset_answers_without_chip_reset production idle_hw eq_refl
           (Some spectrum) boot).
Defined.

(** ** The fallback to the legacy reset *)






Section Fallback.

Variable cfg : build.
Variable hw : hardware.
Hypothesis hz : hz_supported cfg = true.





End Fallback.

(** ** The fallback at concrete worlds *)




(** * [mlxsw_item.h]: facts about the accessors *)

Module ItemFacts.

Import Item.
Local Open Scope item_scope.

(** ** Bits *)

Lemma all_ones_ones w : all_ones w = Z.ones w.
Proof. unfold all_ones. rewrite Z.ones_equiv. lia. Qed.

Lemma wrap_small w x : 0 <= x < 2 ^ w -> wrap w x = x.
Proof. intros H. unfold wrap. now apply Z.mod_small. Qed.

Lemma wrap_range w x : 0 <= w -> 0 <= wrap w x < 2 ^ w.
Proof. intros Hw. unfold wrap. apply Z.mod_pos_bound. now apply Z.pow_pos_nonneg. Qed.

Lemma wrap_wrap w x : 0 <= w -> wrap w (wrap w x) = wrap w x.
Proof. intros Hw. apply wrap_small. now apply wrap_range. Qed.

Lemma testbit_wrap w x i : 0 <= w -> Z.testbit (wrap w x) i = (i <? w) && Z.testbit x i.
Proof. intros Hw. unfold wrap. now apply Z.testbit_mod_pow2. Qed.

Lemma ones_range n : 0 <= n -> 0 <= Z.ones n < 2 ^ n.
Proof.
  intros Hn. rewrite Z.ones_equiv. pose proof (Z.pow_pos_nonneg 2 n ltac:(lia) Hn). lia.
Qed.

Lemma pow2_le a b : 0 <= a <= b -> 2 ^ a <= 2 ^ b.
Proof. intros H. apply Z.pow_le_mono_r; lia. Qed.

Lemma pow2_pos a : 0 <= a -> 0 < 2 ^ a.
Proof. intros H. now apply Z.pow_pos_nonneg. Qed.

(** Rewriting the bit of a term built from the operations of the
    accessors, and splitting on the comparisons that come up. *)
Ltac bit_rewrite :=
  repeat first
    [ rewrite Z.land_spec | rewrite Z.lor_spec
    | rewrite testbit_wrap by lia
    | rewrite Z.lnot_spec by lia
    | rewrite Z.shiftl_spec by lia
    | rewrite Z.shiftr_spec by lia
    | rewrite Z.testbit_ones by lia ].

Ltac bit_cases :=
  repeat match goal with
    | |- context [?a <? ?b] => destruct (Z.ltb_spec a b)
    | |- context [?a <=? ?b] => destruct (Z.leb_spec a b)
    end;
  cbn [andb orb negb];
  rewrite ?andb_true_r, ?andb_false_r, ?orb_false_r, ?orb_true_r;
  try reflexivity; try lia.

Lemma shl_done w x n : 0 <= n < w -> shl w x n = Done (wrap w (Z.shiftl x n)).
Proof.
  intros H. unfold shl.
  destruct (Z.leb_spec 0 n); [|lia]. destruct (Z.ltb_spec n w); [reflexivity | lia].
Qed.

Lemma shr_done w x n : 0 <= n < w -> shr w x n = Done (Z.shiftr x n).
Proof.
  intros H. unfold shr.
  destruct (Z.leb_spec 0 n); [|lia]. destruct (Z.ltb_spec n w); [reflexivity | lia].
Qed.

Lemma shr_undefined w x n : n < 0 \/ w <= n -> shr w x n = Undefined.
Proof.
  intros H. unfold shr.
  destruct (Z.leb_spec 0 n); [|reflexivity]. destruct (Z.ltb_spec n w); [lia | reflexivity].
Qed.

Lemma testbit_contiguous h l i :
  0 <= l <= h -> 0 <= i ->
  Z.testbit (2 ^ (h + 1) - 2 ^ l) i = (l <=? i) && (i <=? h).
Proof.
  intros Hl Hi.
  replace (2 ^ (h + 1) - 2 ^ l) with (Z.shiftl (Z.ones (h + 1 - l)) l).
  - bit_rewrite. bit_cases.
  - rewrite Z.shiftl_mul_pow2, Z.ones_equiv by lia.
    replace (2 ^ (h + 1)) with (2 ^ (h + 1 - l) * 2 ^ l)
      by (rewrite <- Z.pow_add_r by lia; f_equal; lia).
    lia.
Qed.

Lemma gen_mask_done w h l :
  0 <= l <= h -> h < w -> gen_mask w h l = Done (2 ^ (h + 1) - 2 ^ l).
Proof.
  intros Hl Hh. unfold gen_mask.
  rewrite shl_done, shr_done by lia. cbn [bind]. f_equal.
  rewrite all_ones_ones.
  assert (Hlow : wrap w (Z.shiftl 1 l) = 2 ^ l).
  { rewrite Z.shiftl_mul_pow2 by lia. rewrite Z.mul_1_l. apply wrap_small.
    split; [apply Z.pow_nonneg; lia | apply Z.pow_lt_mono_r; lia]. }
  rewrite Hlow.
  pose proof (pow2_pos l ltac:(lia)) as Hpl.
  assert (Hlw : 2 ^ l < 2 ^ w) by (apply Z.pow_lt_mono_r; lia).
  rewrite (wrap_small w (Z.ones w - 2 ^ l)) by (rewrite Z.ones_equiv; lia).
  rewrite (wrap_small w) by (rewrite Z.ones_equiv; lia).
  replace (Z.ones w - 2 ^ l + 1) with (Z.shiftl (Z.ones (w - l)) l).
  2: { rewrite Z.shiftl_mul_pow2, !Z.ones_equiv by lia.
       replace (2 ^ w) with (2 ^ (w - l) * 2 ^ l)
         by (rewrite <- Z.pow_add_r by lia; f_equal; lia).
       lia. }
  apply Z.bits_inj'. intros i Hi. rewrite testbit_contiguous by lia.
  bit_rewrite. bit_cases.
Qed.

Lemma gen_mask_undefined w h l : h < 0 \/ w <= h -> gen_mask w h l = Undefined.
Proof.
  intros H. unfold gen_mask. rewrite (shr_undefined w _ (w - 1 - h)) by lia.
  unfold shl. now destruct ((0 <=? l) && (l <? w)).
Qed.

(** X11.  [GEN_MASK(h, l)] and [GEN_MASK_ULL(h, l)] are the mask of the
    bits [l] to [h]: for [l <= h] below the width of the type the value is
    [2^(h+1) - 2^l], whose bit [i] is set exactly for [l <= i <= h]; for [h]
    negative, as in [GEN_MASK(size.bits - 1, 0)] of an item of no bits, or
    not below the width, the macro shifts by a count the language does not
    define. *)
Theorem GEN_MASK_contiguous BITS_PER_LONG h l :
  0 <= l <= h ->
  (h < BITS_PER_LONG -> GEN_MASK BITS_PER_LONG h l = Done (2 ^ (h + 1) - 2 ^ l)) /\
  (h < 64 -> GEN_MASK_ULL h l = Done (2 ^ (h + 1) - 2 ^ l)) /\
  (forall i, 0 <= i -> Z.testbit (2 ^ (h + 1) - 2 ^ l) i = (l <=? i) && (i <=? h)) /\
  (forall h', h' < 0 \/ BITS_PER_LONG <= h' -> GEN_MASK BITS_PER_LONG h' l = Undefined) /\
  (forall h', h' < 0 \/ 64 <= h' -> GEN_MASK_ULL h' l = Undefined).
Proof.
  intros Hl. split; [|split; [|split; [|split]]].
  - intros Hh. now apply gen_mask_done.
  - intros Hh. now apply gen_mask_done.
  - intros i Hi. now apply testbit_contiguous.
  - intros h' Hh'. now apply gen_mask_undefined.
  - intros h' Hh'. now apply gen_mask_undefined.
Qed.


(** ** Buffers *)

Lemma splice_length (buf new : list Z) p :
  (p + List.length new <= List.length buf)%nat ->
  List.length (firstn p buf ++ new ++ skipn (p + List.length new) buf) = List.length buf.
Proof. intros H. rewrite !length_app, length_firstn, length_skipn. lia. Qed.

Lemma splice_read (buf new : list Z) p :
  (p + List.length new <= List.length buf)%nat ->
  firstn (List.length new)
    (skipn p (firstn p buf ++ new ++ skipn (p + List.length new) buf)) = new.
Proof.
  intros H.
  assert (Hp : List.length (firstn p buf) = p) by (rewrite length_firstn; lia).
  rewrite skipn_app, Hp, Nat.sub_diag, skipn_all2 by lia. cbn [app skipn].
  now rewrite firstn_app, firstn_all, Nat.sub_diag, firstn_O, app_nil_r.
Qed.

Lemma splice_nth_out (buf new : list Z) p i d :
  (p + List.length new <= List.length buf)%nat ->
  (i < p \/ p + List.length new <= i)%nat ->
  nth i (firstn p buf ++ new ++ skipn (p + List.length new) buf) d = nth i buf d.
Proof.
  intros H Hi.
  assert (Hp : List.length (firstn p buf) = p) by (rewrite length_firstn; lia).
  destruct Hi as [Hi | Hi].
  - rewrite app_nth1 by lia. rewrite nth_firstn.
    destruct (Nat.ltb_spec i p); [reflexivity | lia].
  - rewrite app_nth2, Hp by lia. rewrite app_nth2 by lia. rewrite nth_skipn.
    f_equal. lia.
Qed.

Lemma splice_nth_in (buf new : list Z) p i d :
  (p + List.length new <= List.length buf)%nat ->
  (p <= i < p + List.length new)%nat ->
  nth i (firstn p buf ++ new ++ skipn (p + List.length new) buf) d = nth (i - p) new d.
Proof.
  intros H Hi.
  assert (Hp : List.length (firstn p buf) = p) by (rewrite length_firstn; lia).
  rewrite app_nth2, Hp by lia. now rewrite app_nth1 by lia.
Qed.

Lemma splice_same (buf : list Z) p n :
  (p + n <= List.length buf)%nat ->
  firstn p buf ++ firstn n (skipn p buf)
  ++ skipn (p + List.length (firstn n (skipn p buf))) buf = buf.
Proof.
  intros H. rewrite length_firstn, length_skipn, Nat.min_l by lia.
  rewrite <- (firstn_skipn p buf) at 4. f_equal.
  rewrite <- (firstn_skipn n (skipn p buf)) at 2. f_equal.
  now rewrite skipn_skipn, Nat.add_comm.
Qed.

Lemma bytes_at_done buf pos count :
  0 <= pos -> 0 <= count -> pos + count <= Z.of_nat (List.length buf) ->
  bytes_at buf pos count
  = Done (firstn (Z.to_nat count) (skipn (Z.to_nat pos) buf)).
Proof.
  intros Hp Hc Hl. unfold bytes_at.
  destruct (Z.leb_spec 0 pos); [|lia]. destruct (Z.leb_spec 0 count); [|lia].
  destruct (Z.leb_spec (pos + count) (Z.of_nat (List.length buf))); [reflexivity | lia].
Qed.

Lemma bytes_at_inv buf pos count bytes :
  bytes_at buf pos count = Done bytes ->
  0 <= pos /\ 0 <= count /\ pos + count <= Z.of_nat (List.length buf) /\
  bytes = firstn (Z.to_nat count) (skipn (Z.to_nat pos) buf) /\
  List.length bytes = Z.to_nat count.
Proof.
  unfold bytes_at.
  destruct (Z.leb_spec 0 pos); [|discriminate].
  destruct (Z.leb_spec 0 count); [|discriminate].
  destruct (Z.leb_spec (pos + count) (Z.of_nat (List.length buf))); [|discriminate].
  cbn [andb]. intros [= <-]. repeat split; try lia.
  rewrite length_firstn, length_skipn. lia.
Qed.

Lemma bytes_put_done buf pos new :
  0 <= pos -> pos + Z.of_nat (List.length new) <= Z.of_nat (List.length buf) ->
  bytes_put buf pos new
  = Done (firstn (Z.to_nat pos) buf ++ new
          ++ skipn (Z.to_nat pos + List.length new) buf).
Proof.
  intros Hp Hl. unfold bytes_put.
  destruct (Z.leb_spec 0 pos); [|lia].
  destruct (Z.leb_spec (pos + Z.of_nat (List.length new)) (Z.of_nat (List.length buf)));
    [reflexivity | lia].
Qed.

Lemma bytes_put_inv buf pos new buf' :
  bytes_put buf pos new = Done buf' ->
  0 <= pos /\ pos + Z.of_nat (List.length new) <= Z.of_nat (List.length buf) /\
  buf' = firstn (Z.to_nat pos) buf ++ new
         ++ skipn (Z.to_nat pos + List.length new) buf.
Proof.
  unfold bytes_put.
  destruct (Z.leb_spec 0 pos); [|discriminate].
  destruct (Z.leb_spec (pos + Z.of_nat (List.length new)) (Z.of_nat (List.length buf)));
    [|discriminate].
  cbn [andb]. intros [= <-]. repeat split; lia.
Qed.

(** What a buffer holds after [bytes_put]. *)
Lemma bytes_put_spec buf pos new buf' :
  bytes_put buf pos new = Done buf' ->
  List.length buf' = List.length buf /\
  bytes_at buf' pos (Z.of_nat (List.length new)) = Done new /\
  (forall i, 0 <= i -> i < pos \/ pos + Z.of_nat (List.length new) <= i ->
             byte_at buf' i = byte_at buf i) /\
  (forall i, pos <= i < pos + Z.of_nat (List.length new) ->
             byte_at buf' i = nth (Z.to_nat (i - pos)) new 0).
Proof.
  intros Hput. apply bytes_put_inv in Hput as (Hp & Hl & ->).
  assert (Hn : (Z.to_nat pos + List.length new <= List.length buf)%nat) by lia.
  pose proof (splice_length buf new _ Hn) as Hlen.
  split; [exact Hlen|]. split; [|split].
  - rewrite bytes_at_done by lia. rewrite Nat2Z.id. f_equal. now apply splice_read.
  - intros i Hi Hout. unfold byte_at. apply splice_nth_out; lia.
  - intros i Hi. unfold byte_at. rewrite splice_nth_in by lia. f_equal. lia.
Qed.

(** ** Big-endian numbers *)

Lemma fold_left_be bytes acc :
  fold_left (fun acc b => acc * 256 + b) bytes acc
  = acc * 256 ^ Z.of_nat (List.length bytes) + be_value bytes.
Proof.
  unfold be_value. revert acc.
  induction bytes as [|b bytes IH]; intros acc; cbn [fold_left List.length].
  - cbn. lia.
  - rewrite IH, (IH (0 * 256 + b)), Nat2Z.inj_succ, Z.pow_succ_r by lia. lia.
Qed.

Lemma be_value_cons b bytes :
  be_value (b :: bytes) = b * 256 ^ Z.of_nat (List.length bytes) + be_value bytes.
Proof. unfold be_value at 1. cbn [fold_left]. rewrite fold_left_be. lia. Qed.

Lemma be_value_range bytes :
  is_bytes bytes -> 0 <= be_value bytes < 256 ^ Z.of_nat (List.length bytes).
Proof.
  induction 1 as [|b bytes Hb _ IH]; [cbn; lia|].
  rewrite be_value_cons. cbn [List.length]. rewrite Nat2Z.inj_succ, Z.pow_succ_r by lia.
  nia.
Qed.

Lemma length_be_bytes n v : List.length (be_bytes n v) = n.
Proof. induction n as [|n IH]; cbn [be_bytes List.length]; congruence. Qed.

Lemma is_bytes_be_bytes n v : is_bytes (be_bytes n v).
Proof.
  induction n as [|n IH]; cbn [be_bytes]; constructor; [|exact IH].
  apply Z.mod_pos_bound. lia.
Qed.

Lemma be_value_be_bytes n v : be_value (be_bytes n v) = v mod 256 ^ Z.of_nat n.
Proof.
  induction n as [|n IH].
  - cbn. now rewrite Z.mod_1_r.
  - cbn [be_bytes]. rewrite be_value_cons, length_be_bytes, IH.
    rewrite Nat2Z.inj_succ, Z.pow_succ_r by lia.
    pose proof (pow2_pos 0 ltac:(lia)).
    assert (Hpos : 0 < 256 ^ Z.of_nat n) by (apply Z.pow_pos_nonneg; lia).
    rewrite (Z.mul_comm 256), Z.rem_mul_r by lia. lia.
Qed.

Lemma be_bytes_add k n b v :
  (k <= n)%nat -> be_bytes k (b * 256 ^ Z.of_nat n + v) = be_bytes k v.
Proof.
  induction k as [|k IHk]; intros Hk; [reflexivity|]. cbn [be_bytes].
  rewrite IHk by lia. f_equal.
  assert (Hsplit : 256 ^ Z.of_nat n = 256 ^ Z.of_nat k * 256 ^ Z.of_nat (n - k)).
  { rewrite <- Z.pow_add_r by lia. f_equal. lia. }
  assert (Hk0 : 0 < 256 ^ Z.of_nat k) by (apply Z.pow_pos_nonneg; lia).
  assert (Hmul : 256 ^ Z.of_nat (n - k) = 256 * 256 ^ Z.of_nat (n - k - 1)).
  { rewrite <- Z.pow_succ_r by lia. f_equal. lia. }
  rewrite Hsplit.
  replace (b * (256 ^ Z.of_nat k * 256 ^ Z.of_nat (n - k)) + v)
    with (v + (b * 256 ^ Z.of_nat (n - k)) * 256 ^ Z.of_nat k) by lia.
  rewrite Z.div_add by lia. rewrite Hmul.
  replace (v / 256 ^ Z.of_nat k + b * (256 * 256 ^ Z.of_nat (n - k - 1)))
    with (v / 256 ^ Z.of_nat k + (b * 256 ^ Z.of_nat (n - k - 1)) * 256) by lia.
  now rewrite Z.mod_add by lia.
Qed.

Lemma be_bytes_be_value bytes :
  is_bytes bytes -> be_bytes (List.length bytes) (be_value bytes) = bytes.
Proof.
  induction 1 as [|b bytes Hb Hbytes IH]; [reflexivity|].
  cbn [List.length be_bytes]. rewrite be_value_cons.
  pose proof (be_value_range bytes Hbytes) as Hr.
  assert (Hpos : 0 < 256 ^ Z.of_nat (List.length bytes)) by (apply Z.pow_pos_nonneg; lia).
  f_equal.
  - rewrite Z.div_add_l by lia. rewrite (Z.div_small (be_value bytes)) by lia.
    rewrite Z.add_0_r. now apply Z.mod_small.
  - rewrite be_bytes_add by lia. exact IH.
Qed.


(** ** Words in a buffer *)

Lemma width_pos t : 0 < width t.
Proof. now destruct t. Qed.

Lemma sizeof_pos t : 0 < sizeof t.
Proof. now destruct t. Qed.

Lemma pow_sizeof t : 256 ^ Z.of_nat (Z.to_nat (sizeof t)) = 2 ^ width t.
Proof. now destruct t. Qed.

Lemma cast_range t x : 0 <= cast t x < 2 ^ width t.
Proof. apply wrap_range. pose proof (width_pos t). lia. Qed.

Lemma cast_small t x : 0 <= x < 2 ^ width t -> cast t x = x.
Proof. apply wrap_small. Qed.

Lemma testbit_cast t x i : Z.testbit (cast t x) i = (i <? width t) && Z.testbit x i.
Proof. apply testbit_wrap. pose proof (width_pos t). lia. Qed.

Lemma is_bytes_firstn n buf : is_bytes buf -> is_bytes (firstn n buf).
Proof.
  unfold is_bytes. intros H. rewrite <- (firstn_skipn n buf) in H.
  now apply Forall_app in H.
Qed.

Lemma is_bytes_skipn n buf : is_bytes buf -> is_bytes (skipn n buf).
Proof.
  unfold is_bytes. intros H. rewrite <- (firstn_skipn n buf) in H.
  now apply Forall_app in H.
Qed.

Lemma is_bytes_bytes_at buf pos count bytes :
  is_bytes buf -> bytes_at buf pos count = Done bytes -> is_bytes bytes.
Proof.
  intros Hbuf Hat. apply bytes_at_inv in Hat as (_ & _ & _ & -> & _).
  now apply is_bytes_firstn, is_bytes_skipn.
Qed.

Lemma is_bytes_bytes_put buf pos new buf' :
  is_bytes buf -> is_bytes new -> bytes_put buf pos new = Done buf' -> is_bytes buf'.
Proof.
  intros Hbuf Hnew Hput. apply bytes_put_inv in Hput as (_ & _ & ->).
  apply Forall_app. split; [now apply is_bytes_firstn|].
  apply Forall_app. split; [exact Hnew | now apply is_bytes_skipn].
Qed.

(** [bytes_at] reads the bytes of its range and nothing else. *)
Lemma bytes_at_ext buf buf' pos count :
  List.length buf' = List.length buf ->
  (forall i, pos <= i < pos + count -> byte_at buf' i = byte_at buf i) ->
  bytes_at buf' pos count = bytes_at buf pos count.
Proof.
  intros Hlen Hsame. unfold bytes_at. rewrite Hlen.
  destruct (Z.leb_spec 0 pos); [|reflexivity].
  destruct (Z.leb_spec 0 count); [|reflexivity].
  destruct (Z.leb_spec (pos + count) (Z.of_nat (List.length buf))); [|reflexivity].
  cbn [andb]. f_equal. apply (nth_ext _ _ 0 0).
  - rewrite !length_firstn, !length_skipn. lia.
  - intros n Hn. rewrite length_firstn, length_skipn in Hn.
    rewrite !nth_firstn. destruct (Nat.ltb_spec n (Z.to_nat count)); [|reflexivity].
    rewrite !nth_skipn.
    specialize (Hsame (pos + Z.of_nat n) ltac:(lia)). unfold byte_at in Hsame.
    replace (Z.to_nat (pos + Z.of_nat n)) with (Z.to_nat pos + n)%nat in Hsame by lia.
    exact Hsame.
Qed.

Lemma load_done t buf off bytes :
  bytes_at buf (sizeof t * off) (sizeof t) = Done bytes ->
  load t buf off = Done (be_value bytes).
Proof. intros H. unfold load. now rewrite H. Qed.

Lemma load_inv t buf off v :
  load t buf off = Done v ->
  exists bytes,
    bytes_at buf (sizeof t * off) (sizeof t) = Done bytes /\ v = be_value bytes.
Proof.
  unfold load. destruct (bytes_at buf (sizeof t * off) (sizeof t)) as [bytes| |];
    try discriminate.
  cbn [bind]. intros [= <-]. now exists bytes.
Qed.

Lemma load_range t buf off v :
  is_bytes buf -> load t buf off = Done v -> 0 <= v < 2 ^ width t.
Proof.
  intros Hbuf Hload. apply load_inv in Hload as (bytes & Hat & ->).
  pose proof (is_bytes_bytes_at _ _ _ _ Hbuf Hat) as Hbytes.
  apply bytes_at_inv in Hat as (_ & _ & _ & _ & Hlen).
  pose proof (be_value_range bytes Hbytes) as Hr. rewrite Hlen, pow_sizeof in Hr.
  exact Hr.
Qed.

(** A word of the buffer can be loaded exactly when it can be stored. *)
Lemma load_in_bounds t buf off :
  0 <= off -> sizeof t * off + sizeof t <= Z.of_nat (List.length buf) ->
  exists bytes, bytes_at buf (sizeof t * off) (sizeof t) = Done bytes.
Proof.
  intros Hoff Hlen. pose proof (sizeof_pos t). eexists. apply bytes_at_done; nia.
Qed.

Lemma store_spec t buf off v buf' :
  store t buf off v = Done buf' ->
  List.length buf' = List.length buf /\
  load t buf' off = Done (cast t v) /\
  (forall i, 0 <= i -> i < sizeof t * off \/ sizeof t * off + sizeof t <= i ->
             byte_at buf' i = byte_at buf i) /\
  (is_bytes buf -> is_bytes buf').
Proof.
  intros Hstore. unfold store in Hstore.
  pose proof (sizeof_pos t) as Hsz.
  destruct (bytes_put_spec _ _ _ _ Hstore) as (Hlen & Hread & Hout & _).
  rewrite length_be_bytes, Z2Nat.id in Hread, Hout by lia.
  split; [exact Hlen|]. split; [|split].
  - rewrite (load_done _ _ _ _ Hread), be_value_be_bytes, pow_sizeof. reflexivity.
  - exact Hout.
  - intros Hbuf. exact (is_bytes_bytes_put _ _ _ _ Hbuf (is_bytes_be_bytes _ _) Hstore).
Qed.

Lemma store_done t buf off v :
  0 <= off -> sizeof t * off + sizeof t <= Z.of_nat (List.length buf) ->
  exists buf', store t buf off v = Done buf'.
Proof.
  intros Hoff Hlen. pose proof (sizeof_pos t). unfold store. eexists.
  apply bytes_put_done; [nia|]. rewrite length_be_bytes. lia.
Qed.

Lemma store_load_other t buf off v buf' off' :
  store t buf off v = Done buf' -> 0 <= off -> 0 <= off' -> off' <> off ->
  load t buf' off' = load t buf off'.
Proof.
  intros Hstore Hoff Hoff' Hne. pose proof (sizeof_pos t) as Hsz.
  destruct (store_spec _ _ _ _ _ Hstore) as (Hlen & _ & Hout & _).
  unfold load. rewrite (bytes_at_ext buf buf'); [reflexivity | exact Hlen|].
  intros i Hi. apply Hout; nia.
Qed.

Lemma store_loaded t buf off v :
  is_bytes buf -> load t buf off = Done v -> store t buf off v = Done buf.
Proof.
  intros Hbuf Hload. apply load_inv in Hload as (bytes & Hat & ->).
  pose proof (is_bytes_bytes_at _ _ _ _ Hbuf Hat) as Hbytes.
  apply bytes_at_inv in Hat as (Hp & Hc & Hl & Heq & Hlen).
  unfold store. rewrite <- Hlen, (be_bytes_be_value _ Hbytes).
  rewrite bytes_put_done by lia. f_equal. rewrite Heq.
  apply splice_same. lia.
Qed.


(** ** Bit fields *)

Lemma testbit_field s b word i :
  0 <= s -> 0 <= b -> 0 <= i ->
  Z.testbit (field s b word) i = (i <? b) && Z.testbit word (i + s).
Proof.
  intros Hs Hb Hi. unfold field. rewrite Z.testbit_mod_pow2 by lia.
  now rewrite Z.shiftr_spec by lia.
Qed.

Lemma field_range s b word : 0 <= b -> 0 <= field s b word < 2 ^ b.
Proof. intros Hb. unfold field. apply Z.mod_pos_bound. now apply pow2_pos. Qed.

Ltac word_rewrite := repeat (progress (rewrite ?testbit_cast; bit_rewrite)).

Section Fields.

Variable BITS_PER_LONG : Z.
Hypothesis long : BITS_PER_LONG = 32 \/ BITS_PER_LONG = 64.

Lemma width_mask_width t : width t <= mask_width BITS_PER_LONG t.
Proof. destruct t; cbn; unfold BITS_PER_LONG_LONG; lia. Qed.

Lemma width_promoted t : width t <= promoted t.
Proof. destruct t; cbn; lia. Qed.

Lemma mask_of_ones t b :
  0 < b <= width t -> mask_of BITS_PER_LONG t (b - 1) 0 = Done (Z.ones b).
Proof.
  intros Hb. pose proof (width_mask_width t). unfold mask_of.
  rewrite gen_mask_done by lia. f_equal.
  rewrite Z.ones_equiv. replace (b - 1 + 1) with b by lia. cbn. lia.
Qed.

Lemma shl_assign_done t val n :
  0 <= val < 2 ^ width t -> 0 <= n < width t ->
  shl_assign t val n = Done (cast t (Z.shiftl val n)).
Proof.
  intros Hval Hn.
  assert (Hint : width t <= 16 -> shl_int val n = Done (Z.shiftl val n)).
  { intros Hw. unfold shl_int.
    destruct (Z.leb_spec 0 n); [|lia]. destruct (Z.ltb_spec n 32); [|lia].
    destruct (Z.ltb_spec (Z.shiftl val n) (2 ^ 31)); [reflexivity|].
    rewrite Z.shiftl_mul_pow2 in * by lia.
    assert (2 ^ width t <= 2 ^ 16) by (apply pow2_le; lia).
    assert (2 ^ n <= 2 ^ 15) by (apply pow2_le; lia).
    pose proof (pow2_pos n ltac:(lia)).
    change (2 ^ 31) with (2 ^ 16 * 2 ^ 15) in *. nia. }
  destruct t; cbn [shl_assign].
  - rewrite Hint by (cbn; lia). reflexivity.
  - rewrite Hint by (cbn; lia). reflexivity.
  - rewrite shl_done by (cbn in *; lia). cbn [bind]. f_equal.
    unfold cast. now rewrite wrap_wrap.
  - rewrite shl_done by (cbn in *; lia). cbn [bind]. f_equal.
    unfold cast. now rewrite wrap_wrap.
Qed.

Lemma shr_assign_done t tmp n :
  0 <= n < width t -> shr_assign t tmp n = Done (cast t (Z.shiftr tmp n)).
Proof.
  intros Hn. pose proof (width_promoted t). unfold shr_assign.
  now rewrite shr_done by lia.
Qed.

(** The mask of a field after the shift and the conversion to [t]. *)
Lemma field_mask t s b :
  0 <= s -> 0 < b -> s + b <= width t ->
  shl (mask_width BITS_PER_LONG t) (Z.ones b) s
  = Done (Z.shiftl (Z.ones b) s) /\
  cast t (Z.shiftl (Z.ones b) s) = Z.shiftl (Z.ones b) s.
Proof.
  intros Hs Hb Hfit. pose proof (width_mask_width t) as Hw.
  assert (Hr : forall w, width t <= w -> wrap w (Z.shiftl (Z.ones b) s)
                                          = Z.shiftl (Z.ones b) s).
  { intros w Hle. pose proof (width_pos t).
    apply Z.bits_inj'. intros i Hi. bit_rewrite. bit_cases. }
  rewrite shl_done by lia. split; [f_equal; now apply Hr|].
  unfold cast. apply Hr. lia.
Qed.

(** The word [__mlxsw_item_set] stores, by its bits, and the number
    [__mlxsw_item_get] returns. *)
Lemma testbit_inserted t s b tmp val i :
  0 <= s -> 0 < b -> s + b <= width t -> 0 <= i ->
  Z.testbit
    (cast t (Z.lor (cast t (Z.land tmp (Z.lnot (Z.shiftl (Z.ones b) s))))
                   (cast t (Z.land (cast t (Z.shiftl val s)) (Z.shiftl (Z.ones b) s)))))
    i
  = if (s <=? i) && (i <? s + b) then Z.testbit val (i - s)
    else (i <? width t) && Z.testbit tmp i.
Proof.
  intros Hs Hb Hfit Hi. word_rewrite. bit_cases.
  all: destruct (Z.testbit tmp i), (Z.testbit val (i - s)); reflexivity.
Qed.

Lemma extracted t s b tmp :
  0 <= s -> 0 < b -> s + b <= width t ->
  cast t (Z.land (cast t (Z.shiftr tmp s)) (Z.ones b)) = field s b tmp.
Proof.
  intros Hs Hb Hfit. apply Z.bits_inj'. intros i Hi.
  rewrite testbit_field by lia. word_rewrite. bit_cases.
  all: destruct (Z.testbit tmp (i + s)); reflexivity.
Qed.

(** [__mlxsw_item_get] and [__mlxsw_item_set] on a field that fits, once
    the offset is known. *)
Lemma item_get_eq t buf item outer_index index b off :
  fits t item b ->
  __mlxsw_item_offset BITS_PER_LONG item outer_index index (sizeof t) = Done off ->
  __mlxsw_item_get BITS_PER_LONG t buf item outer_index index
  = (tmp <- load t buf off ;; Done (field (shift item) b tmp)).
Proof.
  intros (Hsize & Hb & Hs & Hfit) Hoff. unfold __mlxsw_item_get.
  rewrite Hoff. cbn [bind]. destruct (load t buf off) as [tmp| |]; try reflexivity.
  cbn [bind]. rewrite shr_assign_done by lia. cbn [bind].
  unfold size_bits. rewrite Hsize. cbn [bind].
  rewrite mask_of_ones by lia. cbn [bind]. f_equal. now apply extracted.
Qed.

Lemma item_set_eq t buf item outer_index index val b off :
  fits t item b -> 0 <= val < 2 ^ width t ->
  __mlxsw_item_offset BITS_PER_LONG item outer_index index (sizeof t) = Done off ->
  __mlxsw_item_set BITS_PER_LONG t buf item outer_index index val
  = (tmp <- load t buf off ;;
     store t buf off
       (cast t (Z.lor (cast t (Z.land tmp (Z.lnot (Z.shiftl (Z.ones b) (shift item)))))
                      (cast t (Z.land (cast t (Z.shiftl val (shift item)))
                                      (Z.shiftl (Z.ones b) (shift item))))))).
Proof.
  intros (Hsize & Hb & Hs & Hfit) Hval Hoff. unfold __mlxsw_item_set.
  rewrite Hoff. cbn [bind]. unfold size_bits. rewrite Hsize. cbn [bind].
  rewrite mask_of_ones by lia. cbn [bind].
  destruct (field_mask t (shift item) b Hs Hb Hfit) as [Hshl Hcast].
  rewrite Hshl. cbn [bind]. cbv zeta. rewrite Hcast.
  rewrite shl_assign_done by lia. cbn [bind]. reflexivity.
Qed.

(** [__mlxsw_item_offset] answers a number that is not negative. *)
Lemma item_offset_nonneg item outer_index index typesize off :
  __mlxsw_item_offset BITS_PER_LONG item outer_index index typesize = Done off ->
  0 <= off < 2 ^ 32.
Proof.
  unfold __mlxsw_item_offset.
  destruct (negb (index =? 0) && (step item =? 0)); [discriminate|].
  destruct (_ || _); [discriminate|]. intros [= <-]. now apply wrap_range.
Qed.

End Fields.

(** ** The offset of an item *)

Section Offsets.

Variable BITS_PER_LONG : Z.
Hypothesis long : BITS_PER_LONG = 32 \/ BITS_PER_LONG = 64.

Lemma item_offset_done item outer_index index typesize :
  in_range item -> 0 <= outer_index < 2 ^ 16 -> 0 <= index < 2 ^ 16 ->
  0 < typesize ->
  (index = 0 \/ step item <> 0) ->
  (typesize | offset item) -> (typesize | step item) ->
  (typesize | in_step_offset item) ->
  offset item + outer_index * typesize + step item * index + in_step_offset item
    < 2 ^ 32 ->
  exists off,
    __mlxsw_item_offset BITS_PER_LONG item outer_index index typesize = Done off /\
    0 <= off /\
    typesize * off
    = offset item + outer_index * typesize + step item * index + in_step_offset item.
Proof.
  intros (Ho & Hs & Hi & _) Hoi Hidx Hts Hstep Hdo Hds Hdi Hsum.
  unfold __mlxsw_item_offset.
  assert (Hguard : negb (index =? 0) && (step item =? 0) = false).
  { destruct Hstep as [-> | Hne]; [reflexivity|].
    apply Z.eqb_neq in Hne. rewrite Hne. apply andb_false_r. }
  rewrite Hguard.
  rewrite (Z.mod0_divide _ _ Hdo), (Z.mod0_divide _ _ Hds), (Z.mod0_divide _ _ Hdi).
  cbn [Z.eqb negb orb].
  set (sum := offset item + outer_index * typesize + step item * index
              + in_step_offset item) in *.
  assert (Hprod : 0 <= step item * index < 2 ^ 32) by nia.
  rewrite (wrap_small 32 (step item * index)) by exact Hprod. fold sum.
  assert (Hnonneg : 0 <= sum) by (unfold sum; nia).
  assert (Hlong : 2 ^ 32 <= 2 ^ BITS_PER_LONG) by (destruct long as [-> | ->]; cbn; lia).
  rewrite (wrap_small BITS_PER_LONG sum) by lia.
  assert (Hdiv : (typesize | sum)).
  { unfold sum. repeat apply Z.divide_add_r; try assumption.
    - apply Z.divide_factor_r.
    - now apply Z.divide_mul_l. }
  destruct Hdiv as [q Hq].
  assert (Hquot : sum / typesize = q) by (rewrite Hq; apply Z.div_mul; lia).
  rewrite Hquot. exists q.
  assert (Hq0 : 0 <= q) by nia.
  assert (Hq1 : q < 2 ^ 32) by nia.
  rewrite wrap_small by lia. split; [reflexivity|]. split; [exact Hq0 | lia].
Qed.

Lemma item_offset_bug_iff item outer_index index typesize :
  0 < typesize ->
  __mlxsw_item_offset BITS_PER_LONG item outer_index index typesize = Bug <->
  (index <> 0 /\ step item = 0) \/
  ~ (typesize | offset item) \/ ~ (typesize | step item) \/
  ~ (typesize | in_step_offset item).
Proof.
  intros Hts. rewrite <- !(Z.mod_divide _ typesize) by lia.
  unfold __mlxsw_item_offset.
  destruct (Z.eqb_spec index 0), (Z.eqb_spec (step item) 0),
    (Z.eqb_spec (offset item mod typesize) 0),
    (Z.eqb_spec (step item mod typesize) 0),
    (Z.eqb_spec (in_step_offset item mod typesize) 0);
    cbn [negb andb orb];
    (split; [intros Hbug; try discriminate; tauto
            | intros Hwhy; try reflexivity; exfalso; tauto]).
Qed.

Lemma item_offset_inv item outer_index index typesize off :
  in_range item -> 0 <= outer_index < 2 ^ 16 -> 0 <= index < 2 ^ 16 ->
  0 < typesize ->
  offset item + outer_index * typesize + step item * index + in_step_offset item
    < 2 ^ 32 ->
  __mlxsw_item_offset BITS_PER_LONG item outer_index index typesize = Done off ->
  0 <= off /\
  typesize * off
  = offset item + outer_index * typesize + step item * index + in_step_offset item /\
  (index = 0 \/ step item <> 0).
Proof.
  intros Hrange Hoi Hidx Hts Hsum Hoff.
  assert (Hne : __mlxsw_item_offset BITS_PER_LONG item outer_index index typesize <> Bug)
    by (rewrite Hoff; discriminate).
  rewrite item_offset_bug_iff in Hne by exact Hts.
  rewrite <- !(Z.mod_divide _ typesize) in Hne by lia.
  assert (Hstep : index = 0 \/ step item <> 0).
  { destruct (Z.eq_dec index 0); [now left | right].
    intros Hs0. apply Hne. left. now split. }
  destruct (item_offset_done item outer_index index typesize) as (off' & Hoff' & H0 & Hpos);
    try assumption.
  - apply Z.mod_divide; [lia|].
    destruct (Z.eq_dec (offset item mod typesize) 0); [assumption | tauto].
  - apply Z.mod_divide; [lia|].
    destruct (Z.eq_dec (step item mod typesize) 0); [assumption | tauto].
  - apply Z.mod_divide; [lia|].
    destruct (Z.eq_dec (in_step_offset item mod typesize) 0); [assumption | tauto].
  - rewrite Hoff in Hoff'. injection Hoff' as <-. now repeat split.
Qed.

Lemma item_offset_outcome item outer_index index typesize :
  __mlxsw_item_offset BITS_PER_LONG item outer_index index typesize = Bug \/
  exists off, __mlxsw_item_offset BITS_PER_LONG item outer_index index typesize = Done off.
Proof.
  unfold __mlxsw_item_offset.
  destruct (negb (index =? 0) && (step item =? 0)); [now left|].
  destruct (_ || _); [now left | right]. now eexists.
Qed.

(** X12.  [__mlxsw_item_offset] stops in [BUG()] exactly when the index is
    not 0 although the item has no step, or the offset, the step or the
    offset in the step of the item is not a multiple of the size of the
    type.  Otherwise, while the position stays below 2^32, its answer
    counted in bytes is the offset of the item plus [outer_index] times the
    size of the type plus [index] times the step plus the offset in the
    step. *)
Theorem item_offset_cases item outer_index index typesize :
  in_range item -> 0 <= outer_index < 2 ^ 16 -> 0 <= index < 2 ^ 16 ->
  0 < typesize ->
  offset item + outer_index * typesize + step item * index + in_step_offset item
    < 2 ^ 32 ->
  (__mlxsw_item_offset BITS_PER_LONG item outer_index index typesize = Bug <->
   (index <> 0 /\ step item = 0) \/
   ~ (typesize | offset item) \/ ~ (typesize | step item) \/
   ~ (typesize | in_step_offset item)) /\
  (__mlxsw_item_offset BITS_PER_LONG item outer_index index typesize <> Bug ->
   exists off,
     __mlxsw_item_offset BITS_PER_LONG item outer_index index typesize = Done off /\
     0 <= off /\
     typesize * off
     = offset item + outer_index * typesize + step item * index
       + in_step_offset item).
Proof.
  intros Hrange Hoi Hidx Hts Hsum.
  split; [now apply item_offset_bug_iff|].
  intros Hne.
  destruct (item_offset_outcome item outer_index index typesize) as [Hbug | (off & Hoff)];
    [contradiction|].
  exists off. split; [exact Hoff|].
  destruct (item_offset_inv _ _ _ _ _ Hrange Hoi Hidx Hts Hsum Hoff) as (H0 & Hpos & _).
  now split.
Qed.

End Offsets.

(** ** Round trips and frames of the field accessors *)

Lemma field_inserted t s b tmp val :
  0 <= s -> 0 < b -> s + b <= width t ->
  field s b
    (cast t (Z.lor (cast t (Z.land tmp (Z.lnot (Z.shiftl (Z.ones b) s))))
                   (cast t (Z.land (cast t (Z.shiftl val s)) (Z.shiftl (Z.ones b) s)))))
  = val mod 2 ^ b.
Proof.
  intros Hs Hb Hfit. apply Z.bits_inj'. intros i Hi.
  rewrite testbit_field by lia. rewrite testbit_inserted by lia.
  rewrite Z.testbit_mod_pow2 by lia.
  replace (i + s - s) with i by lia. bit_cases.
Qed.

Lemma field_inserted_apart t s b s' b' tmp val :
  0 <= s -> 0 < b -> s + b <= width t ->
  0 <= s' -> 0 < b' -> s' + b' <= width t ->
  apart s b s' b' ->
  field s' b'
    (cast t (Z.lor (cast t (Z.land tmp (Z.lnot (Z.shiftl (Z.ones b) s))))
                   (cast t (Z.land (cast t (Z.shiftl val s)) (Z.shiftl (Z.ones b) s)))))
  = field s' b' tmp.
Proof.
  intros Hs Hb Hfit Hs' Hb' Hfit' Hapart. apply Z.bits_inj'. intros i Hi.
  rewrite !testbit_field by lia. rewrite testbit_inserted by lia.
  unfold apart in Hapart. bit_cases.
Qed.

Lemma inserted_field t s b tmp :
  0 <= s -> 0 < b -> s + b <= width t -> 0 <= tmp < 2 ^ width t ->
  cast t (Z.lor (cast t (Z.land tmp (Z.lnot (Z.shiftl (Z.ones b) s))))
                (cast t (Z.land (cast t (Z.shiftl (field s b tmp) s))
                                (Z.shiftl (Z.ones b) s))))
  = tmp.
Proof.
  intros Hs Hb Hfit Htmp. apply Z.bits_inj'. intros i Hi.
  rewrite testbit_inserted by lia.
  assert (Hbit : (i <? width t) && Z.testbit tmp i = Z.testbit tmp i)
    by (now rewrite <- testbit_cast, cast_small).
  destruct (Z.leb_spec s i), (Z.ltb_spec i (s + b)); cbn [andb]; try exact Hbit.
  rewrite testbit_field by lia. replace (i - s + s) with i by lia.
  destruct (Z.ltb_spec (i - s) b); [reflexivity | lia].
Qed.

Section FieldClaims.

Variable BITS_PER_LONG : Z.
Hypothesis long : BITS_PER_LONG = 32 \/ BITS_PER_LONG = 64.

(** [__mlxsw_item_set] on a field that fits, in a buffer that holds its
    word. *)
Lemma item_set_done t buf item outer_index index val b off :
  fits t item b -> 0 <= val < 2 ^ width t ->
  __mlxsw_item_offset BITS_PER_LONG item outer_index index (sizeof t) = Done off ->
  sizeof t * off + sizeof t <= Z.of_nat (List.length buf) ->
  exists tmp buf',
    load t buf off = Done tmp /\
    __mlxsw_item_set BITS_PER_LONG t buf item outer_index index val = Done buf' /\
    store t buf off
      (cast t (Z.lor (cast t (Z.land tmp (Z.lnot (Z.shiftl (Z.ones b) (shift item)))))
                     (cast t (Z.land (cast t (Z.shiftl val (shift item)))
                                     (Z.shiftl (Z.ones b) (shift item))))))
    = Done buf'.
Proof.
  intros Hfits Hval Hoff Hlen.
  destruct (item_offset_nonneg _ _ _ _ _ _ Hoff) as [Hoff0 _].
  destruct (load_in_bounds t buf off Hoff0 Hlen) as (bytes & Hat).
  pose proof (load_done _ _ _ _ Hat) as Hload.
  rewrite (item_set_eq BITS_PER_LONG long t buf item outer_index index val b off
             Hfits Hval Hoff).
  rewrite Hload. cbn [bind].
  destruct (store_done t buf off
              (cast t (Z.lor (cast t (Z.land (be_value bytes)
                                        (Z.lnot (Z.shiftl (Z.ones b) (shift item)))))
                             (cast t (Z.land (cast t (Z.shiftl val (shift item)))
                                        (Z.shiftl (Z.ones b) (shift item))))))
              Hoff0 Hlen) as (buf' & Hstore).
  exists (be_value bytes), buf'. now rewrite Hstore.
Qed.

Lemma item_set_inv t buf item outer_index index val b off buf' :
  fits t item b -> 0 <= val < 2 ^ width t ->
  __mlxsw_item_offset BITS_PER_LONG item outer_index index (sizeof t) = Done off ->
  __mlxsw_item_set BITS_PER_LONG t buf item outer_index index val = Done buf' ->
  exists tmp,
    load t buf off = Done tmp /\
    store t buf off
      (cast t (Z.lor (cast t (Z.land tmp (Z.lnot (Z.shiftl (Z.ones b) (shift item)))))
                     (cast t (Z.land (cast t (Z.shiftl val (shift item)))
                                     (Z.shiftl (Z.ones b) (shift item))))))
    = Done buf'.
Proof.
  intros Hfits Hval Hoff Hset.
  rewrite (item_set_eq BITS_PER_LONG long t buf item outer_index index val b off
             Hfits Hval Hoff) in Hset.
  destruct (load t buf off) as [tmp| |]; try discriminate.
  cbn [bind] in Hset. now exists tmp.
Qed.

(** What [__mlxsw_item_get] reads after [__mlxsw_item_set], for an item
    whose word is another or whose bits are apart from those written. *)
Lemma item_set_then_get_other t buf item outer_index index val b off buf'
    item' outer_index' index' b' off' :
  fits t item b -> 0 <= val < 2 ^ width t ->
  __mlxsw_item_offset BITS_PER_LONG item outer_index index (sizeof t) = Done off ->
  __mlxsw_item_set BITS_PER_LONG t buf item outer_index index val = Done buf' ->
  fits t item' b' ->
  __mlxsw_item_offset BITS_PER_LONG item' outer_index' index' (sizeof t) = Done off' ->
  off' <> off \/ apart (shift item) b (shift item') b' ->
  __mlxsw_item_get BITS_PER_LONG t buf' item' outer_index' index'
  = __mlxsw_item_get BITS_PER_LONG t buf item' outer_index' index'.
Proof.
  intros Hfits Hval Hoff Hset Hfits' Hoff' Hother.
  destruct (item_set_inv _ _ _ _ _ _ _ _ _ Hfits Hval Hoff Hset) as (tmp & Hload & Hstore).
  destruct (item_offset_nonneg _ _ _ _ _ _ Hoff) as [Hoff0 _].
  destruct (item_offset_nonneg _ _ _ _ _ _ Hoff') as [Hoff0' _].
  rewrite !(item_get_eq BITS_PER_LONG long t _ item' outer_index' index' b' off'
              Hfits' Hoff').
  destruct (Z.eq_dec off' off) as [-> | Hne].
  - destruct Hother as [Hne | Hapart]; [contradiction|].
    destruct (store_spec _ _ _ _ _ Hstore) as (_ & Hload' & _).
    rewrite Hload', Hload. cbn [bind]. f_equal.
    destruct Hfits as (_ & Hb & Hs & Hfit). destruct Hfits' as (_ & Hb' & Hs' & Hfit').
    rewrite cast_small by apply cast_range. now apply field_inserted_apart.
  - now rewrite (store_load_other _ _ _ _ _ _ Hstore Hoff0 Hoff0' Hne).
Qed.

(** X13.  Setting a field and getting it back: on a field of [b] bits
    that fits the word of its type, in a buffer that holds the word,
    [__mlxsw_item_set] returns, and [__mlxsw_item_get] on the buffer it
    leaves answers the value written, reduced to [b] bits. *)
Theorem item_set_get t buf item outer_index index val b off :
  fits t item b -> 0 <= val < 2 ^ width t ->
  __mlxsw_item_offset BITS_PER_LONG item outer_index index (sizeof t) = Done off ->
  sizeof t * off + sizeof t <= Z.of_nat (List.length buf) ->
  exists buf',
    __mlxsw_item_set BITS_PER_LONG t buf item outer_index index val = Done buf' /\
    __mlxsw_item_get BITS_PER_LONG t buf' item outer_index index = Done (val mod 2 ^ b).
Proof.
  intros Hfits Hval Hoff Hlen.
  destruct (item_set_done _ _ _ _ _ _ _ _ Hfits Hval Hoff Hlen)
    as (tmp & buf' & Hload & Hset & Hstore).
  exists buf'. split; [exact Hset|].
  rewrite (item_get_eq BITS_PER_LONG long t buf' item outer_index index b off Hfits Hoff).
  destruct (store_spec _ _ _ _ _ Hstore) as (_ & Hload' & _).
  rewrite Hload'. cbn [bind]. f_equal.
  destruct Hfits as (_ & Hb & Hs & Hfit).
  rewrite cast_small by apply cast_range. now apply field_inserted.
Qed.

(** X14.  [__mlxsw_item_set] leaves every other field as it was: for an
    item of the same type whose word is another, or whose bits in the same
    word are apart from the bits written, [__mlxsw_item_get] answers after
    the call what it answered before. *)
Theorem item_set_keeps_other_fields t buf item outer_index index val b off buf'
    item' outer_index' index' b' off' :
  fits t item b -> 0 <= val < 2 ^ width t ->
  __mlxsw_item_offset BITS_PER_LONG item outer_index index (sizeof t) = Done off ->
  __mlxsw_item_set BITS_PER_LONG t buf item outer_index index val = Done buf' ->
  fits t item' b' ->
  __mlxsw_item_offset BITS_PER_LONG item' outer_index' index' (sizeof t) = Done off' ->
  off' <> off \/ apart (shift item) b (shift item') b' ->
  __mlxsw_item_get BITS_PER_LONG t buf' item' outer_index' index'
  = __mlxsw_item_get BITS_PER_LONG t buf item' outer_index' index'.
Proof. apply item_set_then_get_other. Qed.

(** X15.  [__mlxsw_item_set] writes the word of the item and nothing
    else: the buffer keeps its length, every byte outside the [sizeof t]
    bytes of the word is as it was, and a buffer of bytes stays one. *)
Theorem item_set_frame t buf item outer_index index val b off buf' :
  fits t item b -> 0 <= val < 2 ^ width t ->
  __mlxsw_item_offset BITS_PER_LONG item outer_index index (sizeof t) = Done off ->
  __mlxsw_item_set BITS_PER_LONG t buf item outer_index index val = Done buf' ->
  List.length buf' = List.length buf /\
  (forall i, 0 <= i -> i < sizeof t * off \/ sizeof t * off + sizeof t <= i ->
             byte_at buf' i = byte_at buf i) /\
  (is_bytes buf -> is_bytes buf').
Proof.
  intros Hfits Hval Hoff Hset.
  destruct (item_set_inv _ _ _ _ _ _ _ _ _ Hfits Hval Hoff Hset) as (tmp & _ & Hstore).
  destruct (store_spec _ _ _ _ _ Hstore) as (Hlen & _ & Hout & Hbytes).
  now repeat split.
Qed.

(** X16.  Writing back what was read changes nothing: in a buffer of
    bytes, [__mlxsw_item_set] with the value [__mlxsw_item_get] answered
    leaves the buffer as it was. *)
Theorem item_get_set t buf item outer_index index b off val :
  is_bytes buf -> fits t item b ->
  __mlxsw_item_offset BITS_PER_LONG item outer_index index (sizeof t) = Done off ->
  __mlxsw_item_get BITS_PER_LONG t buf item outer_index index = Done val ->
  __mlxsw_item_set BITS_PER_LONG t buf item outer_index index val = Done buf.
Proof.
  intros Hbuf Hfits Hoff Hget.
  rewrite (item_get_eq BITS_PER_LONG long t buf item outer_index index b off Hfits Hoff)
    in Hget.
  destruct (load t buf off) as [tmp| |] eqn:Hload; try discriminate.
  cbn [bind] in Hget. injection Hget as <-.
  pose proof (load_range _ _ _ _ Hbuf Hload) as Htmp.
  pose proof Hfits as (_ & Hb & Hs & Hfit).
  assert (Hval : 0 <= field (shift item) b tmp < 2 ^ width t).
  { pose proof (field_range (shift item) b tmp ltac:(lia)).
    assert (2 ^ b <= 2 ^ width t) by (apply pow2_le; lia). lia. }
  rewrite (item_set_eq BITS_PER_LONG long t buf item outer_index index _ b off
             Hfits Hval Hoff).
  rewrite Hload. cbn [bind]. rewrite inserted_field by lia.
  now apply store_loaded.
Qed.

(** X17.  What [__mlxsw_item_get] answers on a field of [b] bits that fits:
    with the word of the item read as one big-endian number, the bits
    [shift] to [shift + b - 1] of it, a number below [2^b]; and it reads
    outside the buffer exactly when the word is not inside it. *)
Theorem item_get_decodes t buf item outer_index index b off :
  fits t item b ->
  __mlxsw_item_offset BITS_PER_LONG item outer_index index (sizeof t) = Done off ->
  (sizeof t * off + sizeof t <= Z.of_nat (List.length buf) ->
   exists bytes,
     bytes_at buf (sizeof t * off) (sizeof t) = Done bytes /\
     __mlxsw_item_get BITS_PER_LONG t buf item outer_index index
     = Done (Z.shiftr (be_value bytes) (shift item) mod 2 ^ b) /\
     0 <= Z.shiftr (be_value bytes) (shift item) mod 2 ^ b < 2 ^ b) /\
  (Z.of_nat (List.length buf) < sizeof t * off + sizeof t ->
   __mlxsw_item_get BITS_PER_LONG t buf item outer_index index = Undefined).
Proof.
  intros Hfits Hoff.
  destruct (item_offset_nonneg _ _ _ _ _ _ Hoff) as [Hoff0 _].
  rewrite (item_get_eq BITS_PER_LONG long t buf item outer_index index b off Hfits Hoff).
  pose proof (sizeof_pos t) as Hsz. split.
  - intros Hlen. destruct (load_in_bounds t buf off Hoff0 Hlen) as (bytes & Hat).
    exists bytes. split; [exact Hat|]. rewrite (load_done _ _ _ _ Hat). cbn [bind].
    split; [reflexivity|]. destruct Hfits as (_ & Hb & _).
    apply (field_range (shift item) b). lia.
  - intros Hlen. unfold load, bytes_at.
    destruct (Z.leb_spec (sizeof t * off + sizeof t) (Z.of_nat (List.length buf)));
      [lia|].
    now rewrite andb_false_r.
Qed.

(** X18.  The elements of an indexed item do not meet: while the
    positions stay below 2^32, setting the element [index] leaves the
    element [index'] of the same item, for [index'] other than [index], as
    it was. *)
Theorem item_set_keeps_other_elements t buf item outer_index index index' val b buf' :
  in_range item -> fits t item b -> 0 <= val < 2 ^ width t ->
  0 <= outer_index < 2 ^ 16 -> 0 <= index < 2 ^ 16 -> 0 <= index' < 2 ^ 16 ->
  offset item + outer_index * sizeof t + step item * index + in_step_offset item
    < 2 ^ 32 ->
  offset item + outer_index * sizeof t + step item * index' + in_step_offset item
    < 2 ^ 32 ->
  index' <> index ->
  __mlxsw_item_set BITS_PER_LONG t buf item outer_index index val = Done buf' ->
  __mlxsw_item_get BITS_PER_LONG t buf' item outer_index index'
  = __mlxsw_item_get BITS_PER_LONG t buf item outer_index index'.
Proof.
  intros Hrange Hfits Hval Hoi Hi Hi' Hsum Hsum' Hne Hset.
  pose proof (sizeof_pos t) as Hsz.
  destruct (item_offset_outcome BITS_PER_LONG item outer_index index (sizeof t))
    as [Hbug | (off & Hoff)].
  { unfold __mlxsw_item_set in Hset. now rewrite Hbug in Hset. }
  destruct (item_offset_outcome BITS_PER_LONG item outer_index index' (sizeof t))
    as [Hbug' | (off' & Hoff')].
  { unfold __mlxsw_item_get. now rewrite Hbug'. }
  destruct (item_offset_inv BITS_PER_LONG long _ _ _ _ _ Hrange Hoi Hi Hsz Hsum Hoff)
    as (_ & Hpos & Hstep).
  destruct (item_offset_inv BITS_PER_LONG long _ _ _ _ _ Hrange Hoi Hi' Hsz Hsum' Hoff')
    as (_ & Hpos' & Hstep').
  refine (item_set_then_get_other t buf item outer_index index val b off buf'
            item outer_index index' b off' Hfits Hval Hoff Hset Hfits Hoff' _).
  left. intros ->.
  assert (Hmul : step item * (index' - index) = 0) by lia.
  apply Z.mul_eq_0 in Hmul. lia.
Qed.

End FieldClaims.

(** ** Runs of bytes *)

Section Copies.

Variable BITS_PER_LONG : Z.
Hypothesis long : BITS_PER_LONG = 32 \/ BITS_PER_LONG = 64.

Lemma item_memcpy_to_inv buf src item index buf' :
  __mlxsw_item_memcpy_to BITS_PER_LONG buf src item index = Done buf' ->
  exists off bytes copied,
    __mlxsw_item_offset BITS_PER_LONG item 0 index 1 = Done off /\
    size item = in_bytes bytes /\
    bytes_at src 0 bytes = Done copied /\
    bytes_put buf off copied = Done buf'.
Proof.
  unfold __mlxsw_item_memcpy_to, size_bytes.
  destruct (__mlxsw_item_offset BITS_PER_LONG item 0 index 1) as [off| |];
    try discriminate.
  cbn [bind]. destruct (size item) as [|bytes]; try discriminate. cbn [bind].
  destruct (bytes_at src 0 bytes) as [copied| |] eqn:Hsrc; try discriminate. cbn [bind].
  intros Hput. exists off, bytes, copied. now repeat split.
Qed.

(** X19.  What [__mlxsw_item_memcpy_to] copied in,
    [__mlxsw_item_memcpy_from] copies out: after a call that returned, the
    bytes read back are the first [size.bytes] bytes of the source; the
    buffer has kept its length, and every byte outside the [size.bytes]
    bytes of the item is as it was. *)
Theorem item_memcpy_to_from buf src item index buf' :
  __mlxsw_item_memcpy_to BITS_PER_LONG buf src item index = Done buf' ->
  exists off bytes,
    __mlxsw_item_data BITS_PER_LONG item index = Done off /\
    size item = in_bytes bytes /\
    __mlxsw_item_memcpy_from BITS_PER_LONG buf' item index
    = Done (firstn (Z.to_nat bytes) src) /\
    List.length buf' = List.length buf /\
    (forall i, 0 <= i -> i < off \/ off + bytes <= i ->
               byte_at buf' i = byte_at buf i).
Proof.
  intros Hto.
  destruct (item_memcpy_to_inv _ _ _ _ _ Hto) as (off & bytes & copied & Hoff & Hsize & Hsrc & Hput).
  exists off, bytes. split; [exact Hoff|]. split; [exact Hsize|].
  apply bytes_at_inv in Hsrc as (_ & Hb & _ & Hcopied & Hlen).
  change (Z.to_nat 0) with 0%nat in Hcopied. cbn [skipn] in Hcopied.
  destruct (bytes_put_spec _ _ _ _ Hput) as (Hlength & Hread & Hout & _).
  rewrite Hlen, Z2Nat.id in Hread, Hout by lia.
  split; [|split; [exact Hlength | exact Hout]].
  unfold __mlxsw_item_memcpy_from, size_bytes. rewrite Hoff, Hsize. cbn [bind].
  now rewrite Hread, Hcopied.
Qed.

(** X20.  Copying back what was copied out changes nothing:
    [__mlxsw_item_memcpy_to] with the bytes [__mlxsw_item_memcpy_from]
    answered leaves the buffer as it was. *)
Theorem item_memcpy_from_to buf item index dst :
  __mlxsw_item_memcpy_from BITS_PER_LONG buf item index = Done dst ->
  __mlxsw_item_memcpy_to BITS_PER_LONG buf dst item index = Done buf.
Proof.
  unfold __mlxsw_item_memcpy_from, __mlxsw_item_memcpy_to, size_bytes.
  destruct (__mlxsw_item_offset BITS_PER_LONG item 0 index 1) as [off| |];
    try discriminate.
  cbn [bind]. destruct (size item) as [|bytes]; try discriminate. cbn [bind].
  intros Hfrom. apply bytes_at_inv in Hfrom as (Hoff & Hb & Hlen & Hdst & Hlength).
  rewrite bytes_at_done by lia.
  change (Z.to_nat 0) with 0%nat. cbn [skipn bind].
  rewrite firstn_all2 by lia.
  rewrite bytes_put_done by lia. f_equal. rewrite Hdst. apply splice_same. lia.
Qed.

End Copies.

(** ** Bit arrays *)

(** The offset and the shift of an element that is in the array. *)
Lemma bit_array_offset_done item index bytes :
  size item = in_bytes bytes ->
  In (element_size item) [1; 2; 4; 8] ->
  0 <= offset item -> (4 | offset item) ->
  0 <= index < bytes * (8 / element_size item) ->
  bytes * (8 / element_size item) <= 2 ^ 16 ->
  offset item + bytes <= 2 ^ 16 ->
  exists off shift',
    __mlxsw_item_bit_array_offset item index = Done (off, shift') /\
    offset item <= off < offset item + bytes /\
    0 <= shift' /\ shift' + element_size item <= 8 /\
    8 * (offset item + bytes - 1 - off) + shift' = index * element_size item.
Proof.
  intros Hsize Hes Ho Ho4 Hidx Hcount Hend.
  unfold __mlxsw_item_bit_array_offset, size_bytes. rewrite Hsize.
  rewrite (Z.mod0_divide _ _ Ho4). cbn [Z.eqb negb].
  assert (Hnz : (element_size item =? 0) = false)
    by (apply Z.eqb_neq; cbn in Hes; lia).
  rewrite Hnz, andb_false_r.
  assert (Hdiv : BITS_PER_BYTE mod element_size item = 0)
    by (cbn in Hes; destruct Hes as [<- | [<- | [<- | [<- | []]]]]; reflexivity).
  rewrite Hdiv. cbn [Z.eqb negb bind]. cbv zeta.
  eexists _, _. split; [reflexivity|].
  unfold wrap, BITS_PER_BYTE. rewrite Z.shiftl_mul_pow2, Z.shiftr_div_pow2 by lia.
  change (2 ^ 3) with 8. change (2 ^ 16) with 65536. change (2 ^ 8) with 256.
  change (2 ^ 16) with 65536 in Hcount, Hend.
  clear Hnz Hdiv. set (es := element_size item) in *. clearbody es.
  cbn in Hes. destruct Hes as [<- | [<- | [<- | [<- | []]]]];
    [ change (8 / 1) with 8 in * | change (8 / 2) with 4 in *
    | change (8 / 4) with 2 in * | change (8 / 8) with 1 in * ];
    Z.to_euclidean_division_equations; lia.
Qed.

Lemma bit_array_offset_bug_iff item index :
  __mlxsw_item_bit_array_offset item index = Bug <->
  (index <> 0 /\ element_size item = 0) \/
  ~ (4 | offset item) \/
  (element_size item <> 0 /\ ~ (element_size item | 8)).
Proof.
  unfold __mlxsw_item_bit_array_offset, size_bytes, BITS_PER_BYTE.
  rewrite <- (Z.mod_divide (offset item) 4) by lia.
  destruct (Z.eqb_spec index 0) as [Hi | Hi],
    (Z.eqb_spec (element_size item) 0) as [He | He],
    (Z.eqb_spec (offset item mod 4) 0) as [Ho | Ho];
    cbn [negb andb];
    try (split; [intros Hbug; try discriminate; tauto
                | intros Hwhy; try reflexivity; exfalso; tauto]).
  - rewrite <- (Z.mod_divide 8 (element_size item)) by exact He.
    destruct (Z.eqb_spec (8 mod element_size item) 0) as [Hd | Hd]; cbn [negb].
    + split; [|intros Hwhy; exfalso; tauto].
      destruct (size item); cbn [bind]; discriminate.
    + split; [intros _; tauto | reflexivity].
  - rewrite <- (Z.mod_divide 8 (element_size item)) by exact He.
    destruct (Z.eqb_spec (8 mod element_size item) 0) as [Hd | Hd]; cbn [negb].
    + split; [|intros Hwhy; exfalso; tauto].
      destruct (size item); cbn [bind]; discriminate.
    + split; [intros _; tauto | reflexivity].
Qed.

(** X21.  [__mlxsw_item_bit_array_offset] stops in [BUG()] exactly when
    the index is not 0 although the element size is 0, the offset of the
    item is not a multiple of 4, or the element size does not divide 8;
    with index 0 and element size 0 it divides by zero.  For an element
    that is in the array, the byte it answers is inside the [size.bytes]
    bytes of the item and the shift leaves room for the element in the
    byte; counted in bits from the end of the array, the element [index]
    starts at bit [index * element_size]. *)
Theorem bit_array_offset_cases item index bytes :
  size item = in_bytes bytes ->
  (__mlxsw_item_bit_array_offset item index = Bug <->
   (index <> 0 /\ element_size item = 0) \/
   ~ (4 | offset item) \/
   (element_size item <> 0 /\ ~ (element_size item | 8))) /\
  (index = 0 -> element_size item = 0 -> (4 | offset item) ->
   __mlxsw_item_bit_array_offset item index = Undefined) /\
  (In (element_size item) [1; 2; 4; 8] ->
   0 <= offset item -> (4 | offset item) ->
   0 <= index < bytes * (8 / element_size item) ->
   bytes * (8 / element_size item) <= 2 ^ 16 ->
   offset item + bytes <= 2 ^ 16 ->
   exists off shift',
     __mlxsw_item_bit_array_offset item index = Done (off, shift') /\
     offset item <= off < offset item + bytes /\
     0 <= shift' /\ shift' + element_size item <= 8 /\
     8 * (offset item + bytes - 1 - off) + shift' = index * element_size item).
Proof.
  intros Hsize. split; [apply bit_array_offset_bug_iff|]. split.
  - intros -> He Ho. unfold __mlxsw_item_bit_array_offset.
    rewrite He, (Z.mod0_divide _ _ Ho). reflexivity.
  - now apply bit_array_offset_done.
Qed.

Section BitArrays.

Variable BITS_PER_LONG : Z.
Hypothesis long : BITS_PER_LONG = 32 \/ BITS_PER_LONG = 64.

Lemma bit_array_get_eq buf item index off shift' :
  __mlxsw_item_bit_array_offset item index = Done (off, shift') ->
  0 <= shift' -> 0 < element_size item -> shift' + element_size item <= 8 ->
  __mlxsw_item_bit_array_get BITS_PER_LONG buf item index
  = (tmp <- load U8 buf off ;; Done (field shift' (element_size item) tmp)).
Proof.
  intros Hoff Hs Hes Hfit. unfold __mlxsw_item_bit_array_get.
  rewrite Hoff. cbn [bind]. destruct (load U8 buf off) as [tmp| |]; try reflexivity.
  cbn [bind]. rewrite shr_assign_done by (cbn; lia). cbn [bind].
  change (GEN_MASK BITS_PER_LONG (element_size item - 1) 0)
    with (mask_of BITS_PER_LONG U8 (element_size item - 1) 0).
  rewrite (mask_of_ones BITS_PER_LONG long) by (cbn; lia). cbn [bind]. f_equal.
  apply extracted; cbn; lia.
Qed.

Lemma bit_array_set_eq buf item index val off shift' :
  __mlxsw_item_bit_array_offset item index = Done (off, shift') ->
  0 <= shift' -> 0 < element_size item -> shift' + element_size item <= 8 ->
  0 <= val < 2 ^ 8 ->
  __mlxsw_item_bit_array_set BITS_PER_LONG buf item index val
  = (tmp <- load U8 buf off ;;
     store U8 buf off
       (cast U8
          (Z.lor (cast U8 (Z.land tmp
                             (Z.lnot (Z.shiftl (Z.ones (element_size item)) shift'))))
                 (cast U8 (Z.land (cast U8 (Z.shiftl val shift'))
                                  (Z.shiftl (Z.ones (element_size item)) shift')))))).
Proof.
  intros Hoff Hs Hes Hfit Hval. unfold __mlxsw_item_bit_array_set.
  rewrite Hoff. cbn [bind].
  change (GEN_MASK BITS_PER_LONG (element_size item - 1) 0)
    with (mask_of BITS_PER_LONG U8 (element_size item - 1) 0).
  rewrite (mask_of_ones BITS_PER_LONG long) by (cbn; lia). cbn [bind].
  destruct (field_mask BITS_PER_LONG long U8 shift' (element_size item) Hs Hes
              ltac:(cbn; lia)) as [Hshl Hcast].
  change (mask_width BITS_PER_LONG U8) with BITS_PER_LONG in Hshl.
  rewrite Hshl. cbn [bind]. cbv zeta. rewrite Hcast.
  rewrite shl_assign_done by (cbn; lia). cbn [bind]. reflexivity.
Qed.

(** X22.  Setting an element of a bit array and getting it back: for an
    element that is in the array, in a buffer that holds the array,
    [__mlxsw_item_bit_array_set] returns and keeps the length of the
    buffer, [__mlxsw_item_bit_array_get] then answers the value written,
    reduced to the element size, and every other element of the array is
    as it was. *)
Theorem bit_array_set_get buf item index val bytes :
  size item = in_bytes bytes ->
  In (element_size item) [1; 2; 4; 8] ->
  0 <= offset item -> (4 | offset item) ->
  0 <= index < bytes * (8 / element_size item) ->
  bytes * (8 / element_size item) <= 2 ^ 16 ->
  offset item + bytes <= 2 ^ 16 ->
  offset item + bytes <= Z.of_nat (List.length buf) ->
  0 <= val < 2 ^ 8 ->
  exists buf',
    __mlxsw_item_bit_array_set BITS_PER_LONG buf item index val = Done buf' /\
    List.length buf' = List.length buf /\
    __mlxsw_item_bit_array_get BITS_PER_LONG buf' item index
    = Done (val mod 2 ^ element_size item) /\
    (forall index',
       0 <= index' < bytes * (8 / element_size item) -> index' <> index ->
       __mlxsw_item_bit_array_get BITS_PER_LONG buf' item index'
       = __mlxsw_item_bit_array_get BITS_PER_LONG buf item index').
Proof.
  intros Hsize Hes Ho Ho4 Hidx Hcount Hend Hlen Hval.
  destruct (bit_array_offset_done item index bytes Hsize Hes Ho Ho4 Hidx Hcount Hend)
    as (off & sh & Hoff & Hin & Hs & Hfit & Hpos).
  assert (He : 0 < element_size item)
    by (cbn in Hes; destruct Hes as [<- | [<- | [<- | [<- | []]]]]; lia).
  rewrite (bit_array_set_eq buf item index val off sh Hoff Hs He Hfit Hval).
  assert (Hoff0 : 0 <= off) by lia.
  assert (Hword : sizeof U8 * off + sizeof U8 <= Z.of_nat (List.length buf))
    by (change (sizeof U8) with 1; lia).
  destruct (load_in_bounds U8 buf off Hoff0 Hword) as (word & Hat).
  pose proof (load_done _ _ _ _ Hat) as Hload. rewrite Hload. cbn [bind].
  destruct (store_done U8 buf off
              (cast U8
                 (Z.lor (cast U8 (Z.land (be_value word)
                                    (Z.lnot (Z.shiftl (Z.ones (element_size item)) sh))))
                        (cast U8 (Z.land (cast U8 (Z.shiftl val sh))
                                    (Z.shiftl (Z.ones (element_size item)) sh)))))
              Hoff0 Hword) as (buf' & Hstore).
  exists buf'. split; [exact Hstore|].
  destruct (store_spec _ _ _ _ _ Hstore) as (Hlength & Hload' & _).
  split; [exact Hlength|]. split.
  - rewrite (bit_array_get_eq buf' item index off sh Hoff Hs He Hfit).
    rewrite Hload'. cbn [bind]. f_equal.
    rewrite cast_small by apply cast_range.
    apply field_inserted; change (width U8) with 8; lia.
  - intros index' Hidx' Hne.
    destruct (bit_array_offset_done item index' bytes Hsize Hes Ho Ho4 Hidx' Hcount Hend)
      as (off' & sh' & Hoff' & Hin' & Hs' & Hfit' & Hpos').
    rewrite !(bit_array_get_eq _ item index' off' sh' Hoff' Hs' He Hfit').
    destruct (Z.eq_dec off' off) as [-> | Hother].
    + rewrite Hload', Hload. cbn [bind]. f_equal.
      rewrite cast_small by apply cast_range.
      apply field_inserted_apart; change (width U8) with 8; try lia.
      unfold apart. nia.
    + assert (Hoff0' : 0 <= off') by lia.
      now rewrite (store_load_other _ _ _ _ _ _ Hstore Hoff0 Hoff0' Hother).
Qed.

End BitArrays.

(** ** The theorems on concrete items *)

Ltac computed := repeat split; try reflexivity; try discriminate; try (cbn; lia).

(** X11 at the example of the header: [GEN_MASK_ULL(39, 21)] is
    0x000000ffffe00000. *)
Lemma GEN_MASK_contiguous_witness :
  0 <= 21 <= 39 /\
  (39 < 64 -> GEN_MASK 64 39 21 = Done (2 ^ (39 + 1) - 2 ^ 21)) /\
  (39 < 64 -> GEN_MASK_ULL 39 21 = Done 0xffffe00000) /\
  (forall i, 0 <= i -> Z.testbit (2 ^ (39 + 1) - 2 ^ 21) i = (21 <=? i) && (i <=? 39)) /\
  (forall h', h' < 0 \/ 64 <= h' -> GEN_MASK 64 h' 21 = Undefined) /\
  (forall h', h' < 0 \/ 64 <= h' -> GEN_MASK_ULL h' 21 = Undefined).
Proof.
  assert (H : 0 <= 21 <= 39) by lia.
  split; [exact H|]. exact (GEN_MASK_contiguous 64 39 21 H).
Defined.

(** X12 at the element 3 of [sample_indexed]. *)
Lemma item_offset_cases_witness :
  (64 = 32 \/ 64 = 64) /\
  in_range sample_indexed /\ 0 <= 0 < 2 ^ 16 /\ 0 <= 3 < 2 ^ 16 /\ 0 < 2 /\
  offset sample_indexed + 0 * 2 + step sample_indexed * 3
  + in_step_offset sample_indexed < 2 ^ 32 /\
  (__mlxsw_item_offset 64 sample_indexed 0 3 2 = Bug <->
   (3 <> 0 /\ step sample_indexed = 0) \/
   ~ (2 | offset sample_indexed) \/ ~ (2 | step sample_indexed) \/
   ~ (2 | in_step_offset sample_indexed)) /\
  (__mlxsw_item_offset 64 sample_indexed 0 3 2 <> Bug ->
   exists off,
     __mlxsw_item_offset 64 sample_indexed 0 3 2 = Done off /\
     0 <= off /\
     2 * off
     = offset sample_indexed + 0 * 2 + step sample_indexed * 3
       + in_step_offset sample_indexed).
Proof.
  assert (H0 : 64 = 32 \/ 64 = 64) by (right; reflexivity).
  assert (H1 : in_range sample_indexed) by computed.
  assert (H2 : 0 <= 0 < 2 ^ 16) by computed.
  assert (H3 : 0 <= 3 < 2 ^ 16) by computed.
  assert (H4 : 0 < 2) by lia.
  assert (H5 : offset sample_indexed + 0 * 2 + step sample_indexed * 3
               + in_step_offset sample_indexed < 2 ^ 32) by computed.
  split; [exact H0|]. split; [exact H1|]. split; [exact H2|]. split; [exact H3|].
  split; [exact H4|]. split; [exact H5|].
  exact (item_offset_cases 64 H0 sample_indexed 0 3 2 H1 H2 H3 H4 H5).
Defined.

(** X13 at [sample_item], written with 0xfff. *)
Lemma item_set_get_witness :
  (64 = 32 \/ 64 = 64) /\
  fits U32 sample_item 12 /\ 0 <= 0xfff < 2 ^ width U32 /\
  __mlxsw_item_offset 64 sample_item 0 0 (sizeof U32) = Done 1 /\
  sizeof U32 * 1 + sizeof U32 <= Z.of_nat (List.length sample_buf) /\
  exists buf',
    __mlxsw_item_set32 64 sample_buf sample_item 0 0 0xfff = Done buf' /\
    __mlxsw_item_get32 64 buf' sample_item 0 0 = Done (0xfff mod 2 ^ 12).
Proof.
  assert (H0 : 64 = 32 \/ 64 = 64) by (right; reflexivity).
  assert (H1 : fits U32 sample_item 12) by computed.
  assert (H2 : 0 <= 0xfff < 2 ^ width U32) by computed.
  assert (H3 : __mlxsw_item_offset 64 sample_item 0 0 (sizeof U32) = Done 1)
    by reflexivity.
  assert (H4 : sizeof U32 * 1 + sizeof U32 <= Z.of_nat (List.length sample_buf))
    by computed.
  split; [exact H0|]. split; [exact H1|]. split; [exact H2|]. split; [exact H3|].
  split; [exact H4|].
  exact (item_set_get 64 H0 U32 sample_buf sample_item 0 0 0xfff 12 1 H1 H2 H3 H4).
Defined.

(** X14 at [sample_item] and the field above it in the same word. *)
Lemma item_set_keeps_other_fields_witness :
  (64 = 32 \/ 64 = 64) /\
  fits U32 sample_item 12 /\ 0 <= 0xfff < 2 ^ width U32 /\
  __mlxsw_item_offset 64 sample_item 0 0 (sizeof U32) = Done 1 /\
  __mlxsw_item_set32 64 sample_buf sample_item 0 0 0xfff = Done sample_written /\
  fits U32 sample_neighbour 12 /\
  __mlxsw_item_offset 64 sample_neighbour 0 0 (sizeof U32) = Done 1 /\
  (1 <> 1 \/ apart (shift sample_item) 12 (shift sample_neighbour) 12) /\
  __mlxsw_item_get32 64 sample_written sample_neighbour 0 0
  = __mlxsw_item_get32 64 sample_buf sample_neighbour 0 0.
Proof.
  assert (H0 : 64 = 32 \/ 64 = 64) by (right; reflexivity).
  assert (H1 : fits U32 sample_item 12) by computed.
  assert (H2 : 0 <= 0xfff < 2 ^ width U32) by computed.
  assert (H3 : __mlxsw_item_offset 64 sample_item 0 0 (sizeof U32) = Done 1)
    by reflexivity.
  assert (H4 : __mlxsw_item_set 64 U32 sample_buf sample_item 0 0 0xfff
               = Done sample_written) by (vm_compute; reflexivity).
  assert (H5 : fits U32 sample_neighbour 12) by computed.
  assert (H6 : __mlxsw_item_offset 64 sample_neighbour 0 0 (sizeof U32) = Done 1)
    by reflexivity.
  assert (H7 : 1 <> 1 \/ apart (shift sample_item) 12 (shift sample_neighbour) 12)
    by (right; left; cbn; lia).
  split; [exact H0|]. split; [exact H1|]. split; [exact H2|]. split; [exact H3|].
  split; [exact H4|]. split; [exact H5|]. split; [exact H6|]. split; [exact H7|].
  exact (item_set_keeps_other_fields 64 H0 U32 sample_buf sample_item 0 0 0xfff 12 1
           sample_written sample_neighbour 0 0 12 1 H1 H2 H3 H4 H5 H6 H7).
Defined.

(** X15 at [sample_narrow], written with 2. *)
Lemma item_set_frame_witness :
  (64 = 32 \/ 64 = 64) /\
  fits U8 sample_narrow 3 /\ 0 <= 2 < 2 ^ width U8 /\
  __mlxsw_item_offset 64 sample_narrow 0 0 (sizeof U8) = Done 1 /\
  __mlxsw_item_set8 64 sample_buf sample_narrow 0 0 2 = Done sample_written8 /\
  List.length sample_written8 = List.length sample_buf /\
  (forall i, 0 <= i -> i < sizeof U8 * 1 \/ sizeof U8 * 1 + sizeof U8 <= i ->
             byte_at sample_written8 i = byte_at sample_buf i) /\
  (is_bytes sample_buf -> is_bytes sample_written8).
Proof.
  assert (H0 : 64 = 32 \/ 64 = 64) by (right; reflexivity).
  assert (H1 : fits U8 sample_narrow 3) by computed.
  assert (H2 : 0 <= 2 < 2 ^ width U8) by computed.
  assert (H3 : __mlxsw_item_offset 64 sample_narrow 0 0 (sizeof U8) = Done 1)
    by reflexivity.
  assert (H4 : __mlxsw_item_set8 64 sample_buf sample_narrow 0 0 2
               = Done sample_written8) by (vm_compute; reflexivity).
  split; [exact H0|]. split; [exact H1|]. split; [exact H2|]. split; [exact H3|].
  split; [exact H4|].
  exact (item_set_frame 64 H0 U8 sample_buf sample_narrow 0 0 2 3 1 sample_written8
           H1 H2 H3 H4).
Defined.

(** X16 at [sample_item], which holds 0xcde. *)
Lemma item_get_set_witness :
  (64 = 32 \/ 64 = 64) /\
  is_bytes sample_buf /\ fits U32 sample_item 12 /\
  __mlxsw_item_offset 64 sample_item 0 0 (sizeof U32) = Done 1 /\
  __mlxsw_item_get32 64 sample_buf sample_item 0 0 = Done 0xcde /\
  __mlxsw_item_set32 64 sample_buf sample_item 0 0 0xcde = Done sample_buf.
Proof.
  assert (H0 : 64 = 32 \/ 64 = 64) by (right; reflexivity).
  assert (H1 : is_bytes sample_buf) by (repeat constructor; lia).
  assert (H2 : fits U32 sample_item 12) by computed.
  assert (H3 : __mlxsw_item_offset 64 sample_item 0 0 (sizeof U32) = Done 1)
    by reflexivity.
  assert (H4 : __mlxsw_item_get 64 U32 sample_buf sample_item 0 0 = Done 0xcde)
    by (vm_compute; reflexivity).
  split; [exact H0|]. split; [exact H1|]. split; [exact H2|]. split; [exact H3|].
  split; [exact H4|].
  exact (item_get_set 64 H0 U32 sample_buf sample_item 0 0 12 1 0xcde H1 H2 H3 H4).
Defined.

(** X17 at [sample_wide]. *)
Lemma item_get_decodes_witness :
  (64 = 32 \/ 64 = 64) /\
  fits U64 sample_wide 60 /\
  __mlxsw_item_offset 64 sample_wide 0 0 (sizeof U64) = Done 0 /\
  (sizeof U64 * 0 + sizeof U64 <= Z.of_nat (List.length sample_buf) ->
   exists bytes,
     bytes_at sample_buf (sizeof U64 * 0) (sizeof U64) = Done bytes /\
     __mlxsw_item_get64 64 sample_buf sample_wide 0 0
     = Done (Z.shiftr (be_value bytes) (shift sample_wide) mod 2 ^ 60) /\
     0 <= Z.shiftr (be_value bytes) (shift sample_wide) mod 2 ^ 60 < 2 ^ 60) /\
  (Z.of_nat (List.length sample_buf) < sizeof U64 * 0 + sizeof U64 ->
   __mlxsw_item_get64 64 sample_buf sample_wide 0 0 = Undefined).
Proof.
  assert (H0 : 64 = 32 \/ 64 = 64) by (right; reflexivity).
  assert (H1 : fits U64 sample_wide 60) by computed.
  assert (H2 : __mlxsw_item_offset 64 sample_wide 0 0 (sizeof U64) = Done 0)
    by reflexivity.
  split; [exact H0|]. split; [exact H1|]. split; [exact H2|].
  exact (item_get_decodes 64 H0 U64 sample_buf sample_wide 0 0 60 0 H1 H2).
Defined.

(** X18 at the elements 1 and 3 of [sample_indexed]. *)
Lemma item_set_keeps_other_elements_witness :
  (64 = 32 \/ 64 = 64) /\
  in_range sample_indexed /\ fits U16 sample_indexed 8 /\
  0 <= 0xff < 2 ^ width U16 /\
  0 <= 0 < 2 ^ 16 /\ 0 <= 1 < 2 ^ 16 /\ 0 <= 3 < 2 ^ 16 /\
  offset sample_indexed + 0 * sizeof U16 + step sample_indexed * 1
  + in_step_offset sample_indexed < 2 ^ 32 /\
  offset sample_indexed + 0 * sizeof U16 + step sample_indexed * 3
  + in_step_offset sample_indexed < 2 ^ 32 /\
  3 <> 1 /\
  __mlxsw_item_set16 64 sample_buf sample_indexed 0 1 0xff = Done sample_written16 /\
  __mlxsw_item_get16 64 sample_written16 sample_indexed 0 3
  = __mlxsw_item_get16 64 sample_buf sample_indexed 0 3.
Proof.
  assert (H0 : 64 = 32 \/ 64 = 64) by (right; reflexivity).
  assert (H1 : in_range sample_indexed) by computed.
  assert (H2 : fits U16 sample_indexed 8) by computed.
  assert (H3 : 0 <= 0xff < 2 ^ width U16) by computed.
  assert (H4 : 0 <= 0 < 2 ^ 16) by computed.
  assert (H5 : 0 <= 1 < 2 ^ 16) by computed.
  assert (H6 : 0 <= 3 < 2 ^ 16) by computed.
  assert (H7 : offset sample_indexed + 0 * sizeof U16 + step sample_indexed * 1
               + in_step_offset sample_indexed < 2 ^ 32) by computed.
  assert (H8 : offset sample_indexed + 0 * sizeof U16 + step sample_indexed * 3
               + in_step_offset sample_indexed < 2 ^ 32) by computed.
  assert (H9 : 3 <> 1) by discriminate.
  assert (H10 : __mlxsw_item_set 64 U16 sample_buf sample_indexed 0 1 0xff
                = Done sample_written16) by (vm_compute; reflexivity).
  split; [exact H0|]. split; [exact H1|]. split; [exact H2|]. split; [exact H3|].
  split; [exact H4|]. split; [exact H5|]. split; [exact H6|]. split; [exact H7|].
  split; [exact H8|]. split; [exact H9|]. split; [exact H10|].
  exact (item_set_keeps_other_elements 64 H0 U16 sample_buf sample_indexed 0 1 3 0xff 8
           sample_written16 H1 H2 H3 H4 H5 H6 H7 H8 H9 H10).
Defined.

(** X19 at [sample_run], to which the bytes 1, 2 and 3 are copied. *)
Lemma item_memcpy_to_from_witness :
  __mlxsw_item_memcpy_to 64 sample_buf [1; 2; 3] sample_run 0 = Done sample_copied /\
  exists off bytes,
    __mlxsw_item_data 64 sample_run 0 = Done off /\
    size sample_run = in_bytes bytes /\
    __mlxsw_item_memcpy_from 64 sample_copied sample_run 0
    = Done (firstn (Z.to_nat bytes) [1; 2; 3]) /\
    List.length sample_copied = List.length sample_buf /\
    (forall i, 0 <= i -> i < off \/ off + bytes <= i ->
               byte_at sample_copied i = byte_at sample_buf i).
Proof.
  assert (H : __mlxsw_item_memcpy_to 64 sample_buf [1; 2; 3] sample_run 0
              = Done sample_copied) by (vm_compute; reflexivity).
  split; [exact H|].
  exact (item_memcpy_to_from 64 sample_buf [1; 2; 3] sample_run 0 sample_copied H).
Defined.

(** X20 at the run 1 of [sample_runs], which holds the bytes 0xbc and
    0xde. *)
Lemma item_memcpy_from_to_witness :
  __mlxsw_item_memcpy_from 64 sample_buf sample_runs 1 = Done [0xbc; 0xde] /\
  __mlxsw_item_memcpy_to 64 sample_buf [0xbc; 0xde] sample_runs 1 = Done sample_buf.
Proof.
  assert (H : __mlxsw_item_memcpy_from 64 sample_buf sample_runs 1
              = Done [0xbc; 0xde]) by (vm_compute; reflexivity).
  split; [exact H|].
  exact (item_memcpy_from_to 64 sample_buf sample_runs 1 [0xbc; 0xde] H).
Defined.

(** X21 at the element 5 of [sample_array]. *)
Lemma bit_array_offset_cases_witness :
  size sample_array = in_bytes 4 /\
  (__mlxsw_item_bit_array_offset sample_array 5 = Bug <->
   (5 <> 0 /\ element_size sample_array = 0) \/
   ~ (4 | offset sample_array) \/
   (element_size sample_array <> 0 /\ ~ (element_size sample_array | 8))) /\
  (5 = 0 -> element_size sample_array = 0 -> (4 | offset sample_array) ->
   __mlxsw_item_bit_array_offset sample_array 5 = Undefined) /\
  (In (element_size sample_array) [1; 2; 4; 8] ->
   0 <= offset sample_array -> (4 | offset sample_array) ->
   0 <= 5 < 4 * (8 / element_size sample_array) ->
   4 * (8 / element_size sample_array) <= 2 ^ 16 ->
   offset sample_array + 4 <= 2 ^ 16 ->
   exists off shift',
     __mlxsw_item_bit_array_offset sample_array 5 = Done (off, shift') /\
     offset sample_array <= off < offset sample_array + 4 /\
     0 <= shift' /\ shift' + element_size sample_array <= 8 /\
     8 * (offset sample_array + 4 - 1 - off) + shift'
     = 5 * element_size sample_array).
Proof.
  assert (H : size sample_array = in_bytes 4) by reflexivity.
  split; [exact H|].
  exact (bit_array_offset_cases sample_array 5 4 H).
Defined.

(** X22 at the element 5 of [sample_array], written with 3. *)
Lemma bit_array_set_get_witness :
  (64 = 32 \/ 64 = 64) /\
  size sample_array = in_bytes 4 /\
  In (element_size sample_array) [1; 2; 4; 8] /\
  0 <= offset sample_array /\ (4 | offset sample_array) /\
  0 <= 5 < 4 * (8 / element_size sample_array) /\
  4 * (8 / element_size sample_array) <= 2 ^ 16 /\
  offset sample_array + 4 <= 2 ^ 16 /\
  offset sample_array + 4 <= Z.of_nat (List.length sample_buf) /\
  0 <= 3 < 2 ^ 8 /\
  exists buf',
    __mlxsw_item_bit_array_set 64 sample_buf sample_array 5 3 = Done buf' /\
    List.length buf' = List.length sample_buf /\
    __mlxsw_item_bit_array_get 64 buf' sample_array 5
    = Done (3 mod 2 ^ element_size sample_array) /\
    (forall index',
       0 <= index' < 4 * (8 / element_size sample_array) -> index' <> 5 ->
       __mlxsw_item_bit_array_get 64 buf' sample_array index'
       = __mlxsw_item_bit_array_get 64 sample_buf sample_array index').
Proof.
  assert (H0 : 64 = 32 \/ 64 = 64) by (right; reflexivity).
  assert (H1 : size sample_array = in_bytes 4) by reflexivity.
  assert (H2 : In (element_size sample_array) [1; 2; 4; 8]) by (right; left; reflexivity).
  assert (H3 : 0 <= offset sample_array) by computed.
  assert (H4 : (4 | offset sample_array)) by (exists 1; reflexivity).
  assert (H5 : 0 <= 5 < 4 * (8 / element_size sample_array)) by computed.
  assert (H6 : 4 * (8 / element_size sample_array) <= 2 ^ 16) by computed.
  assert (H7 : offset sample_array + 4 <= 2 ^ 16) by computed.
  assert (H8 : offset sample_array + 4 <= Z.of_nat (List.length sample_buf)) by computed.
  assert (H9 : 0 <= 3 < 2 ^ 8) by computed.
  split; [exact H0|]. split; [exact H1|]. split; [exact H2|]. split; [exact H3|].
  split; [exact H4|]. split; [exact H5|]. split; [exact H6|]. split; [exact H7|].
  split; [exact H8|]. split; [exact H9|].
  exact (bit_array_set_get 64 H0 sample_buf sample_array 5 3 4
           H1 H2 H3 H4 H5 H6 H7 H8 H9).
Defined.

(** ** The accessors the macros define *)

Section Macros.

Variable BITS_PER_LONG : Z.
Hypothesis long : BITS_PER_LONG = 32 \/ BITS_PER_LONG = 64.

Lemma macro_item_offset t _offset _shift _sizebits :
  0 <= _offset < 2 ^ 16 ->
  (~ (sizeof t | _offset) ->
   __mlxsw_item_offset BITS_PER_LONG (MLXSW_ITEM _offset _shift _sizebits) 0 0 (sizeof t)
   = Bug) /\
  ((sizeof t | _offset) ->
   exists off,
     __mlxsw_item_offset BITS_PER_LONG (MLXSW_ITEM _offset _shift _sizebits) 0 0
       (sizeof t) = Done off /\
     0 <= off /\ sizeof t * off = _offset).
Proof.
  intros Ho. pose proof (sizeof_pos t) as Hsz. split.
  - intros Hnd. apply (item_offset_bug_iff BITS_PER_LONG long); [exact Hsz|].
    right. now left.
  - intros Hd. unfold __mlxsw_item_offset. cbn [offset step in_step_offset MLXSW_ITEM].
    rewrite (Z.mod0_divide _ _ Hd), Z.mod_0_l by lia.
    cbn [Z.eqb negb andb orb].
    rewrite Z.mul_0_l, Z.mul_0_r, !Z.add_0_r.
    assert (Hlong : 2 ^ 16 <= 2 ^ BITS_PER_LONG) by (destruct long as [-> | ->]; cbn; lia).
    rewrite (wrap_small BITS_PER_LONG) by lia.
    destruct Hd as [q Hq]. rewrite Hq, Z.div_mul by lia.
    exists q. rewrite wrap_small by (change (2 ^ 32) with (2 ^ 16 * 2 ^ 16); nia).
    split; [reflexivity|]. split; [nia | lia].
Qed.

(** X24.  The pair of accessors [MLXSW_ITEM8] to [MLXSW_ITEM64] define at
    an offset that is not a multiple of the size of the type stops in
    [BUG()] on every call.  At an offset that is, for a field that fits
    the word and a buffer that holds it, the setter returns, the getter
    then answers the value written, reduced to the size of the field, and
    the setter has changed no byte outside the [sizeof t] bytes at the
    offset. *)
Theorem macro_accessors t _offset _shift _sizebits buf val :
  0 <= _offset < 2 ^ 16 ->
  0 <= _shift -> 0 < _sizebits -> _shift + _sizebits <= width t ->
  0 <= val < 2 ^ width t ->
  (~ (sizeof t | _offset) ->
   mlxsw_item_get BITS_PER_LONG t _offset _shift _sizebits buf = Bug /\
   mlxsw_item_set BITS_PER_LONG t _offset _shift _sizebits buf val = Bug) /\
  ((sizeof t | _offset) ->
   _offset + sizeof t <= Z.of_nat (List.length buf) ->
   exists buf',
     mlxsw_item_set BITS_PER_LONG t _offset _shift _sizebits buf val = Done buf' /\
     mlxsw_item_get BITS_PER_LONG t _offset _shift _sizebits buf'
     = Done (val mod 2 ^ _sizebits) /\
     List.length buf' = List.length buf /\
     (forall i, 0 <= i -> i < _offset \/ _offset + sizeof t <= i ->
                byte_at buf' i = byte_at buf i)).
Proof.
  intros Ho Hs Hb Hfit Hval.
  destruct (macro_item_offset t _offset _shift _sizebits Ho) as [Hbug Hdone].
  unfold mlxsw_item_get, mlxsw_item_set. split.
  - intros Hnd. unfold __mlxsw_item_get, __mlxsw_item_set.
    rewrite (Hbug Hnd). now split.
  - intros Hd Hlen. destruct (Hdone Hd) as (off & Hoff & Hoff0 & Hpos).
    assert (Hfits : fits t (MLXSW_ITEM _offset _shift _sizebits) _sizebits)
      by (now repeat split).
    assert (Hword : sizeof t * off + sizeof t <= Z.of_nat (List.length buf)) by lia.
    destruct (item_set_done BITS_PER_LONG long t buf _ 0 0 val _sizebits off
                Hfits Hval Hoff Hword) as (tmp & buf' & Hload & Hset & Hstore).
    exists buf'. split; [exact Hset|].
    destruct (store_spec _ _ _ _ _ Hstore) as (Hlength & Hload' & Hout & _).
    split; [|split; [exact Hlength|]].
    + rewrite (item_get_eq BITS_PER_LONG long t buf' _ 0 0 _sizebits off Hfits Hoff).
      rewrite Hload'. cbn [bind]. f_equal.
      rewrite cast_small by apply cast_range. now apply field_inserted.
    + intros i Hi Hout'. apply Hout; lia.
Qed.

End Macros.

(** X24 at the accessors of a 32-bit item at offset 4. *)
Lemma macro_accessors_witness :
  (64 = 32 \/ 64 = 64) /\
  0 <= 4 < 2 ^ 16 /\ 0 <= 8 /\ 0 < 12 /\ 8 + 12 <= width U32 /\
  0 <= 0xfff < 2 ^ width U32 /\
  (~ (sizeof U32 | 4) ->
   mlxsw_item_get 64 U32 4 8 12 sample_buf = Bug /\
   mlxsw_item_set 64 U32 4 8 12 sample_buf 0xfff = Bug) /\
  ((sizeof U32 | 4) ->
   4 + sizeof U32 <= Z.of_nat (List.length sample_buf) ->
   exists buf',
     mlxsw_item_set 64 U32 4 8 12 sample_buf 0xfff = Done buf' /\
     mlxsw_item_get 64 U32 4 8 12 buf' = Done (0xfff mod 2 ^ 12) /\
     List.length buf' = List.length sample_buf /\
     (forall i, 0 <= i -> i < 4 \/ 4 + sizeof U32 <= i ->
                byte_at buf' i = byte_at sample_buf i)).
Proof.
  assert (H0 : 64 = 32 \/ 64 = 64) by (right; reflexivity).
  assert (H1 : 0 <= 4 < 2 ^ 16) by computed.
  assert (H2 : 0 <= 8) by lia.
  assert (H3 : 0 < 12) by lia.
  assert (H4 : 8 + 12 <= width U32) by computed.
  assert (H5 : 0 <= 0xfff < 2 ^ width U32) by computed.
  split; [exact H0|]. split; [exact H1|]. split; [exact H2|]. split; [exact H3|].
  split; [exact H4|]. split; [exact H5|].
  exact (macro_accessors 64 H0 U32 4 8 12 sample_buf 0xfff H1 H2 H3 H4 H5).
Defined.

End ItemFacts.
